(** * Wagering mini-games of the chat backend: dice and low-card services

    Shallow embedding of [src/services/dicebotService.js] and
    [src/services/lowcardService.js].

    Conventions of the embedding.
    - Credits, pots and entry amounts are JavaScript numbers holding
      integers, that is binary64 floating-point numbers; an amount is
      modelled by its value in [Z], and the arithmetic the services do on
      a pot in JavaScript (the sum that grows it, the fee, the winnings)
      is the binary64 arithmetic of module [Binary64].  Balances are kept
      by SQL, whose arithmetic is exact, and are passed around as SQL
      returns them.  Round numbers and dice stay far below 2^53, where
      binary64 is exact on integers.  Identifiers (room and user ids) are
      [Z] as well, and the loose comparison [p.userId == userId] is
      equality on them.
    - Redis and the SQL [users] table are explicit stores that every
      service function receives and returns (state passing).  The timer by
      which [finalizeGame] of the dice service deletes a finished session
      sixty seconds later is recorded in the store and runs as a step of
      its own ([Dice.runCleanup]).  The expiry of idle keys ([EX 3600],
      the five second lock, the cached balances) is real-time behaviour
      and is not modelled.
    - [Date.now()] is the argument [now]; [Math.random()] is replaced by
      the dice (or the shuffled deck) given as an argument.
    - I/O exceptions (the [catch] branches) are not modelled. *)

From Stdlib Require Import ZArith List Bool String Lia SpecFloat.
From stdpp Require Import base option list gmap.
Import ListNotations.

Set Warnings "-clear-no-such-hyp".

Local Open Scope Z_scope.

(** ** JavaScript numbers

    A JavaScript number is an IEEE 754 binary64 number: 53 significant
    bits, and every operation returns the representable number nearest to
    the exact result, the one with an even last bit when two are equally
    near.  The amounts of the services are far from the subnormal and the
    overflow range, which are left out.  A finite binary64 number is
    written [(m, e)] for [m * 2^e]. *)

Module Binary64.

(** [n / (d * 2^e)] as a fraction of integers. *)
Definition scaleNum (n e : Z) : Z := if 0 <=? e then n else n * 2 ^ (- e).
Definition scaleDen (d e : Z) : Z := if 0 <=? e then d * 2 ^ e else d.

(** The exponent [e] of the last bit of a positive [n / d]:
    [2^52 <= n / (d * 2^e) < 2^53]. *)
Definition binExp (n d : Z) : Z :=
  let e0 := Z.log2 n - Z.log2 d - 52 in
  if scaleNum n (e0 + 52) <? scaleDen d (e0 + 52) then e0 - 1 else e0.

(** Round to nearest, ties to even, of [n / d] for [0 <= n] and [0 < d]. *)
Definition roundNE (n d : Z) : Z * Z :=
  if n =? 0 then (0, 0)
  else
    let e := binExp n d in
    let N := scaleNum n e in
    let D := scaleDen d e in
    let q := N / D in
    let r := N mod D in
    let up := (D <? 2 * r) || ((D =? 2 * r) && Z.odd q) in
    (if up then q + 1 else q, e).

(** The binary64 number nearest to [n / d], for [0 < d]. *)
Definition round64 (n d : Z) : Z * Z :=
  let '(m, e) := roundNE (Z.abs n) d in (Z.sgn n * m, e).

(** [Math.floor]; on a number that is an integer, its value. *)
Definition floorOf (x : Z * Z) : Z :=
  let '(m, e) := x in if 0 <=? e then m * 2 ^ e else m / 2 ^ (- e).

(** The number nearest to the integer [n]: what an operation returns
    whose exact result is [n]. *)
Definition ofInt (n : Z) : Z := floorOf (round64 n 1).

(** [x + y], [x - y] and [x * y] on numbers holding integers. *)
Definition add (x y : Z) : Z := ofInt (x + y).
Definition sub (x y : Z) : Z := ofInt (x - y).
Definition mul (x y : Z) : Z := ofInt (x * y).

(** [Math.floor(x / y)] for [0 < y]. *)
Definition floorDiv (x y : Z) : Z := floorOf (round64 x y).

(** [Math.floor(x * c)] for the number [c = m * 2^(-k)]. *)
Definition floorMulDyadic (x m k : Z) : Z := floorOf (round64 (x * m) (2 ^ k)).

(** The literal [0.05] denotes the binary64 number nearest to one
    twentieth, [3602879701896397 * 2^(-56)]. *)
Definition fiveHundredths_m : Z := 3602879701896397.
Definition fiveHundredths_k : Z := 56.

End Binary64.

(** The same numbers in the Standard Library's specification of IEEE 754
    arithmetic, binary64 being precision 53 with exponents up to 1024:
    an integer as a number, and the number nearest to one twentieth. *)
Definition specOfInt (n : Z) : spec_float := binary_normalize 53 1024 n 0 false.
Definition specFiveHundredths : spec_float :=
  SFdiv 53 1024 (specOfInt 1) (specOfInt 20).

(** [Math.floor] of a finite number of that specification. *)
Definition specFloor (x : spec_float) : Z :=
  match x with
  | S754_finite s m e => Binary64.floorOf ((if s then -1 else 1) * Z.pos m, e)
  | _ => 0
  end.

Arguments Binary64.ofInt : simpl never.
Arguments Binary64.add : simpl never.
Arguments Binary64.sub : simpl never.
Arguments Binary64.mul : simpl never.
Arguments Binary64.floorDiv : simpl never.
Arguments Binary64.floorMulDyadic : simpl never.

(** ** Shared ledger code

    Both services carry a textually identical copy of [getUserCredits],
    [logGameTransaction], [deductCredits] and [addCredits]; the copies
    differ in the game tag handed to the merchant-tag service and in the
    logger labels only. *)

Inductive GameType := DICE | LOWCARD.

Inductive TxType := game_bet | game_refund | game_win.

(** The [reason] strings the two services pass to the ledger. *)
Inductive Reason :=
| BetStart | BetJoin
| RefundBotRemoved | RefundNotEnoughPlayers | RefundCancelled | RefundStopped
| Win.

(** [reason.includes('Refund')] *)
Definition includesRefund (r : Reason) : bool :=
  match r with
  | RefundBotRemoved | RefundNotEnoughPlayers | RefundCancelled | RefundStopped => true
  | _ => false
  end.

(** The description column of a bet row. *)
Inductive Desc :=
| DescPlain (r : Reason)
| DescTaggedOnly (r : Reason)
| DescSplit (r : Reason) (usedTagged regular : Z).

Record LogRow := mkLogRow {
  log_userId : Z;
  log_username : string;
  log_amount : Z;
  log_type : TxType;
  log_desc : Desc
}.

(** Result object of [merchantTagService.consumeForGame]. *)
Record ConsumeResult := mkConsumeResult {
  cr_success : bool;
  cr_usedTaggedCredits : option Z;
  cr_remainingAmount : Z
}.

(** [merchantTagService] is required by both services but is not part of
    the sources at hand: the ledger code is written against its interface.
    [TagStore] is whatever state the service keeps. *)
Class MerchantTag := {
  TagStore : Type;
  getTaggedBalance : Z -> TagStore -> Z;
  consumeForGame : Z -> GameType -> Z -> TagStore -> ConsumeResult * TagStore;
  trackTaggedUserSpending : Z -> GameType -> Z -> TagStore -> TagStore
}.

(** Modelled from the spec: [merchantTagService.getTaggedBalance] and
    [merchantTagService.consumeForGame] are missing from the sources.  The
    spec describes them as a pre-deduction stage that consumes from a
    separate tagged sub-balance, usable only for wagering, before the main
    balance is touched: the stage takes as much of the amount as the tagged
    balance covers and reports the split.  The spec says nothing of
    [trackTaggedUserSpending] (a commission tracker), which is taken to
    leave the tagged balances alone. *)
Definition specMerchantTag : MerchantTag := {|
  TagStore := gmap Z Z;
  getTaggedBalance := fun userId t => default 0 (t !! userId);
  consumeForGame := fun userId _ amount t =>
    let bal := default 0 (t !! userId) in
    let used := Z.min bal amount in
    (mkConsumeResult true (Some used) (amount - used), <[userId := bal - used]> t);
  trackTaggedUserSpending := fun _ _ _ t => t
|}.

Section LedgerCode.
Context {MT : MerchantTag}.

(** The stores the ledger code works on. *)
Record Bank := mkBank {
  users : gmap Z Z;          (* users.credits by user id *)
  cache : gmap Z Z;          (* redis credits:<userId> *)
  tagged : TagStore;         (* state of the merchant-tag service *)
  credit_logs : list LogRow  (* rows appended to credit_logs, oldest first *)
}.

Definition setUsers (u : gmap Z Z) (b : Bank) : Bank :=
  mkBank u (cache b) (tagged b) (credit_logs b).
Definition setCache (c : gmap Z Z) (b : Bank) : Bank :=
  mkBank (users b) c (tagged b) (credit_logs b).
Definition setTagged (t : TagStore) (b : Bank) : Bank :=
  mkBank (users b) (cache b) t (credit_logs b).

(** A username is logged only when it is truthy. *)
Definition truthy (s : string) : bool :=
  match s with EmptyString => false | _ => true end.

Definition getUserCredits (userId : Z) (b : Bank) : Z * Bank :=
  match cache b !! userId with
  | Some cached => (cached, b)
  | None =>
      let balance := default 0 (users b !! userId) in
      (balance, setCache (<[userId := balance]> (cache b)) b)
  end.

Definition logGameTransaction (userId : Z) (username : string) (amount : Z)
    (ty : TxType) (d : Desc) (b : Bank) : Bank :=
  mkBank (users b) (cache b) (tagged b)
         (credit_logs b ++ [mkLogRow userId username amount ty d]).

Record DeductResult := mkDeductResult {
  dr_success : bool;
  dr_balance : Z;
  dr_usedTaggedCredits : option Z
}.

Definition deductCredits (gt : GameType) (userId amount : Z) (username : string)
    (reason : Reason) (b : Bank) : DeductResult * Bank :=
  let taggedBalance := getTaggedBalance userId (tagged b) in
  let '(usedTaggedCredits, remainingAmount, b1) :=
    if 0 <? taggedBalance then
      let '(consumeResult, t') := consumeForGame userId gt amount (tagged b) in
      if cr_success consumeResult then
        (default 0 (cr_usedTaggedCredits consumeResult),
         cr_remainingAmount consumeResult, setTagged t' b)
      else (0, amount, setTagged t' b)
    else (0, amount, b) in
  if remainingAmount <=? 0 then
    let '(current, b2) := getUserCredits userId b1 in
    let b3 := if truthy username
              then logGameTransaction userId username (- amount) game_bet
                     (DescTaggedOnly reason) b2
              else b2 in
    (mkDeductResult true current (Some usedTaggedCredits), b3)
  else
    let '(current, b2) := getUserCredits userId b1 in
    if current <? remainingAmount then (mkDeductResult false current None, b2)
    else
      (* UPDATE users SET credits = credits - $1
         WHERE id = $2 AND credits >= $1 RETURNING credits *)
      match users b2 !! userId with
      | Some credits =>
          if remainingAmount <=? credits then
            let newBalance := credits - remainingAmount in
            let b3 := setCache (<[userId := newBalance]> (cache b2))
                        (setUsers (<[userId := newBalance]> (users b2)) b2) in
            let b4 := if truthy username
                      then logGameTransaction userId username (- amount) game_bet
                             (if 0 <? usedTaggedCredits
                              then DescSplit reason usedTaggedCredits remainingAmount
                              else DescPlain reason) b3
                      else b3 in
            (mkDeductResult true newBalance (Some usedTaggedCredits), b4)
          else (mkDeductResult false current None, b2)
      | None => (mkDeductResult false current None, b2)
      end.

Record AddResult := mkAddResult { ar_success : bool; ar_balance : Z }.

Definition addCredits (userId amount : Z) (username : string) (reason : Reason)
    (b : Bank) : AddResult * Bank :=
  match users b !! userId with
  | Some credits =>
      let newBalance := credits + amount in
      let b1 := setCache (<[userId := newBalance]> (cache b))
                  (setUsers (<[userId := newBalance]> (users b)) b) in
      let b2 := if truthy username
                then logGameTransaction userId username amount
                       (if includesRefund reason then game_refund else game_win)
                       (DescPlain reason) b1
                else b1 in
      (mkAddResult true newBalance, b2)
  | None => (mkAddResult false 0, b)
  end.

End LedgerCode.

(** Refund loop [for (const player of ...) await addCredits(...)]: the
    bank is threaded through the calls in list order. *)
Definition creditEach {MT : MerchantTag} {A : Type} (uid : A -> Z) (uname : A -> string)
    (amount : Z) (reason : Reason) (ps : list A) (b : Bank) : Bank :=
  fold_left (fun acc p => snd (addCredits (uid p) amount (uname p) reason acc)) ps b.

(** [arr.find(pred)] followed by field writes through the returned
    reference: the first element satisfying [pred] is replaced in place. *)
Fixpoint mutateFirst {A : Type} (pred : A -> bool) (f : A -> A) (l : list A) : list A :=
  match l with
  | [] => []
  | x :: tl => if pred x then f x :: tl else x :: mutateFirst pred f tl
  end.

(** ** Bot keys

    The services keep one key per room and bot: [dicebot:bot:<room>],
    [lowcard:bot:<room>] and, for a third bot, [legend:bot:<room>];
    [gameStateManager] keeps the room's active game type.  [addBotToRoom]
    of a service reads the keys of all three bots. *)

Record BotKeys := mkBotKeys {
  dicebotKeys : gset Z;
  lowcardKeys : gset Z;
  legendKeys : gset Z;
  gameTypes : gmap Z GameType
}.

Inductive AddBotMsg :=
| MsgDiceBotAlreadyActive     (* DiceBot is already active in this room. *)
| MsgLowCardBotAlreadyActive  (* LowCardBot is already active in this room. *)
| MsgLowCardBotIsActive       (* LowCardBot is active. Remove it first with ... *)
| MsgDiceBotIsActive          (* DiceBot is active. Remove it first with ... *)
| MsgFlagBotIsActive          (* FlagBot is active. Remove it first. *)
| MsgDiceBotStarted           (* [PVT] You started the game. Please wait 3s. *)
| MsgLowCardBotRunning.       (* [PVT] Bot is running. Min: 1 COINS *)

Record AddBotResult := mkAddBotResult {
  ab_success : bool;
  ab_message : AddBotMsg
}.

(** ** The dice service, [dicebotService.js] *)

Module Dice.

Definition JOIN_TIMEOUT : Z := 30000.
Definition ROLL_TIMEOUT : Z := 20000.
Definition COUNTDOWN_DELAY : Z := 3000.
Definition MIN_ENTRY : Z := 1.
Definition MAX_ENTRY : Z := 999999999.
Definition HOUSE_FEE_PERCENT : Z := 10.

Record Roll := mkRoll { r_die1 : Z; r_die2 : Z; r_total : Z }.

(** [rollDice] with the two random faces given. *)
Definition rollDice (die1 die2 : Z) : Roll := mkRoll die1 die2 (die1 + die2).

Definition isDoubleSix (die1 die2 : Z) : bool := (die1 =? 6) && (die2 =? 6).

Inductive Status := waiting | playing | finished.

Definition status_eqb (a b : Status) : bool :=
  match a, b with
  | waiting, waiting | playing, playing | finished, finished => true
  | _, _ => false
  end.

Record Player := mkPlayer {
  userId : Z;
  username : string;
  isEliminated : bool;
  hasRolled : bool;
  die1 : option Z;
  die2 : option Z;
  total : option Z;
  isIn : option bool;
  hasImmunity : bool;
  earnedImmunity : bool
}.

(** The player object pushed by [startGame] and [joinGame]. *)
Definition newPlayer (uid : Z) (name : string) : Player :=
  mkPlayer uid name false false None None None None false false.

Record Game := mkGame {
  id : Z;
  roomId : Z;
  status : Status;
  entryAmount : Z;
  pot : Z;
  currentRound : Z;
  botTarget : option Roll;
  players : list Player;
  startedBy : Z;
  startedByUsername : string;
  joinDeadline : Z;
  winnerId : option Z;
  winnings : option Z;
  houseFee : option Z
}.

Definition setPlayers (ps : list Player) (g : Game) : Game :=
  mkGame (id g) (roomId g) (status g) (entryAmount g) (pot g) (currentRound g)
         (botTarget g) ps (startedBy g) (startedByUsername g) (joinDeadline g)
         (winnerId g) (winnings g) (houseFee g).
Definition setPot (n : Z) (g : Game) : Game :=
  mkGame (id g) (roomId g) (status g) (entryAmount g) n (currentRound g)
         (botTarget g) (players g) (startedBy g) (startedByUsername g) (joinDeadline g)
         (winnerId g) (winnings g) (houseFee g).
Definition setStatus (s : Status) (g : Game) : Game :=
  mkGame (id g) (roomId g) s (entryAmount g) (pot g) (currentRound g)
         (botTarget g) (players g) (startedBy g) (startedByUsername g) (joinDeadline g)
         (winnerId g) (winnings g) (houseFee g).
Definition setCurrentRound (n : Z) (g : Game) : Game :=
  mkGame (id g) (roomId g) (status g) (entryAmount g) (pot g) n
         (botTarget g) (players g) (startedBy g) (startedByUsername g) (joinDeadline g)
         (winnerId g) (winnings g) (houseFee g).
Definition setBotTarget (t : option Roll) (g : Game) : Game :=
  mkGame (id g) (roomId g) (status g) (entryAmount g) (pot g) (currentRound g)
         t (players g) (startedBy g) (startedByUsername g) (joinDeadline g)
         (winnerId g) (winnings g) (houseFee g).
Definition setFinish (w : Z) (win fee : Z) (g : Game) : Game :=
  mkGame (id g) (roomId g) (status g) (entryAmount g) (pot g) (currentRound g)
         (botTarget g) (players g) (startedBy g) (startedByUsername g) (joinDeadline g)
         (Some w) (Some win) (Some fee).

Section Service.
Context {MT : MerchantTag}.

(** Redis keys [dicebot:bot:<room>], [dicebot:game:<room>] and
    [dicebot:lock:<room>], the ledger stores, the room's active game
    type kept by [gameStateManager], and the timers [finalizeGame] has set
    and that have not run yet, one room id per timer. *)
Record World := mkWorld {
  bank : Bank;
  bots : gset Z;
  games : gmap Z Game;
  locks : gset Z;
  activeGameType : gmap Z GameType;
  cleanupTimers : list Z
}.

Definition setBank (b : Bank) (w : World) : World :=
  mkWorld b (bots w) (games w) (locks w) (activeGameType w) (cleanupTimers w).
Definition setGames (gs : gmap Z Game) (w : World) : World :=
  mkWorld (bank w) (bots w) gs (locks w) (activeGameType w) (cleanupTimers w).
Definition setLocks (ls : gset Z) (w : World) : World :=
  mkWorld (bank w) (bots w) (games w) ls (activeGameType w) (cleanupTimers w).
Definition setCleanupTimers (ts : list Z) (w : World) : World :=
  mkWorld (bank w) (bots w) (games w) (locks w) (activeGameType w) ts.

Inductive Msg :=
| MsgLockBusy                 (* Please wait, another action is in progress. *)
| MsgAlreadyInProgress        (* A game is already in progress. Use !j to join. *)
| MsgMinimal                  (* Minimal <MIN_ENTRY> COINS to start game. *)
| MsgNotEnoughCredits (n : Z) (* Not enough credits. ... <n> COINS *)
| MsgStarted (n : Z)          (* Game started by <user>. ... Cost: <n> COINS *)
| MsgNoActiveGame             (* No active game. ... *)
| MsgGameInProgress           (* Game already in progress. Wait for the next round. *)
| MsgJoinEnded                (* Join period has ended. *)
| MsgAlreadyJoined            (* You have already joined this game. *)
| MsgJoined                   (* <user> joined the game. *)
| MsgNotRolling               (* Game not in rolling phase. *)
| MsgRoundNotStarted          (* Round not started yet. *)
| MsgNotInGame                (* You are not in this game or have been eliminated. *)
| MsgAlreadyRolled            (* You have already rolled this round. *)
| MsgRolled
| MsgNoBot                    (* No DiceBot in this room. *)
| MsgBotLeft                  (* DiceBot has left the room. *)
| MsgNoGameToCancel           (* No active game to cancel. *)
| MsgAlreadyFinished          (* Game already finished. *)
| MsgCancelled.               (* Game cancelled. All active players refunded. *)

Record Result := mkResult {
  success : bool;
  message : Msg;
  newBalance : option Z
}.

Definition failure (m : Msg) : Result := mkResult false m None.

Definition startGame (room uid : Z) (name : string) (amount : option Z) (now : Z)
    (w : World) : Result * World :=
  if decide (room ∈ locks w) then (failure MsgLockBusy, w)
  else
    let locked := setLocks ({[room]} ∪ locks w) w in
    let '(res, w1) :=
      let existing :=
        match games locked !! room with
        | Some game => status_eqb (status game) waiting || status_eqb (status game) playing
        | None => false
        end in
      if existing then (failure MsgAlreadyInProgress, locked)
      else
        (* parseInt(amount) || MIN_ENTRY *)
        let requestedAmount :=
          match amount with
          | Some a => if a =? 0 then MIN_ENTRY else a
          | None => MIN_ENTRY
          end in
        if requestedAmount <? MIN_ENTRY then (failure MsgMinimal, locked)
        else
          let entry := Z.min MAX_ENTRY requestedAmount in
          let '(deductResult, b') :=
            deductCredits DICE uid entry name BetStart (bank locked) in
          if negb (dr_success deductResult)
          then (failure (MsgNotEnoughCredits entry), setBank b' locked)
          else
            let b'' := setTagged (trackTaggedUserSpending uid DICE entry (tagged b')) b' in
            let game :=
              mkGame now room waiting entry entry 0 None [newPlayer uid name]
                     uid name (now + JOIN_TIMEOUT) None None None in
            (mkResult true (MsgStarted entry) (Some (dr_balance deductResult)),
             setGames (<[room := game]> (games locked)) (setBank b'' locked)) in
    (* finally: redis.del(lockKey) *)
    (res, setLocks (locks w1 ∖ {[room]}) w1).

Definition joinGame (room uid : Z) (name : string) (now : Z) (w : World)
    : Result * World :=
  match games w !! room with
  | None => (failure MsgNoActiveGame, w)
  | Some game =>
      if negb (status_eqb (status game) waiting) then (failure MsgGameInProgress, w)
      else if joinDeadline game <? now then (failure MsgJoinEnded, w)
      else
        match find (fun p => userId p =? uid) (players game) with
        | Some _ => (failure MsgAlreadyJoined, w)
        | None =>
            let '(deductResult, b') :=
              deductCredits DICE uid (entryAmount game) name BetJoin (bank w) in
            if negb (dr_success deductResult)
            then (failure (MsgNotEnoughCredits (entryAmount game)), setBank b' w)
            else
              let b'' :=
                setTagged (trackTaggedUserSpending uid DICE (entryAmount game) (tagged b')) b' in
              (* game.pot += game.entryAmount *)
              let game' :=
                setPot (Binary64.add (pot game) (entryAmount game))
                  (setPlayers (players game ++ [newPlayer uid name]) game) in
              (mkResult true MsgJoined (Some (dr_balance deductResult)),
               setGames (<[room := game']> (games w)) (setBank b'' w))
        end
  end.

Inductive BeginResult :=
| BeginNull
| BeginCancelled
| BeginStarted (playerCount : nat) (pot : Z).

Definition beginGame (room : Z) (w : World) : BeginResult * World :=
  match games w !! room with
  | None => (BeginNull, w)
  | Some game =>
      if negb (status_eqb (status game) waiting) then (BeginNull, w)
      else if (length (players game) <? 2)%nat then
        let b' := creditEach userId username (entryAmount game)
                    RefundNotEnoughPlayers (players game) (bank w) in
        (BeginCancelled, setGames (delete room (games w)) (setBank b' w))
      else
        let game' := setCurrentRound 0 (setStatus playing game) in
        (BeginStarted (length (players game')) (pot game'),
         setGames (<[room := game']> (games w)) w)
  end.

(** A player still in the game: [!p.isEliminated]. *)
Definition active (p : Player) : bool := negb (isEliminated p).

(** Per-round reset of a player's transient fields. *)
Definition resetRoll (p : Player) : Player :=
  mkPlayer (userId p) (username p) (isEliminated p) false None None None None
           (hasImmunity p) (earnedImmunity p).

(** Loop body of [startNextRound] for one player. *)
Definition nextRoundPlayer (p : Player) : Player :=
  if negb (isEliminated p) then
    let p1 := if earnedImmunity p
              then mkPlayer (userId p) (username p) (isEliminated p) (hasRolled p)
                     (die1 p) (die2 p) (total p) (isIn p) true false
              else p in
    resetRoll p1
  else p.

Definition startNextRound (room : Z) (d1 d2 : Z) (w : World) : option Roll * World :=
  match games w !! room with
  | None => (None, w)
  | Some game =>
      if negb (status_eqb (status game) playing) then (None, w)
      else
        let target := rollDice d1 d2 in
        let game' :=
          setPlayers (map nextRoundPlayer (players game))
            (setBotTarget (Some target) (setCurrentRound (currentRound game + 1) game)) in
        (Some target, setGames (<[room := game']> (games w)) w)
  end.

(** The writes both [rollPlayerDice] and [autoRollForTimeout] perform on
    the rolling player, given the bot's total. *)
Definition applyRoll (targetTotal : Z) (d1 d2 : Z) (p : Player) : Player :=
  let r := rollDice d1 d2 in
  let meetsTarget := targetTotal <=? r_total r in
  let gotDoubleSix := isDoubleSix d1 d2 in
  mkPlayer (userId p) (username p) (isEliminated p) true
           (Some (r_die1 r)) (Some (r_die2 r)) (Some (r_total r))
           (Some (meetsTarget || hasImmunity p))
           (hasImmunity p)
           (if gotDoubleSix then true else earnedImmunity p).

Record RollResult := mkRollResult {
  rr_success : bool;
  rr_message : Msg;
  rr_isIn : option bool;
  rr_gotDoubleSix : bool;
  rr_usedImmunity : bool;
  rr_allRolled : bool
}.

Definition rollFailure (m : Msg) : RollResult :=
  mkRollResult false m None false false false.

Definition rollPlayerDice (room uid : Z) (d1 d2 : Z) (w : World) : RollResult * World :=
  match games w !! room with
  | None => (rollFailure MsgNoActiveGame, w)
  | Some game =>
      if negb (status_eqb (status game) playing) then (rollFailure MsgNotRolling, w)
      else
        match botTarget game with
        | None => (rollFailure MsgRoundNotStarted, w)
        | Some target =>
            let mine := fun p => (userId p =? uid) && negb (isEliminated p) in
            match find mine (players game) with
            | None => (rollFailure MsgNotInGame, w)
            | Some player =>
                if hasRolled player then (rollFailure MsgAlreadyRolled, w)
                else
                  let player' := applyRoll (r_total target) d1 d2 player in
                  let game' :=
                    setPlayers (mutateFirst mine (applyRoll (r_total target) d1 d2)
                                  (players game)) game in
                  let activePlayers :=
                    List.filter active (players game') in
                  (mkRollResult true MsgRolled (isIn player') (isDoubleSix d1 d2)
                     (hasImmunity player' && negb (r_total target <=? d1 + d2))
                     (forallb hasRolled activePlayers),
                   setGames (<[room := game']> (games w)) w)
            end
        end
  end.

(** [autoRollForTimeout]: every non-eliminated player who has not rolled
    gets a roll; [rng k] gives the faces of the [k]-th roll made. *)
Fixpoint autoRollPlayers (targetTotal : Z) (rng : nat -> Z * Z) (k : nat)
    (ps : list Player) : list Player :=
  match ps with
  | [] => []
  | p :: tl =>
      if negb (isEliminated p) && negb (hasRolled p)
      then applyRoll targetTotal (fst (rng k)) (snd (rng k)) p
             :: autoRollPlayers targetTotal rng (S k) tl
      else p :: autoRollPlayers targetTotal rng k tl
  end.

Definition autoRollForTimeout (room : Z) (rng : nat -> Z * Z) (w : World) : World :=
  match games w !! room with
  | None => w
  | Some game =>
      match botTarget game with
      | None => w
      | Some target =>
          let game' :=
            setPlayers (autoRollPlayers (r_total target) rng 0 (players game)) game in
          setGames (<[room := game']> (games w)) w
      end
  end.

Inductive TallyResult :=
| TallyNull
| TallyAllFailed (nextRound : Z)
| TallyError
| TallyGameOver (winner : Z) (pot winnings fee : Z) (newBalance : Z)
| TallyRoundComplete (eliminatedCount remainingPlayers : nat) (nextRound : Z).

(** [Math.floor(game.pot * HOUSE_FEE_PERCENT / 100)]: the product is
    rounded, then the quotient, then the floor is taken. *)
Definition houseFeeOf (pot : Z) : Z :=
  Binary64.floorDiv (Binary64.mul pot HOUSE_FEE_PERCENT) 100.

(** [game.pot - houseFee] *)
Definition winningsOf (pot : Z) : Z := Binary64.sub pot (houseFeeOf pot).

(** The finished session is written back, to expire after sixty seconds,
    and a timer is set that deletes the room's session key sixty seconds
    later ([runCleanup]). *)
Definition finalizeGame (room : Z) (w : World) : TallyResult * World :=
  match games w !! room with
  | None => (TallyNull, w)
  | Some game =>
      match find active (players game) with
      | None => (TallyError, setGames (delete room (games w)) w)
      | Some winner =>
          let fee := houseFeeOf (pot game) in
          let win := winningsOf (pot game) in
          let '(addResult, b') :=
            addCredits (userId winner) win (username winner) Win (bank w) in
          let game' := setFinish (userId winner) win fee (setStatus finished game) in
          (TallyGameOver (userId winner) (pot game) win fee (ar_balance addResult),
           setCleanupTimers (cleanupTimers w ++ [room])
             (setGames (<[room := game']> (games w)) (setBank b' w)))
      end
  end.

(** One timer less for the room: the first one set. *)
Fixpoint dropTimer (room : Z) (ts : list Z) : list Z :=
  match ts with
  | [] => []
  | t :: ts' => if t =? room then ts' else t :: dropTimer room ts'
  end.

(** A timer set by [finalizeGame] runs: [redis.del(gameKey)], whatever
    the key holds by then.  Without a timer for the room nothing runs. *)
Definition runCleanup (room : Z) (w : World) : World :=
  if decide (room ∈ cleanupTimers w)
  then setCleanupTimers (dropTimer room (cleanupTimers w))
         (setGames (delete room (games w)) w)
  else w.

Definition clearImmunity (p : Player) : Player :=
  mkPlayer (userId p) (username p) (isEliminated p) (hasRolled p)
           (die1 p) (die2 p) (total p) (isIn p) false (earnedImmunity p).

Definition eliminate (p : Player) : Player :=
  mkPlayer (userId p) (username p) true (hasRolled p)
           (die1 p) (die2 p) (total p) (isIn p) (hasImmunity p) (earnedImmunity p).

Definition isInIs (b : bool) (p : Player) : bool :=
  match isIn p with Some x => eqb x b | None => false end.

Definition tallyRound (room : Z) (w : World) : TallyResult * World :=
  match games w !! room with
  | None => (TallyNull, w)
  | Some game =>
      if negb (status_eqb (status game) playing) then (TallyNull, w)
      else
        let activePlayers := List.filter active (players game) in
        let survivors := List.filter (isInIs true) activePlayers in
        let eliminated := List.filter (isInIs false) activePlayers in
        let cleared :=
          map (fun p => if active p then clearImmunity p else p) (players game) in
        if (length survivors =? 0)%nat then
          let game' :=
            setBotTarget None
              (setPlayers (map (fun p => if active p then resetRoll p else p) cleared)
                 game) in
          (TallyAllFailed (currentRound game + 1),
           setGames (<[room := game']> (games w)) w)
        else
          let marked :=
            map (fun p => if active p && isInIs false p then eliminate p else p)
                cleared in
          let remainingPlayers := List.filter active marked in
          if (length remainingPlayers =? 1)%nat then
            finalizeGame room
              (setGames (<[room := setPlayers marked game]> (games w)) w)
          else
            let game' := setBotTarget None (setPlayers marked game) in
            (TallyRoundComplete (length eliminated) (length remainingPlayers)
               (currentRound game + 1),
             setGames (<[room := game']> (games w)) w)
  end.

Definition cancelGame (room : Z) (w : World) : Result * World :=
  match games w !! room with
  | None => (failure MsgNoGameToCancel, w)
  | Some game =>
      if status_eqb (status game) finished then (failure MsgAlreadyFinished, w)
      else
        let b' := creditEach userId username (entryAmount game) RefundCancelled
                    (List.filter active (players game)) (bank w) in
        (mkResult true MsgCancelled None,
         setGames (delete room (games w)) (setBank b' w))
  end.

Definition removeBotFromRoom (room : Z) (w : World) : Result * World :=
  if decide (room ∈ bots w) then
    let b' :=
      match games w !! room with
      | Some game =>
          if status_eqb (status game) waiting
          then creditEach userId username (entryAmount game) RefundBotRemoved
                 (players game) (bank w)
          else bank w
      | None => bank w
      end in
    (mkResult true MsgBotLeft None,
     mkWorld b' (bots w ∖ {[room]}) (delete room (games w)) (locks w)
             (delete room (activeGameType w)) (cleanupTimers w))
  else (failure MsgNoBot, w).

(** *** Runs used to state properties *)

(** A run of [!j] commands against one room: each entry is the joining
    user, the name and the time of the attempt.  Failed attempts are part
    of the run. *)
Definition joinAll (room : Z) (js : list (Z * string * Z)) (w : World) : World :=
  fold_left (fun acc j => snd (joinGame room j.1.1 j.1.2 j.2 acc)) js w.

(** The record the services address by user id: the first one carrying it. *)
Definition getPlayer (uid : Z) (g : Game) : option Player :=
  find (fun p => userId p =? uid) (players g).

Definition playerOf (room uid : Z) (w : World) : option Player :=
  match games w !! room with
  | Some g => getPlayer uid g
  | None => None
  end.

(** Whether the dice a record shows are the double six. *)
Definition rolledDoubleSix (p : Player) : bool :=
  match die1 p, die2 p with
  | Some a, Some b => isDoubleSix a b
  | _, _ => false
  end.

(** Whether a tally result is the one that ends the game. *)
Definition endsGame (r : TallyResult) : bool :=
  match r with TallyGameOver _ _ _ _ _ => true | _ => false end.

(** What a tally with result [r] writes on one record. *)
Definition tallied (r : TallyResult) (p : Player) : Player :=
  let p1 := if active p then clearImmunity p else p in
  match r with
  | TallyAllFailed _ => if active p1 then resetRoll p1 else p1
  | _ => if active p1 && isInIs false p1 then eliminate p1 else p1
  end.

(** State of a record during a round in which its immunity is active:
    before the roll nothing is earned yet; after it the player is in, and
    has earned a new immunity exactly when the roll was the double six. *)
Definition immuneInv (p : Player) : Prop :=
  isEliminated p = false /\ hasImmunity p = true /\
  (hasRolled p = false -> isIn p = None /\ earnedImmunity p = false) /\
  (hasRolled p = true ->
   isIn p = Some true /\ earnedImmunity p = rolledDoubleSix p).

(** What can happen in a room between the start of a round and its
    tally: rolls by any user, and the automatic rolls at the time-out. *)
Inductive roundStep (room : Z) : World -> World -> Prop :=
| step_roll (v a b : Z) (w : World) :
    roundStep room w (snd (rollPlayerDice room v a b w))
| step_auto (rng : nat -> Z * Z) (w : World) :
    roundStep room w (autoRollForTimeout room rng w).

(** Everything that can reach a room's session once it plays: the steps
    of a round, the tally, the start of the next round, join attempts,
    and the timer of a finished game. *)
Inductive playStep (room : Z) : World -> World -> Prop :=
| play_round (w w' : World) : roundStep room w w' -> playStep room w w'
| play_tally (w : World) : playStep room w (snd (tallyRound room w))
| play_next (d1 d2 : Z) (w : World) :
    playStep room w (snd (startNextRound room d1 d2 w))
| play_join (uid : Z) (name : string) (now : Z) (w : World) :
    playStep room w (snd (joinGame room uid name now w))
| play_cleanup (w : World) : playStep room w (runCleanup room w).

(** Position by position the same users, and whoever was out is out. *)
Definition keepsOut (ps ps' : list Player) : Prop :=
  Forall2 (fun p p' => userId p' = userId p /\
                       (isEliminated p = true -> isEliminated p' = true)) ps ps'.

(** The pot holds the entry amount added once per recorded player:
    their product as long as that is below 2^53. *)
Definition potMatches (g : Game) : Prop :=
  0 <= entryAmount g /\
  (entryAmount g * Z.of_nat (length (players g)) < 2 ^ 53 ->
   pot g = entryAmount g * Z.of_nat (length (players g))).

(** What a run of join attempts keeps true of a waiting session. *)
Definition waitingInv (entry deadline : Z) (g : Game) : Prop :=
  status g = waiting /\ entryAmount g = entry /\ joinDeadline g = deadline /\
  potMatches g /\ NoDup (map userId (players g)).

End Service.

Definition addBotToRoom (room : Z) (k : BotKeys) : AddBotResult * BotKeys :=
  if decide (room ∈ dicebotKeys k)
  then (mkAddBotResult false MsgDiceBotAlreadyActive, k)
  else if decide (room ∈ lowcardKeys k)
  then (mkAddBotResult false MsgLowCardBotIsActive, k)
  else if decide (room ∈ legendKeys k)
  then (mkAddBotResult false MsgFlagBotIsActive, k)
  else
    (mkAddBotResult true MsgDiceBotStarted,
     mkBotKeys ({[room]} ∪ dicebotKeys k) (lowcardKeys k) (legendKeys k)
               (<[room := DICE]> (gameTypes k))).

End Dice.

(** ** The card service, [lowcardService.js]

    The audit tables [lowcard_games] and [lowcard_history] are written by
    the service and never read back; they are left out of the stores. *)

Module LowCard.

Definition JOIN_TIMEOUT : Z := 30000.
Definition DRAW_TIMEOUT : Z := 20000.
Definition COUNTDOWN_DELAY : Z := 3000.
Definition MIN_ENTRY : Z := 1.
Definition MAX_ENTRY : Z := 999999999.
Definition MIN_ENTRY_BIG_GAME : Z := 50.

(** The suit letters 'h', 'd', 'c' and 's'. *)
Inductive Suit := suit_h | suit_d | suit_c | suit_s.

Definition CARD_SUITS : list Suit := [suit_h; suit_d; suit_c; suit_s].
Definition CARD_VALUES : list Z := [2; 3; 4; 5; 6; 7; 8; 9; 10; 11; 12; 13; 14].

Record Card := mkCard { value : Z; suit : Suit }.

(** The deck [generateDeck] builds before shuffling it. *)
Definition orderedDeck : list Card :=
  flat_map (fun su => map (fun v => mkCard v su) CARD_VALUES) CARD_SUITS.

#[global] Instance Suit_eq_dec : EqDecision Suit.
Proof. solve_decision. Defined.

#[global] Instance Card_eq_dec : EqDecision Card.
Proof. solve_decision. Defined.

(** [[a[i], a[j]] = [a[j], a[i]]]: the right-hand side is read first, then
    [a[i]] and [a[j]] are written in that order.  [shuffleDeck] only calls
    it with both indices inside the array. *)
Definition swap (i j : nat) (l : list Card) : list Card :=
  match l !! i, l !! j with
  | Some x, Some y => <[j := x]> (<[i := y]> l)
  | _, _ => l
  end.

(** Loop of [shuffleDeck], [for (let i = length - 1; i > 0; i--)].  The
    index [Math.floor(Math.random() * (i + 1))] is some number from 0 to
    [i]; it is read off the random source [rnd] modulo [i + 1]. *)
Fixpoint shuffleFrom (rnd : nat -> nat) (i : nat) (l : list Card) : list Card :=
  match i with
  | O => l
  | S i' => shuffleFrom rnd i' (swap i (rnd i mod S i)%nat l)
  end.

Definition shuffleDeck (rnd : nat -> nat) (deck : list Card) : list Card :=
  shuffleFrom rnd (length deck - 1) deck.

Definition generateDeck (rnd : nat -> nat) : list Card :=
  shuffleDeck rnd orderedDeck.

Inductive Status := waiting | playing | finished.

Definition status_eqb (a b : Status) : bool :=
  match a, b with
  | waiting, waiting | playing, playing | finished, finished => true
  | _, _ => false
  end.

Record Player := mkPlayer {
  userId : Z;
  username : string;
  isEliminated : bool;
  hasDrawn : bool;
  currentCard : option Card
}.

Definition newPlayer (uid : Z) (name : string) : Player :=
  mkPlayer uid name false false None.

Record Game := mkGame {
  id : Z;
  roomId : Z;
  status : Status;
  entryAmount : Z;
  pot : Z;
  currentRound : Z;
  players : list Player;
  startedBy : Z;
  startedByUsername : string;
  joinDeadline : Z;
  countdownEndsAt : option Z;
  roundDeadline : option Z;
  previousTiedLosers : option (list Z)
}.

Definition setPlayers (ps : list Player) (g : Game) : Game :=
  mkGame (id g) (roomId g) (status g) (entryAmount g) (pot g) (currentRound g) ps
         (startedBy g) (startedByUsername g) (joinDeadline g) (countdownEndsAt g)
         (roundDeadline g) (previousTiedLosers g).
Definition setPot (n : Z) (g : Game) : Game :=
  mkGame (id g) (roomId g) (status g) (entryAmount g) n (currentRound g) (players g)
         (startedBy g) (startedByUsername g) (joinDeadline g) (countdownEndsAt g)
         (roundDeadline g) (previousTiedLosers g).
Definition setStatus (st : Status) (g : Game) : Game :=
  mkGame (id g) (roomId g) st (entryAmount g) (pot g) (currentRound g) (players g)
         (startedBy g) (startedByUsername g) (joinDeadline g) (countdownEndsAt g)
         (roundDeadline g) (previousTiedLosers g).
Definition setCurrentRound (n : Z) (g : Game) : Game :=
  mkGame (id g) (roomId g) (status g) (entryAmount g) (pot g) n (players g)
         (startedBy g) (startedByUsername g) (joinDeadline g) (countdownEndsAt g)
         (roundDeadline g) (previousTiedLosers g).
Definition setDeadlines (cd rd : Z) (g : Game) : Game :=
  mkGame (id g) (roomId g) (status g) (entryAmount g) (pot g) (currentRound g) (players g)
         (startedBy g) (startedByUsername g) (joinDeadline g) (Some cd) (Some rd)
         (previousTiedLosers g).
Definition setPreviousTiedLosers (l : option (list Z)) (g : Game) : Game :=
  mkGame (id g) (roomId g) (status g) (entryAmount g) (pot g) (currentRound g) (players g)
         (startedBy g) (startedByUsername g) (joinDeadline g) (countdownEndsAt g)
         (roundDeadline g) l.

Section Service.
Context {MT : MerchantTag}.

(** Redis keys [lowcard:bot:<room>], [lowcard:game:<room>],
    [lowcard:lock:<room>] and [lowcard:deck:<room>], the ledger stores, the
    active game type, and the rooms whose name contains "big game". *)
Record World := mkWorld {
  bank : Bank;
  bots : gset Z;
  games : gmap Z Game;
  locks : gset Z;
  decks : gmap Z (list Card);
  activeGameType : gmap Z GameType;
  bigGameRooms : gset Z
}.

Definition setBank (b : Bank) (w : World) : World :=
  mkWorld b (bots w) (games w) (locks w) (decks w) (activeGameType w) (bigGameRooms w).
Definition setGames (gs : gmap Z Game) (w : World) : World :=
  mkWorld (bank w) (bots w) gs (locks w) (decks w) (activeGameType w) (bigGameRooms w).
Definition setLocks (ls : gset Z) (w : World) : World :=
  mkWorld (bank w) (bots w) (games w) ls (decks w) (activeGameType w) (bigGameRooms w).
Definition setDecks (ds : gmap Z (list Card)) (w : World) : World :=
  mkWorld (bank w) (bots w) (games w) (locks w) ds (activeGameType w) (bigGameRooms w).

Inductive Msg :=
| MsgLockBusy                 (* Please wait, another action is in progress. *)
| MsgAlreadyInProgress        (* A game is already in progress. Use !j to join. *)
| MsgMinimal (n : Z)          (* Minimal <n> COINS to start game. *)
| MsgMaximal                  (* Maximal <MAX_ENTRY> COINS to start game. *)
| MsgNotEnoughCredits (n : Z) (* Not enough credits. ... <n> COINS *)
| MsgStarted (n : Z)          (* LowCard started by <user>. ... Cost: <n> COINS *)
| MsgNoActiveGame             (* No active game. ... *)
| MsgGameInProgress           (* Game already in progress. Wait for the next round. *)
| MsgJoinEnded                (* Join period has ended. *)
| MsgAlreadyJoined            (* You have already joined this game. *)
| MsgJoined                   (* <user> joined the game. *)
| MsgNotInProgress            (* Game is not in progress. *)
| MsgCountdown                (* Wait for countdown to finish. (silent) *)
| MsgNotInGame                (* You are not in this game or already eliminated. *)
| MsgAlreadyDrawn             (* You have already drawn this round. *)
| MsgDrew
| MsgNoBot                    (* No LowCard bot in this room. *)
| MsgBotLeft                  (* LowCardBot has left the room. *)
| MsgNoGameToStop             (* No active game to stop. *)
| MsgCannotStop               (* Cannot stop game once it has started. *)
| MsgStopped.                 (* Game stopped. All credits have been refunded. *)

Record Result := mkResult {
  success : bool;
  message : Msg;
  newBalance : option Z
}.

Definition failure (m : Msg) : Result := mkResult false m None.

Definition startGame (room uid : Z) (name : string) (amount : option Z) (now : Z)
    (w : World) : Result * World :=
  if decide (room ∈ locks w) then (failure MsgLockBusy, w)
  else
    let locked := setLocks ({[room]} ∪ locks w) w in
    let '(res, w1) :=
      let existing :=
        match games locked !! room with
        | Some game => status_eqb (status game) waiting || status_eqb (status game) playing
        | None => false
        end in
      if existing then (failure MsgAlreadyInProgress, locked)
      else
        let isBigGame := bool_decide (room ∈ bigGameRooms locked) in
        let minEntry := if isBigGame then MIN_ENTRY_BIG_GAME else MIN_ENTRY in
        (* parseInt(amount) || minEntry *)
        let requestedAmount :=
          match amount with
          | Some a => if a =? 0 then minEntry else a
          | None => minEntry
          end in
        if requestedAmount <? minEntry then (failure (MsgMinimal minEntry), locked)
        else if negb isBigGame && (MAX_ENTRY <? requestedAmount)
        then (failure MsgMaximal, locked)
        else
          let entry := requestedAmount in
          let '(deductResult, b') :=
            deductCredits LOWCARD uid entry name BetStart (bank locked) in
          if negb (dr_success deductResult)
          then (failure (MsgNotEnoughCredits entry), setBank b' locked)
          else
            let b'' :=
              setTagged (trackTaggedUserSpending uid LOWCARD entry (tagged b')) b' in
            let game :=
              mkGame now room waiting entry entry 0 [newPlayer uid name]
                     uid name (now + JOIN_TIMEOUT) None None None in
            (mkResult true (MsgStarted entry) (Some (dr_balance deductResult)),
             setGames (<[room := game]> (games locked)) (setBank b'' locked)) in
    (* finally: redis.del(lockKey) *)
    (res, setLocks (locks w1 ∖ {[room]}) w1).

Definition joinGame (room uid : Z) (name : string) (now : Z) (w : World)
    : Result * World :=
  match games w !! room with
  | None => (failure MsgNoActiveGame, w)
  | Some game =>
      if negb (status_eqb (status game) waiting) then (failure MsgGameInProgress, w)
      else if joinDeadline game <? now then (failure MsgJoinEnded, w)
      else
        match find (fun p => userId p =? uid) (players game) with
        | Some _ => (failure MsgAlreadyJoined, w)
        | None =>
            let '(deductResult, b') :=
              deductCredits LOWCARD uid (entryAmount game) name BetJoin (bank w) in
            if negb (dr_success deductResult)
            then (failure (MsgNotEnoughCredits (entryAmount game)), setBank b' w)
            else
              let b'' :=
                setTagged
                  (trackTaggedUserSpending uid LOWCARD (entryAmount game) (tagged b')) b' in
              (* game.pot += game.entryAmount *)
              let game' :=
                setPot (Binary64.add (pot game) (entryAmount game))
                  (setPlayers (players game ++ [newPlayer uid name]) game) in
              (mkResult true MsgJoined (Some (dr_balance deductResult)),
               setGames (<[room := game']> (games w)) (setBank b'' w))
        end
  end.

Definition resetDraw (p : Player) : Player :=
  mkPlayer (userId p) (username p) (isEliminated p) false None.

Definition active (p : Player) : bool := negb (isEliminated p).

(** Reset loop shared by the two next-round exits of [tallyRound]. *)
Definition resetActive (ps : list Player) : list Player :=
  map (fun p => if active p then resetDraw p else p) ps.

Inductive BeginResult :=
| BeginNull
| BeginCancelled
| BeginStarted (playerCount : nat).

(** [shuffled] is the deck [generateDeck] returns. *)
Definition beginGame (room : Z) (now : Z) (shuffled : list Card) (w : World)
    : BeginResult * World :=
  match games w !! room with
  | None => (BeginNull, w)
  | Some game =>
      if negb (status_eqb (status game) waiting) then (BeginNull, w)
      else if (length (players game) <? 2)%nat then
        let b' := creditEach userId username (entryAmount game)
                    RefundNotEnoughPlayers (players game) (bank w) in
        (BeginCancelled, setGames (delete room (games w)) (setBank b' w))
      else
        let game' :=
          setDeadlines (now + COUNTDOWN_DELAY) (now + COUNTDOWN_DELAY + DRAW_TIMEOUT)
            (setPlayers (map resetDraw (players game))
               (setCurrentRound 1 (setStatus playing game))) in
        (BeginStarted (length (players game')),
         setGames (<[room := game']> (games w))
           (setDecks (<[room := shuffled]> (decks w)) w))
  end.

(** [deck.pop()]: the last card, or nothing from an empty array. *)
Definition pop (deck : list Card) : option Card * list Card :=
  match rev deck with
  | [] => (None, [])
  | top :: rest => (Some top, rev rest)
  end.

Definition drawCardFromDeck (room : Z) (shuffled : list Card) (w : World)
    : option Card * World :=
  let deck :=
    match decks w !! room with
    | None | Some [] => shuffled
    | Some stored => stored
    end in
  let '(card, deck') := pop deck in
  (card, setDecks (<[room := deck']> (decks w)) w).

Definition giveCard (card : option Card) (p : Player) : Player :=
  mkPlayer (userId p) (username p) (isEliminated p) true card.

Definition drawCardForPlayer (room uid : Z) (now : Z) (shuffled : list Card)
    (w : World) : Result * option Card * World :=
  match games w !! room with
  | None => (failure MsgNoActiveGame, None, w)
  | Some game =>
      if negb (status_eqb (status game) playing) then (failure MsgNotInProgress, None, w)
      else
        let counting :=
          match countdownEndsAt game with
          | Some t => negb (t =? 0) && (now <? t)
          | None => false
          end in
        if counting then (failure MsgCountdown, None, w)
        else
          let mine := fun p => (userId p =? uid) && negb (isEliminated p) in
          match find mine (players game) with
          | None => (failure MsgNotInGame, None, w)
          | Some player =>
              if hasDrawn player then (failure MsgAlreadyDrawn, None, w)
              else
                let '(card, w1) := drawCardFromDeck room shuffled w in
                let game' :=
                  setPlayers (mutateFirst mine (giveCard card) (players game)) game in
                (mkResult true MsgDrew None, card,
                 setGames (<[room := game']> (games w1)) w1)
          end
  end.

(** Loop of [autoDrawForTimeout]; [shuffled i] is the deck a regeneration
    at player index [i] would produce. *)
Fixpoint autoDrawPlayers (room : Z) (shuffled : nat -> list Card) (i : nat)
    (ps : list Player) (w : World) : list Player * World :=
  match ps with
  | [] => ([], w)
  | p :: tl =>
      if negb (isEliminated p) && negb (hasDrawn p) then
        let '(card, w1) := drawCardFromDeck room (shuffled i) w in
        let '(tl', w2) := autoDrawPlayers room shuffled (S i) tl w1 in
        (giveCard card p :: tl', w2)
      else
        let '(tl', w2) := autoDrawPlayers room shuffled (S i) tl w in
        (p :: tl', w2)
  end.

Definition autoDrawForTimeout (room : Z) (shuffled : nat -> list Card) (w : World)
    : World :=
  match games w !! room with
  | None => w
  | Some game =>
      let '(ps, w1) := autoDrawPlayers room shuffled 0 (players game) w in
      setGames (<[room := setPlayers ps game]> (games w1)) w1
  end.

Inductive TallyResult :=
| TallyNull
| TallyError                         (* No active players with cards. *)
| TallyGameOver (winnerId : Z) (winnings : Z) (newBalance : Z)
| TallyTie (tiedPlayers : list Z)
| TallyEliminated (eliminated : list Z) (remainingCount : nat) (nextRound : Z).

Definition holdsCard (p : Player) : bool :=
  match currentCard p with Some _ => true | None => false end.

(** [p.currentCard.value] for a player who holds a card. *)
Definition cardValue (p : Player) : Z :=
  match currentCard p with Some cd => value cd | None => 0 end.

(** [Math.max(...xs)] and [Math.min(...xs)] on a non-empty array. *)
Definition maxOf (xs : list Z) : Z :=
  match xs with [] => 0 | x :: tl => fold_left Z.max tl x end.
Definition minOf (xs : list Z) : Z :=
  match xs with [] => 0 | x :: tl => fold_left Z.min tl x end.

(** [Math.floor(game.pot * 0.05)]: the floor of the binary64 product of
    the pot and the number the literal [0.05] denotes. *)
Definition commissionOf (pot : Z) : Z :=
  Binary64.floorMulDyadic pot Binary64.fiveHundredths_m Binary64.fiveHundredths_k.

(** [game.pot - commission] *)
Definition winningsOf (pot : Z) : Z := Binary64.sub pot (commissionOf pot).

Definition eliminate (p : Player) : Player :=
  mkPlayer (userId p) (username p) true (hasDrawn p) (currentCard p).

(** [idx = players.findIndex(p => p.userId == uid); if (idx !== -1)
    players[idx].isEliminated = true], for each id in turn. *)
Definition eliminateIds (ids : list Z) (ps : list Player) : list Player :=
  fold_left (fun acc uid => mutateFirst (fun p => userId p =? uid) eliminate acc) ids ps.

(** The three identical pay-out blocks of [tallyRound]: the winner is
    credited, the game key and the deck are deleted. *)
Definition payWinner (room : Z) (game : Game) (winner : Player) (w : World)
    : TallyResult * World :=
  let win := winningsOf (pot game) in
  let '(creditResult, b') :=
    addCredits (userId winner) win (username winner) Win (bank w) in
  (TallyGameOver (userId winner) win (ar_balance creditResult),
   setDecks (delete room (decks w)) (setGames (delete room (games w)) (setBank b' w))).

(** Exit to the next round: counter, reset of the survivors, deadlines. *)
Definition nextRound (now : Z) (ps : list Player) (game : Game) : Game :=
  setDeadlines (now + COUNTDOWN_DELAY) (now + COUNTDOWN_DELAY + DRAW_TIMEOUT)
    (setPlayers (resetActive ps)
       (setPreviousTiedLosers None (setCurrentRound (currentRound game + 1) game))).

(** Second half of [tallyRound], from [const lowestValue = ...] on: the
    lowest-rank resolution with its tie handling. *)
Definition resolveLowest (room : Z) (isTimedOut : bool) (now : Z) (game : Game)
    (activePlayers : list Player) (w : World) : TallyResult * World :=
  let lowestValue := minOf (map cardValue activePlayers) in
  let losers := List.filter (fun p => cardValue p =? lowestValue) activePlayers in
  if (1 <? length losers)%nat && (length losers <? length activePlayers)%nat
  then
    match (if isTimedOut then previousTiedLosers game else None) with
    | Some (loserId :: moreIds) =>
        let previousLoserIds := loserId :: moreIds in
        let ps := eliminateIds previousLoserIds (players game) in
        let remainingPlayers := List.filter active ps in
        match remainingPlayers with
        | [winner] => payWinner room game winner w
        | _ =>
            (TallyEliminated previousLoserIds (length remainingPlayers)
               (currentRound game + 1),
             setGames (<[room := nextRound now ps game]> (games w)) w)
        end
    | _ =>
        let tiedIds := map userId losers in
        let isTied := fun p => existsb (fun l => userId l =? userId p) losers in
        let ps :=
          map (fun p => if active p && isTied p then resetDraw p else p)
              (players game) in
        let game' := setPlayers ps (setPreviousTiedLosers (Some tiedIds) game) in
        (TallyTie tiedIds, setGames (<[room := game']> (games w)) w)
    end
  else
    let ps := eliminateIds (map userId losers) (players game) in
    let remainingPlayers := List.filter active ps in
    match remainingPlayers with
    | [winner] => payWinner room game winner w
    | _ =>
        (TallyEliminated (map userId losers) (length remainingPlayers)
           (currentRound game + 1),
         setGames (<[room := nextRound now ps game]> (games w)) w)
    end.

(** The players a tally looks at. *)
Definition activeWithCard (game : Game) : list Player :=
  List.filter (fun p => active p && holdsCard p) (players game).

Definition tallyRound (room : Z) (isTimedOut : bool) (now : Z) (w : World)
    : TallyResult * World :=
  match games w !! room with
  | None => (TallyNull, w)
  | Some game =>
      let activePlayers := activeWithCard game in
      if (length activePlayers =? 0)%nat then (TallyError, w)
      else
        let endgame :=
          if (length activePlayers =? 3)%nat && negb isTimedOut then
            let highestValue := maxOf (map cardValue activePlayers) in
            let winners := List.filter (fun p => cardValue p =? highestValue) activePlayers in
            match winners with
            | [winner] => Some winner
            | _ => None
            end
          else None in
        match endgame with
        | Some winner => payWinner room game winner w
        | None => resolveLowest room isTimedOut now game activePlayers w
        end
  end.

Definition stopGame (room : Z) (w : World) : Result * World :=
  match games w !! room with
  | None => (failure MsgNoGameToStop, w)
  | Some game =>
      if status_eqb (status game) playing then (failure MsgCannotStop, w)
      else
        let b' := creditEach userId username (entryAmount game) RefundStopped
                    (players game) (bank w) in
        (mkResult true MsgStopped None,
         setDecks (delete room (decks w))
           (setGames (delete room (games w)) (setBank b' w)))
  end.

Definition removeBotFromRoom (room : Z) (w : World) : Result * World :=
  if decide (room ∈ bots w) then
    let b' :=
      match games w !! room with
      | Some game =>
          if status_eqb (status game) waiting
          then creditEach userId username (entryAmount game) RefundBotRemoved
                 (players game) (bank w)
          else bank w
      | None => bank w
      end in
    (mkResult true MsgBotLeft None,
     mkWorld b' (bots w ∖ {[room]}) (delete room (games w)) (locks w)
             (delete room (decks w)) (delete room (activeGameType w)) (bigGameRooms w))
  else (failure MsgNoBot, w).

(** [allPlayersDrawn] *)
Definition allPlayersDrawn (room : Z) (w : World) : bool :=
  match games w !! room with
  | None => false
  | Some game =>
      if negb (status_eqb (status game) playing) then false
      else
        let activePlayers := List.filter active (players game) in
        if (length activePlayers =? 0)%nat then false
        else forallb hasDrawn activePlayers
  end.

(** *** Runs used to state properties *)

(** A player who is in the game and holds a card of rank [low]. *)
Definition holdsLowest (low : Z) (p : Player) : bool :=
  active p && holdsCard p && (cardValue p =? low).

Definition joinAll (room : Z) (js : list (Z * string * Z)) (w : World) : World :=
  fold_left (fun acc j => snd (joinGame room j.1.1 j.1.2 j.2 acc)) js w.

Definition getPlayer (uid : Z) (g : Game) : option Player :=
  find (fun p => userId p =? uid) (players g).

(** The pot holds the entry amount added once per recorded player:
    their product as long as that is below 2^53. *)
Definition potMatches (g : Game) : Prop :=
  0 <= entryAmount g /\
  (entryAmount g * Z.of_nat (length (players g)) < 2 ^ 53 ->
   pot g = entryAmount g * Z.of_nat (length (players g))).

(** What a run of join attempts keeps true of a waiting session. *)
Definition waitingInv (entry deadline : Z) (g : Game) : Prop :=
  status g = waiting /\ entryAmount g = entry /\ joinDeadline g = deadline /\
  potMatches g /\ NoDup (map userId (players g)).

(** The cards in the players' records, and the deck stored for a room. *)
Definition heldCards (g : Game) : list Card := omap currentCard (players g).

Definition storedDeck (room : Z) (w : World) : list Card :=
  default [] (decks w !! room).

(** The deck [drawCardFromDeck] deals from: the stored one, or a new one
    when none is stored or the stored one is used up. *)
Definition deckInUse (room : Z) (shuffled : list Card) (w : World) : list Card :=
  match decks w !! room with
  | None | Some [] => shuffled
  | Some stored => stored
  end.

(** What can happen to a playing session between two tallies: draws by
    any user, and the automatic draws at the time-out. *)
Inductive drawStep (room : Z) : World -> World -> Prop :=
| draw_by (uid now : Z) (shuffled : list Card) (w : World) :
    drawStep room w (snd (drawCardForPlayer room uid now shuffled w))
| draw_auto (shuffled : nat -> list Card) (w : World) :
    drawStep room w (autoDrawForTimeout room shuffled w).

(** Position by position the same users with the same elimination flag,
    and whoever has drawn or is out has the same record. *)
Definition keepsDrawn (ps ps' : list Player) : Prop :=
  Forall2 (fun p p' => (isEliminated p = true \/ hasDrawn p = true -> p' = p) /\
                       userId p' = userId p /\ isEliminated p' = isEliminated p)
          ps ps'.

End Service.

Definition addBotToRoom (room : Z) (k : BotKeys) : AddBotResult * BotKeys :=
  if decide (room ∈ lowcardKeys k)
  then (mkAddBotResult false MsgLowCardBotAlreadyActive, k)
  else if decide (room ∈ dicebotKeys k)
  then (mkAddBotResult false MsgDiceBotIsActive, k)
  else if decide (room ∈ legendKeys k)
  then (mkAddBotResult false MsgFlagBotIsActive, k)
  else
    (mkAddBotResult true MsgLowCardBotRunning,
     mkBotKeys (dicebotKeys k) ({[room]} ∪ lowcardKeys k) (legendKeys k)
               (<[room := LOWCARD]> (gameTypes k))).

End LowCard.

(** What can happen to the bot keys: either service adds its bot to a
    room; bot keys of the two services go away ([removeBotFromRoom], or the
    expiry of a key after seven days) while the third bot's keys and the
    game types change in any way. *)
Inductive botStep : BotKeys -> BotKeys -> Prop :=
| bot_add_dice (room : Z) (k : BotKeys) :
    botStep k (snd (Dice.addBotToRoom room k))
| bot_add_lowcard (room : Z) (k : BotKeys) :
    botStep k (snd (LowCard.addBotToRoom room k))
| bot_keys_drop (k k' : BotKeys) :
    dicebotKeys k' ⊆ dicebotKeys k ->
    lowcardKeys k' ⊆ lowcardKeys k ->
    botStep k k'.

(** ** Example stores

    Concrete stores for the examples below, with the tagged balances of
    [specMerchantTag].  Room 7 has the bot enabled; users 1, 2, 4 and 5
    hold 500 credits each, user 3 holds 10 credits and 30 tagged credits. *)

Module Examples.

Definition bank0 : Bank (MT := specMerchantTag) :=
  mkBank (MT := specMerchantTag)
    {[1 := 500; 2 := 500; 3 := 10; 4 := 500; 5 := 500]} ∅ ({[3 := 30]} : gmap Z Z) [].

Definition name1 : string := "ana".
Definition name2 : string := "budi".
Definition name3 : string := "citra".
Definition name4 : string := "dewi".

Definition dice0 : Dice.World (MT := specMerchantTag) :=
  Dice.mkWorld bank0 {[7]} ∅ ∅ {[7 := DICE]} [].

Definition low0 : LowCard.World (MT := specMerchantTag) :=
  LowCard.mkWorld bank0 {[7]} ∅ ∅ ∅ {[7 := LOWCARD]} ∅.

(** User 1 has started a game with entry 100 at time 1000. *)
Definition dice1 : Dice.World (MT := specMerchantTag) :=
  Eval vm_compute in snd (Dice.startGame 7 1 name1 (Some 100) 1000 dice0).

Definition low1 : LowCard.World (MT := specMerchantTag) :=
  Eval vm_compute in snd (LowCard.startGame 7 1 name1 (Some 100) 1000 low0).

(** Users 2 and 3 try to join; user 3 cannot pay. *)
Definition joins23 : list (Z * string * Z) :=
  [(2, name2, 2000); (3, name3, 3000)].

(** The join window closes with users 1 and 2 in: the dice game plays. *)
Definition dice2 : Dice.World (MT := specMerchantTag) :=
  Eval vm_compute in snd (Dice.beginGame 7 (Dice.joinAll 7 joins23 dice1)).

(** The same for the card game; [LowCard.orderedDeck] stands for the
    shuffled deck. *)
Definition low2 : LowCard.World (MT := specMerchantTag) :=
  Eval vm_compute in
    snd (LowCard.beginGame 7 31000 LowCard.orderedDeck
           (LowCard.joinAll 7 joins23 low1)).

(** Round 1 of the three-player dice game has started, with target 9. *)
Definition dice3_round1 : Dice.World (MT := specMerchantTag) :=
  Eval vm_compute in
    snd (Dice.startNextRound 7 4 5
           (snd (Dice.beginGame 7
                   (Dice.joinAll 7 [(2, name2, 2000); (4, name4, 2500)] dice1)))).

(** Three users at entry 100: pot 300.  Round 1 has target 9; users 1
    and 2 roll 10, user 4 rolls 5 and is out.  Round 2 has target 7; user 1
    rolls 8, user 2 rolls 3.  [dice3_last] is the store just before the
    tally of round 2. *)
Definition dice3_playing : Dice.World (MT := specMerchantTag) :=
  Eval vm_compute in
    snd (Dice.beginGame 7
           (Dice.joinAll 7 [(2, name2, 2000); (4, name4, 2500)] dice1)).

Definition dice3_round2 : Dice.World (MT := specMerchantTag) :=
  Eval vm_compute in
    let w1 := snd (Dice.startNextRound 7 4 5 dice3_playing) in
    let w2 := snd (Dice.rollPlayerDice 7 1 5 5 w1) in
    let w3 := snd (Dice.rollPlayerDice 7 2 6 4 w2) in
    let w4 := snd (Dice.rollPlayerDice 7 4 2 3 w3) in
    snd (Dice.startNextRound 7 3 4 (snd (Dice.tallyRound 7 w4))).

Definition dice3_last : Dice.World (MT := specMerchantTag) :=
  Eval vm_compute in
    snd (Dice.rollPlayerDice 7 2 1 2 (snd (Dice.rollPlayerDice 7 1 4 4 dice3_round2))).

(** The store of [dice3_last] with user 2 marked out: user 1 is the only
    player left. *)
Definition dice3_decided_game : Dice.Game :=
  Dice.mkGame 1000 7 Dice.playing 100 300 2 (Some (Dice.mkRoll 3 4 7))
    [Dice.mkPlayer 1 name1 false true (Some 4) (Some 4) (Some 8)
       (Some true) false false;
     Dice.mkPlayer 2 name2 true true (Some 1) (Some 2) (Some 3)
       (Some false) false false;
     Dice.mkPlayer 4 name4 true true (Some 2) (Some 3) (Some 5)
       (Some false) false false]
    1 name1 31000 None None None.

Definition dice3_decided : Dice.World (MT := specMerchantTag) :=
  Dice.setGames {[7 := dice3_decided_game]} dice3_last.

(** Round 1 of the three-player dice game, target 9, after everybody
    rolled below the target. *)
Definition dice3_void : Dice.World (MT := specMerchantTag) :=
  Eval vm_compute in
    snd (Dice.rollPlayerDice 7 4 2 2
           (snd (Dice.rollPlayerDice 7 2 1 2
                   (snd (Dice.rollPlayerDice 7 1 1 1 dice3_round1))))).

(** Four users at entry 50 in the card game: pot 200. *)
Definition low4_waiting : LowCard.World (MT := specMerchantTag) :=
  Eval vm_compute in
    LowCard.joinAll 7 [(2, name2, 2000); (4, name4, 2500); (5, name1, 2600)]
      (snd (LowCard.startGame 7 1 name1 (Some 50) 1000 low0)).

(** A card game in its second round with three players left, all of
    whom have drawn: a nine, a king and a five.  The pot is 150. *)
Definition holder (uid : Z) (name : string) (rank : Z) (su : LowCard.Suit)
    : LowCard.Player :=
  LowCard.mkPlayer uid name false true (Some (LowCard.mkCard rank su)).

Definition low3_game : LowCard.Game :=
  LowCard.mkGame 1000 7 LowCard.playing 50 150 2
    [holder 1 name1 9 LowCard.suit_h; holder 2 name2 13 LowCard.suit_s;
     holder 4 name4 5 LowCard.suit_d]
    1 name1 31000 (Some 40000) (Some 60000) None.

Definition low3 : LowCard.World (MT := specMerchantTag) :=
  LowCard.mkWorld bank0 {[7]} {[7 := low3_game]} ∅ ∅ {[7 := LOWCARD]} ∅.

(** The same game with two kings and a five. *)
Definition low3_shared_game : LowCard.Game :=
  LowCard.mkGame 1000 7 LowCard.playing 50 150 2
    [holder 1 name1 13 LowCard.suit_h; holder 2 name2 13 LowCard.suit_s;
     holder 4 name4 5 LowCard.suit_d]
    1 name1 31000 (Some 40000) (Some 60000) None.

Definition low3_shared : LowCard.World (MT := specMerchantTag) :=
  LowCard.mkWorld bank0 {[7]} {[7 := low3_shared_game]} ∅ ∅ {[7 := LOWCARD]} ∅.

(** A card game in its first round with four players, all of whom have
    drawn: two fives, a nine and a king.  The pot is 200. *)
Definition low4_tie_game : LowCard.Game :=
  LowCard.mkGame 1000 7 LowCard.playing 50 200 1
    [holder 1 name1 5 LowCard.suit_h; holder 2 name2 5 LowCard.suit_s;
     holder 4 name4 9 LowCard.suit_d; holder 5 name3 13 LowCard.suit_c]
    1 name1 31000 (Some 34000) (Some 54000) None.

Definition low4_tie : LowCard.World (MT := specMerchantTag) :=
  LowCard.mkWorld bank0 {[7]} {[7 := low4_tie_game]} ∅ ∅ {[7 := LOWCARD]} ∅.

(** The same game after the redraw of users 1 and 2, who were dealt two
    threes; the session records their earlier tie. *)
Definition low4_tie_again_game : LowCard.Game :=
  LowCard.mkGame 1000 7 LowCard.playing 50 200 1
    [holder 1 name1 3 LowCard.suit_h; holder 2 name2 3 LowCard.suit_s;
     holder 4 name4 9 LowCard.suit_d; holder 5 name3 13 LowCard.suit_c]
    1 name1 31000 (Some 34000) (Some 54000) (Some [1; 2]).

Definition low4_tie_again : LowCard.World (MT := specMerchantTag) :=
  LowCard.mkWorld bank0 {[7]} {[7 := low4_tie_again_game]} ∅ ∅ {[7 := LOWCARD]} ∅.

(** Four players who have all drawn: a four, a five, a nine and a king. *)
Definition low4_single_game : LowCard.Game :=
  LowCard.mkGame 1000 7 LowCard.playing 50 200 1
    [holder 1 name1 4 LowCard.suit_h; holder 2 name2 5 LowCard.suit_s;
     holder 4 name4 9 LowCard.suit_d; holder 5 name3 13 LowCard.suit_c]
    1 name1 31000 (Some 34000) (Some 54000) None.

Definition low4_single : LowCard.World (MT := specMerchantTag) :=
  LowCard.mkWorld bank0 {[7]} {[7 := low4_single_game]} ∅ ∅ {[7 := LOWCARD]} ∅.

(** The last two players of a card game both hold a seven.  The pot is 200. *)
Definition low2_equal_game : LowCard.Game :=
  LowCard.mkGame 1000 7 LowCard.playing 100 200 3
    [holder 1 name1 7 LowCard.suit_h; holder 2 name2 7 LowCard.suit_s]
    1 name1 31000 (Some 40000) (Some 60000) None.

Definition low2_equal : LowCard.World (MT := specMerchantTag) :=
  LowCard.mkWorld bank0 {[7]} {[7 := low2_equal_game]} ∅ ∅ {[7 := LOWCARD]} ∅.

(** Three players in the game, of whom user 4 holds no card. *)
Definition low3_cardless_game : LowCard.Game :=
  LowCard.mkGame 1000 7 LowCard.playing 50 150 2
    [holder 1 name1 9 LowCard.suit_h; holder 2 name2 13 LowCard.suit_s;
     LowCard.mkPlayer 4 name4 false false None]
    1 name1 31000 (Some 40000) (Some 60000) None.

Definition low3_cardless : LowCard.World (MT := specMerchantTag) :=
  LowCard.mkWorld bank0 {[7]} {[7 := low3_cardless_game]} ∅ ∅ {[7 := LOWCARD]} ∅.

(** Four players in the game, of whom user 5 holds no card. *)
Definition low4_cardless_game : LowCard.Game :=
  LowCard.mkGame 1000 7 LowCard.playing 50 200 1
    [holder 1 name1 9 LowCard.suit_h; holder 2 name2 13 LowCard.suit_s;
     holder 4 name4 5 LowCard.suit_d; LowCard.mkPlayer 5 name3 false false None]
    1 name1 31000 (Some 34000) (Some 54000) None.

Definition low4_cardless : LowCard.World (MT := specMerchantTag) :=
  LowCard.mkWorld bank0 {[7]} {[7 := low4_cardless_game]} ∅ ∅ {[7 := LOWCARD]} ∅.

(** The cards users 1 and 2 are dealt in the redraw: a ten and a jack. *)
Definition redrawDeck : list LowCard.Card :=
  [LowCard.mkCard 11 LowCard.suit_s; LowCard.mkCard 10 LowCard.suit_s].
(** A big-game room of the card service, where no maximal entry applies.
    Users 1, 2 and 3 hold [c] credits each. *)
Definition bankOf (c : Z) : Bank (MT := specMerchantTag) :=
  mkBank (MT := specMerchantTag) {[1 := c; 2 := c; 3 := c]} ∅ (∅ : gmap Z Z) [].

Definition lowBig0 (c : Z) : LowCard.World (MT := specMerchantTag) :=
  LowCard.mkWorld (bankOf c) {[7]} ∅ ∅ ∅ {[7 := LOWCARD]} {[7]}.

(** User 1 starts with an entry of all their credits, users 2 and 3 join,
    and the join window closes. *)
Definition lowBig_begun (c : Z) : LowCard.World (MT := specMerchantTag) :=
  snd (LowCard.beginGame 7 31000 LowCard.orderedDeck
         (LowCard.joinAll 7 joins23
            (snd (LowCard.startGame 7 1 name1 (Some c) 1000 (lowBig0 c))))).

(** Round 1: users 1 and 2 draw, and the time-out draws for user 3. *)
Definition lowBig_round1 (c : Z) : LowCard.World (MT := specMerchantTag) :=
  LowCard.autoDrawForTimeout 7 (fun _ => LowCard.orderedDeck)
    (snd (LowCard.drawCardForPlayer 7 2 40000 LowCard.orderedDeck
            (snd (LowCard.drawCardForPlayer 7 1 40000 LowCard.orderedDeck
                    (lowBig_begun c))))).

(** The tally of the timed-out round puts the holder of the lowest card
    out, and in round 2 the two players left draw. *)
Definition lowBig_round2 (c : Z) : LowCard.World (MT := specMerchantTag) :=
  snd (LowCard.drawCardForPlayer 7 2 70000 LowCard.orderedDeck
         (snd (LowCard.drawCardForPlayer 7 1 70000 LowCard.orderedDeck
                 (snd (LowCard.tallyRound 7 true 60000 (lowBig_round1 c)))))).

End Examples.

(** * Properties *)

Ltac zbool :=
  repeat match goal with
  | H : (_ <? _) = true |- _ => apply Z.ltb_lt in H
  | H : (_ <? _) = false |- _ => apply Z.ltb_ge in H
  | H : (_ <=? _) = true |- _ => apply Z.leb_le in H
  | H : (_ <=? _) = false |- _ => apply Z.leb_gt in H
  | H : (_ =? _) = true |- _ => apply Z.eqb_eq in H
  | H : (_ =? _) = false |- _ => apply Z.eqb_neq in H
  end.

(** Taking and releasing a lock that was free leaves the lock set as it was. *)
Lemma lock_release (room : Z) (ls : gset Z) :
  room ∉ ls -> ({[room]} ∪ ls) ∖ {[room]} = ls.
Proof. set_solver. Qed.

Lemma find_userId_In {A : Type} (uid : A -> Z) (u : Z) (l : list A) :
  In u (map uid l) -> exists p, find (fun p => uid p =? u) l = Some p.
Proof.
  induction l as [|x l IH]; simpl; [tauto|].
  intros [Hx | Hin].
  - rewrite Hx, Z.eqb_refl. eauto.
  - destruct (uid x =? u); eauto.
Qed.

Lemma find_userId_None {A : Type} (uid : A -> Z) (u : Z) (l : list A) :
  find (fun p => uid p =? u) l = None -> ~ In u (map uid l).
Proof.
  intros Hf Hin. destruct (find_userId_In uid u l Hin) as [p Hp]. congruence.
Qed.

(** ** Binary64 arithmetic on integers *)

Section Binary64Proofs.
Import Binary64.
(** The exponent of the last bit is at most the one read off the bit
    lengths. *)
Lemma binary64_binExp_le n d : binExp n d <= Z.log2 n - Z.log2 d - 52.
Proof. unfold binExp. destruct (_ <? _); lia. Qed.

(** Rounding a quotient does not move its floor when the remainder stays
    more than half a last bit below the divisor. *)
Lemma binary64_roundNE_floor_exact n d :
  0 <= n -> 0 < d ->
  binExp n d <= 0 ->
  d < 2 * 2 ^ (- binExp n d) * (d - n mod d) ->
  floorOf (roundNE n d) = n / d.
Proof.
  intros Hn Hd He Hgap. unfold roundNE.
  destruct (n =? 0) eqn:E0.
  { apply Z.eqb_eq in E0. subst n. simpl. symmetry. apply Z.div_0_l. lia. }
  cbv zeta. set (e := binExp n d) in *.
  set (T := 2 ^ (- e)) in *.
  assert (HT : 0 < T) by (apply Z.pow_pos_nonneg; lia).
  assert (HN : scaleNum n e = n * T).
  { unfold scaleNum. destruct (0 <=? e) eqn:E; [|reflexivity].
    apply Z.leb_le in E. assert (e = 0) by lia. subst T. rewrite H. simpl. lia. }
  assert (HD : scaleDen d e = d).
  { unfold scaleDen. destruct (0 <=? e) eqn:E; [|reflexivity].
    apply Z.leb_le in E. assert (e = 0) as -> by lia. simpl. lia. }
  rewrite HN, HD.
  assert (Hfl : forall m, floorOf (m, e) = m / T).
  { intros m. unfold floorOf. destruct (0 <=? e) eqn:E; [|reflexivity].
    apply Z.leb_le in E. assert (e = 0) by lia. subst T. rewrite H. simpl.
    rewrite Z.div_1_r. lia. }
  rewrite Hfl.
  pose proof (Z.div_mod n d ltac:(lia)) as Hnd.
  pose proof (Z.mod_pos_bound n d Hd) as Hj.
  set (k := n / d) in *. set (j := n mod d) in *.
  pose proof (Z.div_mod (n * T) d ltac:(lia)) as HqT.
  pose proof (Z.mod_pos_bound (n * T) d Hd) as Hr.
  set (q := n * T / d) in *. set (r := (n * T) mod d) in *.
  assert (Hq1 : k * T <= q) by nia.
  assert (Hq2 : q < k * T + T) by nia.
  destruct ((d <? 2 * r) || ((d =? 2 * r) && Z.odd q)) eqn:Hup.
  - assert (H2r : d <= 2 * r).
    { apply orb_true_iff in Hup as [H | H].
      - apply Z.ltb_lt in H. lia.
      - apply andb_true_iff in H as [H _]. apply Z.eqb_eq in H. lia. }
    assert (Hq3 : q + 1 < k * T + T) by nia.
    symmetry. apply (Z.div_unique_pos (q + 1) T k (q + 1 - k * T)); lia.
  - symmetry. apply (Z.div_unique_pos q T k (q - k * T)); lia.
Qed.

(** Integers below 2^53 are binary64 numbers. *)
Lemma binary64_roundNE_int_exact n :
  0 <= n < 2 ^ 53 -> floorOf (roundNE n 1) = n.
Proof.
  intros [Hn Hlt].
  destruct (Z.eq_dec n 0) as [-> | Hne]; [reflexivity|].
  rewrite binary64_roundNE_floor_exact; try lia.
  - apply Z.div_1_r.
  - pose proof (binary64_binExp_le n 1). simpl in H.
    assert (Z.log2 n < 53) by (apply Z.log2_lt_pow2; lia). lia.
  - rewrite Z.mod_1_r.
    assert (0 < 2 ^ (- binExp n 1)); [|lia].
    apply Z.pow_pos_nonneg; [lia|].
    pose proof (binary64_binExp_le n 1). simpl in H.
    assert (Z.log2 n < 53) by (apply Z.log2_lt_pow2; lia). lia.
Qed.

Lemma binary64_round64_nonneg n d : 0 <= n -> round64 n d = roundNE n d.
Proof.
  intros Hn. unfold round64. rewrite Z.abs_eq by lia.
  destruct (Z.eq_dec n 0) as [-> | Hne]; [reflexivity|].
  destruct (roundNE n d) as [m e]. rewrite Z.sgn_pos by lia. f_equal. lia.
Qed.

Lemma binary64_ofInt_exact n : 0 <= n < 2 ^ 53 -> ofInt n = n.
Proof. intros H. unfold ofInt. rewrite binary64_round64_nonneg by lia. by apply binary64_roundNE_int_exact. Qed.

Lemma binary64_add_exact x y : 0 <= x + y < 2 ^ 53 -> add x y = x + y.
Proof. intros H. unfold add, ofInt. rewrite binary64_round64_nonneg by lia. by apply binary64_roundNE_int_exact. Qed.

Lemma binary64_sub_exact x y : 0 <= x - y < 2 ^ 53 -> sub x y = x - y.
Proof. intros H. unfold sub, ofInt. rewrite binary64_round64_nonneg by lia. by apply binary64_roundNE_int_exact. Qed.

Lemma binary64_mul_exact x y : 0 <= x * y < 2 ^ 53 -> mul x y = x * y.
Proof. intros H. unfold mul, ofInt. rewrite binary64_round64_nonneg by lia. by apply binary64_roundNE_int_exact. Qed.

Lemma binary64_pow2_ge (a e : Z) : 0 <= a -> e <= - a -> 2 ^ a <= 2 ^ (- e).
Proof. intros Ha He. apply Z.pow_le_mono_r; lia. Qed.

(** Below 2^52 the floor of the product with [0.05] is the integer
    quotient by twenty. *)
Lemma binary64_floorMul_fiveHundredths pot :
  0 <= pot < 2 ^ 52 ->
  floorMulDyadic pot fiveHundredths_m fiveHundredths_k = pot / 20.
Proof.
  intros [H0 Hlt]. unfold floorMulDyadic, fiveHundredths_m, fiveHundredths_k.
  change (2 ^ 52) with 4503599627370496 in Hlt.
  change (2 ^ 56) with 72057594037927936.
  rewrite binary64_round64_nonneg by lia.
  pose proof (Z.div_mod pot 20 ltac:(lia)) as Hp.
  pose proof (Z.mod_pos_bound pot 20 ltac:(lia)) as Hi.
  set (k := pot / 20) in *. set (i := pot mod 20) in *.
  set (n := pot * 3602879701896397).
  assert (Hn : n = 72057594037927936 * k + (4 * k + i * 3602879701896397))
    by (unfold n; lia).
  assert (Hr : 0 <= 4 * k + i * 3602879701896397 < 72057594037927936) by lia.
  assert (Hdiv : n / 72057594037927936 = k).
  { symmetry. eapply Z.div_unique_pos; eauto. }
  assert (Hmod : n mod 72057594037927936 = 4 * k + i * 3602879701896397).
  { symmetry. eapply Z.mod_unique_pos; eauto. }
  assert (He : binExp n 72057594037927936 <= -5).
  { pose proof (binary64_binExp_le n 72057594037927936) as Hb.
    change (Z.log2 72057594037927936) with 56 in Hb.
    destruct (Z.eq_dec n 0) as [E | E]; [rewrite E in *; simpl in Hb; lia|].
    assert (Z.log2 n < 104); [|lia].
    apply Z.log2_lt_pow2; [lia|].
    change (2 ^ 104) with 20282409603651670423947251286016. nia. }
  rewrite binary64_roundNE_floor_exact; [exact Hdiv | lia | lia | lia |].
  rewrite Hmod.
  pose proof (binary64_pow2_ge 5 _ ltac:(lia) He) as Hpow.
  change (2 ^ 5) with 32 in Hpow. nia.
Qed.

(** The floor of the binary64 quotient by one hundred of an integer
    below 2^53 is the integer quotient. *)
Lemma binary64_floorDiv_hundred n :
  0 <= n < 2 ^ 53 -> floorDiv n 100 = n / 100.
Proof.
  intros [H0 Hlt]. unfold floorDiv. rewrite binary64_round64_nonneg by lia.
  assert (He : binExp n 100 <= -6).
  { pose proof (binary64_binExp_le n 100) as Hb. change (Z.log2 100) with 6 in Hb.
    destruct (Z.eq_dec n 0) as [E | E]; [rewrite E in *; simpl in Hb; lia|].
    assert (Z.log2 n < 53); [|lia]. apply Z.log2_lt_pow2; lia. }
  rewrite binary64_roundNE_floor_exact; [reflexivity | lia | lia | lia |].
  pose proof (Z.mod_pos_bound n 100 ltac:(lia)).
  pose proof (binary64_pow2_ge 6 _ ltac:(lia) He) as Hpow.
  change (2 ^ 6) with 64 in Hpow. nia.
Qed.

End Binary64Proofs.

(** The rounding of [Binary64] and the IEEE 754 operations of the Standard
    Library's [SpecFloat] give the same numbers where the amounts below
    leave the range of exact integers. *)
Example specFiveHundredths_value :
  specFiveHundredths = S754_finite false 7205759403792794 (-57) /\
  7205759403792794 = 2 * Binary64.fiveHundredths_m /\
  57 = Binary64.fiveHundredths_k + 1.
Proof. vm_compute. repeat split; reflexivity. Qed.

Example binary64_add_agrees :
  SFadd 53 1024 (SFadd 53 1024 (specOfInt 9007199254740991) (specOfInt 9007199254740991))
    (specOfInt 9007199254740991)
  = specOfInt (Binary64.add (Binary64.add 9007199254740991 9007199254740991)
                 9007199254740991) /\
  Binary64.add (Binary64.add 9007199254740991 9007199254740991) 9007199254740991
  = 27021597764222972.
Proof. vm_compute. split; reflexivity. Qed.

Example binary64_commission_agrees :
  SFmul 53 1024 (specOfInt 6755399441055759) specFiveHundredths
  = specOfInt
      (Binary64.floorMulDyadic 6755399441055759
         Binary64.fiveHundredths_m Binary64.fiveHundredths_k) /\
  Binary64.floorMulDyadic 6755399441055759
    Binary64.fiveHundredths_m Binary64.fiveHundredths_k = 337769972052788.
Proof. vm_compute. split; reflexivity. Qed.

(** Sums, fees, commissions and winnings computed by [Binary64] and by
    [SpecFloat] on pots from 1 to 2^60. *)
Example binary64_agrees_on_samples :
  forallb
    (fun p =>
       (specFloor (SFadd 53 1024 (specOfInt p) (specOfInt 999999999))
        =? Binary64.add p 999999999)
       && (specFloor (SFdiv 53 1024 (SFmul 53 1024 (specOfInt p) (specOfInt 10))
                        (specOfInt 100))
           =? Dice.houseFeeOf p)
       && (specFloor (SFsub 53 1024 (specOfInt p) (specOfInt (Dice.houseFeeOf p)))
           =? Dice.winningsOf p)
       && (specFloor (SFmul 53 1024 (specOfInt p) specFiveHundredths)
           =? LowCard.commissionOf p)
       && (specFloor (SFsub 53 1024 (specOfInt p) (specOfInt (LowCard.commissionOf p)))
           =? LowCard.winningsOf p))
    [1; 19; 20; 150; 200; 300; 999999999; 2251799813685253; 3602943436589130;
     4503599627370495; 6755399441055759; 9007199254740991; 9007199254740992;
     18014398509481982; 27021597764222972; 1152921504606846976]
  = true.
Proof. vm_compute. reflexivity. Qed.

(** A pot at which the fee of the dice game is one less than the tenth
    of the pot. *)
Example binary64_houseFee_agrees :
  SFdiv 53 1024 (SFmul 53 1024 (specOfInt 3602943436589130) (specOfInt 10))
    (specOfInt 100)
  = S754_finite false 5764709498542607 (-4) /\
  Dice.houseFeeOf 3602943436589130 = 5764709498542607 / 2 ^ 4 /\
  Dice.houseFeeOf 3602943436589130 = 360294343658912 /\
  3602943436589130 * 10 / 100 = 360294343658913.
Proof. vm_compute. repeat split; reflexivity. Qed.

(** ** Start and join, dice service *)

Section DiceJoinProofs.
Context {MT : MerchantTag}.
Import Dice.

Lemma dice_startGame_success room uid name amount now w res w1 :
  startGame room uid name amount now w = (res, w1) ->
  success res = true ->
  exists entry,
    MIN_ENTRY <= entry <= MAX_ENTRY /\
    games w1 !! room =
      Some (mkGame now room waiting entry entry 0 None [newPlayer uid name]
                   uid name (now + JOIN_TIMEOUT) None None None).
Proof.
  unfold startGame. intros H Hs.
  repeat case_match; simplify_eq; simpl in *; try discriminate.
  all: eexists; split; [|by rewrite lookup_insert_eq].
  all: unfold MIN_ENTRY, MAX_ENTRY in *; zbool; lia.
Qed.

Lemma dice_joinGame_cases room uid name now w res w1 :
  joinGame room uid name now w = (res, w1) ->
  (success res = false /\ games w1 = games w) \/
  (success res = true /\
   exists g, games w !! room = Some g /\ status g = waiting /\ now <= joinDeadline g /\
     find (fun p => userId p =? uid) (players g) = None /\
     games w1 = <[room := setPot (Binary64.add (pot g) (entryAmount g))
                            (setPlayers (players g ++ [newPlayer uid name]) g)]> (games w)).
Proof.
  unfold joinGame. intros H.
  repeat case_match; simplify_eq; simpl in *; auto.
  right. split; [done|]. eexists; split; [done|].
  repeat split; auto.
  - by destruct (status _).
  - zbool; lia.
Qed.

Lemma dice_joinGame_inv room uid name now w entry deadline g :
  games w !! room = Some g -> waitingInv entry deadline g ->
  exists g', games (snd (joinGame room uid name now w)) !! room = Some g' /\
             waitingInv entry deadline g'.
Proof.
  intros Hg Hinv.
  destruct (joinGame room uid name now w) as [res w1] eqn:Hj.
  destruct (dice_joinGame_cases _ _ _ _ _ _ _ Hj) as [[_ Heq] | [_ (g0 & Hg0 & Hst & _ & Hfind & Heq)]];
    simpl; rewrite Heq.
  - eauto.
  - rewrite Hg in Hg0. injection Hg0 as <-.
    rewrite lookup_insert_eq. eexists; split; [done|].
    destruct Hinv as (? & ? & ? & [Hentry Hpot] & Hnd).
    unfold waitingInv, potMatches in *; simpl.
    repeat split; auto.
    + rewrite length_app; simpl. intros Hlt.
      rewrite Hpot by nia. rewrite binary64_add_exact by nia. lia.
    + rewrite map_app; simpl. apply NoDup_app. repeat split; auto.
      * intros x Hx Hx'. apply list_elem_of_In in Hx.
        apply find_userId_None in Hfind.
        apply list_elem_of_singleton in Hx'. subst. auto.
      * apply NoDup_singleton.
Qed.

Lemma dice_joinAll_inv room js w entry deadline g :
  games w !! room = Some g -> waitingInv entry deadline g ->
  exists g', games (joinAll room js w) !! room = Some g' /\
             waitingInv entry deadline g'.
Proof.
  revert w g. induction js as [|j js IH]; intros w g Hg Hinv; simpl; [eauto|].
  destruct (dice_joinGame_inv room j.1.1 j.1.2 j.2 w entry deadline g Hg Hinv)
    as (g1 & Hg1 & Hinv1).
  exact (IH _ _ Hg1 Hinv1).
Qed.

Lemma dice_started_inv uid name now room entry :
  0 <= entry ->
  waitingInv entry (now + JOIN_TIMEOUT)
    (mkGame now room waiting entry entry 0 None [newPlayer uid name]
            uid name (now + JOIN_TIMEOUT) None None None).
Proof.
  intros H0. unfold waitingInv, potMatches; simpl. repeat split; try lia.
  apply NoDup_singleton.
Qed.

Lemma dice_beginGame_started room w n p w' :
  beginGame room w = (BeginStarted n p, w') ->
  exists g, games w !! room = Some g /\ status g = waiting /\
    (2 <= length (players g))%nat /\
    n = length (players g) /\ p = pot g /\
    games w' !! room = Some (setCurrentRound 0 (setStatus playing g)).
Proof.
  unfold beginGame. intros H.
  repeat case_match; simplify_eq; simpl in *.
  eexists; split; [done|]. rewrite lookup_insert_eq.
  repeat split; auto.
  - by destruct (status _).
  - apply Nat.ltb_ge. assumption.
Qed.

Lemma dice_pot_at_begin room uid name amount now w res w1 js n p w3 :
  startGame room uid name amount now w = (res, w1) ->
  success res = true ->
  beginGame room (joinAll room js w1) = (BeginStarted n p, w3) ->
  exists g, games w3 !! room = Some g /\ status g = playing /\
    (entryAmount g * Z.of_nat (length (players g)) < 2 ^ 53 ->
     pot g = entryAmount g * Z.of_nat (length (players g))) /\
    n = length (players g) /\ p = pot g.
Proof.
  intros Hs Hok Hb.
  destruct (dice_startGame_success _ _ _ _ _ _ _ _ Hs Hok) as (entry & Hentry & Hg).
  assert (H0 : 0 <= entry) by (unfold MIN_ENTRY in *; lia).
  destruct (dice_joinAll_inv room js w1 _ _ _ Hg (dice_started_inv uid name now room entry H0))
    as (g' & Hg' & (_ & _ & _ & [_ Hpot] & _)).
  destruct (dice_beginGame_started _ _ _ _ _ Hb) as (g0 & Hg0 & _ & _ & -> & -> & Hw3).
  rewrite Hg' in Hg0. injection Hg0 as <-.
  eexists; split; [exact Hw3|]. simpl. repeat split; auto.
Qed.

Lemma dice_startGame_exclusive room uid name amount now w g :
  games w !! room = Some g ->
  status g = waiting \/ status g = playing ->
  exists res,
    startGame room uid name amount now w = (res, w) /\ success res = false /\
    message res = (if decide (room ∈ locks w) then MsgLockBusy else MsgAlreadyInProgress).
Proof.
  intros Hg Hst. unfold startGame.
  destruct (decide (room ∈ locks w)) as [Hin | Hout]; [eexists; eauto|].
  simpl. rewrite Hg.
  assert (status_eqb (status g) waiting || status_eqb (status g) playing = true) as ->
    by (destruct Hst as [-> | ->]; reflexivity).
  simpl. exists (failure MsgAlreadyInProgress). repeat split.
  rewrite lock_release by assumption. by destruct w.
Qed.

Lemma dice_join_present_refused room uid name now w g :
  games w !! room = Some g ->
  In uid (map userId (players g)) ->
  exists res, joinGame room uid name now w = (res, w) /\ success res = false.
Proof.
  intros Hg Hin. unfold joinGame. rewrite Hg.
  destruct (find_userId_In userId uid (players g) Hin) as [p ->].
  repeat case_match; eexists; eauto.
Qed.

Lemma dice_join_late_refused room uid name now w g :
  games w !! room = Some g ->
  joinDeadline g < now ->
  exists res, joinGame room uid name now w = (res, w) /\ success res = false.
Proof.
  intros Hg Hlate. unfold joinGame. rewrite Hg.
  apply Z.ltb_lt in Hlate. rewrite Hlate.
  repeat case_match; eexists; eauto.
Qed.

Lemma dice_join_success_effect room uid name now w res w1 :
  joinGame room uid name now w = (res, w1) ->
  success res = true ->
  exists g g', games w !! room = Some g /\ games w1 !! room = Some g' /\
    players g' = players g ++ [newPlayer uid name] /\
    pot g' = Binary64.add (pot g) (entryAmount g) /\
    joinDeadline g' = joinDeadline g /\ status g' = status g /\
    entryAmount g' = entryAmount g.
Proof.
  intros Hj Hok.
  destruct (dice_joinGame_cases _ _ _ _ _ _ _ Hj) as [[Hf _] | [_ (g & Hg & _ & _ & _ & Heq)]];
    [congruence|].
  exists g. eexists. split; [done|]. rewrite Heq, lookup_insert_eq. by repeat split.
Qed.

Lemma dice_players_distinct room uid name amount now w res w1 js g :
  startGame room uid name amount now w = (res, w1) ->
  success res = true ->
  games (joinAll room js w1) !! room = Some g ->
  NoDup (map userId (players g)).
Proof.
  intros Hs Hok Hg.
  destruct (dice_startGame_success _ _ _ _ _ _ _ _ Hs Hok) as (entry & Hentry & Hg1).
  assert (H0 : 0 <= entry) by (unfold MIN_ENTRY in *; lia).
  destruct (dice_joinAll_inv room js w1 _ _ _ Hg1 (dice_started_inv uid name now room entry H0))
    as (g' & Hg' & (_ & _ & _ & _ & Hnd)).
  congruence.
Qed.

End DiceJoinProofs.

(** ** Start and join, card service *)

Section LowCardJoinProofs.
Context {MT : MerchantTag}.
Import LowCard.

Lemma lowcard_startGame_success room uid name amount now w res w1 :
  startGame room uid name amount now w = (res, w1) ->
  success res = true ->
  exists entry,
    MIN_ENTRY <= entry /\
    games w1 !! room =
      Some (mkGame now room waiting entry entry 0 [newPlayer uid name]
                   uid name (now + JOIN_TIMEOUT) None None None).
Proof.
  unfold startGame. intros H Hs.
  repeat case_match; simplify_eq; simpl in *; try discriminate.
  all: eexists; split; [|by rewrite lookup_insert_eq].
  all: unfold MIN_ENTRY, MIN_ENTRY_BIG_GAME in *; zbool; lia.
Qed.

Lemma lowcard_joinGame_cases room uid name now w res w1 :
  joinGame room uid name now w = (res, w1) ->
  (success res = false /\ games w1 = games w) \/
  (success res = true /\
   exists g, games w !! room = Some g /\ status g = waiting /\ now <= joinDeadline g /\
     find (fun p => userId p =? uid) (players g) = None /\
     games w1 = <[room := setPot (Binary64.add (pot g) (entryAmount g))
                            (setPlayers (players g ++ [newPlayer uid name]) g)]> (games w)).
Proof.
  unfold joinGame. intros H.
  repeat case_match; simplify_eq; simpl in *; auto.
  right. split; [done|]. eexists; split; [done|].
  repeat split; auto.
  - by destruct (status _).
  - zbool; lia.
Qed.

Lemma lowcard_joinGame_inv room uid name now w entry deadline g :
  games w !! room = Some g -> waitingInv entry deadline g ->
  exists g', games (snd (joinGame room uid name now w)) !! room = Some g' /\
             waitingInv entry deadline g'.
Proof.
  intros Hg Hinv.
  destruct (joinGame room uid name now w) as [res w1] eqn:Hj.
  destruct (lowcard_joinGame_cases _ _ _ _ _ _ _ Hj) as [[_ Heq] | [_ (g0 & Hg0 & Hst & _ & Hfind & Heq)]];
    simpl; rewrite Heq.
  - eauto.
  - rewrite Hg in Hg0. injection Hg0 as <-.
    rewrite lookup_insert_eq. eexists; split; [done|].
    destruct Hinv as (? & ? & ? & [Hentry Hpot] & Hnd).
    unfold waitingInv, potMatches in *; simpl.
    repeat split; auto.
    + rewrite length_app; simpl. intros Hlt.
      rewrite Hpot by nia. rewrite binary64_add_exact by nia. lia.
    + rewrite map_app; simpl. apply NoDup_app. repeat split; auto.
      * intros x Hx Hx'. apply list_elem_of_In in Hx.
        apply find_userId_None in Hfind.
        apply list_elem_of_singleton in Hx'. subst. auto.
      * apply NoDup_singleton.
Qed.

Lemma lowcard_joinAll_inv room js w entry deadline g :
  games w !! room = Some g -> waitingInv entry deadline g ->
  exists g', games (joinAll room js w) !! room = Some g' /\
             waitingInv entry deadline g'.
Proof.
  revert w g. induction js as [|j js IH]; intros w g Hg Hinv; simpl; [eauto|].
  destruct (lowcard_joinGame_inv room j.1.1 j.1.2 j.2 w entry deadline g Hg Hinv)
    as (g1 & Hg1 & Hinv1).
  exact (IH _ _ Hg1 Hinv1).
Qed.

Lemma lowcard_started_inv uid name now room entry :
  0 <= entry ->
  waitingInv entry (now + JOIN_TIMEOUT)
    (mkGame now room waiting entry entry 0 [newPlayer uid name]
            uid name (now + JOIN_TIMEOUT) None None None).
Proof.
  intros H0. unfold waitingInv, potMatches; simpl. repeat split; try lia.
  apply NoDup_singleton.
Qed.

Lemma lowcard_beginGame_started room now shuffled w n w' :
  beginGame room now shuffled w = (BeginStarted n, w') ->
  exists g g', games w !! room = Some g /\ status g = waiting /\
    (2 <= length (players g))%nat /\
    n = length (players g) /\
    games w' !! room = Some g' /\ status g' = playing /\
    pot g' = pot g /\ entryAmount g' = entryAmount g /\
    length (players g') = length (players g).
Proof.
  unfold beginGame. intros H.
  repeat case_match; simplify_eq; simpl in *.
  eexists; eexists; split; [done|]. rewrite lookup_insert_eq.
  repeat split; auto.
  - by destruct (status _).
  - apply Nat.ltb_ge. assumption.
  - simpl. by rewrite length_map.
  - simpl. by rewrite length_map.
Qed.

Lemma lowcard_pot_at_begin room uid name amount now w res w1 js now' shuffled n w3 :
  startGame room uid name amount now w = (res, w1) ->
  success res = true ->
  beginGame room now' shuffled (joinAll room js w1) = (BeginStarted n, w3) ->
  exists g, games w3 !! room = Some g /\ status g = playing /\
    (entryAmount g * Z.of_nat (length (players g)) < 2 ^ 53 ->
     pot g = entryAmount g * Z.of_nat (length (players g))) /\
    n = length (players g).
Proof.
  intros Hs Hok Hb.
  destruct (lowcard_startGame_success _ _ _ _ _ _ _ _ Hs Hok) as (entry & Hentry & Hg).
  assert (H0 : 0 <= entry) by (unfold MIN_ENTRY in *; lia).
  destruct (lowcard_joinAll_inv room js w1 _ _ _ Hg (lowcard_started_inv uid name now room entry H0))
    as (g' & Hg' & (_ & _ & _ & [_ Hpot] & _)).
  destruct (lowcard_beginGame_started _ _ _ _ _ _ Hb)
    as (g0 & g3 & Hg0 & _ & _ & -> & Hw3 & Hst & Hp & He & Hl).
  rewrite Hg' in Hg0. injection Hg0 as <-.
  exists g3. split; [exact Hw3|].
  rewrite Hp, He, Hl. repeat split; auto.
Qed.

Lemma lowcard_startGame_exclusive room uid name amount now w g :
  games w !! room = Some g ->
  status g = waiting \/ status g = playing ->
  exists res,
    startGame room uid name amount now w = (res, w) /\ success res = false /\
    message res = (if decide (room ∈ locks w) then MsgLockBusy else MsgAlreadyInProgress).
Proof.
  intros Hg Hst. unfold startGame.
  destruct (decide (room ∈ locks w)) as [Hin | Hout]; [eexists; eauto|].
  simpl. rewrite Hg.
  assert (status_eqb (status g) waiting || status_eqb (status g) playing = true) as ->
    by (destruct Hst as [-> | ->]; reflexivity).
  simpl. exists (failure MsgAlreadyInProgress). repeat split.
  rewrite lock_release by assumption. by destruct w.
Qed.

Lemma lowcard_join_present_refused room uid name now w g :
  games w !! room = Some g ->
  In uid (map userId (players g)) ->
  exists res, joinGame room uid name now w = (res, w) /\ success res = false.
Proof.
  intros Hg Hin. unfold joinGame. rewrite Hg.
  destruct (find_userId_In userId uid (players g) Hin) as [p ->].
  repeat case_match; eexists; eauto.
Qed.

Lemma lowcard_join_late_refused room uid name now w g :
  games w !! room = Some g ->
  joinDeadline g < now ->
  exists res, joinGame room uid name now w = (res, w) /\ success res = false.
Proof.
  intros Hg Hlate. unfold joinGame. rewrite Hg.
  apply Z.ltb_lt in Hlate. rewrite Hlate.
  repeat case_match; eexists; eauto.
Qed.

Lemma lowcard_join_success_effect room uid name now w res w1 :
  joinGame room uid name now w = (res, w1) ->
  success res = true ->
  exists g g', games w !! room = Some g /\ games w1 !! room = Some g' /\
    players g' = players g ++ [newPlayer uid name] /\
    pot g' = Binary64.add (pot g) (entryAmount g) /\
    joinDeadline g' = joinDeadline g /\ status g' = status g /\
    entryAmount g' = entryAmount g /\
    countdownEndsAt g' = countdownEndsAt g /\ roundDeadline g' = roundDeadline g.
Proof.
  intros Hj Hok.
  destruct (lowcard_joinGame_cases _ _ _ _ _ _ _ Hj) as [[Hf _] | [_ (g & Hg & _ & _ & _ & Heq)]];
    [congruence|].
  exists g. eexists. split; [done|]. rewrite Heq, lookup_insert_eq. by repeat split.
Qed.

Lemma lowcard_players_distinct room uid name amount now w res w1 js g :
  startGame room uid name amount now w = (res, w1) ->
  success res = true ->
  games (joinAll room js w1) !! room = Some g ->
  NoDup (map userId (players g)).
Proof.
  intros Hs Hok Hg.
  destruct (lowcard_startGame_success _ _ _ _ _ _ _ _ Hs Hok) as (entry & Hentry & Hg1).
  assert (H0 : 0 <= entry) by (unfold MIN_ENTRY in *; lia).
  destruct (lowcard_joinAll_inv room js w1 _ _ _ Hg1 (lowcard_started_inv uid name now room entry H0))
    as (g' & Hg' & (_ & _ & _ & _ & Hnd)).
  congruence.
Qed.

End LowCardJoinProofs.

(** ** Claims on start and join *)

(** C1.  For both services: a successful [startGame] stores a waiting
    session whose pot is the entry amount and whose only player is the
    starter; a successful [joinGame] appends exactly one player and adds
    the entry amount to the pot as JavaScript adds numbers, which is the
    exact sum as long as that is below 2^53; hence, after a successful
    start and any run of join commands, when [beginGame] moves the session
    from waiting to playing its pot is [entryAmount] times the number of
    players whenever that product is below 2^53. *)
Theorem pot_is_entry_times_players (MT : MerchantTag) :
  (forall room uid name amount now w res w1,
     Dice.startGame room uid name amount now w = (res, w1) ->
     Dice.success res = true ->
     (exists g, Dice.games w1 !! room = Some g /\ Dice.status g = Dice.waiting /\
        Dice.pot g = Dice.entryAmount g /\
        Dice.players g = [Dice.newPlayer uid name]) /\
     forall js n p w3,
       Dice.beginGame room (Dice.joinAll room js w1) = (Dice.BeginStarted n p, w3) ->
       exists g, Dice.games w3 !! room = Some g /\ Dice.status g = Dice.playing /\
         n = length (Dice.players g) /\ p = Dice.pot g /\
         (Dice.entryAmount g * Z.of_nat (length (Dice.players g)) < 2 ^ 53 ->
          Dice.pot g = Dice.entryAmount g * Z.of_nat (length (Dice.players g)))) /\
  (forall room uid name now w res w1,
     Dice.joinGame room uid name now w = (res, w1) ->
     Dice.success res = true ->
     exists g g', Dice.games w !! room = Some g /\ Dice.games w1 !! room = Some g' /\
       Dice.players g' = Dice.players g ++ [Dice.newPlayer uid name] /\
       Dice.pot g' = Binary64.add (Dice.pot g) (Dice.entryAmount g) /\
       (0 <= Dice.pot g + Dice.entryAmount g < 2 ^ 53 ->
        Dice.pot g' = Dice.pot g + Dice.entryAmount g)) /\
  (forall room uid name amount now w res w1,
     LowCard.startGame room uid name amount now w = (res, w1) ->
     LowCard.success res = true ->
     (exists g, LowCard.games w1 !! room = Some g /\ LowCard.status g = LowCard.waiting /\
        LowCard.pot g = LowCard.entryAmount g /\
        LowCard.players g = [LowCard.newPlayer uid name]) /\
     forall js now' shuffled n w3,
       LowCard.beginGame room now' shuffled (LowCard.joinAll room js w1)
         = (LowCard.BeginStarted n, w3) ->
       exists g, LowCard.games w3 !! room = Some g /\ LowCard.status g = LowCard.playing /\
         n = length (LowCard.players g) /\
         (LowCard.entryAmount g * Z.of_nat (length (LowCard.players g)) < 2 ^ 53 ->
          LowCard.pot g =
          LowCard.entryAmount g * Z.of_nat (length (LowCard.players g)))) /\
  (forall room uid name now w res w1,
     LowCard.joinGame room uid name now w = (res, w1) ->
     LowCard.success res = true ->
     exists g g', LowCard.games w !! room = Some g /\ LowCard.games w1 !! room = Some g' /\
       LowCard.players g' = LowCard.players g ++ [LowCard.newPlayer uid name] /\
       LowCard.pot g' = Binary64.add (LowCard.pot g) (LowCard.entryAmount g) /\
       (0 <= LowCard.pot g + LowCard.entryAmount g < 2 ^ 53 ->
        LowCard.pot g' = LowCard.pot g + LowCard.entryAmount g)).
Proof.
  split; [|split; [|split]].
  - intros room uid name amount now w res w1 Hs Hok. split.
    + destruct (dice_startGame_success _ _ _ _ _ _ _ _ Hs Hok) as (entry & _ & Hg).
      eexists; split; [exact Hg|]. by repeat split.
    + intros js n p w3 Hb.
      destruct (dice_pot_at_begin _ _ _ _ _ _ _ _ _ _ _ _ Hs Hok Hb)
        as (g & ? & ? & ? & ? & ?).
      exists g. by repeat split.
  - intros room uid name now w res w1 Hj Hok.
    destruct (dice_join_success_effect _ _ _ _ _ _ _ Hj Hok)
      as (g & g' & ? & ? & ? & Hp & _).
    exists g, g'. repeat split; auto.
    intros Hlt. rewrite Hp. by apply binary64_add_exact.
  - intros room uid name amount now w res w1 Hs Hok. split.
    + destruct (lowcard_startGame_success _ _ _ _ _ _ _ _ Hs Hok) as (entry & _ & Hg).
      eexists; split; [exact Hg|]. by repeat split.
    + intros js now' shuffled n w3 Hb.
      destruct (lowcard_pot_at_begin _ _ _ _ _ _ _ _ _ _ _ _ _ Hs Hok Hb)
        as (g & ? & ? & ? & ?).
      exists g. by repeat split.
  - intros room uid name now w res w1 Hj Hok.
    destruct (lowcard_join_success_effect _ _ _ _ _ _ _ Hj Hok)
      as (g & g' & ? & ? & ? & Hp & _).
    exists g, g'. repeat split; auto.
    intros Hlt. rewrite Hp. by apply binary64_add_exact.
Qed.

(** Room 7 of either service: user 1 starts with entry 100, user 2 joins
    and the pot goes from 100 to 200, user 3 cannot pay; the game begins
    with two players and a pot of 200. *)
Lemma pot_is_entry_times_players_witness :
  (exists g,
     Dice.games (snd (Dice.beginGame 7 (Dice.joinAll 7 Examples.joins23 Examples.dice1)))
       !! 7 = Some g /\
     length (Dice.players g) = 2%nat /\ Dice.entryAmount g = 100 /\
     Dice.pot g = 200 /\
     Dice.pot g = Dice.entryAmount g * Z.of_nat (length (Dice.players g))) /\
  (exists g g',
     Dice.games Examples.dice1 !! 7 = Some g /\
     Dice.games (snd (Dice.joinGame 7 2 Examples.name2 2000 Examples.dice1)) !! 7
       = Some g' /\
     length (Dice.players g') = 2%nat /\ Dice.pot g = 100 /\ Dice.pot g' = 200) /\
  (exists g,
     LowCard.games
       (snd (LowCard.beginGame 7 31000 LowCard.orderedDeck
               (LowCard.joinAll 7 Examples.joins23 Examples.low1))) !! 7 = Some g /\
     length (LowCard.players g) = 2%nat /\ LowCard.entryAmount g = 100 /\
     LowCard.pot g = 200 /\
     LowCard.pot g = LowCard.entryAmount g * Z.of_nat (length (LowCard.players g))) /\
  (exists g g',
     LowCard.games Examples.low1 !! 7 = Some g /\
     LowCard.games (snd (LowCard.joinGame 7 2 Examples.name2 2000 Examples.low1)) !! 7
       = Some g' /\
     length (LowCard.players g') = 2%nat /\ LowCard.pot g = 100 /\
     LowCard.pot g' = 200).
Proof.
  destruct (pot_is_entry_times_players specMerchantTag) as (Hd & Hdj & Hc & Hcj).
  split; [|split; [|split]].
  - destruct (Hd 7 1 Examples.name1 (Some 100) 1000 Examples.dice0
                (fst (Dice.startGame 7 1 Examples.name1 (Some 100) 1000 Examples.dice0))
                Examples.dice1 eq_refl eq_refl) as [_ Hb].
    destruct (Hb Examples.joins23 2%nat 200
                (snd (Dice.beginGame 7 (Dice.joinAll 7 Examples.joins23 Examples.dice1)))
                eq_refl) as (g & Hg & _ & Hn & Hp & Hpot).
    exists g. split; [exact Hg|].
    vm_compute in Hg. injection Hg as <-.
    do 3 (split; [reflexivity|]). apply Hpot. reflexivity.
  - destruct (Hdj 7 2 Examples.name2 2000 Examples.dice1
                (fst (Dice.joinGame 7 2 Examples.name2 2000 Examples.dice1))
                (snd (Dice.joinGame 7 2 Examples.name2 2000 Examples.dice1))
                eq_refl eq_refl) as (g & g' & Hg & Hg' & Hpl & _ & Hpot).
    exists g, g'. split; [exact Hg|]. split; [exact Hg'|].
    vm_compute in Hg. injection Hg as <-.
    rewrite Hpl, Hpot by (simpl; lia).
    repeat split.
  - destruct (Hc 7 1 Examples.name1 (Some 100) 1000 Examples.low0
                (fst (LowCard.startGame 7 1 Examples.name1 (Some 100) 1000 Examples.low0))
                Examples.low1 eq_refl eq_refl) as [_ Hb].
    destruct (Hb Examples.joins23 31000 LowCard.orderedDeck 2%nat
                (snd (LowCard.beginGame 7 31000 LowCard.orderedDeck
                        (LowCard.joinAll 7 Examples.joins23 Examples.low1)))
                eq_refl) as (g & Hg & _ & Hn & Hpot).
    exists g. split; [exact Hg|].
    vm_compute in Hg. injection Hg as <-.
    do 3 (split; [reflexivity|]). apply Hpot. reflexivity.
  - destruct (Hcj 7 2 Examples.name2 2000 Examples.low1
                (fst (LowCard.joinGame 7 2 Examples.name2 2000 Examples.low1))
                (snd (LowCard.joinGame 7 2 Examples.name2 2000 Examples.low1))
                eq_refl eq_refl) as (g & g' & Hg & Hg' & Hpl & _ & Hpot).
    exists g, g'. split; [exact Hg|]. split; [exact Hg'|].
    vm_compute in Hg. injection Hg as <-.
    rewrite Hpl, Hpot by (simpl; lia).
    repeat split.
Defined.

(** C1 without the bound: the pot is not the product once it leaves the
    range of exact integers.  In a big-game room of the card service user
    1 starts with entry 2^53 - 1 = 9007199254740991 and users 2 and 3
    join, each holding that many credits: all three calls succeed, the
    game begins with three players, and its pot is 27021597764222972, one
    less than three times the entry amount. *)
Lemma pot_is_entry_times_players_counterexample :
  let started := LowCard.startGame 7 1 Examples.name1 (Some 9007199254740991) 1000
                   (Examples.lowBig0 9007199254740991) in
  let joined2 := LowCard.joinGame 7 2 Examples.name2 2000 (snd started) in
  let joined3 := LowCard.joinGame 7 3 Examples.name3 3000 (snd joined2) in
  let begun := LowCard.beginGame 7 31000 LowCard.orderedDeck (snd joined3) in
  LowCard.success (fst started) = true /\
  LowCard.success (fst joined2) = true /\
  LowCard.success (fst joined3) = true /\
  fst begun = LowCard.BeginStarted 3 /\
  exists g, LowCard.games (snd begun) !! 7 = Some g /\
    LowCard.status g = LowCard.playing /\
    LowCard.entryAmount g = 9007199254740991 /\
    length (LowCard.players g) = 3%nat /\
    LowCard.pot g = 27021597764222972 /\
    LowCard.pot g <> LowCard.entryAmount g * Z.of_nat (length (LowCard.players g)).
Proof.
  vm_compute. repeat split; try reflexivity.
  eexists. repeat split; discriminate.
Qed.

(** C4.  In a room whose stored session is waiting or playing,
    [startGame] fails and returns the stores exactly as they were: no
    second session, the stored one untouched, nothing debited.  The failure
    is the "game already in progress" one, unless a concurrent start holds
    the room's lock, in which case the caller is refused even earlier. *)
Theorem start_refused_while_session_exists (MT : MerchantTag) :
  (forall room uid name amount now w g,
     Dice.games w !! room = Some g ->
     Dice.status g = Dice.waiting \/ Dice.status g = Dice.playing ->
     exists res,
       Dice.startGame room uid name amount now w = (res, w) /\
       Dice.success res = false /\
       Dice.message res =
         (if decide (room ∈ Dice.locks w)
          then Dice.MsgLockBusy else Dice.MsgAlreadyInProgress)) /\
  (forall room uid name amount now w g,
     LowCard.games w !! room = Some g ->
     LowCard.status g = LowCard.waiting \/ LowCard.status g = LowCard.playing ->
     exists res,
       LowCard.startGame room uid name amount now w = (res, w) /\
       LowCard.success res = false /\
       LowCard.message res =
         (if decide (room ∈ LowCard.locks w)
          then LowCard.MsgLockBusy else LowCard.MsgAlreadyInProgress)).
Proof.
  split.
  - intros. by eapply dice_startGame_exclusive.
  - intros. by eapply lowcard_startGame_exclusive.
Qed.

(** User 2 sends [!start 50] while the game of user 1 is waiting. *)
Lemma start_refused_while_session_exists_witness :
  exists res,
    Dice.startGame 7 2 Examples.name2 (Some 50) 5000 Examples.dice1
      = (res, Examples.dice1) /\
    Dice.success res = false /\
    Dice.message res = Dice.MsgAlreadyInProgress.
Proof.
  refine (proj1 (start_refused_while_session_exists specMerchantTag)
            7 2 Examples.name2 (Some 50) 5000 Examples.dice1
            (Dice.mkGame 1000 7 Dice.waiting 100 100 0 None
               [Dice.newPlayer 1 Examples.name1] 1 Examples.name1 31000 None None None)
            _ _).
  - reflexivity.
  - left. reflexivity.
Defined.

(** C5.  For both services: [joinGame] by a user whose id is already in
    [players] fails and returns the stores as they were (no debit, session
    unchanged); after a successful start and any run of join commands no
    user id occurs twice in [players]; a join after the join deadline
    fails, again with the stores unchanged; and a successful join leaves
    every deadline of the session as it was. *)
Theorem join_is_idempotent_and_bounded (MT : MerchantTag) :
  ((forall room uid name now w g,
      Dice.games w !! room = Some g ->
      In uid (map Dice.userId (Dice.players g)) ->
      exists res, Dice.joinGame room uid name now w = (res, w) /\
                  Dice.success res = false) /\
   (forall room uid name amount now w res w1 js g,
      Dice.startGame room uid name amount now w = (res, w1) ->
      Dice.success res = true ->
      Dice.games (Dice.joinAll room js w1) !! room = Some g ->
      NoDup (map Dice.userId (Dice.players g))) /\
   (forall room uid name now w g,
      Dice.games w !! room = Some g ->
      Dice.joinDeadline g < now ->
      exists res, Dice.joinGame room uid name now w = (res, w) /\
                  Dice.success res = false) /\
   (forall room uid name now w res w1,
      Dice.joinGame room uid name now w = (res, w1) ->
      Dice.success res = true ->
      exists g g', Dice.games w !! room = Some g /\ Dice.games w1 !! room = Some g' /\
        Dice.joinDeadline g' = Dice.joinDeadline g)) /\
  ((forall room uid name now w g,
      LowCard.games w !! room = Some g ->
      In uid (map LowCard.userId (LowCard.players g)) ->
      exists res, LowCard.joinGame room uid name now w = (res, w) /\
                  LowCard.success res = false) /\
   (forall room uid name amount now w res w1 js g,
      LowCard.startGame room uid name amount now w = (res, w1) ->
      LowCard.success res = true ->
      LowCard.games (LowCard.joinAll room js w1) !! room = Some g ->
      NoDup (map LowCard.userId (LowCard.players g))) /\
   (forall room uid name now w g,
      LowCard.games w !! room = Some g ->
      LowCard.joinDeadline g < now ->
      exists res, LowCard.joinGame room uid name now w = (res, w) /\
                  LowCard.success res = false) /\
   (forall room uid name now w res w1,
      LowCard.joinGame room uid name now w = (res, w1) ->
      LowCard.success res = true ->
      exists g g', LowCard.games w !! room = Some g /\
        LowCard.games w1 !! room = Some g' /\
        LowCard.joinDeadline g' = LowCard.joinDeadline g /\
        LowCard.countdownEndsAt g' = LowCard.countdownEndsAt g /\
        LowCard.roundDeadline g' = LowCard.roundDeadline g)).
Proof.
  split; (split; [|split; [|split]]).
  - intros. by eapply dice_join_present_refused.
  - intros. by eapply dice_players_distinct.
  - intros. by eapply dice_join_late_refused.
  - intros room uid name now w res w1 Hj Hok.
    destruct (dice_join_success_effect _ _ _ _ _ _ _ Hj Hok)
      as (g & g' & ? & ? & _ & _ & ? & _).
    by exists g, g'.
  - intros. by eapply lowcard_join_present_refused.
  - intros. by eapply lowcard_players_distinct.
  - intros. by eapply lowcard_join_late_refused.
  - intros room uid name now w res w1 Hj Hok.
    destruct (lowcard_join_success_effect _ _ _ _ _ _ _ Hj Hok)
      as (g & g' & ? & ? & _ & _ & ? & _ & _ & ? & ?).
    by exists g, g'.
Qed.

(** User 1, who started the game, sends [!j]. *)
Lemma join_is_idempotent_and_bounded_witness :
  exists res,
    Dice.joinGame 7 1 Examples.name1 2000 Examples.dice1 = (res, Examples.dice1) /\
    Dice.success res = false.
Proof.
  refine (proj1 (proj1 (join_is_idempotent_and_bounded specMerchantTag))
            7 1 Examples.name1 2000 Examples.dice1
            (Dice.mkGame 1000 7 Dice.waiting 100 100 0 None
               [Dice.newPlayer 1 Examples.name1] 1 Examples.name1 31000 None None None)
            _ _).
  - reflexivity.
  - simpl. left. reflexivity.
Defined.

(** ** Failed debits *)

Section LedgerProofs.
Context {MT : MerchantTag}.

(** A failed [deductCredits] leaves the [users] table and the transaction
    log alone, but it returns after the tagged stage has run and undoes
    nothing of it: the tagged store is the one [consumeForGame] left. *)
Lemma deductCredits_failure gt uid amount name reason b res b' :
  deductCredits gt uid amount name reason b = (res, b') ->
  dr_success res = false ->
  users b' = users b /\ credit_logs b' = credit_logs b /\
  tagged b' =
    (if 0 <? getTaggedBalance uid (tagged b)
     then snd (consumeForGame uid gt amount (tagged b))
     else tagged b).
Proof.
  unfold deductCredits, getUserCredits. intros H Hf.
  repeat case_match; simplify_eq; simpl in *; try discriminate; auto.
Qed.

End LedgerProofs.

(** C2, evaluated.  User 3 holds 10 credits and 30 tagged credits and
    sends [!j] to a game with entry 100 (dice), or [!start 100] (cards).
    The command is refused with the not-enough-credits notice, no session
    is created or changed and the [users] table is untouched; but the 30
    tagged credits taken by the pre-deduction stage are gone.  The tagged
    stage is the one of [specMerchantTag]. *)
Theorem failed_debit_keeps_tagged_credits :
  (let r := Dice.joinGame 7 3 Examples.name3 3000 Examples.dice1 in
   Dice.success (fst r) = false /\
   Dice.message (fst r) = Dice.MsgNotEnoughCredits 100 /\
   Dice.games (snd r) = Dice.games Examples.dice1 /\
   users (Dice.bank (snd r)) = users (Dice.bank Examples.dice1) /\
   credit_logs (Dice.bank (snd r)) = credit_logs (Dice.bank Examples.dice1) /\
   getTaggedBalance 3 (tagged (Dice.bank Examples.dice1)) = 30 /\
   getTaggedBalance 3 (tagged (Dice.bank (snd r))) = 0) /\
  (let r := LowCard.startGame 7 3 Examples.name3 (Some 100) 1000 Examples.low0 in
   LowCard.success (fst r) = false /\
   LowCard.message (fst r) = LowCard.MsgNotEnoughCredits 100 /\
   LowCard.games (snd r) = LowCard.games Examples.low0 /\
   users (LowCard.bank (snd r)) = users (LowCard.bank Examples.low0) /\
   credit_logs (LowCard.bank (snd r)) = credit_logs (LowCard.bank Examples.low0) /\
   getTaggedBalance 3 (tagged (LowCard.bank Examples.low0)) = 30 /\
   getTaggedBalance 3 (tagged (LowCard.bank (snd r))) = 0).
Proof. split; cbv zeta; repeat split; reflexivity. Qed.

(** ** Destroying a session *)

Section RemoveProofs.
Context {MT : MerchantTag}.

(** Removing the bot while the stored session is not waiting deletes the
    session and credits nobody. *)
Lemma dice_removeBot_not_waiting room w g :
  room ∈ Dice.bots w ->
  Dice.games w !! room = Some g ->
  Dice.status g <> Dice.waiting ->
  exists res w', Dice.removeBotFromRoom room w = (res, w') /\
    Dice.success res = true /\ Dice.games w' !! room = None /\
    Dice.bank w' = Dice.bank w.
Proof.
  intros Hb Hg Hst. unfold Dice.removeBotFromRoom.
  destruct (decide (room ∈ Dice.bots w)); [|done].
  rewrite Hg. eexists; eexists; split; [reflexivity|]. simpl.
  rewrite lookup_delete_eq. repeat split.
  destruct (Dice.status g); simpl; congruence.
Qed.

Lemma lowcard_removeBot_not_waiting room w g :
  room ∈ LowCard.bots w ->
  LowCard.games w !! room = Some g ->
  LowCard.status g <> LowCard.waiting ->
  exists res w', LowCard.removeBotFromRoom room w = (res, w') /\
    LowCard.success res = true /\ LowCard.games w' !! room = None /\
    LowCard.bank w' = LowCard.bank w.
Proof.
  intros Hb Hg Hst. unfold LowCard.removeBotFromRoom.
  destruct (decide (room ∈ LowCard.bots w)); [|done].
  rewrite Hg. eexists; eexists; split; [reflexivity|]. simpl.
  rewrite lookup_delete_eq. repeat split.
  destruct (LowCard.status g); simpl; congruence.
Qed.

End RemoveProofs.

(** C3, evaluated.  Room 7 is playing with users 1 and 2, both still in,
    each having paid the entry of 100 and holding 400 credits.  Removing
    the bot flag deletes the session and leaves both at 400: nobody is
    refunded.  On the same stores [Dice.cancelGame] deletes the session
    and brings both back to 500. *)
Theorem bot_removal_while_playing_refunds_nobody :
  (let r := Dice.removeBotFromRoom 7 Examples.dice2 in
   (exists g, Dice.games Examples.dice2 !! 7 = Some g /\
      Dice.status g = Dice.playing /\ Dice.entryAmount g = 100 /\
      map Dice.userId (List.filter Dice.active (Dice.players g)) = [1; 2]) /\
   users (Dice.bank Examples.dice2) !! 1 = Some 400 /\
   users (Dice.bank Examples.dice2) !! 2 = Some 400 /\
   Dice.success (fst r) = true /\
   Dice.games (snd r) !! 7 = None /\
   users (Dice.bank (snd r)) !! 1 = Some 400 /\
   users (Dice.bank (snd r)) !! 2 = Some 400 /\
   Dice.bank (snd r) = Dice.bank Examples.dice2 /\
   let c := Dice.cancelGame 7 Examples.dice2 in
   Dice.success (fst c) = true /\
   Dice.games (snd c) !! 7 = None /\
   users (Dice.bank (snd c)) !! 1 = Some 500 /\
   users (Dice.bank (snd c)) !! 2 = Some 500) /\
  (let r := LowCard.removeBotFromRoom 7 Examples.low2 in
   (exists g, LowCard.games Examples.low2 !! 7 = Some g /\
      LowCard.status g = LowCard.playing /\ LowCard.entryAmount g = 100 /\
      map LowCard.userId (List.filter LowCard.active (LowCard.players g)) = [1; 2]) /\
   users (LowCard.bank Examples.low2) !! 1 = Some 400 /\
   users (LowCard.bank Examples.low2) !! 2 = Some 400 /\
   LowCard.success (fst r) = true /\
   LowCard.games (snd r) !! 7 = None /\
   users (LowCard.bank (snd r)) !! 1 = Some 400 /\
   users (LowCard.bank (snd r)) !! 2 = Some 400 /\
   LowCard.bank (snd r) = LowCard.bank Examples.low2).
Proof.
  split; cbv zeta;
    (split; [eexists; split; [reflexivity | repeat split]|]);
    repeat split; reflexivity.
Qed.

(** ** Pay-out *)

(** Effect of a credit on an existing account. *)
Lemma addCredits_existing {MT : MerchantTag} uid amount name reason (b : Bank) bal :
  users b !! uid = Some bal ->
  exists b', addCredits uid amount name reason b = (mkAddResult true (bal + amount), b') /\
    users b' = <[uid := bal + amount]> (users b) /\
    tagged b' = tagged b.
Proof.
  intros Hu. unfold addCredits. rewrite Hu.
  destruct (truthy name); eexists; split; reflexivity || (simpl; auto).
Qed.

Lemma find_filter_head {A : Type} (f : A -> bool) (l : list A) x tl :
  List.filter f l = x :: tl -> find f l = Some x.
Proof.
  induction l as [|y l IH]; simpl; [discriminate|].
  destruct (f y) eqn:Hy.
  - intros [= -> _]. reflexivity.
  - exact IH.
Qed.

Section DicePayProofs.
Context {MT : MerchantTag}.
Import Dice.

(** Within the range of exact integers the fee is the tenth of the pot
    rounded down. *)
Lemma dice_houseFee_exact p :
  0 <= p -> p * 10 < 2 ^ 53 ->
  houseFeeOf p = p * 10 / 100 /\ winningsOf p = p - p * 10 / 100.
Proof.
  intros H0 Hlt. unfold winningsOf, houseFeeOf, HOUSE_FEE_PERCENT.
  rewrite binary64_mul_exact by lia.
  rewrite binary64_floorDiv_hundred by lia.
  split; [reflexivity|].
  assert (0 <= p * 10 / 100 <= p).
  { split; [apply Z.div_pos; lia|]. apply Z.div_le_upper_bound; lia. }
  apply binary64_sub_exact. lia.
Qed.

(** [finalizeGame] on a session with a non-eliminated player: the first
    such player is credited the pot less the fee. *)
Lemma dice_finalize_pays room w g winner rest :
  games w !! room = Some g ->
  List.filter active (players g) = winner :: rest ->
  let fee := houseFeeOf (pot g) in
  let win := winningsOf (pot g) in
  exists nb w',
    finalizeGame room w = (TallyGameOver (userId winner) (pot g) win fee nb, w') /\
    games w' !! room = Some (setFinish (userId winner) win fee (setStatus finished g)) /\
    forall bal, users (bank w) !! userId winner = Some bal ->
      nb = bal + win /\
      users (bank w') = <[userId winner := bal + win]> (users (bank w)).
Proof.
  intros Hg Hf fee win. unfold finalizeGame. rewrite Hg.
  rewrite (find_filter_head _ _ _ _ Hf).
  fold fee. fold win.
  destruct (addCredits (userId winner) win (username winner) Win (bank w))
    as [ar b'] eqn:Ha.
  eexists; eexists; split; [reflexivity|]. simpl. rewrite lookup_insert_eq.
  split; [reflexivity|].
  intros bal Hb. destruct (addCredits_existing _ win (username winner) Win _ _ Hb)
    as (b'' & Ha' & Hu & _).
  rewrite Ha in Ha'. injection Ha' as -> ->. simpl. auto.
Qed.

Lemma dice_finalize_gameover room w g wid p win fee nb w' :
  games w !! room = Some g ->
  finalizeGame room w = (TallyGameOver wid p win fee nb, w') ->
  p = pot g /\ fee = houseFeeOf (pot g) /\ win = winningsOf (pot g) /\
  (exists g', games w' !! room = Some g' /\ status g' = finished /\
     winnerId g' = Some wid /\ winnings g' = Some win) /\
  forall bal, users (bank w) !! wid = Some bal ->
    nb = bal + win /\ users (bank w') = <[wid := bal + win]> (users (bank w)).
Proof.
  intros Hg. unfold finalizeGame. rewrite Hg.
  destruct (find active (players g)) as [winner|]; [|discriminate].
  destruct (addCredits (userId winner) (winningsOf (pot g))
              (username winner) Win (bank w)) as [ar b'] eqn:Ha.
  intros Heq. injection Heq as <- <- <- <- <- <-.
  repeat split.
  - eexists. simpl. rewrite lookup_insert_eq. split; [reflexivity|]. by repeat split.
  - destruct (addCredits_existing _ (winningsOf (pot g)) (username winner) Win _ _ H)
      as (b'' & Ha' & Hu & _).
    rewrite Ha in Ha'. by injection Ha' as -> ->.
  - destruct (addCredits_existing _ (winningsOf (pot g)) (username winner) Win _ _ H)
      as (b'' & Ha' & Hu & _).
    rewrite Ha in Ha'. by injection Ha' as -> ->.
Qed.

(** Whenever the dice tally ends the game, the amounts it reports and
    credits are those of the stored pot. *)
Lemma dice_tally_gameover room w g wid p win fee nb w' :
  games w !! room = Some g ->
  tallyRound room w = (TallyGameOver wid p win fee nb, w') ->
  p = pot g /\ fee = houseFeeOf (pot g) /\ win = winningsOf (pot g) /\
  (exists g', games w' !! room = Some g' /\ status g' = finished /\
     winnerId g' = Some wid /\ winnings g' = Some win) /\
  forall bal, users (bank w) !! wid = Some bal ->
    nb = bal + win /\ users (bank w') = <[wid := bal + win]> (users (bank w)).
Proof.
  intros Hg. unfold tallyRound. rewrite Hg.
  repeat case_match; try discriminate.
  intros Hfin.
  eapply dice_finalize_gameover in Hfin; [|simpl; apply lookup_insert_eq].
  exact Hfin.
Qed.

End DicePayProofs.

(** ** Lists of player records addressed by user id *)

Section ById.
Context {A : Type} (uid : A -> Z).

Lemma NoDup_map_filter (f : A -> bool) (l : list A) :
  NoDup (map uid l) -> NoDup (map uid (List.filter f l)).
Proof.
  induction l as [|x l IH]; simpl; [auto|].
  intros Hnd. apply NoDup_cons in Hnd as [Hx Hl].
  destruct (f x); simpl; auto.
  apply NoDup_cons. split; auto.
  intros Hin. apply Hx.
  apply list_elem_of_In, in_map_iff in Hin as (y & Hy & Hiny).
  apply filter_In in Hiny as [Hiny _].
  apply list_elem_of_In, in_map_iff. eauto.
Qed.

(** When ids are unique, writing through the first match is a pointwise
    update. *)
Lemma mutateFirst_unique (f : A -> A) (u : Z) (l : list A) :
  NoDup (map uid l) ->
  mutateFirst (fun p => uid p =? u) f l =
  map (fun p => if uid p =? u then f p else p) l.
Proof.
  induction l as [|x l IH]; simpl; [auto|].
  intros Hnd. apply NoDup_cons in Hnd as [Hx Hl].
  destruct (uid x =? u) eqn:Hxu.
  - f_equal. apply Z.eqb_eq in Hxu. subst u.
    rewrite <- (map_id l) at 1. apply map_ext_in.
    intros y Hy. destruct (uid y =? uid x) eqn:Hyx; [|reflexivity].
    exfalso. apply Hx. apply Z.eqb_eq in Hyx. rewrite <- Hyx.
    apply list_elem_of_In, in_map. exact Hy.
  - f_equal. auto.
Qed.

Lemma filter_andb (f g : A -> bool) (l : list A) :
  List.filter (fun p => f p && g p) l = List.filter g (List.filter f l).
Proof.
  induction l as [|x l IH]; simpl; [auto|].
  destruct (f x); simpl; [destruct (g x)|]; simpl; congruence.
Qed.

Lemma filter_all (f : A -> bool) (l : list A) :
  (forall x, In x l -> f x = true) -> List.filter f l = l.
Proof.
  induction l as [|x l IH]; simpl; [auto|].
  intros H. rewrite (H x) by auto. f_equal. auto.
Qed.

Lemma filter_map_preserved (f : A -> bool) (h : A -> A) (l : list A) :
  (forall x, f (h x) = f x) ->
  List.filter f (map h l) = map h (List.filter f l).
Proof.
  intros H. induction l as [|x l IH]; simpl; [auto|].
  rewrite H. destruct (f x); simpl; congruence.
Qed.

Lemma NoDup_map_inj (l : list A) p q :
  NoDup (map uid l) -> In p l -> In q l -> uid p = uid q -> p = q.
Proof.
  induction l as [|x l IH]; simpl; [tauto|].
  intros Hnd Hp Hq E. apply NoDup_cons in Hnd as [Hx Hl].
  destruct Hp as [-> | Hp], Hq as [-> | Hq]; auto.
  - exfalso. apply Hx. rewrite E. apply list_elem_of_In, in_map, Hq.
  - exfalso. apply Hx. rewrite <- E. apply list_elem_of_In, in_map, Hp.
Qed.

End ById.

Lemma fold_min_spec (tl : list Z) (x : Z) :
  (forall z, In z (x :: tl) -> fold_left Z.min tl x <= z) /\
  In (fold_left Z.min tl x) (x :: tl).
Proof.
  revert x. induction tl as [|y tl IH]; intros x; simpl.
  - split; [intros z [<- | []]; lia | auto].
  - destruct (IH (Z.min x y)) as [Hle Hin]. split.
    + intros z [<- | [<- | Hz]].
      * specialize (Hle (Z.min x y) ltac:(simpl; auto)). lia.
      * specialize (Hle (Z.min x y) ltac:(simpl; auto)). lia.
      * apply Hle. simpl. auto.
    + destruct Hin as [E | Hin]; [|auto].
      rewrite <- E. destruct (Z.min_spec x y) as [[_ ->] | [_ ->]]; auto.
Qed.

Section LowCardPayProofs.
Context {MT : MerchantTag}.
Import LowCard.

(** Below 2^52 the commission is the twentieth of the pot rounded down. *)
Lemma lowcard_commission_exact p :
  0 <= p < 2 ^ 52 ->
  commissionOf p = p / 20 /\ winningsOf p = p - p / 20.
Proof.
  intros [H0 Hlt]. unfold winningsOf, commissionOf.
  rewrite binary64_floorMul_fiveHundredths by lia.
  split; [reflexivity|].
  assert (0 <= p / 20 <= p).
  { split; [apply Z.div_pos; lia|]. apply Z.div_le_upper_bound; lia. }
  assert (2 ^ 52 < 2 ^ 53) by reflexivity.
  apply binary64_sub_exact. lia.
Qed.

Lemma lowcard_payWinner_inv room g winner w wid win nb w' :
  payWinner room g winner w = (TallyGameOver wid win nb, w') ->
  wid = userId winner /\ win = winningsOf (pot g) /\
  games w' = delete room (games w) /\
  tagged (bank w') = tagged (bank w) /\
  forall bal, users (bank w) !! wid = Some bal ->
    nb = bal + win /\ users (bank w') = <[wid := bal + win]> (users (bank w)).
Proof.
  unfold payWinner.
  destruct (addCredits (userId winner) (winningsOf (pot g))
              (username winner) Win (bank w)) as [ar b'] eqn:Ha.
  intros Heq. injection Heq as <- <- <- <-. simpl.
  repeat split.
  - unfold addCredits in Ha. repeat case_match; simplify_eq; reflexivity.
  - destruct (addCredits_existing _ (winningsOf (pot g)) (username winner) Win _ _ H)
      as (b'' & Ha' & Hu & _).
    rewrite Ha in Ha'. by injection Ha' as -> ->.
  - destruct (addCredits_existing _ (winningsOf (pot g)) (username winner) Win _ _ H)
      as (b'' & Ha' & Hu & _).
    rewrite Ha in Ha'. by injection Ha' as -> ->.
Qed.

Lemma lowcard_payWinner_total room g winner w :
  exists nb w', payWinner room g winner w =
    (TallyGameOver (userId winner) (winningsOf (pot g)) nb, w').
Proof.
  unfold payWinner.
  destruct (addCredits (userId winner) (winningsOf (pot g))
              (username winner) Win (bank w)) as [ar b'].
  eauto.
Qed.

(** Whenever the card tally ends the game, the winner is credited the
    stored pot less the commission, and the session is deleted. *)
Lemma lowcard_tally_gameover room t now w g wid win nb w' :
  games w !! room = Some g ->
  tallyRound room t now w = (TallyGameOver wid win nb, w') ->
  win = winningsOf (pot g) /\ games w' !! room = None /\
  forall bal, users (bank w) !! wid = Some bal ->
    nb = bal + win /\ users (bank w') = <[wid := bal + win]> (users (bank w)).
Proof.
  intros Hg. unfold tallyRound, resolveLowest. rewrite Hg.
  repeat case_match; try discriminate.
  all: intros Hp; apply lowcard_payWinner_inv in Hp as (_ & Hw & Hgs & _ & Hb).
  all: rewrite Hgs, lookup_delete_eq; auto.
Qed.

Lemma lowcard_eliminateIds_unique ids ps :
  NoDup (map userId ps) ->
  eliminateIds ids ps =
  map (fun p => if existsb (fun i => userId p =? i) ids then eliminate p else p) ps.
Proof.
  revert ps. induction ids as [|u ids IH]; intros ps Hnd.
  - simpl. symmetry. apply map_id.
  - unfold eliminateIds. simpl. fold (eliminateIds ids).
    rewrite (mutateFirst_unique userId eliminate u ps Hnd).
    rewrite IH.
    + rewrite map_map. apply map_ext. intros p.
      destruct (userId p =? u); simpl; [|reflexivity].
      destruct (existsb _ ids); reflexivity.
    + rewrite map_map. erewrite map_ext; [exact Hnd|].
      intros p. simpl. destruct (userId p =? u); reflexivity.
Qed.

(** Who is left after the losers are marked. *)
Lemma lowcard_remaining_after ids ps :
  NoDup (map userId ps) ->
  List.filter active (eliminateIds ids ps) =
  List.filter (fun p => negb (existsb (fun i => userId p =? i) ids))
              (List.filter active ps).
Proof.
  intros Hnd. rewrite (lowcard_eliminateIds_unique ids ps Hnd).
  clear Hnd. induction ps as [|p ps IH]; simpl; [reflexivity|].
  destruct (existsb (fun i => userId p =? i) ids) eqn:He; simpl.
  - replace (active (eliminate p)) with false by reflexivity.
    destruct (active p); simpl; rewrite ?He; simpl; exact IH.
  - destruct (active p); simpl; rewrite ?He; simpl; congruence.
Qed.

(** The last two players: the holder of the lower card is eliminated and
    the other one, now the only player left, is paid. *)
Lemma lowcard_heads_up room t now w g a b :
  games w !! room = Some g ->
  NoDup (map userId (players g)) ->
  List.filter active (players g) = [a; b] ->
  holdsCard a = true -> holdsCard b = true ->
  cardValue a <> cardValue b ->
  let winner := if cardValue a <? cardValue b then b else a in
  exists nb w',
    tallyRound room t now w =
      (TallyGameOver (userId winner) (winningsOf (pot g)) nb, w').
Proof.
  intros Hg Hnd Hact Ha Hb Hne winner.
  assert (Huid : userId a <> userId b).
  { pose proof (NoDup_map_filter userId active _ Hnd) as H.
    rewrite Hact in H. simpl in H.
    apply NoDup_cons in H as [H _]. intros E. apply H. rewrite E. left. }
  unfold tallyRound. rewrite Hg. unfold activeWithCard.
  rewrite filter_andb, Hact. simpl. rewrite Ha, Hb. simpl.
  unfold resolveLowest. simpl.
  destruct (cardValue a <? cardValue b) eqn:Hlt; zbool.
  - rewrite Z.min_l by lia. rewrite Z.eqb_refl.
    destruct (cardValue b =? cardValue a) eqn:E; zbool; [lia|]. simpl.
    pose proof (lowcard_remaining_after [userId a] _ Hnd) as Hrem.
    rewrite Hact in Hrem. unfold eliminateIds in Hrem. simpl in Hrem.
    rewrite Hrem, Z.eqb_refl. simpl.
    destruct (userId b =? userId a) eqn:E'; zbool; [congruence|]. simpl.
    apply lowcard_payWinner_total.
  - rewrite Z.min_r by lia. rewrite Z.eqb_refl.
    destruct (cardValue a =? cardValue b) eqn:E; zbool; [lia|]. simpl.
    pose proof (lowcard_remaining_after [userId b] _ Hnd) as Hrem.
    rewrite Hact in Hrem. unfold eliminateIds in Hrem. simpl in Hrem.
    rewrite Hrem, Z.eqb_refl. simpl.
    destruct (userId a =? userId b) eqn:E'; zbool; [congruence|]. simpl.
    apply lowcard_payWinner_total.
Qed.

End LowCardPayProofs.

(** C9.  Dice: [finalizeGame] on a session whose only non-eliminated
    player is [winner] reports and credits the pot less the fee
    [Math.floor(pot * 10 / 100)], and every game-over tally reports and
    credits these amounts; the fee is computed on JavaScript numbers and
    is the tenth of the pot rounded down as long as ten times the pot is
    below 2^53 (270 is paid from a pot of 300).  Cards: with two players
    left the holder of the higher card is credited the pot less
    [Math.floor(pot * 0.05)], every game-over tally credits this amount and
    deletes the session, and the commission is the twentieth of the pot
    rounded down as long as the pot is below 2^52. *)
Theorem winner_paid_pot_less_floored_fee (MT : MerchantTag) :
  (forall room w g winner,
     Dice.games w !! room = Some g ->
     List.filter Dice.active (Dice.players g) = [winner] ->
     exists nb w',
       Dice.finalizeGame room w =
         (Dice.TallyGameOver (Dice.userId winner) (Dice.pot g)
            (Dice.winningsOf (Dice.pot g)) (Dice.houseFeeOf (Dice.pot g)) nb, w') /\
       (forall bal, users (Dice.bank w) !! Dice.userId winner = Some bal ->
          users (Dice.bank w') =
            <[Dice.userId winner := bal + Dice.winningsOf (Dice.pot g)]>
              (users (Dice.bank w))) /\
       (0 <= Dice.pot g -> Dice.pot g * 10 < 2 ^ 53 ->
        Dice.houseFeeOf (Dice.pot g) = Dice.pot g * 10 / 100 /\
        Dice.winningsOf (Dice.pot g) = Dice.pot g - Dice.pot g * 10 / 100) /\
       (Dice.pot g = 300 -> Dice.winningsOf (Dice.pot g) = 270)) /\
  (forall room w g wid p win fee nb w',
     Dice.games w !! room = Some g ->
     Dice.tallyRound room w = (Dice.TallyGameOver wid p win fee nb, w') ->
     p = Dice.pot g /\ fee = Dice.houseFeeOf (Dice.pot g) /\
     win = Dice.winningsOf (Dice.pot g) /\
     (0 <= Dice.pot g -> Dice.pot g * 10 < 2 ^ 53 ->
      fee = Dice.pot g * 10 / 100 /\ win = Dice.pot g - fee) /\
     forall bal, users (Dice.bank w) !! wid = Some bal ->
       users (Dice.bank w') = <[wid := bal + win]> (users (Dice.bank w))) /\
  (forall room t now w g a b,
     LowCard.games w !! room = Some g ->
     NoDup (map LowCard.userId (LowCard.players g)) ->
     List.filter LowCard.active (LowCard.players g) = [a; b] ->
     LowCard.holdsCard a = true -> LowCard.holdsCard b = true ->
     LowCard.cardValue a <> LowCard.cardValue b ->
     let winner := if LowCard.cardValue a <? LowCard.cardValue b then b else a in
     exists nb w',
       LowCard.tallyRound room t now w =
         (LowCard.TallyGameOver (LowCard.userId winner)
            (LowCard.winningsOf (LowCard.pot g)) nb, w') /\
       (0 <= LowCard.pot g < 2 ^ 52 ->
        LowCard.winningsOf (LowCard.pot g) = LowCard.pot g - LowCard.pot g / 20)) /\
  (forall room t now w g wid win nb w',
     LowCard.games w !! room = Some g ->
     LowCard.tallyRound room t now w = (LowCard.TallyGameOver wid win nb, w') ->
     win = LowCard.winningsOf (LowCard.pot g) /\
     (0 <= LowCard.pot g < 2 ^ 52 -> win = LowCard.pot g - LowCard.pot g / 20) /\
     LowCard.games w' !! room = None /\
     forall bal, users (LowCard.bank w) !! wid = Some bal ->
       users (LowCard.bank w') = <[wid := bal + win]> (users (LowCard.bank w))).
Proof.
  split; [|split; [|split]].
  - intros room w g winner Hg Hf.
    destruct (dice_finalize_pays room w g winner [] Hg Hf) as (nb & w' & Hfin & _ & Hbal).
    exists nb, w'. split; [exact Hfin|]. split; [|split].
    + intros bal Hb. exact (proj2 (Hbal bal Hb)).
    + intros H0 Hlt. exact (dice_houseFee_exact _ H0 Hlt).
    + intros ->. reflexivity.
  - intros room w g wid p win fee nb w' Hg Ht.
    destruct (dice_tally_gameover _ _ _ _ _ _ _ _ _ Hg Ht) as (-> & -> & -> & _ & Hbal).
    do 3 (split; [reflexivity|]). split.
    + intros H0 Hlt. destruct (dice_houseFee_exact _ H0 Hlt) as [Hf Hw].
      rewrite Hw, Hf. split; reflexivity.
    + intros bal Hb. exact (proj2 (Hbal bal Hb)).
  - intros room t now w g a b Hg Hnd Hact Ha Hb Hne winner.
    destruct (lowcard_heads_up room t now w g a b Hg Hnd Hact Ha Hb Hne) as (nb & w' & Ht).
    exists nb, w'. split; [exact Ht|].
    intros Hr. exact (proj2 (lowcard_commission_exact _ Hr)).
  - intros room t now w g wid win nb w' Hg Ht.
    destruct (lowcard_tally_gameover _ _ _ _ _ _ _ _ _ Hg Ht) as (-> & Hgs & Hbal).
    split; [reflexivity|]. split; [|split; [exact Hgs|]].
    + intros Hr. exact (proj2 (lowcard_commission_exact _ Hr)).
    + intros bal Hb. exact (proj2 (Hbal bal Hb)).
Qed.

(** The dice game of three players with a pot of 300: once user 1 is the
    only player left [finalizeGame] pays them 270 and keeps 30, and so
    does the tally of the last round; user 1 held 400 and holds 670.  A
    card game of three players with a pot of 300: when users 1 and 2 are
    left with a jack and a ten, the tally pays user 1, who held nothing,
    the amount of 285. *)
Lemma winner_paid_pot_less_floored_fee_witness :
  (exists nb w',
     Dice.finalizeGame 7 Examples.dice3_decided = (Dice.TallyGameOver 1 300 270 30 nb, w') /\
     users (Dice.bank w') !! 1 = Some 670) /\
  (exists nb,
     fst (Dice.tallyRound 7 Examples.dice3_last) = Dice.TallyGameOver 1 300 270 30 nb /\
     270 = 300 - 300 * 10 / 100 /\
     users (Dice.bank (snd (Dice.tallyRound 7 Examples.dice3_last))) !! 1 = Some 670) /\
  (exists nb w',
     LowCard.tallyRound 7 false 71000 (Examples.lowBig_round2 100)
       = (LowCard.TallyGameOver 1 285 nb, w') /\
     285 = 300 - 300 / 20) /\
  (exists nb,
     fst (LowCard.tallyRound 7 false 71000 (Examples.lowBig_round2 100))
       = LowCard.TallyGameOver 1 285 nb /\
     LowCard.games (snd (LowCard.tallyRound 7 false 71000 (Examples.lowBig_round2 100)))
       !! 7 = None /\
     users (LowCard.bank (snd (LowCard.tallyRound 7 false 71000
                                 (Examples.lowBig_round2 100)))) !! 1 = Some 285).
Proof.
  destruct (winner_paid_pot_less_floored_fee specMerchantTag) as (Hd & Hdt & Hc & Hct).
  split; [|split; [|split]].
  - destruct (Hd 7 Examples.dice3_decided Examples.dice3_decided_game
                (Dice.mkPlayer 1 Examples.name1 false true (Some 4) (Some 4) (Some 8)
                   (Some true) false false) eq_refl eq_refl)
      as (nb & w' & Hfin & Hbal & Hfee & H300).
    exists nb, w'. split.
    + rewrite Hfin, (H300 eq_refl).
      destruct Hfee as [-> _]; [simpl; lia | simpl; lia |]. reflexivity.
    + rewrite (Hbal 400 eq_refl), (H300 eq_refl). reflexivity.
  - destruct (Hdt 7 Examples.dice3_last
                (Dice.mkGame 1000 7 Dice.playing 100 300 2
                   (Some (Dice.mkRoll 3 4 7))
                   [Dice.mkPlayer 1 Examples.name1 false true (Some 4) (Some 4) (Some 8)
                      (Some true) false false;
                    Dice.mkPlayer 2 Examples.name2 false true (Some 1) (Some 2) (Some 3)
                      (Some false) false false;
                    Dice.mkPlayer 4 Examples.name4 true true (Some 2) (Some 3) (Some 5)
                      (Some false) false false]
                   1 Examples.name1 31000 None None None)
                1 300 270 30 670
                (snd (Dice.tallyRound 7 Examples.dice3_last)) eq_refl eq_refl)
      as (_ & _ & _ & Hfee & Hbal).
    exists 670. split; [reflexivity|]. split.
    + destruct Hfee as [Hf Hw]; [simpl; lia | simpl; lia |].
      simpl in Hf, Hw. rewrite Hw, Hf. reflexivity.
    + rewrite (Hbal 400 eq_refl). reflexivity.
  - destruct (LowCard.games (Examples.lowBig_round2 100) !! 7) as [g|] eqn:Hg;
      [|vm_compute in Hg; discriminate Hg].
    vm_compute in Hg. injection Hg as Hg.
    destruct (Hc 7 false 71000 (Examples.lowBig_round2 100) g
                (Examples.holder 1 Examples.name1 11 LowCard.suit_s)
                (Examples.holder 2 Examples.name2 10 LowCard.suit_s))
      as (nb & w' & Ht & Hwin); try (subst g; vm_compute; reflexivity).
    + subst g. simpl. repeat (apply NoDup_cons; split; [set_solver|]). apply NoDup_nil_2.
    + subst g. simpl. discriminate.
    + exists nb, w'. rewrite <- Hg in *. simpl in Ht, Hwin.
      rewrite Hwin in Ht by lia. split; [exact Ht | reflexivity].
  - destruct (LowCard.games (Examples.lowBig_round2 100) !! 7) as [g|] eqn:Hg;
      [|vm_compute in Hg; discriminate Hg].
    vm_compute in Hg. injection Hg as Hg.
    destruct (Hct 7 false 71000 (Examples.lowBig_round2 100) g 1 285 285
                (snd (LowCard.tallyRound 7 false 71000 (Examples.lowBig_round2 100))))
      as (_ & _ & Hnone & Hbal); try (subst g; vm_compute; reflexivity).
    exists 285. split; [reflexivity|]. split; [exact Hnone|].
    rewrite (Hbal 0 eq_refl). reflexivity.
Defined.

(** C9 without the bounds: the fee is not the exact one where the
    product of the pot and [0.05] is rounded upwards across an integer.
    In a big-game room of the card service three users put in
    2251799813685253 credits each, all they hold; the pot is
    6755399441055759.  User 3 goes out in round 1,
    and in round 2 user 1 holds a jack against the ten of user 2.  The
    tally credits user 1 with 6417629469002971, which is the pot less
    337769972052788, whereas the twentieth of the pot rounded down is
    337769972052787. *)
Lemma winner_paid_pot_less_floored_fee_counterexample :
  let w := Examples.lowBig_round2 2251799813685253 in
  let r := LowCard.tallyRound 7 false 71000 w in
  exists g,
    LowCard.games w !! 7 = Some g /\
    LowCard.pot g = 6755399441055759 /\
    LowCard.pot g = LowCard.entryAmount g * 3 /\
    map LowCard.userId (List.filter LowCard.active (LowCard.players g)) = [1; 2] /\
    (exists nb, fst r = LowCard.TallyGameOver 1 6417629469002971 nb) /\
    users (LowCard.bank w) !! 1 = Some 0 /\
    users (LowCard.bank (snd r)) !! 1 = Some 6417629469002971 /\
    LowCard.pot g / 20 = 337769972052787 /\
    6417629469002971 <> LowCard.pot g - LowCard.pot g / 20.
Proof.
  vm_compute. eexists. split; [reflexivity|].
  repeat split; try reflexivity; try discriminate.
  eexists. reflexivity.
Qed.

(** ** Immunity in the dice game *)

Section DiceImmunityProofs.
Context {MT : MerchantTag}.
Import Dice.

Local Abbreviation byId u := (fun p : Player => userId p =? u).
Local Abbreviation mine u := (fun p : Player => (userId p =? u) && negb (isEliminated p)).

Lemma dice_find_map (h : Player -> Player) u l :
  (forall p, userId (h p) = userId p) ->
  find (byId u) (map h l) = option_map h (find (byId u) l).
Proof.
  intros Hh. induction l as [|x l IH]; simpl; [reflexivity|].
  rewrite Hh. destruct (userId x =? u); auto.
Qed.

(** A command of user [v] writes through the first non-eliminated record
    of [v]; seen from the first record of [u], either nothing happens or
    that record is the one written. *)
Lemma dice_find_mutateFirst (h : Player -> Player) u v l p :
  (forall q, userId (h q) = userId q) ->
  find (byId u) l = Some p ->
  find (byId u) (mutateFirst (mine v) h l) =
    Some (if (v =? u) && negb (isEliminated p) then h p else p) /\
  (v = u -> isEliminated p = false -> find (mine v) l = Some p).
Proof.
  intros Hh. induction l as [|x l IH]; simpl; [discriminate|].
  destruct (userId x =? u) eqn:Hxu.
  - intros [= ->]. apply Z.eqb_eq in Hxu.
    destruct (userId p =? v) eqn:Hpv; simpl.
    + apply Z.eqb_eq in Hpv.
      assert ((v =? u) = true) as -> by (apply Z.eqb_eq; congruence). simpl.
      destruct (isEliminated p); simpl.
      * rewrite (proj2 (Z.eqb_eq _ _) Hxu). split; [reflexivity|discriminate].
      * rewrite Hh, (proj2 (Z.eqb_eq _ _) Hxu). split; reflexivity.
    + apply Z.eqb_neq in Hpv.
      assert ((v =? u) = false) as -> by (apply Z.eqb_neq; congruence). simpl.
      rewrite (proj2 (Z.eqb_eq _ _) Hxu). split; [reflexivity|]. congruence.
  - intros Hf. destruct (IH Hf) as [IH1 IH2].
    destruct ((userId x =? v) && negb (isEliminated x)) eqn:Hx; simpl.
    + rewrite Hh, Hxu.
      apply andb_true_iff in Hx as [Hx _]. zbool.
      assert ((v =? u) = false) as -> by (apply Z.eqb_neq; congruence).
      split; [exact Hf|]. congruence.
    + rewrite Hxu. split; [exact IH1|exact IH2].
Qed.

Lemma dice_applyRoll_userId t a b p : userId (applyRoll t a b p) = userId p.
Proof. reflexivity. Qed.

(** Effect of one [rollPlayerDice] on the record of user [u]. *)
Lemma dice_roll_effect room u v a b w res w' p :
  rollPlayerDice room v a b w = (res, w') ->
  playerOf room u w = Some p ->
  exists p', playerOf room u w' = Some p' /\
    (p' = p \/
     (isEliminated p = false /\ hasRolled p = false /\ rr_success res = true /\
      rr_isIn res = isIn p' /\ exists t, p' = applyRoll t a b p)).
Proof.
  unfold rollPlayerDice, playerOf, getPlayer.
  destruct (games w !! room) as [g|] eqn:Hg; [|discriminate].
  intros Hr Hp.
  destruct (negb (status_eqb (status g) playing));
    [simpl in Hr; injection Hr as <- <-; rewrite Hg; eauto|].
  destruct (botTarget g) as [t|];
    [|simpl in Hr; injection Hr as <- <-; rewrite Hg; eauto].
  destruct (dice_find_mutateFirst (applyRoll (r_total t) a b) u v _ p
              (dice_applyRoll_userId _ _ _) Hp) as [Hmut Hmine].
  destruct (find (mine v) (players g)) as [q|] eqn:Hq;
    [|simpl in Hr; injection Hr as <- <-; rewrite Hg; eauto].
  destruct (hasRolled q) eqn:Hrolled;
    [simpl in Hr; injection Hr as <- <-; rewrite Hg; eauto|].
  injection Hr as <- <-. simpl. rewrite lookup_insert_eq. simpl.
  rewrite Hmut.
  destruct ((v =? u) && negb (isEliminated p)) eqn:Hc; [|eauto].
  apply andb_true_iff in Hc as [Hvu Hel]. zbool.
  apply negb_true_iff in Hel.
  specialize (Hmine Hvu Hel). injection Hmine as ->.
  eexists; split; [reflexivity|]. right. repeat split; eauto.
Qed.

Lemma dice_autoRoll_find t rng k u l p :
  find (byId u) l = Some p ->
  exists p', find (byId u) (autoRollPlayers t rng k l) = Some p' /\
    (p' = p \/
     (isEliminated p = false /\ hasRolled p = false /\
      exists a b, p' = applyRoll t a b p)).
Proof.
  revert k. induction l as [|x l IH]; intros k; simpl; [discriminate|].
  destruct (userId x =? u) eqn:Hxu.
  - intros [= ->].
    destruct (negb (isEliminated p) && negb (hasRolled p)) eqn:Hc; simpl; rewrite Hxu.
    + apply andb_true_iff in Hc as [H1 H2].
      apply negb_true_iff in H1. apply negb_true_iff in H2.
      eexists; split; [reflexivity|]. right. eauto.
    + eauto.
  - intros Hf.
    destruct (negb (isEliminated x) && negb (hasRolled x)); simpl; rewrite Hxu; auto.
Qed.

(** Effect of one step of a round on the record of user [u]. *)
Lemma dice_roundStep_effect room u w w' p :
  roundStep room w w' ->
  playerOf room u w = Some p ->
  exists p', playerOf room u w' = Some p' /\
    (p' = p \/
     (isEliminated p = false /\ hasRolled p = false /\
      exists t a b, p' = applyRoll t a b p)).
Proof.
  intros Hstep Hp. destruct Hstep as [v a b w | rng w].
  - destruct (rollPlayerDice room v a b w) as [res w'] eqn:Hr.
    destruct (dice_roll_effect _ _ _ _ _ _ _ _ _ Hr Hp) as (p' & Hp' & [-> | (? & ? & _ & _ & t & ->)]);
      simpl; eauto 10.
  - unfold autoRollForTimeout, playerOf, getPlayer in *.
    destruct (games w !! room) as [g|] eqn:Hg; [|discriminate].
    destruct (botTarget g) as [t|]; [|rewrite Hg; eauto].
    simpl. rewrite lookup_insert_eq. simpl.
    destruct (dice_autoRoll_find (r_total t) rng 0 u _ p Hp) as (p' & Hp' & [-> | (? & ? & a & b & ->)]);
      eauto 10.
Qed.

(** Once a player has rolled, nothing in the round touches the record. *)
Lemma dice_rolled_frozen room u w w' p :
  rtc (roundStep room) w w' ->
  playerOf room u w = Some p ->
  hasRolled p = true ->
  playerOf room u w' = Some p.
Proof.
  induction 1 as [w | w w1 w2 Hstep _ IH]; intros Hp Hrolled; [exact Hp|].
  destruct (dice_roundStep_effect _ _ _ _ _ Hstep Hp) as (p' & Hp' & [-> | (_ & Hn & _)]).
  - auto.
  - congruence.
Qed.

(** A roll of user [u], whose first record is still in the game. *)
Lemma dice_roll_self room u a b w g t p :
  games w !! room = Some g ->
  status g = playing ->
  botTarget g = Some t ->
  playerOf room u w = Some p ->
  isEliminated p = false ->
  hasRolled p = false ->
  exists res w',
    rollPlayerDice room u a b w = (res, w') /\
    rr_success res = true /\
    rr_isIn res = isIn (applyRoll (r_total t) a b p) /\
    rr_gotDoubleSix res = isDoubleSix a b /\
    playerOf room u w' = Some (applyRoll (r_total t) a b p).
Proof.
  unfold playerOf, getPlayer, rollPlayerDice.
  intros Hg Hst Ht Hp Hel Hro. rewrite Hg in *. rewrite Hst, Ht. simpl.
  destruct (dice_find_mutateFirst (applyRoll (r_total t) a b) u u _ p
              (dice_applyRoll_userId _ _ _) Hp) as [Hmut Hmine].
  rewrite (Hmine eq_refl Hel), Hro.
  eexists; eexists; split; [reflexivity|]. simpl.
  rewrite lookup_insert_eq. simpl. rewrite Hmut, Z.eqb_refl, Hel. simpl.
  repeat split.
Qed.

(** A successful roll of user [u] is made by the first record of [u]
    when that record is still in the game. *)
Lemma dice_roll_self_inv room u a b w res w' p :
  rollPlayerDice room u a b w = (res, w') ->
  playerOf room u w = Some p ->
  isEliminated p = false ->
  rr_success res = true ->
  exists t, rr_isIn res = isIn (applyRoll t a b p) /\ hasRolled p = false.
Proof.
  unfold rollPlayerDice, playerOf, getPlayer.
  destruct (games w !! room) as [g|] eqn:Hg; [|discriminate].
  intros Hr Hp Hel Hok.
  destruct (negb (status_eqb (status g) playing));
    [simpl in Hr; injection Hr as <- <-; discriminate|].
  destruct (botTarget g) as [t|];
    [|simpl in Hr; injection Hr as <- <-; discriminate].
  destruct (dice_find_mutateFirst (applyRoll (r_total t) a b) u u _ p
              (dice_applyRoll_userId _ _ _) Hp) as [_ Hmine].
  rewrite (Hmine eq_refl Hel) in Hr.
  destruct (hasRolled p) eqn:Hro;
    [simpl in Hr; injection Hr as <- <-; discriminate|].
  injection Hr as <- <-. simpl. eauto.
Qed.

Lemma dice_nextRoundPlayer_userId p : userId (nextRoundPlayer p) = userId p.
Proof. unfold nextRoundPlayer. destruct (negb _), (earnedImmunity p); reflexivity. Qed.

Lemma dice_startNextRound_effect room u d1 d2 w tgt w' p :
  startNextRound room d1 d2 w = (Some tgt, w') ->
  playerOf room u w = Some p ->
  playerOf room u w' = Some (nextRoundPlayer p).
Proof.
  unfold startNextRound, playerOf, getPlayer.
  destruct (games w !! room) as [g|] eqn:Hg; [|discriminate].
  destruct (negb (status_eqb (status g) playing)); [discriminate|].
  intros [= <- <-] Hp. simpl. rewrite lookup_insert_eq. simpl.
  rewrite (dice_find_map nextRoundPlayer u _ dice_nextRoundPlayer_userId), Hp.
  reflexivity.
Qed.

Lemma find_none_filter {A : Type} (f : A -> bool) (l : list A) :
  find f l = None -> List.filter f l = [].
Proof.
  induction l as [|x l IH]; simpl; [reflexivity|].
  destruct (f x); [discriminate|auto].
Qed.

Lemma dice_tallyRound_effect room u w r w' p :
  tallyRound room w = (r, w') ->
  r <> TallyNull ->
  playerOf room u w = Some p ->
  playerOf room u w' = Some (tallied r p).
Proof.
  unfold tallyRound, playerOf, getPlayer.
  destruct (games w !! room) as [g|] eqn:Hg; [|intros [= <- <-]; congruence].
  destruct (negb (status_eqb (status g) playing)); [intros [= <- <-]; congruence|].
  set (h1 := fun p : Player => if active p then clearImmunity p else p).
  set (h2 := fun p : Player => if active p then resetRoll p else p).
  set (hm := fun p : Player => if active p && isInIs false p then eliminate p else p).
  assert (U1 : forall q, userId (h1 q) = userId q)
    by (intros q; unfold h1; destruct (active q); reflexivity).
  assert (U2 : forall q, userId (h2 q) = userId q)
    by (intros q; unfold h2; destruct (active q); reflexivity).
  assert (Um : forall q, userId (hm q) = userId q)
    by (intros q; unfold hm; destruct (active q && isInIs false q); reflexivity).
  destruct (length (List.filter (isInIs true) (List.filter active (players g))) =? 0)%nat.
  - intros [= <- <-] _ Hp. simpl. rewrite lookup_insert_eq. simpl.
    rewrite (dice_find_map h2 u _ U2), (dice_find_map h1 u _ U1), Hp. reflexivity.
  - destruct (length (List.filter active (map hm (map h1 (players g)))) =? 1)%nat eqn:Hlen.
    + unfold finalizeGame. simpl. rewrite lookup_insert_eq. simpl.
      destruct (find active (map hm (map h1 (players g)))) as [winner|] eqn:Hw.
      * destruct (addCredits _ _ _ _ _) as [ar b'].
        intros [= <- <-] _ Hp. simpl. rewrite lookup_insert_eq. simpl.
        rewrite (dice_find_map hm u _ Um), (dice_find_map h1 u _ U1), Hp. reflexivity.
      * apply find_none_filter in Hw. rewrite Hw in Hlen. discriminate.
    + intros [= <- <-] _ Hp. simpl. rewrite lookup_insert_eq. simpl.
      rewrite (dice_find_map hm u _ Um), (dice_find_map h1 u _ U1), Hp. reflexivity.
Qed.

(** After any tally a record that was in the game carries no active
    immunity, keeps what it has earned, and stays in the game unless it was
    marked out. *)
Lemma dice_tallied_props r p :
  isEliminated p = false ->
  hasImmunity (tallied r p) = false /\
  earnedImmunity (tallied r p) = earnedImmunity p /\
  (isIn p <> Some false -> isEliminated (tallied r p) = false).
Proof.
  intros Hel. unfold tallied, active, isInIs. rewrite Hel. simpl.
  destruct r; simpl; rewrite ?Hel; simpl;
    destruct (isIn p) as [[|]|]; simpl; repeat split; auto; congruence.
Qed.

Lemma dice_immune_applyRoll t a b p :
  immuneInv p -> hasRolled p = false -> immuneInv (applyRoll t a b p).
Proof.
  intros (Hel & Him & Hno & _) Hro. unfold immuneInv, applyRoll, rolledDoubleSix. simpl.
  rewrite Him, (proj2 (Hno Hro)), orb_true_r.
  repeat split; auto; try discriminate.
  destruct (isDoubleSix a b); reflexivity.
Qed.

(** The invariant of the immune round holds throughout the round. *)
Lemma dice_immune_round room u w w' p :
  rtc (roundStep room) w w' ->
  playerOf room u w = Some p ->
  immuneInv p ->
  exists p', playerOf room u w' = Some p' /\ immuneInv p'.
Proof.
  intros Hsteps. revert p.
  induction Hsteps as [w | w w1 w2 Hstep _ IH]; intros p Hp Hinv; [eauto|].
  destruct (dice_roundStep_effect _ _ _ _ _ Hstep Hp)
    as (p' & Hp' & [-> | (_ & Hn & t & a & b & ->)]).
  - eauto.
  - apply (IH _ Hp'). by apply dice_immune_applyRoll.
Qed.

(** The steps of a round keep the session stored and playing. *)
Lemma dice_roundStep_playing room w w' g :
  roundStep room w w' ->
  games w !! room = Some g -> status g = playing ->
  exists g', games w' !! room = Some g' /\ status g' = playing.
Proof.
  intros Hstep Hg Hst. destruct Hstep as [v a b w | rng w].
  - unfold rollPlayerDice. rewrite Hg, Hst. simpl.
    repeat case_match; simpl; rewrite ?lookup_insert_eq; eauto.
  - unfold autoRollForTimeout. rewrite Hg.
    repeat case_match; simpl; rewrite ?lookup_insert_eq; eauto.
Qed.

Lemma dice_roundSteps_playing room w w' g :
  rtc (roundStep room) w w' ->
  games w !! room = Some g -> status g = playing ->
  exists g', games w' !! room = Some g' /\ status g' = playing.
Proof.
  intros Hsteps. revert g.
  induction Hsteps as [w | w w1 w2 Hstep _ IH]; intros g Hg Hst; [eauto|].
  destruct (dice_roundStep_playing _ _ _ _ Hstep Hg Hst) as (g1 & Hg1 & Hst1).
  eauto.
Qed.

(** The tally of a playing session always gives a result, and leaves the
    session stored: finished when the result ends the game, playing
    otherwise. *)
Lemma dice_tally_playing room w g :
  games w !! room = Some g -> status g = playing ->
  exists r w' g',
    tallyRound room w = (r, w') /\
    r <> TallyNull /\ r <> TallyError /\
    games w' !! room = Some g' /\
    status g' = (if endsGame r then finished else playing) /\
    ((exists p, In p (players g) /\ isEliminated p = false /\ isIn p = Some true) ->
     endsGame r = true \/ exists n1 n2 nr, r = TallyRoundComplete n1 n2 nr).
Proof.
  intros Hg Hst. unfold tallyRound. rewrite Hg, Hst. simpl.
  set (h1 := fun p : Player => if active p then clearImmunity p else p).
  set (hm := fun p : Player => if active p && isInIs false p then eliminate p else p).
  destruct (length (List.filter (isInIs true) (List.filter active (players g))) =? 0)%nat
    eqn:Hsurv.
  - eexists _, _, _. split; [reflexivity|]. simpl. rewrite lookup_insert_eq.
    repeat split; try discriminate. simpl. exact Hst.
    intros (p & Hp & He & Hi). exfalso.
    assert (Hin : In p (List.filter (isInIs true) (List.filter active (players g)))).
    { apply filter_In. split; [apply filter_In; split; [exact Hp|]|].
      - unfold active. by rewrite He.
      - unfold isInIs. by rewrite Hi. }
    destruct (List.filter (isInIs true) (List.filter active (players g))); [destruct Hin|].
    discriminate.
  - destruct (length (List.filter active (map hm (map h1 (players g)))) =? 1)%nat eqn:Hlen.
    + unfold finalizeGame. simpl. rewrite lookup_insert_eq. simpl.
      destruct (find active (map hm (map h1 (players g)))) as [winner|] eqn:Hw.
      * destruct (addCredits _ _ _ _ _) as [ar b'].
        eexists _, _, _. split; [reflexivity|]. simpl. rewrite lookup_insert_eq.
        repeat split; try discriminate. auto.
      * apply find_none_filter in Hw. rewrite Hw in Hlen. discriminate.
    + eexists _, _, _. split; [reflexivity|]. simpl. rewrite lookup_insert_eq.
      repeat split; try discriminate. simpl. exact Hst. eauto 6.
Qed.

Lemma dice_startNextRound_playing room d1 d2 w g :
  games w !! room = Some g -> status g = playing ->
  exists tgt w' g',
    startNextRound room d1 d2 w = (Some tgt, w') /\
    games w' !! room = Some g' /\ status g' = playing.
Proof.
  intros Hg Hst. unfold startNextRound. rewrite Hg, Hst. simpl.
  eexists _, _, _. split; [reflexivity|]. simpl. rewrite lookup_insert_eq.
  split; [reflexivity|]. exact Hst.
Qed.

Lemma dice_playerOf_In room u w p :
  playerOf room u w = Some p ->
  exists g, games w !! room = Some g /\ In p (players g).
Proof.
  unfold playerOf, getPlayer. destruct (games w !! room) as [g|]; [|discriminate].
  intros Hf. apply find_some in Hf as [Hin _]. eauto.
Qed.

End DiceImmunityProofs.

(** C6.  A player still in the game who rolls (6,6) in a round whose
    target is a sum of two dice is marked in for that round and is told so.
    However the round goes on, its tally gives a result, either the end of
    the game or a completed round, and leaves the player in the game, with
    an immunity earned and none active.  If the game goes on, the next
    round starts, and throughout it the record carries an active immunity:
    any roll the player makes there, by command or at the time-out, marks
    the player in.  The tally of that next round gives a result as well,
    keeps the player in the game and clears the immunity, and if the game
    still goes on the round after it starts with an immunity only if the
    player rolled (6,6) again in the immune round. *)
Theorem double_six_gives_one_round_of_immunity (MT : MerchantTag)
    room uid w0 g0 t p0 :
  Dice.games w0 !! room = Some g0 ->
  Dice.status g0 = Dice.playing ->
  Dice.botTarget g0 = Some t ->
  Dice.r_total t <= 12 ->
  Dice.playerOf room uid w0 = Some p0 ->
  Dice.isEliminated p0 = false ->
  Dice.hasRolled p0 = false ->
  exists res1 w1,
    Dice.rollPlayerDice room uid 6 6 w0 = (res1, w1) /\
    Dice.rr_success res1 = true /\
    Dice.rr_isIn res1 = Some true /\
    Dice.rr_gotDoubleSix res1 = true /\
    forall w1',
      rtc (Dice.roundStep room) w1 w1' ->
      exists r2 w2 p2,
        Dice.tallyRound room w1' = (r2, w2) /\
        (Dice.endsGame r2 = true \/ exists n1 n2 nr, r2 = Dice.TallyRoundComplete n1 n2 nr) /\
        Dice.playerOf room uid w2 = Some p2 /\
        Dice.isEliminated p2 = false /\
        Dice.hasImmunity p2 = false /\
        Dice.earnedImmunity p2 = true /\
        (Dice.endsGame r2 = false ->
         forall d1 d2,
           exists tgt w3,
             Dice.startNextRound room d1 d2 w2 = (Some tgt, w3) /\
             forall w4,
               rtc (Dice.roundStep room) w3 w4 ->
               exists p4,
                 Dice.playerOf room uid w4 = Some p4 /\
                 Dice.immuneInv p4 /\
                 (forall a b res w',
                    Dice.rollPlayerDice room uid a b w4 = (res, w') ->
                    Dice.rr_success res = true -> Dice.rr_isIn res = Some true) /\
                 exists r5 w5 p5,
                   Dice.tallyRound room w4 = (r5, w5) /\
                   r5 <> Dice.TallyNull /\ r5 <> Dice.TallyError /\
                   Dice.playerOf room uid w5 = Some p5 /\
                   Dice.isEliminated p5 = false /\
                   Dice.hasImmunity p5 = false /\
                   (Dice.endsGame r5 = false ->
                    forall d1' d2',
                      exists tgt' w6 p6,
                        Dice.startNextRound room d1' d2' w5 = (Some tgt', w6) /\
                        Dice.playerOf room uid w6 = Some p6 /\
                        Dice.isEliminated p6 = false /\
                        Dice.hasImmunity p6 = Dice.earnedImmunity p4 /\
                        Dice.earnedImmunity p6 = false)).
Proof.
  intros Hg Hst Ht Hle Hp Hel Hro.
  destruct (dice_roll_self room uid 6 6 w0 g0 t p0 Hg Hst Ht Hp Hel Hro)
    as (res1 & w1 & Hr1 & Hok1 & Hin1 & Hds1 & Hp1).
  exists res1, w1. split; [exact Hr1|]. split; [exact Hok1|].
  assert (Hmeets : (Dice.r_total t <=? 6 + 6) = true) by (apply Z.leb_le; lia).
  split; [rewrite Hin1; unfold Dice.applyRoll; simpl; rewrite Hmeets; reflexivity|].
  split; [rewrite Hds1; reflexivity|].
  intros w1' Hsteps1.
  set (p1 := Dice.applyRoll (Dice.r_total t) 6 6 p0) in *.
  assert (Hel1 : Dice.isEliminated p1 = false) by exact Hel.
  assert (Hin1' : Dice.isIn p1 = Some true)
    by (unfold p1, Dice.applyRoll; simpl; rewrite Hmeets; reflexivity).
  assert (Hearn1 : Dice.earnedImmunity p1 = true) by reflexivity.
  (* the session plays on through the round *)
  assert (Hplay1 : exists g1, Dice.games w1 !! room = Some g1 /\ Dice.status g1 = Dice.playing).
  { replace w1 with (snd (Dice.rollPlayerDice room uid 6 6 w0)) by (rewrite Hr1; reflexivity).
    exact (dice_roundStep_playing room w0 _ g0 (Dice.step_roll room uid 6 6 w0) Hg Hst). }
  destruct Hplay1 as (g1 & Hg1 & Hst1).
  destruct (dice_roundSteps_playing room w1 w1' g1 Hsteps1 Hg1 Hst1) as (g1' & Hg1' & Hst1').
  pose proof (dice_rolled_frozen room uid w1 w1' p1 Hsteps1 Hp1 eq_refl) as Hp1'.
  destruct (dice_tally_playing room w1' g1' Hg1' Hst1')
    as (r2 & w2 & g2 & Ht2 & Hnn2 & Hne2 & Hg2 & Hst2 & Hkind2).
  assert (Hkind : Dice.endsGame r2 = true \/ exists n1 n2 nr, r2 = Dice.TallyRoundComplete n1 n2 nr).
  { apply Hkind2. exists p1. split; [|split; [exact Hel1 | exact Hin1']].
    destruct (dice_playerOf_In room uid w1' p1 Hp1') as (g & Hgg & Hin).
    rewrite Hg1' in Hgg. by injection Hgg as <-. }
  pose proof (dice_tallyRound_effect room uid w1' r2 w2 p1 Ht2 Hnn2 Hp1') as Hp2.
  destruct (dice_tallied_props r2 p1 Hel1) as (Him2 & Hearn2 & Hact2).
  specialize (Hact2 ltac:(rewrite Hin1'; discriminate)).
  exists r2, w2, (Dice.tallied r2 p1).
  split; [exact Ht2|]. split; [exact Hkind|]. split; [exact Hp2|].
  split; [exact Hact2|]. split; [exact Him2|]. split; [rewrite Hearn2; exact Hearn1|].
  intros Hgo2 d1 d2.
  rewrite Hgo2 in Hst2.
  destruct (dice_startNextRound_playing room d1 d2 w2 g2 Hg2 Hst2)
    as (tgt & w3 & g3 & Hnext1 & Hg3 & Hst3).
  exists tgt, w3. split; [exact Hnext1|].
  intros w4 Hsteps2.
  pose proof (dice_startNextRound_effect room uid d1 d2 w2 tgt w3 _ Hnext1 Hp2) as Hp3.
  assert (Hinv3 : Dice.immuneInv (Dice.nextRoundPlayer (Dice.tallied r2 p1))).
  { unfold Dice.nextRoundPlayer. rewrite Hact2, Hearn2, Hearn1. simpl.
    unfold Dice.immuneInv. simpl. repeat split; auto; discriminate. }
  destruct (dice_immune_round room uid w3 w4 _ Hsteps2 Hp3 Hinv3) as (p4 & Hp4 & Hinv4).
  exists p4. split; [exact Hp4|]. split; [exact Hinv4|].
  destruct Hinv4 as (Hel4 & Him4 & Hno4 & Hyes4).
  split.
  { intros a b res w' Hr Hok.
    destruct (dice_roll_self_inv room uid a b w4 res w' p4 Hr Hp4 Hel4 Hok) as (t' & -> & _).
    unfold Dice.applyRoll; simpl. rewrite Him4, orb_true_r. reflexivity. }
  destruct (dice_roundSteps_playing room w3 w4 g3 Hsteps2 Hg3 Hst3) as (g4 & Hg4 & Hst4).
  destruct (dice_tally_playing room w4 g4 Hg4 Hst4)
    as (r5 & w5 & g5 & Ht5 & Hnn5 & Hne5 & Hg5 & Hst5 & _).
  pose proof (dice_tallyRound_effect room uid w4 r5 w5 p4 Ht5 Hnn5 Hp4) as Hp5.
  destruct (dice_tallied_props r5 p4 Hel4) as (Him5 & Hearn5 & Hact5).
  assert (Hnotout : Dice.isIn p4 <> Some false).
  { destruct (Dice.hasRolled p4) eqn:Hro4.
    - destruct (Hyes4 eq_refl) as [-> _]. discriminate.
    - destruct (Hno4 eq_refl) as [-> _]. discriminate. }
  specialize (Hact5 Hnotout).
  exists r5, w5, (Dice.tallied r5 p4).
  split; [exact Ht5|]. split; [exact Hnn5|]. split; [exact Hne5|].
  split; [exact Hp5|]. split; [exact Hact5|]. split; [exact Him5|].
  intros Hgo5 d1' d2'.
  rewrite Hgo5 in Hst5.
  destruct (dice_startNextRound_playing room d1' d2' w5 g5 Hg5 Hst5)
    as (tgt' & w6 & g6 & Hnext2 & _ & _).
  pose proof (dice_startNextRound_effect room uid d1' d2' w5 tgt' w6 _ Hnext2 Hp5) as Hp6.
  exists tgt', w6, (Dice.nextRoundPlayer (Dice.tallied r5 p4)).
  split; [exact Hnext2|]. split; [exact Hp6|].
  unfold Dice.nextRoundPlayer. rewrite Hact5, Hearn5. simpl.
  destruct (Dice.earnedImmunity p4); simpl; auto.
Qed.

(** Round 1 of the three-player game, target 9: user 1 rolls (6,6), user
    2 rolls 10 and user 4 rolls 3 and is out.  Round 2 has target 12: user
    1 rolls (1,1) and is in by the immunity, user 2 rolls (6,6).  The tally
    of round 2 removes nobody and clears the immunity of user 1, who
    starts round 3 without one. *)
Lemma double_six_gives_one_round_of_immunity_witness :
  let w1 := snd (Dice.rollPlayerDice 7 1 6 6 Examples.dice3_round1) in
  let w1' := snd (Dice.rollPlayerDice 7 4 1 2 (snd (Dice.rollPlayerDice 7 2 5 5 w1))) in
  let w2 := snd (Dice.tallyRound 7 w1') in
  let w3 := snd (Dice.startNextRound 7 6 6 w2) in
  let w4 := snd (Dice.rollPlayerDice 7 2 6 6 (snd (Dice.rollPlayerDice 7 1 1 1 w3))) in
  let w5 := snd (Dice.tallyRound 7 w4) in
  let w6 := snd (Dice.startNextRound 7 3 4 w5) in
  Dice.rr_isIn (fst (Dice.rollPlayerDice 7 1 6 6 Examples.dice3_round1)) = Some true /\
  fst (Dice.tallyRound 7 w1') = Dice.TallyRoundComplete 1 2 2 /\
  fst (Dice.startNextRound 7 6 6 w2) = Some (Dice.mkRoll 6 6 12) /\
  Dice.rr_isIn (fst (Dice.rollPlayerDice 7 1 1 1 w3)) = Some true /\
  (exists p4, Dice.playerOf 7 1 w4 = Some p4 /\
     Dice.total p4 = Some 2 /\ Dice.isIn p4 = Some true /\
     Dice.hasImmunity p4 = true /\ Dice.earnedImmunity p4 = false) /\
  fst (Dice.tallyRound 7 w4) = Dice.TallyRoundComplete 0 2 3 /\
  (exists p5, Dice.playerOf 7 1 w5 = Some p5 /\
     Dice.isEliminated p5 = false /\ Dice.hasImmunity p5 = false) /\
  (exists tgt, fst (Dice.startNextRound 7 3 4 w5) = Some tgt) /\
  (exists p6, Dice.playerOf 7 1 w6 = Some p6 /\
     Dice.isEliminated p6 = false /\ Dice.hasImmunity p6 = false /\
     Dice.earnedImmunity p6 = false).
Proof.
  intros w1 w1' w2 w3 w4 w5 w6.
  destruct (double_six_gives_one_round_of_immunity specMerchantTag 7 1
              Examples.dice3_round1
              (Dice.mkGame 1000 7 Dice.playing 100 300 1 (Some (Dice.mkRoll 4 5 9))
                 [Dice.newPlayer 1 Examples.name1; Dice.newPlayer 2 Examples.name2;
                  Dice.newPlayer 4 Examples.name4]
                 1 Examples.name1 31000 None None None)
              (Dice.mkRoll 4 5 9) (Dice.newPlayer 1 Examples.name1)
              eq_refl eq_refl eq_refl ltac:(simpl; lia) eq_refl eq_refl eq_refl)
    as (res1 & w1x & Hr1 & _ & Hin1 & _ & Hchain).
  pose proof (f_equal fst Hr1) as E1. pose proof (f_equal snd Hr1) as E1'.
  cbn [fst snd] in E1, E1'. subst res1 w1x. fold w1 in Hchain.
  split; [exact Hin1|].
  (* round 1 goes on: users 2 and 4 roll, and the round is tallied *)
  destruct (Hchain w1') as (r2 & w2x & p2 & Ht2 & _ & _ & _ & _ & _ & Hnext).
  { eapply rtc_l; [apply Dice.step_roll|]. apply rtc_once, Dice.step_roll. }
  pose proof (f_equal fst Ht2) as E2. pose proof (f_equal snd Ht2) as E2'.
  cbn [fst snd] in E2, E2'. subst r2 w2x. fold w2 in Hnext.
  split; [vm_compute; reflexivity|].
  (* round 2 starts with target 12 *)
  destruct (Hnext eq_refl 6 6) as (tgt & w3x & Hn1 & Himm).
  pose proof (f_equal fst Hn1) as E3. pose proof (f_equal snd Hn1) as E3'.
  cbn [fst snd] in E3, E3'. subst w3x. fold w3 in Himm.
  split; [vm_compute; reflexivity|].
  (* user 1 rolls a total of 2 against the target 12 and is in *)
  destruct (Himm w3 (rtc_refl _ _)) as (_ & _ & _ & Hroll & _).
  split.
  { apply (Hroll 1 1 _ (snd (Dice.rollPlayerDice 7 1 1 1 w3))); [|vm_compute; reflexivity].
    apply surjective_pairing. }
  (* round 2 goes on and is tallied *)
  destruct (Himm w4)
    as (p4 & Hp4 & (_ & Him4 & _ & Hyes4) & _ & r5 & w5x & p5 & Ht5 & _ & _ & Hp5 & Hel5 & Him5 & Hnext5).
  { eapply rtc_l; [apply Dice.step_roll|]. apply rtc_once, Dice.step_roll. }
  pose proof (f_equal fst Ht5) as E5. pose proof (f_equal snd Ht5) as E5'.
  cbn [fst snd] in E5, E5'. subst r5 w5x. fold w5 in Hp5, Hnext5.
  assert (Hp4c : p4 = Dice.mkPlayer 1 Examples.name1 false true (Some 1) (Some 1) (Some 2)
                       (Some true) true false).
  { vm_compute in Hp4. by injection Hp4 as <-. }
  split.
  { exists p4. split; [exact Hp4|]. split; [rewrite Hp4c; reflexivity|].
    split; [exact (proj1 (Hyes4 ltac:(rewrite Hp4c; reflexivity)))|].
    split; [exact Him4|].
    rewrite (proj2 (Hyes4 ltac:(rewrite Hp4c; reflexivity))), Hp4c. reflexivity. }
  split; [vm_compute; reflexivity|].
  split; [exists p5; auto|].
  destruct (Hnext5 eq_refl 3 4) as (tgt' & w6x & p6 & Hn2 & Hp6 & Hel6 & Him6 & Hea6).
  pose proof (f_equal fst Hn2) as E6. pose proof (f_equal snd Hn2) as E6'.
  cbn [fst snd] in E6, E6'. subst w6x. fold w6 in Hp6.
  split; [exists tgt'; exact E6|].
  exists p6. split; [exact Hp6|]. split; [exact Hel6|].
  split; [rewrite Him6, Hp4c; reflexivity | exact Hea6].
Defined.

(** ** Tallies of the card game *)

Section LowCardTallyProofs.
Context {MT : MerchantTag}.
Import LowCard.

(** Decide every integer comparison in the goal. *)
Ltac zcases :=
  repeat match goal with
  | |- context [?x =? ?y] => destruct (Z.eqb_spec x y); try lia
  end.

Lemma lowcard_activeWithCard_all g l :
  List.filter active (players g) = l ->
  (forall p, In p l -> holdsCard p = true) ->
  activeWithCard g = l.
Proof.
  intros Hact Hall. unfold activeWithCard.
  rewrite filter_andb, Hact. by apply filter_all.
Qed.

(** The tally of a round that was not timed out and has exactly three
    card holders. *)
Lemma lowcard_tally_three room now w g a b c :
  games w !! room = Some g ->
  activeWithCard g = [a; b; c] ->
  tallyRound room false now w =
    match List.filter (fun p => cardValue p =? maxOf (map cardValue [a; b; c])) [a; b; c] with
    | [winner] => payWinner room g winner w
    | _ => resolveLowest room false now g [a; b; c] w
    end.
Proof.
  intros Hg Hact. unfold tallyRound. rewrite Hg, Hact.
  change ((length [a; b; c] =? 0)%nat) with false.
  change ((length [a; b; c] =? 3)%nat && negb false) with true.
  cbv iota.
  destruct (List.filter _ [a; b; c]) as [|x [|y l]]; reflexivity.
Qed.

Lemma lowcard_three_highest_wins room now w g a b c i x :
  games w !! room = Some g ->
  activeWithCard g = [a; b; c] ->
  [a; b; c] !! i = Some x ->
  (forall j y, j <> i -> [a; b; c] !! j = Some y -> cardValue y < cardValue x) ->
  tallyRound room false now w = payWinner room g x w.
Proof.
  intros Hg Hact Hi Hhigh.
  rewrite (lowcard_tally_three room now w g a b c Hg Hact).
  assert (H0 := Hhigh 0%nat a). assert (H1 := Hhigh 1%nat b). assert (H2 := Hhigh 2%nat c).
  destruct i as [|[|[|i]]]; simpl in Hi; try discriminate; injection Hi as <-.
  - specialize (H1 ltac:(lia) eq_refl). specialize (H2 ltac:(lia) eq_refl).
    simpl. replace (Z.max (Z.max (cardValue a) (cardValue b)) (cardValue c))
      with (cardValue a) by lia.
    zcases. reflexivity.
  - specialize (H0 ltac:(lia) eq_refl). specialize (H2 ltac:(lia) eq_refl).
    simpl. replace (Z.max (Z.max (cardValue a) (cardValue b)) (cardValue c))
      with (cardValue b) by lia.
    zcases. reflexivity.
  - specialize (H0 ltac:(lia) eq_refl). specialize (H1 ltac:(lia) eq_refl).
    simpl. replace (Z.max (Z.max (cardValue a) (cardValue b)) (cardValue c))
      with (cardValue c) by lia.
    zcases. reflexivity.
Qed.

(** The branch of [resolveLowest] without a tie to break and without a
    last survivor: the losers are marked and the next round is set up. *)
Lemma lowcard_resolve_normal room t now g act w :
  let losers :=
    List.filter (fun p => cardValue p =? minOf (map cardValue act)) act in
  let ps := eliminateIds (map userId losers) (players g) in
  (1 <? length losers)%nat && (length losers <? length act)%nat = false ->
  length (List.filter active ps) <> 1%nat ->
  resolveLowest room t now g act w =
    (TallyEliminated (map userId losers) (length (List.filter active ps))
       (currentRound g + 1),
     setGames (<[room := nextRound now ps g]> (games w)) w).
Proof.
  intros losers ps Hcond Hlen. unfold resolveLowest.
  fold losers. rewrite Hcond. fold ps.
  destruct (List.filter active ps) as [|x [|y l]] eqn:E; simpl in *;
    reflexivity || congruence.
Qed.

Lemma lowcard_three_distinct g a b c :
  NoDup (map userId (players g)) ->
  List.filter active (players g) = [a; b; c] ->
  userId a <> userId b /\ userId a <> userId c /\ userId b <> userId c.
Proof.
  intros Hnd Hact.
  pose proof (NoDup_map_filter userId active _ Hnd) as H.
  rewrite Hact in H. simpl in H.
  apply NoDup_cons in H as [Ha H]. apply NoDup_cons in H as [Hb _].
  rewrite !elem_of_cons in Ha. rewrite elem_of_cons in Hb.
  repeat split; intros E; [apply Ha|apply Ha|apply Hb]; auto.
Qed.

(** Three card holders whose highest rank is shared: nobody wins on the
    spot; the holders of the lowest rank are marked out and the game is
    set up for its next round, with no credit made. *)
Lemma lowcard_three_tied_highest room now w g a b c i j x y :
  games w !! room = Some g ->
  NoDup (map userId (players g)) ->
  List.filter active (players g) = [a; b; c] ->
  activeWithCard g = [a; b; c] ->
  i <> j ->
  [a; b; c] !! i = Some x ->
  [a; b; c] !! j = Some y ->
  cardValue x = cardValue y ->
  (forall z, In z [a; b; c] -> cardValue z <= cardValue x) ->
  let losers :=
    List.filter (fun p => cardValue p =? minOf (map cardValue [a; b; c])) [a; b; c] in
  let ps := eliminateIds (map userId losers) (players g) in
  tallyRound room false now w =
    (TallyEliminated (map userId losers) (length (List.filter active ps))
       (currentRound g + 1),
     setGames (<[room := nextRound now ps g]> (games w)) w).
Proof.
  intros Hg Hnd Hact Hawc Hij Hi Hj Hxy Hmax losers ps.
  destruct (lowcard_three_distinct g a b c Hnd Hact) as (Hab & Hac & Hbc).
  rewrite (lowcard_tally_three room now w g a b c Hg Hawc).
  pose proof (Hmax a ltac:(simpl; auto)) as Ma.
  pose proof (Hmax b ltac:(simpl; auto)) as Mb.
  pose proof (Hmax c ltac:(simpl; auto)) as Mc.
  assert (Hrem : List.filter active ps =
                 List.filter (fun p => negb (existsb (fun i => userId p =? i)
                                                     (map userId losers))) [a; b; c]).
  { unfold ps. rewrite (lowcard_remaining_after _ _ Hnd), Hact. reflexivity. }
  assert (Hwin : match List.filter (fun p => cardValue p =? maxOf (map cardValue [a; b; c]))
                         [a; b; c] with
                 | [_] => False | _ => True end).
  { destruct i as [|[|[|i]]], j as [|[|[|j]]]; simpl in Hi, Hj; try discriminate;
      try lia; injection Hi as <-; injection Hj as <-; simpl;
      match goal with |- context [Z.max (Z.max ?u ?v) ?t] =>
        destruct (Z.max_spec (Z.max u v) t) as [[? ->]|[? ->]];
        destruct (Z.max_spec u v) as [[? E]|[? E]]; rewrite ?E in *
      end; zcases; exact I. }
  destruct (List.filter (fun p => cardValue p =? maxOf (map cardValue [a; b; c])) [a; b; c])
    as [|w1 [|w2 l]] eqn:Ew; try contradiction.
  all: apply lowcard_resolve_normal; fold losers; fold ps; rewrite ?Hrem.
  all: clear Ew Hwin Hrem ps.
  all: unfold losers; clear losers.
  all: destruct i as [|[|[|i]]], j as [|[|[|j]]]; simpl in Hi, Hj; try discriminate;
      try lia; injection Hi as <-; injection Hj as <-; simpl;
      match goal with |- context [Z.min (Z.min ?u ?v) ?t] =>
        destruct (Z.min_spec (Z.min u v) t) as [[? ->]|[? ->]];
        destruct (Z.min_spec u v) as [[? E]|[? E]]; rewrite ?E in *
      end; zcases; simpl; zcases; simpl; try reflexivity; try lia.
Qed.

Lemma lowcard_minOf_le l z : In z l -> minOf l <= z.
Proof.
  destruct l as [|x tl]; [intros []|]. intros Hz.
  by apply (proj1 (fold_min_spec tl x)).
Qed.

Lemma lowcard_minOf_In l : l <> [] -> In (minOf l) l.
Proof.
  destruct l as [|x tl]; [congruence|]. intros _.
  apply (proj2 (fold_min_spec tl x)).
Qed.

(** With unique ids, marking the ids of the records picked by [f] marks
    exactly the records picked by [f]. *)
Lemma lowcard_eliminate_filter (f : Player -> bool) ps :
  NoDup (map userId ps) ->
  eliminateIds (map userId (List.filter f ps)) ps =
  map (fun p => if f p then eliminate p else p) ps.
Proof.
  intros Hnd. rewrite (lowcard_eliminateIds_unique _ _ Hnd).
  apply map_ext_in. intros p Hp.
  destruct (f p) eqn:Hf.
  - assert (existsb (fun i => userId p =? i) (map userId (List.filter f ps)) = true) as ->;
      [|reflexivity].
    apply existsb_exists. exists (userId p). split; [|apply Z.eqb_refl].
    apply in_map, filter_In. auto.
  - assert (existsb (fun i => userId p =? i) (map userId (List.filter f ps)) = false) as ->;
      [|reflexivity].
    apply not_true_is_false. intros He.
    apply existsb_exists in He as (i & Hi & E). apply Z.eqb_eq in E.
    apply in_map_iff in Hi as (q & Hq & Hqin). apply filter_In in Hqin as [Hqin Hfq].
    assert (p = q) by (apply (NoDup_map_inj userId ps); auto; congruence).
    congruence.
Qed.

(** The losers of a tally, as a selection from the stored players. *)
Lemma lowcard_losers_filter g low :
  List.filter (fun p => cardValue p =? low) (activeWithCard g) =
  List.filter (holdsLowest low) (players g).
Proof.
  unfold activeWithCard. symmetry.
  apply (filter_andb (fun p => active p && holdsCard p) (fun p => cardValue p =? low)).
Qed.

End LowCardTallyProofs.

Section LowCardTieProofs.
Context {MT : MerchantTag}.
Import LowCard.

Lemma lowcard_minOf_unique l low :
  (forall z, In z l -> low <= z) -> In low l -> minOf l = low.
Proof.
  intros Hle Hin.
  pose proof (lowcard_minOf_le l low Hin).
  assert (l <> []) by (destruct l; [destruct Hin|discriminate]).
  pose proof (Hle _ (lowcard_minOf_In l ltac:(assumption))). lia.
Qed.

(** A tally in which the three-player rule does not apply. *)
Lemma lowcard_tally_no_endgame room t now w g :
  games w !! room = Some g ->
  length (activeWithCard g) <> 0%nat ->
  length (activeWithCard g) <> 3%nat \/ t = true ->
  tallyRound room t now w = resolveLowest room t now g (activeWithCard g) w.
Proof.
  intros Hg Hne Hno. unfold tallyRound. rewrite Hg.
  destruct (length (activeWithCard g) =? 0)%nat eqn:E0;
    [apply Nat.eqb_eq in E0; contradiction|].
  cbv zeta.
  assert ((length (activeWithCard g) =? 3)%nat && negb t = false) as ->; [|reflexivity].
  destruct Hno as [Hn | ->]; [|apply andb_false_r].
  apply Nat.eqb_neq in Hn. rewrite Hn. reflexivity.
Qed.

(** The tie branch that asks for a redraw. *)
Lemma lowcard_resolve_tie room t now g act w :
  let losers := List.filter (fun p => cardValue p =? minOf (map cardValue act)) act in
  (1 < length losers < length act)%nat ->
  t = false \/ previousTiedLosers g = None \/ previousTiedLosers g = Some [] ->
  resolveLowest room t now g act w =
    (TallyTie (map userId losers),
     setGames
       (<[room := setPlayers
                    (map (fun p =>
                            if active p && existsb (fun l => userId l =? userId p) losers
                            then resetDraw p else p) (players g))
                    (setPreviousTiedLosers (Some (map userId losers)) g)]> (games w)) w).
Proof.
  intros losers [H1 H2] Hprev. unfold resolveLowest. fold losers.
  apply Nat.ltb_lt in H1. apply Nat.ltb_lt in H2. rewrite H1, H2. simpl.
  destruct Hprev as [-> | [-> | ->]]; [reflexivity| |]; destruct t; reflexivity.
Qed.

(** The tie branch at a time-out with a recorded previous tie. *)
Lemma lowcard_resolve_tie_timeout room now g act w u us :
  let losers := List.filter (fun p => cardValue p =? minOf (map cardValue act)) act in
  let ps := eliminateIds (u :: us) (players g) in
  (1 < length losers < length act)%nat ->
  previousTiedLosers g = Some (u :: us) ->
  length (List.filter active ps) <> 1%nat ->
  resolveLowest room true now g act w =
    (TallyEliminated (u :: us) (length (List.filter active ps)) (currentRound g + 1),
     setGames (<[room := nextRound now ps g]> (games w)) w).
Proof.
  intros losers ps [H1 H2] Hprev Hlen. unfold resolveLowest. fold losers.
  apply Nat.ltb_lt in H1. apply Nat.ltb_lt in H2. rewrite H1, H2, Hprev.
  cbv beta iota zeta. change (true && true) with true. cbv iota. fold ps.
  destruct (List.filter active ps) as [|x [|y l]] eqn:E;
    [reflexivity | simpl in Hlen; congruence | reflexivity].
Qed.

(** With unique ids, the code's test "this player's id is among the
    losers" picks exactly the players in the game who hold the lowest card. *)
Lemma lowcard_isTied_holdsLowest ps low p :
  NoDup (map userId ps) ->
  In p ps ->
  active p && existsb (fun l => userId l =? userId p) (List.filter (holdsLowest low) ps)
  = holdsLowest low p.
Proof.
  intros Hnd Hp. destruct (holdsLowest low p) eqn:Hl.
  - assert (active p = true) as ->
      by (unfold holdsLowest in Hl; destruct (active p); [reflexivity|discriminate]).
    simpl. apply existsb_exists. exists p. split; [|apply Z.eqb_refl].
    apply filter_In. auto.
  - destruct (active p); [|reflexivity]. simpl.
    apply not_true_is_false. intros He.
    apply existsb_exists in He as (l & Hlin & E). apply Z.eqb_eq in E.
    apply filter_In in Hlin as [Hlin Hll].
    assert (l = p) by (apply (NoDup_map_inj userId ps); auto).
    congruence.
Qed.

Lemma filter_length_split {A : Type} (f : A -> bool) (l : list A) :
  (length (List.filter f l) + length (List.filter (fun x => negb (f x)) l) = length l)%nat.
Proof.
  induction l as [|x l IH]; simpl; [reflexivity|].
  destruct (f x); simpl; lia.
Qed.

End LowCardTieProofs.

(** * Further properties of the ledger code *)

Section LedgerMoreProofs.
Context {MT : MerchantTag}.

Lemma getUserCredits_keeps (uid : Z) (b : Bank) :
  let r := getUserCredits uid b in
  users (snd r) = users b /\ tagged (snd r) = tagged b /\
  credit_logs (snd r) = credit_logs b /\
  fst r = default (default 0 (users b !! uid)) (cache b !! uid).
Proof.
  unfold getUserCredits. destruct (cache b !! uid); simpl; auto.
Qed.

(** Effect of one credit on the [users] table, account or not. *)
Lemma addCredits_users uid amount name reason (b : Bank) v :
  users (snd (addCredits uid amount name reason b)) !! v =
    if decide (v = uid) then (fun c => c + amount) <$> users b !! v else users b !! v.
Proof.
  unfold addCredits. destruct (users b !! uid) as [c|] eqn:Hu; simpl.
  - assert (users (if truthy name
                   then logGameTransaction uid name amount
                          (if includesRefund reason then game_refund else game_win)
                          (DescPlain reason)
                          (setCache (<[uid:=c + amount]> (cache b))
                             (setUsers (<[uid:=c + amount]> (users b)) b))
                   else setCache (<[uid:=c + amount]> (cache b))
                          (setUsers (<[uid:=c + amount]> (users b)) b))
            = <[uid := c + amount]> (users b)) as -> by (destruct (truthy name); reflexivity).
    destruct (decide (v = uid)) as [-> | Hne].
    + rewrite lookup_insert_eq, Hu. reflexivity.
    + rewrite lookup_insert_ne by congruence. reflexivity.
  - destruct (decide (v = uid)) as [-> | Hne]; [rewrite Hu|]; reflexivity.
Qed.

Lemma addCredits_tagged uid amount name reason (b : Bank) :
  tagged (snd (addCredits uid amount name reason b)) = tagged b.
Proof.
  unfold addCredits. destruct (users b !! uid); simpl; [|reflexivity].
  destruct (truthy name); reflexivity.
Qed.

(** The refund loop credits every listed account exactly once. *)
Lemma creditEach_users {A : Type} (uid : A -> Z) (uname : A -> string) amount reason
    (ps : list A) (b : Bank) v :
  NoDup (map uid ps) ->
  users (creditEach uid uname amount reason ps b) !! v =
    if decide (v ∈ map uid ps) then (fun c => c + amount) <$> users b !! v
    else users b !! v.
Proof.
  revert b. induction ps as [|p ps IH]; intros b Hnd; simpl.
  - destruct (decide (v ∈ [])) as [Hin|_]; [inversion Hin|reflexivity].
  - apply NoDup_cons in Hnd as [Hp Hps].
    unfold creditEach in *. simpl. rewrite (IH _ Hps). rewrite addCredits_users.
    destruct (decide (v = uid p)) as [-> | Hne].
    + destruct (decide (uid p ∈ map uid ps)) as [Hin | _]; [contradiction|].
      destruct (decide (uid p ∈ uid p :: map uid ps)) as [_ | Hn]; [reflexivity|].
      exfalso. apply Hn. left.
    + destruct (decide (v ∈ map uid ps)) as [Hin | Hnin].
      * destruct (decide (v ∈ uid p :: map uid ps)) as [_ | Hn]; [reflexivity|].
        exfalso. apply Hn. by right.
      * destruct (decide (v ∈ uid p :: map uid ps)) as [Hin | _]; [|reflexivity].
        apply elem_of_cons in Hin as [E | H]; [congruence | contradiction].
Qed.

Lemma creditEach_tagged {A : Type} (uid : A -> Z) (uname : A -> string) amount reason
    (ps : list A) (b : Bank) :
  tagged (creditEach uid uname amount reason ps b) = tagged b.
Proof.
  revert b. induction ps as [|p ps IH]; intros b; [reflexivity|].
  unfold creditEach in *. simpl. rewrite IH. apply addCredits_tagged.
Qed.

End LedgerMoreProofs.

(** X1.  Whatever the tagged stage and the cache say, [deductCredits]
    never drives an account below zero and never takes more than the
    account holds: a non-negative balance stays between zero and its old
    value, is unchanged when the debit fails, and no other account is
    touched. *)
Theorem deductCredits_never_overdraws (MT : MerchantTag)
    gt uid amount name reason (b : Bank) res b' c :
  deductCredits gt uid amount name reason b = (res, b') ->
  users b !! uid = Some c ->
  0 <= c ->
  (exists c', users b' !! uid = Some c' /\ 0 <= c' <= c /\
              (dr_success res = false -> c' = c)) /\
  (forall v, v <> uid -> users b' !! v = users b !! v).
Proof.
  unfold deductCredits, getUserCredits. intros H Hu Hc.
  repeat case_match; simplify_eq; simpl in *; zbool.
  all: split; [|intros v Hv; rewrite ?lookup_insert_ne by congruence; reflexivity].
  all: rewrite ?lookup_insert_eq; eexists; (split; [first [reflexivity | eassumption]|]).
  all: try match goal with
         | H : users ?bk !! ?u = Some ?z, H' : users ?bk !! ?u = Some ?z' |- _ =>
             assert (z = z') by congruence; subst z
         end.
  all: split; [lia | intros; first [discriminate | reflexivity | lia]].
Qed.

(** User 2 pays 100 out of 500. *)
Lemma deductCredits_never_overdraws_witness :
  (exists c', users (snd (deductCredits DICE 2 100 Examples.name2 BetJoin Examples.bank0))
                !! 2 = Some c' /\ 0 <= c' <= 500 /\
              (dr_success (fst (deductCredits DICE 2 100 Examples.name2 BetJoin Examples.bank0))
               = false -> c' = 500)) /\
  (forall v, v <> 2 ->
     users (snd (deductCredits DICE 2 100 Examples.name2 BetJoin Examples.bank0)) !! v
     = users Examples.bank0 !! v).
Proof.
  apply (deductCredits_never_overdraws specMerchantTag DICE 2 100 Examples.name2 BetJoin
           Examples.bank0 _ _ 500).
  - apply surjective_pairing.
  - reflexivity.
  - lia.
Defined.



(** * Cancelling, stopping and an empty join window *)

(** X3.  [Dice.cancelGame] on a session that is not finished, with
    distinct player ids: the call succeeds, the session is deleted, every
    player who is not eliminated has exactly the entry amount added to the
    [users] table, and every other account (eliminated players included)
    keeps its balance.  The refund goes to the main balance only: the
    tagged store is as before.  On a finished session, or with no session,
    the call fails and changes nothing. *)
Theorem dice_cancel_refunds_players_in_game (MT : MerchantTag) :
  (forall room w g,
     Dice.games w !! room = Some g ->
     Dice.status g <> Dice.finished ->
     NoDup (map Dice.userId (Dice.players g)) ->
     exists w',
       Dice.cancelGame room w = (Dice.mkResult true Dice.MsgCancelled None, w') /\
       Dice.games w' !! room = None /\
       tagged (Dice.bank w') = tagged (Dice.bank w) /\
       forall v,
         users (Dice.bank w') !! v =
           if decide (v ∈ map Dice.userId (List.filter Dice.active (Dice.players g)))
           then (fun c => c + Dice.entryAmount g) <$> users (Dice.bank w) !! v
           else users (Dice.bank w) !! v) /\
  (forall room w g,
     Dice.games w !! room = Some g ->
     Dice.status g = Dice.finished ->
     Dice.cancelGame room w = (Dice.failure Dice.MsgAlreadyFinished, w)) /\
  (forall room w,
     Dice.games w !! room = None ->
     Dice.cancelGame room w = (Dice.failure Dice.MsgNoGameToCancel, w)).
Proof.
  split; [|split].
  - intros room w g Hg Hst Hnd. unfold Dice.cancelGame. rewrite Hg.
    destruct (Dice.status g) eqn:E; try congruence; simpl.
    all: eexists; split; [reflexivity|]; simpl.
    all: split; [apply lookup_delete_eq|].
    all: split; [apply creditEach_tagged|].
    all: intros v; apply creditEach_users, NoDup_map_filter, Hnd.
  - intros room w g Hg Hst. unfold Dice.cancelGame. rewrite Hg, Hst. reflexivity.
  - intros room w Hg. unfold Dice.cancelGame. rewrite Hg. reflexivity.
Qed.

(** The playing dice game of users 1 and 2 is cancelled. *)
Lemma dice_cancel_refunds_players_in_game_witness :
  exists w',
    Dice.cancelGame 7 Examples.dice2 = (Dice.mkResult true Dice.MsgCancelled None, w') /\
    Dice.games w' !! 7 = None.
Proof.
  destruct (proj1 (dice_cancel_refunds_players_in_game specMerchantTag) 7 Examples.dice2
              (Dice.mkGame 1000 7 Dice.playing 100 200 0 None
                 [Dice.newPlayer 1 Examples.name1; Dice.newPlayer 2 Examples.name2]
                 1 Examples.name1 31000 None None None))
    as (w' & H1 & H2 & _).
  - reflexivity.
  - discriminate.
  - simpl. apply NoDup_cons. split; [|apply NoDup_singleton].
    intros H. apply list_elem_of_singleton in H. discriminate.
  - exists w'. auto.
Defined.

(** X4.  When the join window closes on a waiting session with fewer than
    two players, [beginGame] of either service cancels: the session is
    deleted and each recorded player gets the entry amount back on the main
    balance, other accounts being untouched.  A session that is not waiting
    is left alone. *)
Theorem begin_with_too_few_players_refunds (MT : MerchantTag) :
  (forall room w g,
     Dice.games w !! room = Some g ->
     Dice.status g = Dice.waiting ->
     (length (Dice.players g) < 2)%nat ->
     exists w',
       Dice.beginGame room w = (Dice.BeginCancelled, w') /\
       Dice.games w' !! room = None /\
       forall v,
         users (Dice.bank w') !! v =
           if decide (v ∈ map Dice.userId (Dice.players g))
           then (fun c => c + Dice.entryAmount g) <$> users (Dice.bank w) !! v
           else users (Dice.bank w) !! v) /\
  (forall room w g,
     Dice.games w !! room = Some g ->
     Dice.status g <> Dice.waiting ->
     Dice.beginGame room w = (Dice.BeginNull, w)) /\
  (forall room now shuffled w g,
     LowCard.games w !! room = Some g ->
     LowCard.status g = LowCard.waiting ->
     (length (LowCard.players g) < 2)%nat ->
     exists w',
       LowCard.beginGame room now shuffled w = (LowCard.BeginCancelled, w') /\
       LowCard.games w' !! room = None /\
       forall v,
         users (LowCard.bank w') !! v =
           if decide (v ∈ map LowCard.userId (LowCard.players g))
           then (fun c => c + LowCard.entryAmount g) <$> users (LowCard.bank w) !! v
           else users (LowCard.bank w) !! v) /\
  (forall room now shuffled w g,
     LowCard.games w !! room = Some g ->
     LowCard.status g <> LowCard.waiting ->
     LowCard.beginGame room now shuffled w = (LowCard.BeginNull, w)).
Proof.
  assert (Hshort : forall (A : Type) (f : A -> Z) (l : list A),
             (length l < 2)%nat -> NoDup (map f l)).
  { intros A f [|x [|y l]] Hl; simpl in *; try lia.
    - apply NoDup_nil_2.
    - apply NoDup_singleton. }
  split; [|split; [|split]].
  - intros room w g Hg Hst Hlen. unfold Dice.beginGame. rewrite Hg, Hst. simpl.
    apply Nat.ltb_lt in Hlen as Hlt. rewrite Hlt.
    eexists; split; [reflexivity|]. simpl. split; [apply lookup_delete_eq|].
    intros v. apply creditEach_users, Hshort, Hlen.
  - intros room w g Hg Hst. unfold Dice.beginGame. rewrite Hg.
    destruct (Dice.status g); try congruence; reflexivity.
  - intros room now shuffled w g Hg Hst Hlen. unfold LowCard.beginGame.
    rewrite Hg, Hst. simpl. apply Nat.ltb_lt in Hlen as Hlt. rewrite Hlt.
    eexists; split; [reflexivity|]. simpl. split; [apply lookup_delete_eq|].
    intros v. apply creditEach_users, Hshort, Hlen.
  - intros room now shuffled w g Hg Hst. unfold LowCard.beginGame. rewrite Hg.
    destruct (LowCard.status g); try congruence; reflexivity.
Qed.

(** Nobody joined the game user 1 started. *)
Lemma begin_with_too_few_players_refunds_witness :
  exists w',
    Dice.beginGame 7 Examples.dice1 = (Dice.BeginCancelled, w') /\
    Dice.games w' !! 7 = None.
Proof.
  destruct (proj1 (begin_with_too_few_players_refunds specMerchantTag) 7 Examples.dice1
              (Dice.mkGame 1000 7 Dice.waiting 100 100 0 None
                 [Dice.newPlayer 1 Examples.name1] 1 Examples.name1 31000 None None None))
    as (w' & H1 & H2 & _).
  - reflexivity.
  - reflexivity.
  - simpl. lia.
  - exists w'. auto.
Defined.

(** X5.  [LowCard.stopGame] refuses to stop a playing session and changes
    nothing; on any other stored session with distinct player ids it
    refunds the entry amount to every recorded player, and deletes the
    session together with the room's deck. *)
Theorem lowcard_stop_only_before_play (MT : MerchantTag) :
  (forall room w g,
     LowCard.games w !! room = Some g ->
     LowCard.status g = LowCard.playing ->
     LowCard.stopGame room w = (LowCard.failure LowCard.MsgCannotStop, w)) /\
  (forall room w g,
     LowCard.games w !! room = Some g ->
     LowCard.status g <> LowCard.playing ->
     NoDup (map LowCard.userId (LowCard.players g)) ->
     exists w',
       LowCard.stopGame room w
         = (LowCard.mkResult true LowCard.MsgStopped None, w') /\
       LowCard.games w' !! room = None /\
       LowCard.decks w' !! room = None /\
       forall v,
         users (LowCard.bank w') !! v =
           if decide (v ∈ map LowCard.userId (LowCard.players g))
           then (fun c => c + LowCard.entryAmount g) <$> users (LowCard.bank w) !! v
           else users (LowCard.bank w) !! v).
Proof.
  split.
  - intros room w g Hg Hst. unfold LowCard.stopGame. rewrite Hg, Hst. reflexivity.
  - intros room w g Hg Hst Hnd. unfold LowCard.stopGame. rewrite Hg.
    destruct (LowCard.status g) eqn:E; try congruence; simpl.
    all: eexists; split; [reflexivity|]; simpl.
    all: split; [apply lookup_delete_eq|].
    all: split; [apply lookup_delete_eq|].
    all: intros v; apply creditEach_users, Hnd.
Qed.

(** The card game of users 1 and 2 is playing: it cannot be stopped. *)
Lemma lowcard_stop_only_before_play_witness :
  LowCard.stopGame 7 Examples.low2 = (LowCard.failure LowCard.MsgCannotStop, Examples.low2).
Proof.
  destruct (LowCard.games Examples.low2 !! 7) as [g|] eqn:Hg; [|discriminate Hg].
  apply (proj1 (lowcard_stop_only_before_play specMerchantTag) 7 Examples.low2 g Hg).
  injection Hg as <-. reflexivity.
Defined.

(** * Rounds of the dice game *)

Lemma map_mutateFirst {A B : Type} (f : A -> B) (pred : A -> bool) (h : A -> A) l :
  (forall q, f (h q) = f q) -> map f (mutateFirst pred h l) = map f l.
Proof.
  intros Hh. induction l as [|x l IH]; simpl; [reflexivity|].
  destruct (pred x); simpl; [rewrite Hh|rewrite IH]; reflexivity.
Qed.

Section DiceRoundProofs.
Context {MT : MerchantTag}.
Import Dice.

Lemma dice_find_other_mutateFirst (h : Player -> Player) u v l :
  (forall q, userId (h q) = userId q) ->
  u <> v ->
  find (fun p => userId p =? u)
       (mutateFirst (fun p => (userId p =? v) && negb (isEliminated p)) h l)
  = find (fun p => userId p =? u) l.
Proof.
  intros Hh Hne. induction l as [|x l IH]; simpl; [reflexivity|].
  destruct ((userId x =? v) && negb (isEliminated x)) eqn:Hx; simpl.
  - apply andb_true_iff in Hx as [Hx _]. apply Z.eqb_eq in Hx.
    rewrite Hh. assert ((userId x =? u) = false) as -> by (apply Z.eqb_neq; congruence).
    reflexivity.
  - destruct (userId x =? u); [reflexivity|exact IH].
Qed.

Lemma dice_roll_failure_unchanged room v a b w res w' :
  rollPlayerDice room v a b w = (res, w') ->
  rr_success res = false -> w' = w.
Proof.
  unfold rollPlayerDice. intros H Hf.
  repeat case_match; simplify_eq; simpl in *; auto; discriminate.
Qed.

Lemma dice_roll_success room v a b w res w' :
  rollPlayerDice room v a b w = (res, w') ->
  rr_success res = true ->
  exists g t,
    games w !! room = Some g /\ status g = playing /\ botTarget g = Some t /\
    w' = setGames
           (<[room := setPlayers
                        (mutateFirst (fun p => (userId p =? v) && negb (isEliminated p))
                           (applyRoll (r_total t) a b) (players g)) g]> (games w)) w.
Proof.
  unfold rollPlayerDice. intros H Hok.
  repeat case_match; simplify_eq; simpl in *; try discriminate.
  eexists; eexists; repeat split; eauto.
  by destruct (status _).
Qed.

(** The whole list after a tally. *)
Lemma dice_tallyRound_players room w r w' g :
  games w !! room = Some g ->
  tallyRound room w = (r, w') ->
  r <> TallyNull ->
  status g = playing /\ bank w' = match r with
                                  | TallyGameOver _ _ _ _ _ => bank w'
                                  | _ => bank w
                                  end /\
  exists g', games w' !! room = Some g' /\
    players g' = map (tallied r) (players g) /\
    pot g' = pot g /\ entryAmount g' = entryAmount g /\
    currentRound g' = currentRound g.
Proof.
  intros Hg. unfold tallyRound. rewrite Hg.
  destruct (status g) eqn:Hst; simpl; try (intros [= <- <-]; congruence).
  intros H Hnn. split; [reflexivity|].
  destruct (length (List.filter (isInIs true) (List.filter active (players g))) =? 0)%nat.
  - injection H as <- <-. split; [reflexivity|]. simpl.
    eexists. rewrite lookup_insert_eq. split; [reflexivity|]. simpl.
    rewrite map_map. repeat split.
  - match type of H with (if ?c then _ else _) = _ => destruct c eqn:Hlen end.
    + unfold finalizeGame in H. simpl in H. rewrite lookup_insert_eq in H. simpl in H.
      match type of H with context [find active ?l] =>
        destruct (find active l) as [winner|] eqn:Hw end.
      * destruct (addCredits _ _ _ _ _) as [ar b'].
        injection H as <- <-. split; [reflexivity|]. simpl.
        eexists. rewrite lookup_insert_eq. split; [reflexivity|]. simpl.
        rewrite map_map. repeat split.
      * apply find_none_filter in Hw. rewrite Hw in Hlen. discriminate.
    + injection H as <- <-. split; [reflexivity|]. simpl.
      eexists. rewrite lookup_insert_eq. split; [reflexivity|]. simpl.
      rewrite map_map. repeat split.
Qed.

End DiceRoundProofs.

Section DicePlayProofs.
Context {MT : MerchantTag}.
Import Dice.

Lemma dice_keepsOut_map (h : Player -> Player) l :
  (forall p, userId (h p) = userId p /\ (isEliminated p = true -> isEliminated (h p) = true)) ->
  keepsOut l (map h l).
Proof.
  intros Hh. unfold keepsOut. induction l; simpl; constructor; auto.
Qed.

Lemma dice_keepsOut_refl l : keepsOut l l.
Proof. unfold keepsOut. induction l; constructor; auto. Qed.

Lemma dice_keepsOut_trans l1 l2 l3 : keepsOut l1 l2 -> keepsOut l2 l3 -> keepsOut l1 l3.
Proof.
  unfold keepsOut. intros H12. revert l3.
  induction H12 as [|p q l1 l2 [Hu He] _ IH]; intros l3 H23; inversion H23; subst.
  - constructor.
  - constructor; [|auto]. destruct H1 as [Hu' He']. split; [congruence|auto].
Qed.

Lemma dice_keepsOut_mutateFirst pred (h : Player -> Player) l :
  (forall p, userId (h p) = userId p /\ (isEliminated p = true -> isEliminated (h p) = true)) ->
  keepsOut l (mutateFirst pred h l).
Proof.
  intros Hh. unfold keepsOut. induction l as [|x l IH]; simpl; [constructor|].
  destruct (pred x); constructor; auto. apply dice_keepsOut_refl.
Qed.

Lemma dice_keepsOut_autoRoll t rng k l : keepsOut l (autoRollPlayers t rng k l).
Proof.
  unfold keepsOut. revert k. induction l as [|x l IH]; intros k; simpl; [constructor|].
  destruct (negb (isEliminated x) && negb (hasRolled x)); constructor; auto.
Qed.

Lemma dice_tallied_keeps r p :
  userId (tallied r p) = userId p /\
  (isEliminated p = true -> isEliminated (tallied r p) = true).
Proof.
  unfold tallied, active. destruct (isEliminated p) eqn:E; simpl.
  - destruct r; simpl; rewrite E; simpl; auto.
  - split; [|discriminate].
    destruct r; simpl; rewrite ?E; simpl; try reflexivity;
      destruct (isInIs false (clearImmunity p)); reflexivity.
Qed.

Lemma dice_nextRoundPlayer_keeps p :
  userId (nextRoundPlayer p) = userId p /\
  (isEliminated p = true -> isEliminated (nextRoundPlayer p) = true).
Proof.
  unfold nextRoundPlayer. destruct (isEliminated p) eqn:E; simpl; [auto|].
  split; [|discriminate]. destruct (earnedImmunity p); reflexivity.
Qed.

(** No step creates a session. *)
Lemma dice_playStep_none room w w' :
  playStep room w w' -> games w !! room = None -> games w' !! room = None.
Proof.
  intros Hstep Hn.
  destruct Hstep as [w w' Hround | w | d1 d2 w | uid name now w | w];
    [destruct Hround as [v a b w | rng w]| | | |].
  - unfold rollPlayerDice. rewrite Hn. exact Hn.
  - unfold autoRollForTimeout. rewrite Hn. exact Hn.
  - unfold tallyRound. rewrite Hn. exact Hn.
  - unfold startNextRound. rewrite Hn. exact Hn.
  - unfold joinGame. rewrite Hn. exact Hn.
  - unfold runCleanup. destruct (decide _); [|exact Hn].
    simpl. apply lookup_delete_eq.
Qed.

Lemma dice_playSteps_none room w w' :
  rtc (playStep room) w w' -> games w !! room = None -> games w' !! room = None.
Proof.
  induction 1 as [|w w1 w2 Hstep _ IH]; [auto|].
  intros Hn. apply IH. exact (dice_playStep_none _ _ _ Hstep Hn).
Qed.

(** One step on a session that has left the waiting state: the timer of
    a finished game deletes it, every other step keeps it. *)
Lemma dice_playStep_keeps room w w' g :
  playStep room w w' ->
  games w !! room = Some g ->
  status g <> waiting ->
  games w' !! room = None \/
  exists g', games w' !! room = Some g' /\ status g' <> waiting /\
    pot g' = pot g /\ entryAmount g' = entryAmount g /\
    keepsOut (players g) (players g').
Proof.
  intros Hstep Hg Hst.
  assert (Hsame : exists g', games w !! room = Some g' /\ status g' <> waiting /\
            pot g' = pot g /\ entryAmount g' = entryAmount g /\
            keepsOut (players g) (players g'))
    by (exists g; repeat split; auto; apply dice_keepsOut_refl).
  destruct Hstep as [w w' Hround | w | d1 d2 w | uid name now w | w];
    [destruct Hround as [v a b w | rng w]| | | |];
    [right | right | right | right | right |].
  - destruct (rollPlayerDice room v a b w) as [res w'] eqn:Hr. simpl.
    destruct (rr_success res) eqn:Hok.
    + destruct (dice_roll_success _ _ _ _ _ _ _ Hr Hok) as (g0 & t & Hg0 & _ & _ & ->).
      rewrite Hg in Hg0. injection Hg0 as <-. simpl. rewrite lookup_insert_eq.
      eexists; split; [reflexivity|]. simpl. repeat split; auto.
      apply dice_keepsOut_mutateFirst. intros p. split; [reflexivity|auto].
    + by rewrite (dice_roll_failure_unchanged _ _ _ _ _ _ _ Hr Hok).
  - unfold autoRollForTimeout. rewrite Hg.
    destruct (botTarget g) as [t|]; [|exact Hsame].
    simpl. rewrite lookup_insert_eq. eexists; split; [reflexivity|]. simpl.
    repeat split; auto. apply dice_keepsOut_autoRoll.
  - destruct (tallyRound room w) as [r w'] eqn:Ht. simpl.
    assert (Hdec : r = TallyNull \/ r <> TallyNull)
      by (destruct r; (left; reflexivity) || (right; discriminate)).
    destruct Hdec as [-> | Hnn].
    + assert (w' = w) as ->; [|exact Hsame].
      unfold tallyRound in Ht. rewrite Hg in Ht.
      repeat case_match; simplify_eq; auto.
      unfold finalizeGame in Ht. simpl in Ht. rewrite lookup_insert_eq in Ht.
      repeat case_match; simplify_eq.
    + destruct (dice_tallyRound_players _ _ _ _ _ Hg Ht Hnn)
        as (_ & _ & g' & Hg' & Hps & Hpot & Hent & _).
      exists g'. split; [exact Hg'|]. repeat split; auto.
      * unfold tallyRound in Ht. rewrite Hg in Ht.
        repeat case_match; simplify_eq; simpl in *;
          rewrite ?lookup_insert_eq in *; simplify_eq; simpl; auto.
        unfold finalizeGame in Ht. simpl in Ht. rewrite lookup_insert_eq in Ht.
        repeat case_match; simplify_eq; simpl in *.
        -- rewrite lookup_insert_eq in Hg'. by simplify_eq.
        -- rewrite lookup_delete_eq in Hg'. discriminate.
      * rewrite Hps. apply dice_keepsOut_map, dice_tallied_keeps.
  - unfold startNextRound. rewrite Hg.
    destruct (negb (status_eqb (status g) playing)); [exact Hsame|].
    simpl. rewrite lookup_insert_eq. eexists; split; [reflexivity|]. simpl.
    repeat split; auto. apply dice_keepsOut_map, dice_nextRoundPlayer_keeps.
  - assert (joinGame room uid name now w = (failure MsgGameInProgress, w)) as ->;
      [|exact Hsame].
    unfold joinGame. rewrite Hg. destruct (status g); try congruence; reflexivity.
  - unfold runCleanup. destruct (decide _); [|right; exact Hsame].
    left. simpl. apply lookup_delete_eq.
Qed.

End DicePlayProofs.

(** X6.  Once a dice session has left the waiting state, nothing that can
    reach it (rolls by anyone, automatic rolls, tallies, round starts, join
    attempts, the timer that deletes a finished session) puts it back to
    waiting, changes its pot or its entry amount, or changes who its
    players are, and a player who is eliminated stays eliminated: whatever
    session the room holds afterwards has the pot, the entry amount and
    the players of the one it held. *)
Theorem dice_play_keeps_pot_and_players (MT : MerchantTag) room w w' g g' :
  rtc (Dice.playStep room) w w' ->
  Dice.games w !! room = Some g ->
  Dice.status g <> Dice.waiting ->
  Dice.games w' !! room = Some g' ->
  Dice.status g' <> Dice.waiting /\
  Dice.pot g' = Dice.pot g /\
  Dice.entryAmount g' = Dice.entryAmount g /\
  Dice.keepsOut (Dice.players g) (Dice.players g').
Proof.
  intros Hsteps. revert g.
  induction Hsteps as [w | w w1 w2 Hstep Hrest IH]; intros g Hg Hst Hg'.
  - rewrite Hg in Hg'. injection Hg' as <-.
    repeat split; auto. apply dice_keepsOut_refl.
  - destruct (dice_playStep_keeps room w w1 g Hstep Hg Hst)
      as [Hnone | (g1 & Hg1 & Hst1 & Hp1 & He1 & Hk1)].
    + rewrite (dice_playSteps_none _ _ _ Hrest Hnone) in Hg'. discriminate.
    + destruct (IH g1 Hg1 Hst1 Hg') as (Hst2 & Hp2 & He2 & Hk2).
      repeat split; auto; try congruence.
      eapply dice_keepsOut_trans; eauto.
Qed.

(** The second round of the three-player game: users 1 and 2 roll, user 4
    tries to join, and the tally ends the game.  The finished session
    still has the pot of 300, the entry amount of 100 and its three
    players. *)
Lemma dice_play_keeps_pot_and_players_witness :
  let w' := snd (Dice.tallyRound 7
                   (snd (Dice.joinGame 7 4 Examples.name4 50000
                      (snd (Dice.rollPlayerDice 7 2 1 2
                         (snd (Dice.rollPlayerDice 7 1 4 4 Examples.dice3_round2))))))) in
  exists g g',
    Dice.games Examples.dice3_round2 !! 7 = Some g /\
    Dice.games w' !! 7 = Some g' /\
    Dice.status g' = Dice.finished /\
    Dice.pot g = 300 /\ Dice.pot g' = 300 /\ Dice.entryAmount g' = 100 /\
    Dice.keepsOut (Dice.players g) (Dice.players g') /\
    map Dice.userId (Dice.players g') = [1; 2; 4].
Proof.
  intros w'.
  destruct (Dice.games Examples.dice3_round2 !! 7) as [g|] eqn:Hg;
    [|vm_compute in Hg; discriminate Hg].
  destruct (Dice.games w' !! 7) as [g'|] eqn:Hg'; [|vm_compute in Hg'; discriminate Hg'].
  destruct (dice_play_keeps_pot_and_players specMerchantTag 7 Examples.dice3_round2 w' g g'
              ltac:(eapply rtc_l; [apply Dice.play_round, Dice.step_roll|];
                    eapply rtc_l; [apply Dice.play_round, Dice.step_roll|];
                    eapply rtc_l; [apply Dice.play_join|];
                    apply rtc_once, Dice.play_tally)
              Hg
              ltac:(vm_compute in Hg; injection Hg as <-; discriminate)
              Hg')
    as (H1 & H2 & H3 & H4).
  exists g, g'. split; [reflexivity|]. split; [reflexivity|].
  split; [vm_compute in Hg'; injection Hg' as <-; reflexivity|].
  split; [vm_compute in Hg; injection Hg as <-; reflexivity|].
  split; [rewrite H2; vm_compute in Hg; injection Hg as <-; reflexivity|].
  split; [rewrite H3; vm_compute in Hg; injection Hg as <-; reflexivity|].
  split; [exact H4|].
  vm_compute in Hg'; injection Hg' as <-; reflexivity.
Defined.

Section DiceAutoRollProofs.
Context {MT : MerchantTag}.
Import Dice.

Lemma dice_autoRoll_all_rolled t rng k l p :
  In p (autoRollPlayers t rng k l) -> isEliminated p = false -> hasRolled p = true.
Proof.
  revert k. induction l as [|x l IH]; intros k; simpl; [tauto|].
  destruct (negb (isEliminated x) && negb (hasRolled x)) eqn:E.
  - intros [<- | Hin] He; [reflexivity | eauto].
  - intros [<- | Hin] He; [|eauto].
    rewrite He in E. simpl in E. by destruct (hasRolled x).
Qed.

Lemma dice_autoRoll_nothing_to_do t rng k l :
  (forall p, In p l -> isEliminated p = false -> hasRolled p = true) ->
  autoRollPlayers t rng k l = l.
Proof.
  revert k. induction l as [|x l IH]; intros k H; simpl; [reflexivity|].
  destruct (isEliminated x) eqn:He; simpl.
  - f_equal. apply IH. intros p Hp. apply H. by right.
  - rewrite (H x (or_introl eq_refl) He). simpl. f_equal.
    apply IH. intros p Hp. apply H. by right.
Qed.

Lemma dice_autoRoll_keeps_done t rng k l :
  Forall2 (fun p p' => isEliminated p = true \/ hasRolled p = true -> p' = p)
          l (autoRollPlayers t rng k l).
Proof.
  revert k. induction l as [|x l IH]; intros k; simpl; [constructor|].
  destruct (negb (isEliminated x) && negb (hasRolled x)) eqn:E; constructor; auto.
  intros [H | H]; rewrite H in E; simpl in E; try discriminate.
  by rewrite andb_false_r in E.
Qed.

Lemma dice_setPlayers_same g : setPlayers (players g) g = g.
Proof. by destruct g. Qed.

Lemma dice_setGames_same (w : World) : setGames (games w) w = w.
Proof. by destruct w. Qed.

End DiceAutoRollProofs.

(** X7.  [Dice.autoRollForTimeout] with a target set: afterwards every
    player still in the game has rolled; the records of players who had
    already rolled or are eliminated are untouched; ledger and pot are
    untouched; and running it again, with whatever dice, changes nothing,
    so a duplicate time-out does not roll twice.  Without a target the
    stores are returned as they were. *)
Theorem dice_autoRoll_completes_round_once (MT : MerchantTag) :
  (forall room rng w g t,
     Dice.games w !! room = Some g ->
     Dice.botTarget g = Some t ->
     exists g',
       Dice.games (Dice.autoRollForTimeout room rng w) !! room = Some g' /\
       (forall p, In p (Dice.players g') ->
                  Dice.isEliminated p = false -> Dice.hasRolled p = true) /\
       Forall2 (fun p p' => Dice.isEliminated p = true \/ Dice.hasRolled p = true -> p' = p)
               (Dice.players g) (Dice.players g') /\
       Dice.bank (Dice.autoRollForTimeout room rng w) = Dice.bank w /\
       Dice.pot g' = Dice.pot g /\
       forall rng2,
         Dice.autoRollForTimeout room rng2 (Dice.autoRollForTimeout room rng w)
         = Dice.autoRollForTimeout room rng w) /\
  (forall room rng w g,
     Dice.games w !! room = Some g ->
     Dice.botTarget g = None ->
     Dice.autoRollForTimeout room rng w = w).
Proof.
  split.
  - intros room rng w g t Hg Ht. unfold Dice.autoRollForTimeout at 1 2 3. rewrite Hg, Ht.
    simpl. rewrite lookup_insert_eq. eexists; split; [reflexivity|]. simpl.
    split; [intros p; apply dice_autoRoll_all_rolled|].
    split; [apply dice_autoRoll_keeps_done|].
    split; [reflexivity|]. split; [reflexivity|].
    intros rng2. unfold Dice.autoRollForTimeout at 1. rewrite Hg, Ht. simpl.
    rewrite lookup_insert_eq. simpl. rewrite Ht.
    rewrite dice_autoRoll_nothing_to_do
      by (intros p; apply dice_autoRoll_all_rolled).
    unfold Dice.autoRollForTimeout. rewrite Hg, Ht.
    unfold Dice.setGames, Dice.setPlayers. simpl. rewrite insert_insert_eq. reflexivity.
  - intros room rng w g Hg Ht. unfold Dice.autoRollForTimeout. rewrite Hg, Ht. reflexivity.
Qed.

(** Round 1 of the three-player game times out before anybody rolled. *)
Lemma dice_autoRoll_completes_round_once_witness :
  exists g',
    Dice.games (Dice.autoRollForTimeout 7 (fun _ => (3, 4)) Examples.dice3_round1) !! 7
      = Some g' /\
    (forall p, In p (Dice.players g') ->
               Dice.isEliminated p = false -> Dice.hasRolled p = true).
Proof.
  destruct (Dice.games Examples.dice3_round1 !! 7) as [g|] eqn:Hg; [|discriminate Hg].
  destruct (proj1 (dice_autoRoll_completes_round_once specMerchantTag) 7 (fun _ => (3, 4))
              Examples.dice3_round1 g (Dice.mkRoll 4 5 9) Hg)
    as (g' & H1 & H2 & _).
  - injection Hg as <-. reflexivity.
  - exists g'. auto.
Defined.

Lemma filter_none {A : Type} (f : A -> bool) (l : list A) :
  (forall x, In x l -> f x = false) -> List.filter f l = [].
Proof.
  induction l as [|x l IH]; simpl; [reflexivity|].
  intros H. rewrite (H x) by auto. auto.
Qed.

(** X8.  A dice round in which no player still in the game is marked in
    is void: the tally reports "all failed", eliminates nobody, resets the
    roll of every player in the game, clears the target, and leaves pot,
    round counter and ledger alone.  Until the next round is started every
    roll is refused with "round not started". *)
Theorem dice_void_round_is_replayed (MT : MerchantTag) room w g :
  Dice.games w !! room = Some g ->
  Dice.status g = Dice.playing ->
  (forall p, In p (Dice.players g) ->
             Dice.isEliminated p = false -> Dice.isIn p <> Some true) ->
  exists w' g',
    Dice.tallyRound room w = (Dice.TallyAllFailed (Dice.currentRound g + 1), w') /\
    Dice.games w' !! room = Some g' /\
    Dice.status g' = Dice.playing /\
    Dice.botTarget g' = None /\
    Dice.pot g' = Dice.pot g /\
    Dice.currentRound g' = Dice.currentRound g /\
    Dice.bank w' = Dice.bank w /\
    map Dice.isEliminated (Dice.players g') = map Dice.isEliminated (Dice.players g) /\
    (forall p, In p (Dice.players g') -> Dice.isEliminated p = false ->
       Dice.hasRolled p = false /\ Dice.isIn p = None /\ Dice.hasImmunity p = false) /\
    forall v a b,
      Dice.rollPlayerDice room v a b w' = (Dice.rollFailure Dice.MsgRoundNotStarted, w').
Proof.
  intros Hg Hst Hnone. unfold Dice.tallyRound. rewrite Hg, Hst. simpl.
  assert (List.filter (Dice.isInIs true) (List.filter Dice.active (Dice.players g)) = []) as ->.
  { apply filter_none. intros p Hp. apply filter_In in Hp as [Hp Ha].
    unfold Dice.active in Ha. apply negb_true_iff in Ha.
    specialize (Hnone p Hp Ha). unfold Dice.isInIs.
    destruct (Dice.isIn p) as [[|]|]; simpl; congruence. }
  simpl. eexists; eexists; split; [reflexivity|]. simpl.
  rewrite lookup_insert_eq. split; [reflexivity|]. simpl.
  set (h := fun p : Dice.Player =>
              if Dice.active (if Dice.active p then Dice.clearImmunity p else p)
              then Dice.resetRoll (if Dice.active p then Dice.clearImmunity p else p)
              else (if Dice.active p then Dice.clearImmunity p else p)).
  assert (Hh : forall p, Dice.isEliminated (h p) = Dice.isEliminated p /\
                 (Dice.isEliminated (h p) = false ->
                  Dice.hasRolled (h p) = false /\ Dice.isIn (h p) = None /\
                  Dice.hasImmunity (h p) = false)).
  { intros p. unfold h, Dice.active.
    destruct (Dice.isEliminated p) eqn:E; simpl; rewrite ?E; simpl.
    - split; [exact E | rewrite E; discriminate].
    - auto. }
  rewrite map_map. fold h.
  split; [exact Hst|]. split; [reflexivity|]. split; [reflexivity|].
  split; [reflexivity|]. split; [reflexivity|].
  split; [rewrite map_map; apply map_ext; intros p; apply Hh|].
  split.
  - intros p Hp He. apply in_map_iff in Hp as (q & <- & Hq).
    apply in_map_iff in Hq as (q0 & <- & _). exact (proj2 (Hh q0) He).
  - intros v a b. unfold Dice.rollPlayerDice. simpl. rewrite lookup_insert_eq. simpl.
    rewrite Hst. reflexivity.
Qed.

(** Everybody rolled below the target of 9 in round 1. *)
Lemma dice_void_round_is_replayed_witness :
  exists w' g',
    Dice.tallyRound 7 Examples.dice3_void = (Dice.TallyAllFailed 2, w') /\
    Dice.games w' !! 7 = Some g' /\
    Dice.status g' = Dice.playing /\
    Dice.botTarget g' = None.
Proof.
  destruct (Dice.games Examples.dice3_void !! 7) as [g|] eqn:Hg; [|discriminate Hg].
  destruct (dice_void_round_is_replayed specMerchantTag 7 Examples.dice3_void g Hg)
    as (w' & g' & H1 & H2 & H3 & H4 & _).
  - injection Hg as <-. reflexivity.
  - injection Hg as <-.
    intros p [<- | [<- | [<- | []]]] _ E; simpl in E; discriminate E.
  - exists w', g'. repeat split; auto.
    rewrite H1. injection Hg as <-. reflexivity.
Defined.

Section DiceTallyProofs.
Context {MT : MerchantTag}.
Import Dice.

Lemma dice_marked_eliminated (p : Player) :
  let p1 := if active p then clearImmunity p else p in
  let p2 := if active p1 && isInIs false p1 then eliminate p1 else p1 in
  userId p2 = userId p /\
  isEliminated p2 = isEliminated p || isInIs false p /\
  (isEliminated p = false -> isIn p = Some true ->
   isEliminated p2 = false /\ isIn p2 = Some true).
Proof.
  unfold active, isInIs. destruct (isEliminated p) eqn:E; simpl; rewrite ?E; simpl.
  - repeat split; auto; discriminate.
  - destruct (isIn p) as [[|]|] eqn:E2; simpl; repeat split; auto;
      try discriminate; intros; repeat split; auto; discriminate.
Qed.

End DiceTallyProofs.

(** X9.  A dice tally of a round in which somebody still in the game is
    marked in.  Afterwards a player is eliminated exactly if the player was
    eliminated before or was marked out in this round, so nobody who is in,
    or has no roll, is removed; at least one player marked in remains; and
    the result is "game over" exactly when a single player remains, "round
    complete" with the count of the remaining players otherwise. *)
Theorem dice_tally_removes_exactly_the_out (MT : MerchantTag) room w g r w' :
  Dice.games w !! room = Some g ->
  Dice.status g = Dice.playing ->
  (exists p, In p (Dice.players g) /\
             Dice.isEliminated p = false /\ Dice.isIn p = Some true) ->
  Dice.tallyRound room w = (r, w') ->
  exists g',
    Dice.games w' !! room = Some g' /\
    Forall2 (fun p p' => Dice.userId p' = Dice.userId p /\
                         Dice.isEliminated p' =
                           Dice.isEliminated p || Dice.isInIs false p)
            (Dice.players g) (Dice.players g') /\
    (exists p', In p' (Dice.players g') /\
                Dice.isEliminated p' = false /\ Dice.isIn p' = Some true) /\
    match r with
    | Dice.TallyGameOver wid _ _ _ _ =>
        exists p, List.filter Dice.active (Dice.players g') = [p] /\ Dice.userId p = wid
    | Dice.TallyRoundComplete _ n nr =>
        n = length (List.filter Dice.active (Dice.players g')) /\ n <> 1%nat /\
        nr = Dice.currentRound g + 1
    | _ => False
    end.
Proof.
  intros Hg Hst (p & Hp & Hel & Hin). unfold Dice.tallyRound. rewrite Hg, Hst. simpl.
  set (h1 := fun p : Dice.Player => if Dice.active p then Dice.clearImmunity p else p).
  set (hm := fun p : Dice.Player =>
               if Dice.active p && Dice.isInIs false p then Dice.eliminate p else p).
  assert (Hsurv : (length (List.filter (Dice.isInIs true)
                     (List.filter Dice.active (Dice.players g))) =? 0)%nat = false).
  { apply Nat.eqb_neq. intros H0. apply length_zero_iff_nil in H0.
    assert (Hpin : In p (List.filter (Dice.isInIs true)
                           (List.filter Dice.active (Dice.players g)))).
    { apply filter_In. split; [apply filter_In; split; [exact Hp|]|].
      - unfold Dice.active. by rewrite Hel.
      - unfold Dice.isInIs. by rewrite Hin. }
    rewrite H0 in Hpin. destruct Hpin. }
  rewrite Hsurv.
  assert (Hall : Forall2 (fun p p' => Dice.userId p' = Dice.userId p /\
                            Dice.isEliminated p' = Dice.isEliminated p || Dice.isInIs false p)
                   (Dice.players g) (map hm (map h1 (Dice.players g)))).
  { rewrite map_map. generalize (Dice.players g). intros l.
    induction l as [|x l IH]; simpl; constructor; [|exact IH].
    destruct (dice_marked_eliminated x) as (H1 & H2 & _). split; assumption. }
  assert (Hstay : exists p', In p' (map hm (map h1 (Dice.players g))) /\
                    Dice.isEliminated p' = false /\ Dice.isIn p' = Some true).
  { exists (hm (h1 p)). split; [apply in_map, in_map, Hp|].
    destruct (dice_marked_eliminated p) as (_ & _ & H3). exact (H3 Hel Hin). }
  destruct (length (List.filter Dice.active (map hm (map h1 (Dice.players g)))) =? 1)%nat
    eqn:Hlen.
  - unfold Dice.finalizeGame. simpl. rewrite lookup_insert_eq. simpl.
    apply Nat.eqb_eq in Hlen.
    destruct (List.filter Dice.active (map hm (map h1 (Dice.players g))))
      as [|winner [|y l]] eqn:Hf; try discriminate.
    rewrite (find_filter_head _ _ _ _ Hf).
    destruct (addCredits _ _ _ _ _) as [ar b'].
    intros [= <- <-]. simpl. rewrite lookup_insert_eq.
    eexists; split; [reflexivity|]. simpl.
    split; [exact Hall|]. split; [exact Hstay|].
    exists winner. split; [exact Hf | reflexivity].
  - intros [= <- <-]. simpl. rewrite lookup_insert_eq.
    eexists; split; [reflexivity|]. simpl.
    split; [exact Hall|]. split; [exact Hstay|].
    split; [reflexivity|]. split; [by apply Nat.eqb_neq | reflexivity].
Qed.

(** The tally of round 2 of the three-player game: user 2 is out, user 1
    is the last player. *)
Lemma dice_tally_removes_exactly_the_out_witness :
  exists g',
    Dice.games (snd (Dice.tallyRound 7 Examples.dice3_last)) !! 7 = Some g' /\
    exists p', In p' (Dice.players g') /\
               Dice.isEliminated p' = false /\ Dice.isIn p' = Some true.
Proof.
  destruct (Dice.games Examples.dice3_last !! 7) as [g|] eqn:Hg; [|discriminate Hg].
  destruct (dice_tally_removes_exactly_the_out specMerchantTag 7 Examples.dice3_last g
              (fst (Dice.tallyRound 7 Examples.dice3_last))
              (snd (Dice.tallyRound 7 Examples.dice3_last)) Hg)
    as (g' & H1 & _ & H3 & _).
  - injection Hg as <-. reflexivity.
  - injection Hg as <-. eexists. split; [left; reflexivity|]. split; reflexivity.
  - apply surjective_pairing.
  - exists g'. auto.
Defined.

(** * The end of a dice game, and single rolls *)

(** X10.  When a dice tally ends the game, the stored session is marked
    finished, and from then on every entry point that works on a stored
    session leaves all stores as they are: a second tally returns nothing,
    rolls and joins are refused, no round is started, the join window
    cannot be closed again and the game cannot be cancelled.  The winner
    is therefore paid once, and nobody is refunded after the pay-out. *)
Theorem dice_game_over_is_final (MT : MerchantTag) room w wid p win fee nb w' :
  Dice.tallyRound room w = (Dice.TallyGameOver wid p win fee nb, w') ->
  (exists g', Dice.games w' !! room = Some g' /\ Dice.status g' = Dice.finished /\
              Dice.winnerId g' = Some wid /\ Dice.winnings g' = Some win) /\
  Dice.tallyRound room w' = (Dice.TallyNull, w') /\
  (forall v a b,
     Dice.rollPlayerDice room v a b w' = (Dice.rollFailure Dice.MsgNotRolling, w')) /\
  (forall uid name now,
     Dice.joinGame room uid name now w' = (Dice.failure Dice.MsgGameInProgress, w')) /\
  (forall d1 d2, Dice.startNextRound room d1 d2 w' = (None, w')) /\
  Dice.beginGame room w' = (Dice.BeginNull, w') /\
  Dice.cancelGame room w' = (Dice.failure Dice.MsgAlreadyFinished, w').
Proof.
  intros Ht.
  destruct (Dice.games w !! room) as [g|] eqn:Hg;
    [|unfold Dice.tallyRound in Ht; rewrite Hg in Ht; discriminate].
  destruct (dice_tally_gameover _ _ _ _ _ _ _ _ _ Hg Ht)
    as (_ & _ & _ & (g' & Hg' & Hst & Hw & Hwin) & _).
  split; [exists g'; auto|].
  unfold Dice.tallyRound, Dice.rollPlayerDice, Dice.joinGame, Dice.startNextRound,
    Dice.beginGame, Dice.cancelGame.
  rewrite Hg', Hst. simpl. repeat split; reflexivity.
Qed.

(** The tally of round 2 of the three-player game leaves user 1 alone in
    the game: the game is over and a second tally returns nothing. *)
Lemma dice_game_over_is_final_witness :
  exists w',
    Dice.tallyRound 7 Examples.dice3_last = (Dice.TallyGameOver 1 300 270 30 670, w') /\
    Dice.tallyRound 7 w' = (Dice.TallyNull, w').
Proof.
  exists (snd (Dice.tallyRound 7 Examples.dice3_last)).
  split; [reflexivity|].
  apply (dice_game_over_is_final specMerchantTag 7 Examples.dice3_last 1 300 270 30 670).
  reflexivity.
Defined.

(** [find] and [mutateFirst] single out the same element. *)
Lemma find_split {A : Type} (pred : A -> bool) (l : list A) (x : A) :
  find pred l = Some x ->
  exists l1 l2, l = l1 ++ x :: l2 /\ pred x = true /\
                (forall y, In y l1 -> pred y = false).
Proof.
  induction l as [|y l IH]; simpl; [discriminate|].
  destruct (pred y) eqn:Hy.
  - intros [= ->]. exists [], l. repeat split; auto. intros ? [].
  - intros Hf. destruct (IH Hf) as (l1 & l2 & -> & Hx & Hl1).
    exists (y :: l1), l2. repeat split; auto.
    intros z [<- | Hz]; auto.
Qed.

Lemma mutateFirst_split {A : Type} (pred : A -> bool) (h : A -> A) l1 x l2 :
  (forall y, In y l1 -> pred y = false) -> pred x = true ->
  mutateFirst pred h (l1 ++ x :: l2) = l1 ++ h x :: l2.
Proof.
  intros Hl1 Hx. induction l1 as [|y l1 IH]; simpl.
  - rewrite Hx. reflexivity.
  - rewrite (Hl1 y) by (left; reflexivity). f_equal. apply IH.
    intros z Hz. apply Hl1. by right.
Qed.

Lemma find_app_first {A : Type} (pred : A -> bool) l1 (x : A) l2 :
  (forall y, In y l1 -> pred y = false) -> pred x = true ->
  find pred (l1 ++ x :: l2) = Some x.
Proof.
  intros Hl1 Hx. induction l1 as [|y l1 IH]; simpl.
  - rewrite Hx. reflexivity.
  - rewrite (Hl1 y) by (left; reflexivity). apply IH.
    intros z Hz. apply Hl1. by right.
Qed.

(** X11.  One call of [Dice.rollPlayerDice].  A refused roll changes
    nothing.  An accepted roll is made by the first record of the user that
    is still in the game and has not rolled; it rewrites that one record
    (the dice, in or out, the immunity earned) and nothing else: the other
    records, the pot and the ledger are as before.  The player is in
    exactly when the total reaches the target or an immunity is active.
    After an accepted roll, every further roll of the same user in that
    round is refused as "already rolled", whatever the dice. *)
Theorem dice_roll_writes_one_record_once (MT : MerchantTag) room v a b w res w' :
  Dice.rollPlayerDice room v a b w = (res, w') ->
  (Dice.rr_success res = false -> w' = w) /\
  (Dice.rr_success res = true ->
   exists g t before x after,
     Dice.games w !! room = Some g /\
     Dice.botTarget g = Some t /\
     Dice.players g = before ++ x :: after /\
     Dice.userId x = v /\ Dice.isEliminated x = false /\ Dice.hasRolled x = false /\
     (forall y, In y before -> Dice.userId y = v -> Dice.isEliminated y = true) /\
     w' = Dice.setGames
            (<[room := Dice.setPlayers
                         (before ++ Dice.applyRoll (Dice.r_total t) a b x :: after) g]>
               (Dice.games w)) w /\
     Dice.rr_isIn res = Some ((Dice.r_total t <=? a + b) || Dice.hasImmunity x) /\
     forall a' b',
       Dice.rollPlayerDice room v a' b' w'
       = (Dice.rollFailure Dice.MsgAlreadyRolled, w')).
Proof.
  intros Hr. split; [apply (dice_roll_failure_unchanged _ _ _ _ _ _ _ Hr)|].
  intros Hok.
  destruct (dice_roll_success _ _ _ _ _ _ _ Hr Hok) as (g & t & Hg & Hst & Ht & Hw').
  unfold Dice.rollPlayerDice in Hr. rewrite Hg, Hst, Ht in Hr. simpl in Hr.
  destruct (find (fun p => (Dice.userId p =? v) && negb (Dice.isEliminated p))
                 (Dice.players g)) as [x|] eqn:Hf; [|by simplify_eq].
  destruct (Dice.hasRolled x) eqn:Hx; [by simplify_eq|].
  destruct (find_split _ _ _ Hf) as (before & after & Hps & Hmine & Hbefore).
  apply andb_true_iff in Hmine as Hm. destruct Hm as [Hid Hel].
  apply Z.eqb_eq in Hid. apply negb_true_iff in Hel.
  rewrite Hps in Hw'. rewrite (mutateFirst_split _ _ _ _ _ Hbefore Hmine) in Hw'.
  exists g, t, before, x, after. repeat split; auto.
  - intros y Hy Hyv. specialize (Hbefore y Hy). simpl in Hbefore.
    rewrite Hyv, Z.eqb_refl in Hbefore. simpl in Hbefore.
    by apply negb_false_iff in Hbefore.
  - injection Hr as <- _. reflexivity.
  - intros a' b'. rewrite Hw'. unfold Dice.rollPlayerDice. simpl.
    rewrite lookup_insert_eq. simpl. rewrite Hst, Ht. simpl.
    rewrite (find_app_first _ before (Dice.applyRoll (Dice.r_total t) a b x) after).
    + reflexivity.
    + exact Hbefore.
    + simpl. rewrite Hid, Z.eqb_refl, Hel. reflexivity.
Qed.

(** In round 1 of the three-player game, with a target of 9, user 2 rolls
    a five and a six: the player is in. *)
Lemma dice_roll_writes_one_record_once_witness :
  Dice.rr_success (fst (Dice.rollPlayerDice 7 2 5 6 Examples.dice3_round1)) = true /\
  forall a' b',
    Dice.rollPlayerDice 7 2 a' b' (snd (Dice.rollPlayerDice 7 2 5 6 Examples.dice3_round1))
    = (Dice.rollFailure Dice.MsgAlreadyRolled,
       snd (Dice.rollPlayerDice 7 2 5 6 Examples.dice3_round1)).
Proof.
  split; [reflexivity|].
  destruct (dice_roll_writes_one_record_once specMerchantTag 7 2 5 6 Examples.dice3_round1
              (fst (Dice.rollPlayerDice 7 2 5 6 Examples.dice3_round1))
              (snd (Dice.rollPlayerDice 7 2 5 6 Examples.dice3_round1)))
    as [_ H].
  - apply surjective_pairing.
  - destruct (H eq_refl) as (g & t & before & x & after & _ & _ & _ & _ & _ & _ & _ & _ & _ & Hre).
    exact Hre.
Defined.

(** * The deck of the card game *)

Section LowCardDeckProofs.
Import LowCard.

Lemma lowcard_insert_swap_head (x y : Card) l j :
  l !! j = Some y -> y :: <[j := x]> l ≡ₚ x :: l.
Proof.
  revert j. induction l as [|z l IH]; intros [|j] Hj; simpl in *; try discriminate.
  - injection Hj as ->. apply perm_swap.
  - rewrite perm_swap. rewrite (IH j Hj). apply perm_swap.
Qed.

Lemma lowcard_swap_lt_Permutation (l : list Card) i j x y :
  (i < j)%nat -> l !! i = Some x -> l !! j = Some y ->
  <[j := x]> (<[i := y]> l) ≡ₚ l.
Proof.
  revert i j. induction l as [|z l IH]; intros [|i] [|j] Hlt Hi Hj; simpl in *;
    try discriminate; try lia.
  - injection Hi as ->. by apply lowcard_insert_swap_head.
  - f_equiv. apply IH; auto. lia.
Qed.

Lemma lowcard_swap_Permutation i j l : swap i j l ≡ₚ l.
Proof.
  unfold swap.
  destruct (l !! i) as [x|] eqn:Hi; [|reflexivity].
  destruct (l !! j) as [y|] eqn:Hj; [|reflexivity].
  destruct (lt_eq_lt_dec i j) as [[Hlt | ->] | Hgt].
  - by apply lowcard_swap_lt_Permutation.
  - assert (x = y) as -> by congruence.
    rewrite list_insert_insert_eq. by rewrite list_insert_id.
  - rewrite list_insert_insert_ne by lia. by apply lowcard_swap_lt_Permutation.
Qed.

Lemma lowcard_shuffleFrom_Permutation rnd i l : shuffleFrom rnd i l ≡ₚ l.
Proof.
  revert l. induction i as [|i IH]; intros l; simpl; [reflexivity|].
  rewrite IH. apply lowcard_swap_Permutation.
Qed.

Lemma lowcard_orderedDeck_NoDup : NoDup orderedDeck.
Proof. apply (bool_decide_unpack _). vm_compute. exact I. Qed.

End LowCardDeckProofs.

(** X12.  Whatever the random numbers, [LowCard.generateDeck] returns a
    rearrangement of the 52 cards built from the four suits and the ranks 2
    to 14: every combination of a rank and a suit is in the deck, and none
    is there twice. *)
Theorem lowcard_generateDeck_is_a_full_deck (rnd : nat -> nat) :
  LowCard.generateDeck rnd ≡ₚ LowCard.orderedDeck /\
  length (LowCard.generateDeck rnd) = 52%nat /\
  NoDup (LowCard.generateDeck rnd) /\
  forall v su, 2 <= v <= 14 -> In (LowCard.mkCard v su) (LowCard.generateDeck rnd).
Proof.
  assert (Hp : LowCard.generateDeck rnd ≡ₚ LowCard.orderedDeck)
    by apply lowcard_shuffleFrom_Permutation.
  split; [exact Hp|]. split; [by rewrite Hp|].
  split; [rewrite Hp; apply lowcard_orderedDeck_NoDup|].
  intros v su Hv. apply list_elem_of_In. rewrite Hp.
  assert (Hcases : v = 2 \/ v = 3 \/ v = 4 \/ v = 5 \/ v = 6 \/ v = 7 \/ v = 8 \/
                   v = 9 \/ v = 10 \/ v = 11 \/ v = 12 \/ v = 13 \/ v = 14) by lia.
  destruct su; repeat (destruct Hcases as [-> | Hcases]); try subst v;
    apply (bool_decide_unpack _); vm_compute; exact I.
Qed.

(** * Drawing cards *)

Section LowCardDrawProofs.
Context {MT : MerchantTag}.
Import LowCard.

Lemma lowcard_pop_nil : pop [] = (None, []).
Proof. reflexivity. Qed.

Lemma lowcard_pop_snoc rest c : pop (rest ++ [c]) = (Some c, rest).
Proof. unfold pop. rewrite rev_unit, rev_involutive. reflexivity. Qed.

Lemma lowcard_pop_cases deck :
  (deck = [] /\ pop deck = (None, [])) \/
  (exists rest c, deck = rest ++ [c] /\ pop deck = (Some c, rest)).
Proof.
  destruct (rev deck) as [|c rest] eqn:E.
  - left. apply (f_equal (@rev Card)) in E. rewrite rev_involutive in E.
    subst deck. auto.
  - right. apply (f_equal (@rev Card)) in E. rewrite rev_involutive in E. simpl in E.
    exists (rev rest), c. split; [exact E|]. rewrite E. apply lowcard_pop_snoc.
Qed.

Lemma lowcard_drawCardFromDeck_eq room shuffled w :
  drawCardFromDeck room shuffled w =
    (fst (pop (deckInUse room shuffled w)),
     setDecks (<[room := snd (pop (deckInUse room shuffled w))]> (decks w)) w).
Proof.
  unfold drawCardFromDeck, deckInUse.
  destruct (decks w !! room) as [[|c d]|]; destruct (pop _); reflexivity.
Qed.

(** The two outcomes of a draw. *)
Lemma lowcard_draw_cases room uid now shuffled w res card w' :
  drawCardForPlayer room uid now shuffled w = (res, card, w') ->
  (success res = false /\ w' = w /\ card = None) \/
  (success res = true /\
   exists g before x after,
     games w !! room = Some g /\ status g = playing /\
     match countdownEndsAt g with
     | Some t => t = 0 \/ t <= now
     | None => True
     end /\
     players g = before ++ x :: after /\
     userId x = uid /\ isEliminated x = false /\ hasDrawn x = false /\
     (forall y, In y before -> (userId y =? uid) && negb (isEliminated y) = false) /\
     card = fst (pop (deckInUse room shuffled w)) /\
     w' = setGames
            (<[room := setPlayers (before ++ giveCard card x :: after) g]> (games w))
            (setDecks (<[room := snd (pop (deckInUse room shuffled w))]> (decks w)) w)).
Proof.
  unfold drawCardForPlayer.
  destruct (games w !! room) as [g|] eqn:Hg; [|intros [= <- <- <-]; auto].
  destruct (status g) eqn:Hst; simpl; try (intros [= <- <- <-]; auto).
  destruct (match countdownEndsAt g with
            | Some t => negb (t =? 0) && (now <? t)
            | None => false
            end) eqn:Hc; [intros [= <- <- <-]; auto|].
  destruct (find (fun p => (userId p =? uid) && negb (isEliminated p)) (players g))
    as [x|] eqn:Hf; [|intros [= <- <- <-]; auto].
  destruct (hasDrawn x) eqn:Hd; [intros [= <- <- <-]; auto|].
  rewrite lowcard_drawCardFromDeck_eq.
  intros [= <- <- <-]. right. split; [reflexivity|].
  destruct (find_split _ _ _ Hf) as (before & after & Hps & Hmine & Hbefore).
  apply andb_true_iff in Hmine as Hm. destruct Hm as [Hid Hel].
  apply Z.eqb_eq in Hid. apply negb_true_iff in Hel.
  exists g, before, x, after. repeat split; auto.
  - destruct (countdownEndsAt g) as [t|]; [|exact I].
    destruct (t =? 0) eqn:E0; zbool; [auto|]. simpl in Hc. zbool. right. lia.
  - simpl. rewrite Hps. rewrite (mutateFirst_split _ _ _ _ _ Hbefore Hmine). reflexivity.
Qed.

Lemma lowcard_heldCards_split g before x after c :
  heldCards (setPlayers (before ++ giveCard (Some c) x :: after) g)
  = omap currentCard before ++ c :: omap currentCard after.
Proof. unfold heldCards. simpl. rewrite omap_app. reflexivity. Qed.

Lemma lowcard_table_step (hb ha rest : list Card) (hx : option Card) c :
  NoDup ((hb ++ from_option (fun y => [y]) [] hx ++ ha) ++ rest ++ [c]) ->
  NoDup ((hb ++ c :: ha) ++ rest) /\ c ∉ hb ++ ha.
Proof.
  intros Hnd.
  assert (Hp : (hb ++ from_option (fun y => [y]) [] hx ++ ha) ++ rest ++ [c]
               ≡ₚ from_option (fun y => [y]) [] hx ++ c :: (hb ++ ha) ++ rest).
  { destruct hx as [y|]; simpl.
    - rewrite <- !app_assoc. simpl.
      rewrite <- (Permutation_middle hb). rewrite !app_assoc.
      rewrite <- (Permutation_cons_append _ c). rewrite <- !app_assoc.
      rewrite perm_swap. reflexivity.
    - rewrite !app_assoc. rewrite <- (Permutation_cons_append _ c). reflexivity. }
  rewrite Hp in Hnd. apply NoDup_app in Hnd as (_ & _ & Hnd).
  apply NoDup_cons in Hnd as [Hc Hnd]. split.
  - assert (Hq : (hb ++ c :: ha) ++ rest ≡ₚ c :: (hb ++ ha) ++ rest).
    { rewrite <- (Permutation_middle hb). reflexivity. }
    rewrite Hq. apply NoDup_cons. auto.
  - intros Hin. apply Hc. apply elem_of_app. by left.
Qed.

End LowCardDrawProofs.

(** X13.  One call of [LowCard.drawCardForPlayer].  A refused draw changes
    nothing and deals no card.  An accepted draw happens in a playing game
    whose countdown is over, for the first record of the user that is still
    in the game and has not drawn; the card is the last one of the deck in
    use; that one record is marked as drawn with this card, the deck loses
    the card, and the other records, the pot and the ledger are as before.
    Afterwards every further draw of the same user is refused, whenever it
    is made. *)
Theorem lowcard_draw_writes_one_record_once (MT : MerchantTag)
    room uid now shuffled w res card w' :
  LowCard.drawCardForPlayer room uid now shuffled w = (res, card, w') ->
  (LowCard.success res = false -> w' = w /\ card = None) /\
  (LowCard.success res = true ->
   exists g before x after,
     LowCard.games w !! room = Some g /\ LowCard.status g = LowCard.playing /\
     match LowCard.countdownEndsAt g with
     | Some t => t = 0 \/ t <= now
     | None => True
     end /\
     LowCard.players g = before ++ x :: after /\
     LowCard.userId x = uid /\ LowCard.isEliminated x = false /\
     LowCard.hasDrawn x = false /\
     (forall y, In y before -> LowCard.userId y = uid -> LowCard.isEliminated y = true) /\
     card = fst (LowCard.pop (LowCard.deckInUse room shuffled w)) /\
     w' = LowCard.setGames
            (<[room := LowCard.setPlayers (before ++ LowCard.giveCard card x :: after) g]>
               (LowCard.games w))
            (LowCard.setDecks
               (<[room := snd (LowCard.pop (LowCard.deckInUse room shuffled w))]>
                  (LowCard.decks w)) w) /\
     forall now' shuffled',
       exists m, LowCard.drawCardForPlayer room uid now' shuffled' w'
                 = (LowCard.failure m, None, w')).
Proof.
  intros Hd.
  destruct (lowcard_draw_cases _ _ _ _ _ _ _ _ Hd)
    as [(Hs & -> & ->) | (Hs & g & before & x & after & Hg & Hst & Hc & Hps & Hid & Hel &
                          Hnd & Hbefore & Hcard & Hw')].
  - split; [auto | congruence].
  - split; [congruence|]. intros _.
    exists g, before, x, after. repeat split; auto.
    + intros y Hy Hyv. specialize (Hbefore y Hy).
      rewrite Hyv, Z.eqb_refl in Hbefore. simpl in Hbefore.
      by apply negb_false_iff in Hbefore.
    + intros now' shuffled'. rewrite Hw'. unfold LowCard.drawCardForPlayer. simpl.
      rewrite lookup_insert_eq. simpl. rewrite Hst. simpl.
      destruct (match LowCard.countdownEndsAt g with
                | Some t => negb (t =? 0) && (now' <? t)
                | None => false
                end); [eexists; reflexivity|].
      rewrite (find_app_first _ before (LowCard.giveCard card x) after).
      * eexists; reflexivity.
      * exact Hbefore.
      * simpl. rewrite Hid, Z.eqb_refl, Hel. reflexivity.
Qed.

(** User 1 draws from the full deck after the countdown: the ace of spades. *)
Lemma lowcard_draw_writes_one_record_once_witness :
  LowCard.success
    (fst (fst (LowCard.drawCardForPlayer 7 1 35000 LowCard.orderedDeck Examples.low2))) = true /\
  snd (fst (LowCard.drawCardForPlayer 7 1 35000 LowCard.orderedDeck Examples.low2))
    = Some (LowCard.mkCard 14 LowCard.suit_s) /\
  forall now' shuffled',
    exists m,
      LowCard.drawCardForPlayer 7 1 now' shuffled'
        (snd (LowCard.drawCardForPlayer 7 1 35000 LowCard.orderedDeck Examples.low2))
      = (LowCard.failure m, None,
         snd (LowCard.drawCardForPlayer 7 1 35000 LowCard.orderedDeck Examples.low2)).
Proof.
  split; [reflexivity|]. split; [reflexivity|].
  destruct (lowcard_draw_writes_one_record_once specMerchantTag 7 1 35000 LowCard.orderedDeck
              Examples.low2
              (fst (fst (LowCard.drawCardForPlayer 7 1 35000 LowCard.orderedDeck Examples.low2)))
              (snd (fst (LowCard.drawCardForPlayer 7 1 35000 LowCard.orderedDeck Examples.low2)))
              (snd (LowCard.drawCardForPlayer 7 1 35000 LowCard.orderedDeck Examples.low2)))
    as [_ H].
  - reflexivity.
  - destruct (H eq_refl) as (g & before & x & after & _ & _ & _ & _ & _ & _ & _ & _ & _ & _ & Hre).
    exact Hre.
Defined.

Section LowCardTableProofs.
Context {MT : MerchantTag}.
Import LowCard.

Lemma lowcard_deckInUse_stored room shuffled w :
  storedDeck room w <> [] -> deckInUse room shuffled w = storedDeck room w.
Proof.
  unfold storedDeck, deckInUse.
  destruct (decks w !! room) as [[|c d]|]; simpl; congruence.
Qed.

(** A draw from a stored deck that is not used up. *)
Lemma lowcard_drawCardFromDeck_stored room shuffled w :
  storedDeck room w <> [] ->
  exists rest c,
    storedDeck room w = rest ++ [c] /\
    drawCardFromDeck room shuffled w
      = (Some c, setDecks (<[room := rest]> (decks w)) w).
Proof.
  intros Hne. rewrite lowcard_drawCardFromDeck_eq, (lowcard_deckInUse_stored _ _ _ Hne).
  destruct (lowcard_pop_cases (storedDeck room w)) as [[E _] | (rest & c & E & Hpop)];
    [contradiction|].
  exists rest, c. rewrite Hpop. auto.
Qed.

Lemma lowcard_storedDeck_insert room d (w : World) :
  storedDeck room (setDecks (<[room := d]> (decks w)) w) = d.
Proof. unfold storedDeck. simpl. by rewrite lookup_insert_eq. Qed.

(** The automatic draws touch the room's deck and nothing else. *)
Lemma lowcard_autoDraw_world room shuffled ps : forall i w,
  let w' := snd (autoDrawPlayers room shuffled i ps w) in
  bank w' = bank w /\ games w' = games w /\ locks w' = locks w /\
  forall r, r <> room -> decks w' !! r = decks w !! r.
Proof.
  induction ps as [|p ps IH]; intros i w; simpl; [auto|].
  destruct (negb (isEliminated p) && negb (hasDrawn p)).
  - rewrite lowcard_drawCardFromDeck_eq.
    match goal with |- context [autoDrawPlayers room shuffled (S i) ps ?w1] =>
      specialize (IH (S i) w1); destruct (autoDrawPlayers room shuffled (S i) ps w1)
        as [tl' w2] end.
    simpl in *. destruct IH as (H1 & H2 & H3 & H4). repeat split; auto.
    intros r Hr. rewrite (H4 r Hr). by rewrite lookup_insert_ne.
  - specialize (IH (S i) w). destruct (autoDrawPlayers room shuffled (S i) ps w) as [tl' w2].
    exact IH.
Qed.

Lemma submseteq_NoDup {A : Type} (l k : list A) : l ⊆+ k -> NoDup k -> NoDup l.
Proof.
  intros Hs Hnd. apply submseteq_Permutation in Hs as [k' Hk].
  rewrite Hk in Hnd. by apply NoDup_app in Hnd as [? _].
Qed.

Lemma lowcard_autoDraw_table room shuffled ps : forall i w acc,
  NoDup (acc ++ omap currentCard ps ++ storedDeck room w) ->
  (length (List.filter (fun p => negb (isEliminated p) && negb (hasDrawn p)) ps)
   <= length (storedDeck room w))%nat ->
  NoDup (acc ++ omap currentCard (fst (autoDrawPlayers room shuffled i ps w))
             ++ storedDeck room (snd (autoDrawPlayers room shuffled i ps w))).
Proof.
  induction ps as [|p ps IH]; intros i w acc Hnd Hlen; [exact Hnd|].
  cbn [autoDrawPlayers]. cbn [List.filter] in Hlen.
  destruct (negb (isEliminated p) && negb (hasDrawn p)) eqn:Hp.
  - cbn [length] in Hlen.
    assert (Hne : storedDeck room w <> []).
    { intros E. rewrite E in Hlen. simpl in Hlen. lia. }
    destruct (lowcard_drawCardFromDeck_stored room (shuffled i) w Hne)
      as (rest & c & Hst & Hdraw).
    rewrite Hdraw.
    set (w1 := setDecks (<[room := rest]> (decks w)) w).
    assert (Hst1 : storedDeck room w1 = rest) by apply lowcard_storedDeck_insert.
    specialize (IH (S i) w1 (acc ++ [c])).
    destruct (autoDrawPlayers room shuffled (S i) ps w1) as [tl' w2].
    cbn [fst snd] in IH |- *.
    change (omap currentCard (giveCard (Some c) p :: tl'))
      with (c :: omap currentCard tl').
    replace (acc ++ (c :: omap currentCard tl') ++ storedDeck room w2)
      with ((acc ++ [c]) ++ omap currentCard tl' ++ storedDeck room w2)
      by (rewrite <- app_assoc; reflexivity).
    apply IH.
    + rewrite Hst1. rewrite Hst in Hnd. rewrite <- app_assoc.
      assert (Hq : acc ++ [c] ++ omap currentCard ps ++ rest
                   ⊆+ acc ++ omap currentCard (p :: ps) ++ rest ++ [c]).
      { apply submseteq_app; [reflexivity|].
        rewrite (app_assoc _ rest [c]).
        rewrite <- (Permutation_cons_append _ c). constructor.
        apply submseteq_app; [|reflexivity].
        change (omap currentCard (p :: ps))
          with (from_option (fun y => y :: omap currentCard ps) (omap currentCard ps)
                  (currentCard p)).
        destruct (currentCard p); [by constructor | reflexivity]. }
      eapply submseteq_NoDup; eauto.
    + rewrite Hst1. rewrite Hst, length_app in Hlen. simpl in Hlen. lia.
  - specialize (IH (S i) w (acc ++ from_option (fun y => [y]) [] (currentCard p))).
    destruct (autoDrawPlayers room shuffled (S i) ps w) as [tl' w2].
    cbn [fst snd] in IH |- *.
    change (omap currentCard (p :: ps))
      with (from_option (fun y => y :: omap currentCard ps) (omap currentCard ps)
              (currentCard p)) in Hnd.
    change (omap currentCard (p :: tl'))
      with (from_option (fun y => y :: omap currentCard tl') (omap currentCard tl')
              (currentCard p)).
    destruct (currentCard p) as [y|]; cbn [from_option] in *.
    + replace (acc ++ (y :: omap currentCard tl') ++ storedDeck room w2)
        with ((acc ++ [y]) ++ omap currentCard tl' ++ storedDeck room w2)
        by (rewrite <- app_assoc; reflexivity).
      apply IH; auto. rewrite <- app_assoc. exact Hnd.
    + rewrite app_nil_r in IH. auto.
Qed.

Lemma lowcard_generateDeck_NoDup rnd : NoDup (generateDeck rnd).
Proof.
  unfold generateDeck, shuffleDeck. rewrite lowcard_shuffleFrom_Permutation.
  apply lowcard_orderedDeck_NoDup.
Qed.

End LowCardTableProofs.

(** X14.  No card of the card game is in two places as long as the deck
    stored for the room lasts.  [LowCard.beginGame] stores a full deck and
    leaves every record without a card.  From then on, if the cards in the
    players' records and the stored deck are pairwise distinct and the
    stored deck is not used up, they are still pairwise distinct after a
    draw, and an accepted draw deals a card nobody held; the same holds for
    the automatic draws at a time-out when the stored deck has a card for
    every player who has yet to draw. *)
Theorem lowcard_no_card_is_dealt_twice (MT : MerchantTag) :
  (forall room now rnd w n w',
     LowCard.beginGame room now (LowCard.generateDeck rnd) w = (LowCard.BeginStarted n, w') ->
     exists g',
       LowCard.games w' !! room = Some g' /\
       LowCard.heldCards g' = [] /\
       LowCard.storedDeck room w' = LowCard.generateDeck rnd /\
       NoDup (LowCard.heldCards g' ++ LowCard.storedDeck room w')) /\
  (forall room uid now shuffled w g res card w',
     LowCard.games w !! room = Some g ->
     NoDup (LowCard.heldCards g ++ LowCard.storedDeck room w) ->
     LowCard.storedDeck room w <> [] ->
     LowCard.drawCardForPlayer room uid now shuffled w = (res, card, w') ->
     exists g',
       LowCard.games w' !! room = Some g' /\
       NoDup (LowCard.heldCards g' ++ LowCard.storedDeck room w') /\
       (LowCard.success res = true ->
        exists c, card = Some c /\ ~ In c (LowCard.heldCards g) /\
                  In c (LowCard.heldCards g') /\
                  LowCard.storedDeck room w = LowCard.storedDeck room w' ++ [c])) /\
  (forall room shuffled w g,
     LowCard.games w !! room = Some g ->
     NoDup (LowCard.heldCards g ++ LowCard.storedDeck room w) ->
     (length (List.filter (fun p => negb (LowCard.isEliminated p) && negb (LowCard.hasDrawn p))
                (LowCard.players g))
      <= length (LowCard.storedDeck room w))%nat ->
     exists g',
       LowCard.games (LowCard.autoDrawForTimeout room shuffled w) !! room = Some g' /\
       NoDup (LowCard.heldCards g' ++
              LowCard.storedDeck room (LowCard.autoDrawForTimeout room shuffled w))).
Proof.
  split; [|split].
  - intros room now rnd w n w'. unfold LowCard.beginGame.
    destruct (LowCard.games w !! room) as [g|]; [|discriminate].
    destruct (negb _); [discriminate|].
    destruct (length (LowCard.players g) <? 2)%nat; [discriminate|].
    intros [= _ <-]. eexists. simpl. rewrite lookup_insert_eq.
    split; [reflexivity|].
    assert (Hheld : LowCard.heldCards
                      (LowCard.setDeadlines (now + LowCard.COUNTDOWN_DELAY)
                         (now + LowCard.COUNTDOWN_DELAY + LowCard.DRAW_TIMEOUT)
                         (LowCard.setPlayers (map LowCard.resetDraw (LowCard.players g))
                            (LowCard.setCurrentRound 1
                               (LowCard.setStatus LowCard.playing g)))) = []).
    { unfold LowCard.heldCards. simpl. induction (LowCard.players g); simpl; auto. }
    rewrite Hheld. unfold LowCard.storedDeck. simpl. rewrite lookup_insert_eq. simpl.
    repeat split. apply lowcard_generateDeck_NoDup.
  - intros room uid now shuffled w g res card w' Hg Hnd Hne Hd.
    destruct (lowcard_draw_cases _ _ _ _ _ _ _ _ Hd)
      as [(Hs & -> & ->) | (Hs & g0 & before & x & after & Hg0 & Hst & Hc & Hps & Hid & Hel &
                            Hdr & Hbefore & Hcard & Hw')].
    + exists g. split; [exact Hg|]. split; [exact Hnd | congruence].
    + rewrite Hg in Hg0. injection Hg0 as <-.
      rewrite (lowcard_deckInUse_stored _ _ _ Hne) in Hcard, Hw'.
      destruct (lowcard_pop_cases (LowCard.storedDeck room w))
        as [[E _] | (rest & c & E & Hpop)]; [contradiction|].
      rewrite Hpop in Hcard, Hw'. simpl in Hcard, Hw'. subst card.
      assert (Hsd : LowCard.storedDeck room w' = rest).
      { rewrite Hw'. unfold LowCard.storedDeck. simpl. by rewrite lookup_insert_eq. }
      exists (LowCard.setPlayers (before ++ LowCard.giveCard (Some c) x :: after) g).
      split; [rewrite Hw'; simpl; apply lookup_insert_eq|].
      rewrite Hsd, lowcard_heldCards_split.
      unfold LowCard.heldCards in Hnd |- *. rewrite Hps, E in Hnd.
      rewrite omap_app in Hnd.
      assert (Hnd' : NoDup ((omap LowCard.currentCard before ++
                             from_option (fun y => [y]) [] (LowCard.currentCard x) ++
                             omap LowCard.currentCard after) ++ rest ++ [c])).
      { simpl in Hnd. destruct (LowCard.currentCard x); exact Hnd. }
      destruct (lowcard_table_step _ _ _ _ _ Hnd') as [H1 H2].
      split; [exact H1|]. intros _. exists c. split; [reflexivity|].
      split; [|split; [|exact E]].
      * rewrite Hps, omap_app. intros Hin. apply list_elem_of_In in Hin.
        apply NoDup_app in Hnd' as (_ & Hdis & _).
        apply (Hdis c).
        -- simpl in Hin. destruct (LowCard.currentCard x); exact Hin.
        -- apply elem_of_app. right. apply list_elem_of_singleton. reflexivity.
      * apply in_or_app. right. left. reflexivity.
  - intros room shuffled w g Hg Hnd Hlen. unfold LowCard.autoDrawForTimeout. rewrite Hg.
    pose proof (lowcard_autoDraw_table room shuffled (LowCard.players g) 0 w [] Hnd Hlen)
      as Ht.
    destruct (LowCard.autoDrawPlayers room shuffled 0 (LowCard.players g) w) as [ps w1].
    simpl in *. rewrite lookup_insert_eq. eexists. split; [reflexivity|].
    exact Ht.
Qed.

(** User 1 draws from the full deck stored when the game began. *)
Lemma lowcard_no_card_is_dealt_twice_witness :
  exists g',
    LowCard.games
      (snd (LowCard.drawCardForPlayer 7 1 35000 LowCard.orderedDeck Examples.low2)) !! 7
      = Some g' /\
    NoDup (LowCard.heldCards g' ++
           LowCard.storedDeck 7
             (snd (LowCard.drawCardForPlayer 7 1 35000 LowCard.orderedDeck Examples.low2))).
Proof.
  destruct (LowCard.games Examples.low2 !! 7) as [g|] eqn:Hg; [|discriminate Hg].
  destruct (proj1 (proj2 (lowcard_no_card_is_dealt_twice specMerchantTag))
              7 1 35000 LowCard.orderedDeck Examples.low2 g
              (fst (fst (LowCard.drawCardForPlayer 7 1 35000 LowCard.orderedDeck Examples.low2)))
              (snd (fst (LowCard.drawCardForPlayer 7 1 35000 LowCard.orderedDeck Examples.low2)))
              (snd (LowCard.drawCardForPlayer 7 1 35000 LowCard.orderedDeck Examples.low2))
              Hg)
    as (g' & H1 & H2 & _).
  - injection Hg as <-. apply (bool_decide_unpack _). vm_compute. exact I.
  - discriminate.
  - reflexivity.
  - exists g'. auto.
Defined.

Section LowCardAutoDrawProofs.
Context {MT : MerchantTag}.
Import LowCard.

Lemma lowcard_autoDraw_all_drawn room shuffled ps : forall i w p,
  In p (fst (autoDrawPlayers room shuffled i ps w)) ->
  isEliminated p = false -> hasDrawn p = true.
Proof.
  induction ps as [|x ps IH]; intros i w p; cbn [autoDrawPlayers]; [intros []|].
  destruct (negb (isEliminated x) && negb (hasDrawn x)) eqn:E.
  - destruct (drawCardFromDeck room (shuffled i) w) as [card w1].
    specialize (IH (S i) w1 p).
    destruct (autoDrawPlayers room shuffled (S i) ps w1) as [tl' w2].
    intros [<- | Hin] He; [reflexivity | auto].
  - specialize (IH (S i) w p).
    destruct (autoDrawPlayers room shuffled (S i) ps w) as [tl' w2].
    intros [<- | Hin] He; [|auto].
    rewrite He in E. simpl in E. by destruct (hasDrawn x).
Qed.

Lemma lowcard_autoDraw_nothing_to_do room shuffled ps : forall i w,
  (forall p, In p ps -> isEliminated p = false -> hasDrawn p = true) ->
  autoDrawPlayers room shuffled i ps w = (ps, w).
Proof.
  induction ps as [|x ps IH]; intros i w H; cbn [autoDrawPlayers]; [reflexivity|].
  assert (negb (isEliminated x) && negb (hasDrawn x) = false) as ->.
  { destruct (isEliminated x) eqn:He; [reflexivity|].
    rewrite (H x (or_introl eq_refl) He). reflexivity. }
  rewrite IH; [reflexivity|]. intros p Hp. apply H. by right.
Qed.

Lemma lowcard_autoDraw_keeps_done room shuffled ps : forall i w,
  Forall2 (fun p p' => (isEliminated p = true \/ hasDrawn p = true -> p' = p) /\
                       userId p' = userId p /\ isEliminated p' = isEliminated p)
          ps (fst (autoDrawPlayers room shuffled i ps w)).
Proof.
  induction ps as [|x ps IH]; intros i w; cbn [autoDrawPlayers]; [constructor|].
  destruct (negb (isEliminated x) && negb (hasDrawn x)) eqn:E.
  - destruct (drawCardFromDeck room (shuffled i) w) as [card w1].
    specialize (IH (S i) w1).
    destruct (autoDrawPlayers room shuffled (S i) ps w1) as [tl' w2].
    constructor; [|exact IH]. repeat split.
    intros [H | H]; rewrite H in E; simpl in E; try discriminate.
    by rewrite andb_false_r in E.
  - specialize (IH (S i) w).
    destruct (autoDrawPlayers room shuffled (S i) ps w) as [tl' w2].
    constructor; [|exact IH]. auto.
Qed.

Lemma lowcard_draw_gives_card room shuffled w :
  shuffled <> [] -> exists c, fst (drawCardFromDeck room shuffled w) = Some c.
Proof.
  intros Hne. rewrite lowcard_drawCardFromDeck_eq. simpl.
  destruct (lowcard_pop_cases (deckInUse room shuffled w)) as [[E _] | (rest & c & _ & ->)].
  - exfalso. unfold deckInUse in E.
    destruct (decks w !! room) as [[|x d]|]; congruence.
  - eauto.
Qed.

Lemma lowcard_autoDraw_cards room shuffled ps : forall i w p,
  (forall k, shuffled k <> []) ->
  (forall q, In q ps -> isEliminated q = false -> hasDrawn q = true -> holdsCard q = true) ->
  In p (fst (autoDrawPlayers room shuffled i ps w)) ->
  isEliminated p = false -> holdsCard p = true.
Proof.
  induction ps as [|x ps IH]; intros i w p Hsh Hheld; cbn [autoDrawPlayers]; [intros []|].
  destruct (negb (isEliminated x) && negb (hasDrawn x)) eqn:E.
  - destruct (lowcard_draw_gives_card room (shuffled i) w (Hsh i)) as [c Hc].
    destruct (drawCardFromDeck room (shuffled i) w) as [card w1]. simpl in Hc. subst card.
    specialize (IH (S i) w1 p Hsh).
    destruct (autoDrawPlayers room shuffled (S i) ps w1) as [tl' w2].
    intros [<- | Hin] He; [reflexivity|].
    apply IH; auto. intros q Hq. apply Hheld. by right.
  - specialize (IH (S i) w p Hsh).
    destruct (autoDrawPlayers room shuffled (S i) ps w) as [tl' w2].
    intros [<- | Hin] He.
    + apply Hheld; [by left | exact He|].
      rewrite He in E. simpl in E. by destruct (hasDrawn x).
    + apply IH; auto. intros q Hq. apply Hheld. by right.
Qed.

Lemma lowcard_autoDraw_still_in room shuffled ps : forall i w,
  (exists p, In p ps /\ isEliminated p = false) ->
  List.filter active (fst (autoDrawPlayers room shuffled i ps w)) <> [].
Proof.
  intros i w (p & Hp & He).
  pose proof (lowcard_autoDraw_keeps_done room shuffled ps i w) as HF.
  revert HF Hp. generalize (fst (autoDrawPlayers room shuffled i ps w)). intros l HF.
  induction HF as [|a b l1 l2 (_ & _ & Hab) _ IH]; [intros []|].
  intros [<- | Hin]; simpl.
  - unfold active. rewrite Hab, He. discriminate.
  - destruct (active b); [discriminate | auto].
Qed.

Lemma lowcard_setPlayers_same g : setPlayers (players g) g = g.
Proof. by destruct g. Qed.

Lemma lowcard_setGames_same (w : World) : setGames (games w) w = w.
Proof. by destruct w. Qed.

End LowCardAutoDrawProofs.

(** X15.  [LowCard.autoDrawForTimeout] on a stored session.  Afterwards
    every player still in the game has drawn; the records of players who
    had already drawn or are eliminated are untouched and nobody's
    elimination flag changes; ledger, pot and status are untouched; and
    running it again, with whatever decks, changes nothing, so a duplicate
    time-out deals no second card.  In a playing game with somebody still
    in, [allPlayersDrawn] holds afterwards.  If a regenerated deck is never
    empty and the players who had drawn held a card, everybody still in the
    game holds a card afterwards. *)
Theorem lowcard_autoDraw_completes_round_once (MT : MerchantTag) room shuffled w g :
  LowCard.games w !! room = Some g ->
  exists g',
    LowCard.games (LowCard.autoDrawForTimeout room shuffled w) !! room = Some g' /\
    (forall p, In p (LowCard.players g') ->
               LowCard.isEliminated p = false -> LowCard.hasDrawn p = true) /\
    Forall2 (fun p p' =>
               (LowCard.isEliminated p = true \/ LowCard.hasDrawn p = true -> p' = p) /\
               LowCard.userId p' = LowCard.userId p /\
               LowCard.isEliminated p' = LowCard.isEliminated p)
            (LowCard.players g) (LowCard.players g') /\
    LowCard.bank (LowCard.autoDrawForTimeout room shuffled w) = LowCard.bank w /\
    LowCard.pot g' = LowCard.pot g /\
    LowCard.status g' = LowCard.status g /\
    (forall shuffled2,
       LowCard.autoDrawForTimeout room shuffled2 (LowCard.autoDrawForTimeout room shuffled w)
       = LowCard.autoDrawForTimeout room shuffled w) /\
    (LowCard.status g = LowCard.playing ->
     (exists p, In p (LowCard.players g) /\ LowCard.isEliminated p = false) ->
     LowCard.allPlayersDrawn room (LowCard.autoDrawForTimeout room shuffled w) = true) /\
    ((forall k, shuffled k <> []) ->
     (forall q, In q (LowCard.players g) -> LowCard.isEliminated q = false ->
                LowCard.hasDrawn q = true -> LowCard.holdsCard q = true) ->
     forall p, In p (LowCard.players g') ->
               LowCard.isEliminated p = false -> LowCard.holdsCard p = true).
Proof.
  intros Hg.
  pose proof (lowcard_autoDraw_all_drawn room shuffled (LowCard.players g) 0 w) as Hall.
  pose proof (lowcard_autoDraw_keeps_done room shuffled (LowCard.players g) 0 w) as Hkeep.
  pose proof (lowcard_autoDraw_world room shuffled (LowCard.players g) 0 w) as Hworld.
  pose proof (lowcard_autoDraw_cards room shuffled (LowCard.players g) 0 w) as Hcards.
  pose proof (lowcard_autoDraw_still_in room shuffled (LowCard.players g) 0 w) as Hin.
  remember (LowCard.autoDrawForTimeout room shuffled w) as w' eqn:Hw'.
  unfold LowCard.autoDrawForTimeout in Hw'. rewrite Hg in Hw'.
  destruct (LowCard.autoDrawPlayers room shuffled 0 (LowCard.players g) w) as [ps w1].
  subst w'. cbn [fst snd] in *. cbv zeta in Hworld. destruct Hworld as (Hb & Hgs & _ & _).
  eexists. split; [simpl; apply lookup_insert_eq|].
  split; [exact Hall|]. split; [exact Hkeep|]. split; [exact Hb|].
  split; [reflexivity|]. split; [reflexivity|].
  split; [|split].
  - intros shuffled2. unfold LowCard.autoDrawForTimeout. simpl.
    rewrite lookup_insert_eq. simpl.
    rewrite (lowcard_autoDraw_nothing_to_do room shuffled2 ps) by exact Hall.
    unfold LowCard.setGames, LowCard.setPlayers. simpl. rewrite insert_insert_eq.
    reflexivity.
  - intros Hst Hex. unfold LowCard.allPlayersDrawn. simpl.
    rewrite lookup_insert_eq. simpl. rewrite Hst. simpl.
    specialize (Hin Hex).
    destruct (List.filter LowCard.active ps) as [|a l] eqn:Hf; [congruence|].
    change (length (a :: l) =? 0)%nat with false. cbv iota.
    apply forallb_forall. intros p Hp. rewrite <- Hf in Hp.
    apply filter_In in Hp as [Hp Ha]. apply Hall; [exact Hp|].
    unfold LowCard.active in Ha. by apply negb_true_iff in Ha.
  - intros Hsh Hheld p. apply Hcards; auto.
Qed.

(** Round 1 of the two-player card game times out before anybody drew. *)
Lemma lowcard_autoDraw_completes_round_once_witness :
  exists g',
    LowCard.games
      (LowCard.autoDrawForTimeout 7 (fun _ => LowCard.orderedDeck) Examples.low2) !! 7
      = Some g' /\
    (forall p, In p (LowCard.players g') ->
               LowCard.isEliminated p = false -> LowCard.hasDrawn p = true).
Proof.
  destruct (LowCard.games Examples.low2 !! 7) as [g|] eqn:Hg; [|discriminate Hg].
  destruct (lowcard_autoDraw_completes_round_once specMerchantTag 7
              (fun _ => LowCard.orderedDeck) Examples.low2 g Hg)
    as (g' & H1 & H2 & _).
  exists g'. auto.
Defined.

(** * Ties in the card game *)

Section LowCardRedrawProofs.
Context {MT : MerchantTag}.
Import LowCard.

(** The players the tie branch resets, with unique ids. *)
Lemma lowcard_tie_reset g low :
  NoDup (map userId (players g)) ->
  map (fun p => if active p &&
                   existsb (fun l => userId l =? userId p)
                     (List.filter (fun p => cardValue p =? low) (activeWithCard g))
                then resetDraw p else p) (players g)
  = map (fun p => if holdsLowest low p then resetDraw p else p) (players g).
Proof.
  intros Hnd. apply map_ext_in. intros p Hp.
  rewrite lowcard_losers_filter.
  by rewrite (lowcard_isTied_holdsLowest _ low p Hnd Hp).
Qed.

(** The time-out branch that ends the game. *)
Lemma lowcard_resolve_tie_timeout_winner room now g act w u us winner :
  let losers := List.filter (fun p => cardValue p =? minOf (map cardValue act)) act in
  (1 < length losers < length act)%nat ->
  previousTiedLosers g = Some (u :: us) ->
  List.filter active (eliminateIds (u :: us) (players g)) = [winner] ->
  resolveLowest room true now g act w = payWinner room g winner w.
Proof.
  intros losers [H1 H2] Hprev Hrem. unfold resolveLowest. fold losers.
  apply Nat.ltb_lt in H1. apply Nat.ltb_lt in H2. rewrite H1, H2, Hprev.
  cbv beta iota zeta. change (true && true) with true. cbv iota.
  rewrite Hrem. reflexivity.
Qed.

Lemma lowcard_all_out_no_cards ps :
  (forall p, In p ps -> isEliminated p = true) ->
  List.filter (fun p => active p && holdsCard p) ps = [].
Proof.
  intros H. apply filter_none. intros p Hp. unfold active. by rewrite (H p Hp).
Qed.

End LowCardRedrawProofs.

(** X16.  A tie for the lowest card.  The tally is not under the
    three-player rule (the card holders are not exactly three, or the round
    timed out), more than one but not all of the card holders hold the
    lowest rank, and no earlier tie is being broken by a time-out.  Then
    nobody is eliminated and nothing is paid: the result names the tied
    players, who lose their card and must draw again, while every other
    record, cards included, is kept; the tied ids are recorded in the
    session; pot, round number and deadlines are as before. *)
Theorem lowcard_tie_for_lowest_is_redrawn (MT : MerchantTag) room t now w g :
  LowCard.games w !! room = Some g ->
  NoDup (map LowCard.userId (LowCard.players g)) ->
  let low := LowCard.minOf (map LowCard.cardValue (LowCard.activeWithCard g)) in
  let tied := List.filter (LowCard.holdsLowest low) (LowCard.players g) in
  (1 < length tied < length (LowCard.activeWithCard g))%nat ->
  length (LowCard.activeWithCard g) <> 3%nat \/ t = true ->
  t = false \/ LowCard.previousTiedLosers g = None \/
    LowCard.previousTiedLosers g = Some [] ->
  exists w' g',
    LowCard.tallyRound room t now w = (LowCard.TallyTie (map LowCard.userId tied), w') /\
    LowCard.bank w' = LowCard.bank w /\
    LowCard.decks w' = LowCard.decks w /\
    LowCard.games w' !! room = Some g' /\
    LowCard.players g' =
      map (fun p => if LowCard.holdsLowest low p then LowCard.resetDraw p else p)
          (LowCard.players g) /\
    LowCard.previousTiedLosers g' = Some (map LowCard.userId tied) /\
    LowCard.pot g' = LowCard.pot g /\
    LowCard.currentRound g' = LowCard.currentRound g /\
    LowCard.status g' = LowCard.status g /\
    LowCard.roundDeadline g' = LowCard.roundDeadline g /\
    LowCard.countdownEndsAt g' = LowCard.countdownEndsAt g.
Proof.
  intros Hg Hnd low tied Hlen Hno Hprev.
  assert (Htied : List.filter (fun p => LowCard.cardValue p =? low) (LowCard.activeWithCard g)
                  = tied) by apply lowcard_losers_filter.
  assert (Hne : length (LowCard.activeWithCard g) <> 0%nat) by lia.
  rewrite (lowcard_tally_no_endgame room t now w g Hg Hne Hno).
  rewrite (lowcard_resolve_tie room t now g (LowCard.activeWithCard g) w);
    [|fold low; rewrite Htied; exact Hlen | exact Hprev].
  fold low. rewrite (lowcard_tie_reset g low Hnd). rewrite Htied.
  eexists. eexists. split; [reflexivity|]. simpl.
  rewrite lookup_insert_eq. repeat split.
Qed.

(** Two fives, a nine and a king: users 1 and 2 tie for the lowest card. *)
Lemma lowcard_tie_for_lowest_is_redrawn_witness :
  exists w',
    LowCard.tallyRound 7 false 60000 Examples.low4_tie = (LowCard.TallyTie [1; 2], w') /\
    LowCard.bank w' = LowCard.bank Examples.low4_tie.
Proof.
  destruct (lowcard_tie_for_lowest_is_redrawn specMerchantTag 7 false 60000
              Examples.low4_tie Examples.low4_tie_game)
    as (w' & g' & H1 & H2 & _).
  - reflexivity.
  - apply (bool_decide_unpack _). vm_compute. exact I.
  - vm_compute. lia.
  - left. vm_compute. lia.
  - left. reflexivity.
  - exists w'. split; [exact H1 | exact H2].
Defined.

(** X17.  A tie for the lowest card at a time-out, while the session
    records the ids of an earlier tie.  The tally then eliminates the
    players of the recorded tie, not the players tied now, and deals no
    redraw.  If exactly one player is left, that player is paid the pot
    less the commission and the session is deleted; otherwise nothing is
    paid and the session goes to its next round with the survivors'
    draws reset and the record of the tie cleared. *)
Theorem lowcard_tie_at_timeout_eliminates_recorded (MT : MerchantTag) room now w g u us :
  LowCard.games w !! room = Some g ->
  NoDup (map LowCard.userId (LowCard.players g)) ->
  let low := LowCard.minOf (map LowCard.cardValue (LowCard.activeWithCard g)) in
  let tied := List.filter (LowCard.holdsLowest low) (LowCard.players g) in
  (1 < length tied < length (LowCard.activeWithCard g))%nat ->
  LowCard.previousTiedLosers g = Some (u :: us) ->
  let ps := map (fun p => if existsb (fun i => LowCard.userId p =? i) (u :: us)
                          then LowCard.eliminate p else p) (LowCard.players g) in
  exists r w',
    LowCard.tallyRound room true now w = (r, w') /\
    match List.filter LowCard.active ps with
    | [winner] =>
        (exists nb,
           r = LowCard.TallyGameOver (LowCard.userId winner)
                 (LowCard.winningsOf (LowCard.pot g)) nb) /\
        LowCard.games w' !! room = None /\
        forall bal, users (LowCard.bank w) !! LowCard.userId winner = Some bal ->
          users (LowCard.bank w') =
            <[LowCard.userId winner :=
                bal + (LowCard.winningsOf (LowCard.pot g))]>
              (users (LowCard.bank w))
    | rest =>
        r = LowCard.TallyEliminated (u :: us) (length rest) (LowCard.currentRound g + 1) /\
        LowCard.bank w' = LowCard.bank w /\
        exists g',
          LowCard.games w' !! room = Some g' /\
          LowCard.players g' = LowCard.resetActive ps /\
          LowCard.previousTiedLosers g' = None /\
          LowCard.pot g' = LowCard.pot g /\
          LowCard.currentRound g' = LowCard.currentRound g + 1
    end.
Proof.
  intros Hg Hnd low tied Hlen Hprev ps.
  assert (Htied : List.filter (fun p => LowCard.cardValue p =? low) (LowCard.activeWithCard g)
                  = tied) by apply lowcard_losers_filter.
  assert (Hne : length (LowCard.activeWithCard g) <> 0%nat) by lia.
  rewrite (lowcard_tally_no_endgame room true now w g Hg Hne (or_intror eq_refl)).
  assert (Hps : LowCard.eliminateIds (u :: us) (LowCard.players g) = ps)
    by apply (lowcard_eliminateIds_unique _ _ Hnd).
  assert (Hlen' : (1 < length (List.filter
                                 (fun p => (LowCard.cardValue p =?
                                    LowCard.minOf (map LowCard.cardValue (LowCard.activeWithCard g)))%Z)
                                 (LowCard.activeWithCard g))
                   < length (LowCard.activeWithCard g))%nat).
  { fold low. rewrite Htied. exact Hlen. }
  destruct (List.filter LowCard.active ps) as [|winner [|y l]] eqn:Hrem.
  - rewrite (lowcard_resolve_tie_timeout room now g _ w u us Hlen' Hprev);
      rewrite Hps, Hrem; [|simpl; lia].
    eexists. eexists. split; [reflexivity|]. simpl.
    split; [reflexivity|]. split; [reflexivity|].
    eexists. rewrite lookup_insert_eq. repeat split.
  - rewrite (lowcard_resolve_tie_timeout_winner room now g _ w u us winner Hlen' Hprev)
      by (rewrite Hps; exact Hrem).
    destruct (lowcard_payWinner_total room g winner w) as (nb & w' & Hpay).
    exists (LowCard.TallyGameOver (LowCard.userId winner)
              (LowCard.winningsOf (LowCard.pot g)) nb), w'.
    split; [exact Hpay|].
    apply lowcard_payWinner_inv in Hpay as (_ & _ & Hgs & _ & Hbal).
    split; [eauto|]. split; [rewrite Hgs; apply lookup_delete_eq|].
    intros bal Hb. exact (proj2 (Hbal bal Hb)).
  - rewrite (lowcard_resolve_tie_timeout room now g _ w u us Hlen' Hprev);
      rewrite Hps, Hrem; [|simpl; lia].
    eexists. eexists. split; [reflexivity|]. simpl.
    split; [reflexivity|]. split; [reflexivity|].
    eexists. rewrite lookup_insert_eq. repeat split.
Qed.

(** Users 1 and 2 tie again, with two threes, when the redraw times out:
    they are eliminated and users 4 and 5 play on. *)
Lemma lowcard_tie_at_timeout_eliminates_recorded_witness :
  exists w',
    LowCard.tallyRound 7 true 60000 Examples.low4_tie_again
    = (LowCard.TallyEliminated [1; 2] 2 2, w').
Proof.
  destruct (lowcard_tie_at_timeout_eliminates_recorded specMerchantTag 7 60000
              Examples.low4_tie_again Examples.low4_tie_again_game 1 [2])
    as (r & w' & H1 & H2 & _).
  - reflexivity.
  - apply (bool_decide_unpack _). vm_compute. exact I.
  - vm_compute. lia.
  - reflexivity.
  - exists w'. rewrite H1, H2. reflexivity.
Defined.

(** X18.  When every player still in the game holds a card and all these
    cards have the same rank, the tally eliminates all of them: the result
    reports no remaining player, nothing is credited, and the session stays
    stored with its pot and without a single player in the game.  From then
    on every tally returns the error "no active players with cards" and
    changes nothing, so this pot is never paid out by a tally. *)
Theorem lowcard_equal_ranks_eliminate_everyone (MT : MerchantTag) room t now w g v :
  LowCard.games w !! room = Some g ->
  NoDup (map LowCard.userId (LowCard.players g)) ->
  List.filter LowCard.active (LowCard.players g) <> [] ->
  (forall p, In p (LowCard.players g) -> LowCard.active p = true ->
             LowCard.holdsCard p = true /\ LowCard.cardValue p = v) ->
  exists w' g',
    LowCard.tallyRound room t now w =
      (LowCard.TallyEliminated
         (map LowCard.userId (List.filter LowCard.active (LowCard.players g)))
         0 (LowCard.currentRound g + 1), w') /\
    LowCard.bank w' = LowCard.bank w /\
    LowCard.games w' !! room = Some g' /\
    LowCard.pot g' = LowCard.pot g /\
    LowCard.status g' = LowCard.status g /\
    (forall p, In p (LowCard.players g') -> LowCard.isEliminated p = true) /\
    forall t' now', LowCard.tallyRound room t' now' w' = (LowCard.TallyError, w').
Proof.
  intros Hg Hnd Hsome Hall.
  set (act := List.filter LowCard.active (LowCard.players g)) in *.
  assert (Hawc : LowCard.activeWithCard g = act).
  { apply lowcard_activeWithCard_all; [reflexivity|].
    intros p Hp. apply filter_In in Hp as [Hp Ha]. exact (proj1 (Hall p Hp Ha)). }
  assert (Hval : forall p, In p act -> LowCard.cardValue p = v).
  { intros p Hp. apply filter_In in Hp as [Hp Ha]. exact (proj2 (Hall p Hp Ha)). }
  assert (Hmin : LowCard.minOf (map LowCard.cardValue act) = v).
  { apply lowcard_minOf_unique.
    - intros z Hz. apply in_map_iff in Hz as (p & <- & Hp). rewrite (Hval p Hp). lia.
    - destruct act as [|a l] eqn:E; [congruence|]. left. apply Hval. by left. }
  assert (Hlosers : List.filter (fun p => LowCard.cardValue p =? v) act = act).
  { apply filter_all. intros p Hp. apply Z.eqb_eq. exact (Hval p Hp). }
  assert (Hrem : List.filter LowCard.active
                   (LowCard.eliminateIds (map LowCard.userId act) (LowCard.players g)) = []).
  { rewrite (lowcard_remaining_after _ _ Hnd). fold act.
    apply filter_none. intros p Hp. apply negb_false_iff.
    apply existsb_exists. exists (LowCard.userId p). split; [|apply Z.eqb_refl].
    by apply in_map. }
  assert (Hout : forall p,
             In p (LowCard.eliminateIds (map LowCard.userId act) (LowCard.players g)) ->
             LowCard.isEliminated p = true).
  { intros p Hp. destruct (LowCard.isEliminated p) eqn:E; [reflexivity|].
    assert (In p (List.filter LowCard.active
                    (LowCard.eliminateIds (map LowCard.userId act) (LowCard.players g)))).
    { apply filter_In. split; [exact Hp|]. unfold LowCard.active. by rewrite E. }
    rewrite Hrem in H. destruct H. }
  unfold LowCard.tallyRound at 1. rewrite Hg, Hawc.
  destruct (length act =? 0)%nat eqn:E0;
    [apply Nat.eqb_eq, length_zero_iff_nil in E0; congruence|].
  cbv zeta.
  assert (Hend : (if (length act =? 3)%nat && negb t
                  then match List.filter
                               (fun p => LowCard.cardValue p =?
                                         LowCard.maxOf (map LowCard.cardValue act)) act with
                       | [winner] => Some winner
                       | _ => None
                       end
                  else None) = None).
  { destruct ((length act =? 3)%nat && negb t) eqn:E3; [|reflexivity].
    apply andb_true_iff in E3 as [E3 _]. apply Nat.eqb_eq in E3.
    destruct act as [|a [|b [|c [|d l]]]] eqn:Eact; simpl in E3; try lia.
    assert (Ha := Hval a ltac:(simpl; auto)).
    assert (Hb := Hval b ltac:(simpl; auto)).
    assert (Hc := Hval c ltac:(simpl; auto)).
    simpl. rewrite Ha, Hb, Hc. rewrite !Z.max_id, !Z.eqb_refl. reflexivity. }
  rewrite Hend.
  rewrite (lowcard_resolve_normal room t now g act w); rewrite Hmin, Hlosers.
  - rewrite Hrem. eexists. eexists. split; [reflexivity|]. simpl.
    rewrite lookup_insert_eq. split; [reflexivity|]. split; [reflexivity|].
    split; [reflexivity|]. split; [reflexivity|]. split.
    + intros p Hp. unfold LowCard.resetActive in Hp.
      apply in_map_iff in Hp as (q & <- & Hq).
      specialize (Hout q Hq). unfold LowCard.active. rewrite Hout. exact Hout.
    + intros t' now'. unfold LowCard.tallyRound. simpl. rewrite lookup_insert_eq.
      unfold LowCard.activeWithCard. simpl.
      rewrite lowcard_all_out_no_cards; [reflexivity|].
      intros p Hp. unfold LowCard.resetActive in Hp.
      apply in_map_iff in Hp as (q & <- & Hq).
      specialize (Hout q Hq). unfold LowCard.active. rewrite Hout. exact Hout.
  - rewrite Nat.ltb_irrefl. apply andb_false_r.
  - rewrite Hrem. simpl. lia.
Qed.

(** The last two players both hold a seven: both are out, nobody is paid. *)
Lemma lowcard_equal_ranks_eliminate_everyone_witness :
  exists w',
    LowCard.tallyRound 7 false 60000 Examples.low2_equal
    = (LowCard.TallyEliminated [1; 2] 0 4, w') /\
    LowCard.bank w' = LowCard.bank Examples.low2_equal /\
    LowCard.tallyRound 7 false 70000 w' = (LowCard.TallyError, w').
Proof.
  destruct (lowcard_equal_ranks_eliminate_everyone specMerchantTag 7 false 60000
              Examples.low2_equal Examples.low2_equal_game 7)
    as (w' & g' & H1 & H2 & _ & _ & _ & _ & H7).
  - reflexivity.
  - apply (bool_decide_unpack _). vm_compute. exact I.
  - discriminate.
  - intros p [<- | [<- | []]] _; split; reflexivity.
  - exists w'. split; [exact H1|]. split; [exact H2 | apply H7].
Defined.

(** * Who stays in a dice game *)

Section DiceStayProofs.
Context {MT : MerchantTag}.
Import Dice.

Lemma dice_someone_in_flags l l' :
  map isEliminated l' = map isEliminated l ->
  (exists p, In p l /\ isEliminated p = false) ->
  exists p', In p' l' /\ isEliminated p' = false.
Proof.
  intros Hmap (p & Hp & He).
  assert (Hin : In false (map isEliminated l')).
  { rewrite Hmap, <- He. by apply in_map. }
  apply in_map_iff in Hin as (p' & He' & Hp'). eauto.
Qed.

Lemma dice_autoRoll_flags t rng k l :
  map isEliminated (autoRollPlayers t rng k l) = map isEliminated l.
Proof.
  revert k. induction l as [|x l IH]; intros k; simpl; [reflexivity|].
  destruct (negb (isEliminated x) && negb (hasRolled x)); simpl; by rewrite IH.
Qed.

Lemma dice_nextRound_flags l :
  map isEliminated (map nextRoundPlayer l) = map isEliminated l.
Proof.
  rewrite map_map. apply map_ext. intros p. unfold nextRoundPlayer, resetRoll.
  destruct (isEliminated p) eqn:E; simpl; [exact E|].
  destruct (earnedImmunity p); simpl; first [exact E | reflexivity].
Qed.

(** A tally never removes the last players: whoever is marked in stays,
    and a round without anybody marked in removes nobody. *)
Lemma dice_tally_someone_stays room w g r w' :
  games w !! room = Some g ->
  tallyRound room w = (r, w') ->
  (exists p, In p (players g) /\ isEliminated p = false) ->
  exists g', games w' !! room = Some g' /\
    (status g <> waiting -> status g' <> waiting) /\
    exists p', In p' (players g') /\ isEliminated p' = false.
Proof.
  intros Hg Ht Hex. unfold tallyRound in Ht. rewrite Hg in Ht.
  destruct (negb (status_eqb (status g) playing)) eqn:Hst.
  { injection Ht as <- <-. exists g. auto. }
  assert (Hplay : status g = playing) by (destruct (status g); simpl in Hst; congruence).
  cbv zeta in Ht.
  set (h1 := fun p : Player => if active p then clearImmunity p else p) in *.
  set (hr := fun p : Player => if active p then resetRoll p else p) in *.
  set (hm := fun p : Player => if active p && isInIs false p then eliminate p else p) in *.
  destruct (length (List.filter (isInIs true) (List.filter active (players g))) =? 0)%nat
    eqn:Hsurv.
  - injection Ht as <- <-. eexists. simpl. rewrite lookup_insert_eq.
    split; [reflexivity|]. simpl. split; [congruence|].
    apply (dice_someone_in_flags (players g)); [|exact Hex].
    rewrite !map_map. apply map_ext. intros p. unfold hr, h1, active.
    destruct (isEliminated p) eqn:E; simpl; rewrite ?E; simpl; auto.
  - assert (Hstay : exists p', In p' (map hm (map h1 (players g))) /\
                      isEliminated p' = false).
    { destruct (List.filter (isInIs true) (List.filter active (players g)))
        as [|p l] eqn:Hf; [discriminate|].
      assert (Hp : In p (List.filter (isInIs true) (List.filter active (players g))))
        by (rewrite Hf; left; reflexivity).
      apply filter_In in Hp as [Hp Hin]. apply filter_In in Hp as [Hp Ha].
      unfold active in Ha. apply negb_true_iff in Ha.
      unfold isInIs in Hin. destruct (isIn p) as [[|]|] eqn:Ei; try discriminate.
      exists (hm (h1 p)). split; [apply in_map, in_map, Hp|].
      destruct (dice_marked_eliminated p) as (_ & _ & H3).
      exact (proj1 (H3 Ha Ei)). }
    destruct (length (List.filter active (map hm (map h1 (players g)))) =? 1)%nat eqn:Hlen.
    + unfold finalizeGame in Ht. simpl in Ht. rewrite lookup_insert_eq in Ht. simpl in Ht.
      destruct (find active (map hm (map h1 (players g)))) as [winner|] eqn:Hw.
      * destruct (addCredits _ _ _ _ _) as [ar b']. injection Ht as <- <-.
        eexists. simpl. rewrite lookup_insert_eq. split; [reflexivity|]. simpl.
        split; [discriminate | exact Hstay].
      * apply find_none_filter in Hw. rewrite Hw in Hlen. discriminate.
    + injection Ht as <- <-. eexists. simpl. rewrite lookup_insert_eq.
      split; [reflexivity|]. simpl. split; [congruence | exact Hstay].
Qed.

(** One step on a session that has left the waiting state. *)
Lemma dice_playStep_someone_stays room w w' g :
  playStep room w w' ->
  games w !! room = Some g ->
  status g <> waiting ->
  (exists p, In p (players g) /\ isEliminated p = false) ->
  games w' !! room = None \/
  exists g', games w' !! room = Some g' /\ status g' <> waiting /\
    exists p', In p' (players g') /\ isEliminated p' = false.
Proof.
  intros Hstep Hg Hst Hex.
  assert (Hsame : exists g', games w !! room = Some g' /\ status g' <> waiting /\
            exists p', In p' (players g') /\ isEliminated p' = false)
    by (exists g; auto).
  destruct Hstep as [w0 w0' Hround | w0 | d1 d2 w0 | uid name now w0 | w0];
    [destruct Hround as [v a b w0 | rng w0]| | | |];
    [right | right | right | right | right |].
  - destruct (rollPlayerDice room v a b w0) as [res w1] eqn:Hr. simpl.
    destruct (rr_success res) eqn:Hok.
    + destruct (dice_roll_success _ _ _ _ _ _ _ Hr Hok) as (g0 & t & Hg0 & _ & _ & ->).
      rewrite Hg in Hg0. injection Hg0 as <-. simpl. rewrite lookup_insert_eq.
      eexists; split; [reflexivity|]. simpl. split; [exact Hst|].
      apply (dice_someone_in_flags (players g)); [|exact Hex].
      apply map_mutateFirst. reflexivity.
    + by rewrite (dice_roll_failure_unchanged _ _ _ _ _ _ _ Hr Hok).
  - unfold autoRollForTimeout. rewrite Hg.
    destruct (botTarget g) as [t|]; [|exact Hsame].
    simpl. rewrite lookup_insert_eq. eexists; split; [reflexivity|]. simpl.
    split; [exact Hst|].
    apply (dice_someone_in_flags (players g)); [|exact Hex]. apply dice_autoRoll_flags.
  - destruct (tallyRound room w0) as [r w1] eqn:Ht. simpl.
    destruct (dice_tally_someone_stays _ _ _ _ _ Hg Ht Hex) as (g' & Hg' & Hst' & Hin').
    exists g'. auto.
  - unfold startNextRound. rewrite Hg.
    destruct (negb (status_eqb (status g) playing)); [exact Hsame|].
    simpl. rewrite lookup_insert_eq. eexists; split; [reflexivity|]. simpl.
    split; [exact Hst|].
    apply (dice_someone_in_flags (players g)); [|exact Hex]. apply dice_nextRound_flags.
  - assert (joinGame room uid name now w0 = (failure MsgGameInProgress, w0)) as ->;
      [|exact Hsame].
    unfold joinGame. rewrite Hg. destruct (status g); try congruence; reflexivity.
  - unfold runCleanup. destruct (decide _); [|right; exact Hsame].
    left. simpl. apply lookup_delete_eq.
Qed.

End DiceStayProofs.

(** X19.  A dice game never runs out of players.  Once a session has left
    the waiting state with somebody in the game, then after any sequence of
    rolls, automatic rolls, tallies, round starts, join attempts and runs
    of the timer that deletes a finished session, whatever session the
    room holds still has somebody in the game: a tally removes only
    players marked out, and removes nobody when nobody is marked in. *)
Theorem dice_somebody_always_stays_in (MT : MerchantTag) room w w' g g' :
  rtc (Dice.playStep room) w w' ->
  Dice.games w !! room = Some g ->
  Dice.status g <> Dice.waiting ->
  (exists p, In p (Dice.players g) /\ Dice.isEliminated p = false) ->
  Dice.games w' !! room = Some g' ->
  exists p', In p' (Dice.players g') /\ Dice.isEliminated p' = false.
Proof.
  intros Hsteps. revert g.
  induction Hsteps as [w | w w1 w2 Hstep Hrest IH]; intros g Hg Hst Hex Hg'.
  - rewrite Hg in Hg'. injection Hg' as <-. exact Hex.
  - destruct (dice_playStep_someone_stays room w w1 g Hstep Hg Hst Hex)
      as [Hnone | (g1 & Hg1 & Hst1 & Hex1)].
    + rewrite (dice_playSteps_none _ _ _ Hrest Hnone) in Hg'. discriminate.
    + exact (IH g1 Hg1 Hst1 Hex1 Hg').
Qed.

(** Round 1 of the three-player game, everybody below the target: after
    the tally and the start of round 2 the session is stored with its
    three players still in. *)
Lemma dice_somebody_always_stays_in_witness :
  let w' := snd (Dice.startNextRound 7 2 3 (snd (Dice.tallyRound 7 Examples.dice3_void))) in
  exists g',
    Dice.games w' !! 7 = Some g' /\
    map Dice.isEliminated (Dice.players g') = [false; false; false] /\
    exists p', In p' (Dice.players g') /\ Dice.isEliminated p' = false.
Proof.
  intros w'.
  destruct (Dice.games Examples.dice3_void !! 7) as [g|] eqn:Hg; [|discriminate Hg].
  destruct (Dice.games w' !! 7) as [g'|] eqn:Hg'; [|vm_compute in Hg'; discriminate Hg'].
  exists g'. split; [reflexivity|].
  split; [vm_compute in Hg'; injection Hg' as <-; reflexivity|].
  apply (dice_somebody_always_stays_in specMerchantTag 7 Examples.dice3_void w' g g').
  - eapply rtc_l; [apply Dice.play_tally|]. apply rtc_once. apply Dice.play_next.
  - exact Hg.
  - injection Hg as <-. discriminate.
  - injection Hg as <-. eexists. split; [left; reflexivity | reflexivity].
  - exact Hg'.
Defined.

(** * Removing the bot, and starting a game *)

(** X20.  Removing the bot of either service from a room whose session is
    still waiting, with distinct player ids: the call succeeds, every
    recorded player gets the entry amount back on the main balance and no
    other account changes; the bot flag, the session, the room's game type
    (and, for the card game, the deck) are deleted.  Without a bot in the
    room the call fails and changes nothing. *)
Theorem bot_removal_while_waiting_refunds_everyone (MT : MerchantTag) :
  (forall room w g,
     room ∈ Dice.bots w ->
     Dice.games w !! room = Some g ->
     Dice.status g = Dice.waiting ->
     NoDup (map Dice.userId (Dice.players g)) ->
     exists w',
       Dice.removeBotFromRoom room w = (Dice.mkResult true Dice.MsgBotLeft None, w') /\
       (room ∉ Dice.bots w') /\
       Dice.games w' !! room = None /\
       Dice.activeGameType w' !! room = None /\
       forall v,
         users (Dice.bank w') !! v =
           if decide (v ∈ map Dice.userId (Dice.players g))
           then (fun c => c + Dice.entryAmount g) <$> users (Dice.bank w) !! v
           else users (Dice.bank w) !! v) /\
  (forall room w,
     room ∉ Dice.bots w ->
     Dice.removeBotFromRoom room w = (Dice.failure Dice.MsgNoBot, w)) /\
  (forall room w g,
     room ∈ LowCard.bots w ->
     LowCard.games w !! room = Some g ->
     LowCard.status g = LowCard.waiting ->
     NoDup (map LowCard.userId (LowCard.players g)) ->
     exists w',
       LowCard.removeBotFromRoom room w
         = (LowCard.mkResult true LowCard.MsgBotLeft None, w') /\
       (room ∉ LowCard.bots w') /\
       LowCard.games w' !! room = None /\
       LowCard.decks w' !! room = None /\
       LowCard.activeGameType w' !! room = None /\
       forall v,
         users (LowCard.bank w') !! v =
           if decide (v ∈ map LowCard.userId (LowCard.players g))
           then (fun c => c + LowCard.entryAmount g) <$> users (LowCard.bank w) !! v
           else users (LowCard.bank w) !! v) /\
  (forall room w,
     room ∉ LowCard.bots w ->
     LowCard.removeBotFromRoom room w = (LowCard.failure LowCard.MsgNoBot, w)).
Proof.
  split; [|split; [|split]].
  - intros room w g Hb Hg Hst Hnd. unfold Dice.removeBotFromRoom.
    destruct (decide (room ∈ Dice.bots w)); [|contradiction].
    rewrite Hg, Hst. simpl. eexists; split; [reflexivity|]. simpl.
    split; [set_solver|]. split; [apply lookup_delete_eq|].
    split; [apply lookup_delete_eq|].
    intros v. by apply creditEach_users.
  - intros room w Hb. unfold Dice.removeBotFromRoom.
    destruct (decide (room ∈ Dice.bots w)); [contradiction | reflexivity].
  - intros room w g Hb Hg Hst Hnd. unfold LowCard.removeBotFromRoom.
    destruct (decide (room ∈ LowCard.bots w)); [|contradiction].
    rewrite Hg, Hst. simpl. eexists; split; [reflexivity|]. simpl.
    split; [set_solver|]. split; [apply lookup_delete_eq|].
    split; [apply lookup_delete_eq|]. split; [apply lookup_delete_eq|].
    intros v. by apply creditEach_users.
  - intros room w Hb. unfold LowCard.removeBotFromRoom.
    destruct (decide (room ∈ LowCard.bots w)); [contradiction | reflexivity].
Qed.

(** The dice bot leaves room 7 while user 1 waits for players: the entry
    of 100 is back on the account. *)
Lemma bot_removal_while_waiting_refunds_everyone_witness :
  exists w',
    Dice.removeBotFromRoom 7 Examples.dice1 = (Dice.mkResult true Dice.MsgBotLeft None, w') /\
    Dice.games w' !! 7 = None /\
    users (Dice.bank w') !! 1 = Some 500.
Proof.
  destruct (Dice.games Examples.dice1 !! 7) as [g|] eqn:Hg; [|discriminate Hg].
  destruct (proj1 (bot_removal_while_waiting_refunds_everyone specMerchantTag)
              7 Examples.dice1 g)
    as (w' & H1 & _ & H3 & _ & H5).
  - vm_compute. set_solver.
  - exact Hg.
  - injection Hg as <-. reflexivity.
  - injection Hg as <-. simpl. apply NoDup_singleton.
  - exists w'. split; [exact H1|]. split; [exact H3|].
    rewrite H5. injection Hg as <-. reflexivity.
Defined.

Section StartProofs.
Context {MT : MerchantTag}.

(** A failed debit leaves the accounts and the log alone. *)
Lemma deductCredits_failure_users gt uid amount name reason (b : Bank) res b' :
  deductCredits gt uid amount name reason b = (res, b') ->
  dr_success res = false ->
  users b' = users b /\ credit_logs b' = credit_logs b.
Proof.
  unfold deductCredits, getUserCredits. intros H Hf.
  repeat case_match; simplify_eq; simpl in *; auto; discriminate.
Qed.

End StartProofs.

(** X21.  [startGame] of either service on a room whose lock is free.
    Whatever the outcome, the lock is free again afterwards and the bot
    flags are untouched.  A refused start leaves the sessions, the accounts
    and the log as they were.  An accepted start stores a waiting session
    of the caller alone, with the pot equal to the entry and the join
    window closing thirty seconds later; the entry is at least 1 and at
    most 999999999 in the dice game (a larger request is cut down to that);
    in the card game it is at least 1, at least 50 in a big-game room, and
    at most 999999999 in any other room.  On a room whose lock is taken the
    call is refused and changes nothing. *)
Theorem start_keeps_lock_free_and_entry_in_bounds (MT : MerchantTag) :
  (forall room uid name amount now w res w',
     room ∉ Dice.locks w ->
     Dice.startGame room uid name amount now w = (res, w') ->
     Dice.locks w' = Dice.locks w /\ Dice.bots w' = Dice.bots w /\
     (Dice.success res = false ->
      Dice.games w' = Dice.games w /\
      users (Dice.bank w') = users (Dice.bank w) /\
      credit_logs (Dice.bank w') = credit_logs (Dice.bank w)) /\
     (Dice.success res = true ->
      exists entry,
        1 <= entry <= 999999999 /\
        (forall a, amount = Some a -> a <> 0 -> entry = Z.min 999999999 a) /\
        Dice.games w' !! room =
          Some (Dice.mkGame now room Dice.waiting entry entry 0 None
                  [Dice.newPlayer uid name] uid name (now + 30000) None None None))) /\
  (forall room uid name amount now w,
     room ∈ Dice.locks w ->
     Dice.startGame room uid name amount now w = (Dice.failure Dice.MsgLockBusy, w)) /\
  (forall room uid name amount now w res w',
     room ∉ LowCard.locks w ->
     LowCard.startGame room uid name amount now w = (res, w') ->
     LowCard.locks w' = LowCard.locks w /\ LowCard.bots w' = LowCard.bots w /\
     (LowCard.success res = false ->
      LowCard.games w' = LowCard.games w /\
      users (LowCard.bank w') = users (LowCard.bank w) /\
      credit_logs (LowCard.bank w') = credit_logs (LowCard.bank w)) /\
     (LowCard.success res = true ->
      exists entry,
        1 <= entry /\
        (room ∈ LowCard.bigGameRooms w -> 50 <= entry) /\
        (room ∉ LowCard.bigGameRooms w -> entry <= 999999999) /\
        (forall a, amount = Some a -> a <> 0 -> entry = a) /\
        LowCard.games w' !! room =
          Some (LowCard.mkGame now room LowCard.waiting entry entry 0
                  [LowCard.newPlayer uid name] uid name (now + 30000) None None None))) /\
  (forall room uid name amount now w,
     room ∈ LowCard.locks w ->
     LowCard.startGame room uid name amount now w
     = (LowCard.failure LowCard.MsgLockBusy, w)).
Proof.
  split; [|split; [|split]].
  - intros room uid name amount now w res w' Hl. unfold Dice.startGame.
    destruct (decide (room ∈ Dice.locks w)); [contradiction|].
    cbv zeta.
    destruct (match Dice.games (Dice.setLocks ({[room]} ∪ Dice.locks w) w) !! room with
              | Some game => _
              | None => false
              end).
    { intros [= <- <-]. simpl. rewrite lock_release by assumption.
      repeat split; intros; discriminate. }
    set (requested := match amount with
                      | Some a => if a =? 0 then Dice.MIN_ENTRY else a
                      | None => Dice.MIN_ENTRY
                      end).
    destruct (requested <? Dice.MIN_ENTRY) eqn:Hmin.
    { intros [= <- <-]. simpl. rewrite lock_release by assumption.
      repeat split; intros; discriminate. }
    destruct (deductCredits DICE uid (Z.min Dice.MAX_ENTRY requested) name BetStart
                (Dice.bank (Dice.setLocks ({[room]} ∪ Dice.locks w) w)))
      as [dr b'] eqn:Hd.
    destruct (dr_success dr) eqn:Hs; simpl.
    + intros [= <- <-]. simpl. rewrite lock_release by assumption.
      split; [reflexivity|]. split; [reflexivity|]. split; [discriminate|].
      intros _. exists (Z.min Dice.MAX_ENTRY requested).
      unfold Dice.MIN_ENTRY, Dice.MAX_ENTRY, Dice.JOIN_TIMEOUT in *. zbool.
      split; [lia|]. split; [|apply lookup_insert_eq].
      intros a -> Ha. unfold requested.
      destruct (a =? 0) eqn:E; zbool; [contradiction | reflexivity].
    + intros [= <- <-]. simpl. rewrite lock_release by assumption.
      split; [reflexivity|]. split; [reflexivity|]. split; [|discriminate].
      intros _. split; [reflexivity|].
      exact (deductCredits_failure_users _ _ _ _ _ _ _ _ Hd Hs).
  - intros room uid name amount now w Hl. unfold Dice.startGame.
    destruct (decide (room ∈ Dice.locks w)); [reflexivity | contradiction].
  - intros room uid name amount now w res w' Hl. unfold LowCard.startGame.
    destruct (decide (room ∈ LowCard.locks w)); [contradiction|].
    cbv zeta.
    destruct (match LowCard.games (LowCard.setLocks ({[room]} ∪ LowCard.locks w) w) !! room with
              | Some game => _
              | None => false
              end).
    { intros [= <- <-]. simpl. rewrite lock_release by assumption.
      repeat split; intros; discriminate. }
    change (LowCard.bigGameRooms (LowCard.setLocks ({[room]} ∪ LowCard.locks w) w))
      with (LowCard.bigGameRooms w).
    set (minEntry := if bool_decide (room ∈ LowCard.bigGameRooms w)
                     then LowCard.MIN_ENTRY_BIG_GAME else LowCard.MIN_ENTRY).
    set (requested := match amount with
                      | Some a => if a =? 0 then minEntry else a
                      | None => minEntry
                      end).
    destruct (requested <? minEntry) eqn:Hmin.
    { intros [= <- <-]. simpl. rewrite lock_release by assumption.
      repeat split; intros; discriminate. }
    destruct (negb (bool_decide (room ∈ LowCard.bigGameRooms w)) &&
              (LowCard.MAX_ENTRY <? requested)) eqn:Hmax.
    { intros [= <- <-]. simpl. rewrite lock_release by assumption.
      repeat split; intros; discriminate. }
    destruct (deductCredits LOWCARD uid requested name BetStart
                (LowCard.bank (LowCard.setLocks ({[room]} ∪ LowCard.locks w) w)))
      as [dr b'] eqn:Hd.
    destruct (dr_success dr) eqn:Hs; simpl.
    + intros [= <- <-]. simpl. rewrite lock_release by assumption.
      split; [reflexivity|]. split; [reflexivity|]. split; [discriminate|].
      intros _. exists requested.
      unfold minEntry, LowCard.MIN_ENTRY, LowCard.MIN_ENTRY_BIG_GAME, LowCard.MAX_ENTRY,
        LowCard.JOIN_TIMEOUT in *. zbool.
      destruct (bool_decide (room ∈ LowCard.bigGameRooms w)) eqn:Hbig.
      * apply bool_decide_eq_true in Hbig.
        split; [lia|]. split; [intros _; lia|]. split; [intros; contradiction|].
        split; [|apply lookup_insert_eq].
        intros a -> Ha. unfold requested.
        destruct (a =? 0) eqn:E; zbool; [contradiction | reflexivity].
      * apply bool_decide_eq_false in Hbig. simpl in Hmax. zbool.
        split; [lia|]. split; [intros; contradiction|]. split; [intros _; lia|].
        split; [|apply lookup_insert_eq].
        intros a -> Ha. unfold requested.
        destruct (a =? 0) eqn:E; zbool; [contradiction | reflexivity].
    + intros [= <- <-]. simpl. rewrite lock_release by assumption.
      split; [reflexivity|]. split; [reflexivity|]. split; [|discriminate].
      intros _. split; [reflexivity|].
      exact (deductCredits_failure_users _ _ _ _ _ _ _ _ Hd Hs).
  - intros room uid name amount now w Hl. unfold LowCard.startGame.
    destruct (decide (room ∈ LowCard.locks w)); [reflexivity | contradiction].
Qed.

(** User 1 starts a dice game with a request of 100. *)
Lemma start_keeps_lock_free_and_entry_in_bounds_witness :
  Dice.locks (snd (Dice.startGame 7 1 Examples.name1 (Some 100) 1000 Examples.dice0))
  = Dice.locks Examples.dice0.
Proof.
  apply (proj1 (start_keeps_lock_free_and_entry_in_bounds specMerchantTag)
           7 1 Examples.name1 (Some 100) 1000 Examples.dice0
           (fst (Dice.startGame 7 1 Examples.name1 (Some 100) 1000 Examples.dice0))).
  - vm_compute. set_solver.
  - apply surjective_pairing.
Defined.

(** * Bot keys *)

Lemma botStep_disjoint k k' :
  botStep k k' -> dicebotKeys k ## lowcardKeys k -> dicebotKeys k' ## lowcardKeys k'.
Proof.
  intros [room k0 | room k0 | k0 k0' Hd Hl] Hdis.
  - unfold Dice.addBotToRoom. repeat case_match; simpl; set_solver.
  - unfold LowCard.addBotToRoom. repeat case_match; simpl; set_solver.
  - set_solver.
Qed.

(** X22.  The dice bot and the card bot are never active in the same
    room.  [addBotToRoom] of a service succeeds exactly when the room has
    none of the three bot keys; it then sets the service's own key and makes
    the service's game the room's active game type, and when it fails it
    changes nothing.  Hence, starting from keys under which no room has both
    bots, no sequence of additions by either service and of key removals or
    expiries leads to a room with both. *)
Theorem dice_and_card_bot_never_share_a_room :
  (forall room k,
     let r := Dice.addBotToRoom room k in
     (ab_success (fst r) = true <->
      (room ∉ dicebotKeys k) /\ (room ∉ lowcardKeys k) /\ (room ∉ legendKeys k)) /\
     (ab_success (fst r) = false -> snd r = k) /\
     (ab_success (fst r) = true ->
      dicebotKeys (snd r) = {[room]} ∪ dicebotKeys k /\
      lowcardKeys (snd r) = lowcardKeys k /\
      gameTypes (snd r) !! room = Some DICE)) /\
  (forall room k,
     let r := LowCard.addBotToRoom room k in
     (ab_success (fst r) = true <->
      (room ∉ dicebotKeys k) /\ (room ∉ lowcardKeys k) /\ (room ∉ legendKeys k)) /\
     (ab_success (fst r) = false -> snd r = k) /\
     (ab_success (fst r) = true ->
      lowcardKeys (snd r) = {[room]} ∪ lowcardKeys k /\
      dicebotKeys (snd r) = dicebotKeys k /\
      gameTypes (snd r) !! room = Some LOWCARD)) /\
  (forall k k',
     rtc botStep k k' ->
     dicebotKeys k ## lowcardKeys k ->
     dicebotKeys k' ## lowcardKeys k').
Proof.
  split; [|split].
  - intros room k r. subst r. unfold Dice.addBotToRoom.
    repeat case_match; simpl; (split; [split|split]);
      try discriminate; try tauto; try reflexivity; intros; try (exfalso; tauto).
    all: try (repeat split; try assumption; try reflexivity; apply lookup_insert_eq).
  - intros room k r. subst r. unfold LowCard.addBotToRoom.
    repeat case_match; simpl; (split; [split|split]);
      try discriminate; try tauto; try reflexivity; intros; try (exfalso; tauto).
    all: try (repeat split; try assumption; try reflexivity; apply lookup_insert_eq).
  - intros k k' Hsteps. induction Hsteps as [k | k k1 k2 Hstep _ IH]; [auto|].
    intros Hdis. apply IH. exact (botStep_disjoint _ _ Hstep Hdis).
Qed.

(** The dice bot is added to room 7, then the card bot is asked for: it
    is refused, and room 7 has the dice bot alone. *)
Lemma dice_and_card_bot_never_share_a_room_witness :
  dicebotKeys
    (snd (LowCard.addBotToRoom 7 (snd (Dice.addBotToRoom 7 (mkBotKeys ∅ ∅ ∅ ∅)))))
  ## lowcardKeys
    (snd (LowCard.addBotToRoom 7 (snd (Dice.addBotToRoom 7 (mkBotKeys ∅ ∅ ∅ ∅))))).
Proof.
  apply (proj2 (proj2 dice_and_card_bot_never_share_a_room) (mkBotKeys ∅ ∅ ∅ ∅)).
  - eapply rtc_l; [apply bot_add_dice|]. apply rtc_once. apply bot_add_lowcard.
  - simpl. set_solver.
Defined.

(** * The lowest card *)

Section LowCardLowestProofs.
Context {MT : MerchantTag}.
Import LowCard.

Lemma NoDup_List_filter {A : Type} (f : A -> bool) (l : list A) :
  NoDup l -> NoDup (List.filter f l).
Proof.
  induction l as [|x l IH]; simpl; [auto|].
  intros Hnd. apply NoDup_cons in Hnd as [Hx Hnd].
  destruct (f x); [|auto]. apply NoDup_cons. split; [|auto].
  intros Hin. apply Hx. apply list_elem_of_In in Hin. apply filter_In in Hin as [Hin _].
  by apply list_elem_of_In.
Qed.

Lemma lowcard_activeWithCard_NoDup g :
  NoDup (map userId (players g)) -> NoDup (activeWithCard g).
Proof.
  intros Hnd. unfold activeWithCard. apply NoDup_List_filter.
  by apply (NoDup_fmap_1 userId).
Qed.

(** A single holder of the lowest rank is the only loser. *)
Lemma lowcard_single_loser act loser :
  NoDup act ->
  In loser act ->
  (forall q, In q act -> q <> loser -> cardValue loser < cardValue q) ->
  List.filter (fun p => cardValue p =? minOf (map cardValue act)) act = [loser].
Proof.
  intros Hnd Hin Hlow.
  assert (Hmin : minOf (map cardValue act) = cardValue loser).
  { apply lowcard_minOf_unique; [|by apply in_map].
    intros z Hz. apply in_map_iff in Hz as (q & <- & Hq).
    destruct (Z.le_gt_cases (cardValue loser) (cardValue q)) as [|Hgt]; [assumption|].
    assert (q <> loser) by (intros ->; lia).
    specialize (Hlow q Hq H). lia. }
  rewrite Hmin. clear Hmin.
  apply in_split in Hin as (l1 & l2 & ->).
  apply NoDup_app in Hnd as (_ & Hdis & Hnd2). apply NoDup_cons in Hnd2 as [Hl2 _].
  rewrite List.filter_app. simpl. rewrite Z.eqb_refl.
  rewrite (filter_none _ l1), (filter_none _ l2); [reflexivity| |].
  - intros q Hq. apply Z.eqb_neq.
    assert (q <> loser) by (intros ->; apply Hl2; by apply list_elem_of_In).
    specialize (Hlow q ltac:(apply in_or_app; right; right; exact Hq) H). lia.
  - intros q Hq. apply Z.eqb_neq.
    assert (q <> loser).
    { intros ->. apply (Hdis loser); [by apply list_elem_of_In | left]. }
    specialize (Hlow q ltac:(apply in_or_app; left; exact Hq) H). lia.
Qed.

(** The branch of [resolveLowest] without a tie that ends the game. *)
Lemma lowcard_resolve_normal_winner room t now g act w winner :
  let losers :=
    List.filter (fun p => cardValue p =? minOf (map cardValue act)) act in
  (1 <? length losers)%nat && (length losers <? length act)%nat = false ->
  List.filter active (eliminateIds (map userId losers) (players g)) = [winner] ->
  resolveLowest room t now g act w = payWinner room g winner w.
Proof.
  intros losers Hcond Hrem. unfold resolveLowest. fold losers. rewrite Hcond, Hrem.
  reflexivity.
Qed.

Lemma lowcard_eliminate_one u ps :
  NoDup (map userId ps) ->
  eliminateIds [u] ps = map (fun p => if userId p =? u then eliminate p else p) ps.
Proof.
  intros Hnd. rewrite (lowcard_eliminateIds_unique _ _ Hnd).
  apply map_ext. intros p. simpl. by rewrite orb_false_r.
Qed.

End LowCardLowestProofs.

(** X23.  The lowest card is out.  In a tally that is not under the
    three-player rule, if one card holder holds a rank strictly below every
    other card holder, exactly this player is eliminated.  If a single
    player is left after that, the player is paid the pot less the
    commission and the session and the deck are deleted; otherwise nothing
    is paid and the session goes to the next round: the round number grows
    by one, every player still in the game is without a card and has to
    draw, the countdown ends three seconds and the round twenty-three
    seconds after the tally, and no tie is on record. *)
Theorem lowcard_single_lowest_card_is_out (MT : MerchantTag) room t now w g loser :
  LowCard.games w !! room = Some g ->
  NoDup (map LowCard.userId (LowCard.players g)) ->
  In loser (LowCard.activeWithCard g) ->
  (forall q, In q (LowCard.activeWithCard g) -> q <> loser ->
             LowCard.cardValue loser < LowCard.cardValue q) ->
  length (LowCard.activeWithCard g) <> 3%nat \/ t = true ->
  let ps := map (fun p => if LowCard.userId p =? LowCard.userId loser
                          then LowCard.eliminate p else p) (LowCard.players g) in
  exists r w',
    LowCard.tallyRound room t now w = (r, w') /\
    match List.filter LowCard.active ps with
    | [winner] =>
        (exists nb,
           r = LowCard.TallyGameOver (LowCard.userId winner)
                 (LowCard.winningsOf (LowCard.pot g)) nb) /\
        LowCard.games w' !! room = None /\
        forall bal, users (LowCard.bank w) !! LowCard.userId winner = Some bal ->
          users (LowCard.bank w') =
            <[LowCard.userId winner :=
                bal + (LowCard.winningsOf (LowCard.pot g))]>
              (users (LowCard.bank w))
    | rest =>
        r = LowCard.TallyEliminated [LowCard.userId loser] (length rest)
              (LowCard.currentRound g + 1) /\
        LowCard.bank w' = LowCard.bank w /\
        exists g',
          LowCard.games w' !! room = Some g' /\
          LowCard.players g' = LowCard.resetActive ps /\
          LowCard.pot g' = LowCard.pot g /\
          LowCard.currentRound g' = LowCard.currentRound g + 1 /\
          LowCard.countdownEndsAt g' = Some (now + 3000) /\
          LowCard.roundDeadline g' = Some (now + 3000 + 20000) /\
          LowCard.previousTiedLosers g' = None
    end.
Proof.
  intros Hg Hnd Hin Hlow Hno ps.
  assert (Hne : length (LowCard.activeWithCard g) <> 0%nat).
  { destruct (LowCard.activeWithCard g); [destruct Hin | discriminate]. }
  rewrite (lowcard_tally_no_endgame room t now w g Hg Hne Hno).
  pose proof (lowcard_single_loser _ loser (lowcard_activeWithCard_NoDup g Hnd) Hin Hlow)
    as Hlosers.
  assert (Hcond : (1 <? length (List.filter
                                  (fun p => (LowCard.cardValue p =?
                                     LowCard.minOf (map LowCard.cardValue
                                                      (LowCard.activeWithCard g)))%Z)
                                  (LowCard.activeWithCard g)))%nat &&
                  (length (List.filter
                             (fun p => (LowCard.cardValue p =?
                                LowCard.minOf (map LowCard.cardValue
                                                 (LowCard.activeWithCard g)))%Z)
                             (LowCard.activeWithCard g))
                   <? length (LowCard.activeWithCard g))%nat = false).
  { rewrite Hlosers. reflexivity. }
  assert (Hps : LowCard.eliminateIds [LowCard.userId loser] (LowCard.players g) = ps)
    by apply (lowcard_eliminate_one _ _ Hnd).
  destruct (List.filter LowCard.active ps) as [|winner [|y l]] eqn:Hrem.
  - rewrite (lowcard_resolve_normal room t now g _ w Hcond);
      rewrite Hlosers; simpl map; rewrite Hps, Hrem; [|simpl; lia].
    eexists. eexists. split; [reflexivity|]. simpl.
    split; [reflexivity|]. split; [reflexivity|].
    eexists. rewrite lookup_insert_eq. repeat split.
  - rewrite (lowcard_resolve_normal_winner room t now g _ w winner Hcond)
      by (rewrite Hlosers; simpl map; rewrite Hps; exact Hrem).
    destruct (lowcard_payWinner_total room g winner w) as (nb & w' & Hpay).
    exists (LowCard.TallyGameOver (LowCard.userId winner)
              (LowCard.winningsOf (LowCard.pot g)) nb), w'.
    split; [exact Hpay|].
    apply lowcard_payWinner_inv in Hpay as (_ & _ & Hgs & _ & Hbal).
    split; [eauto|]. split; [rewrite Hgs; apply lookup_delete_eq|].
    intros bal Hb. exact (proj2 (Hbal bal Hb)).
  - rewrite (lowcard_resolve_normal room t now g _ w Hcond);
      rewrite Hlosers; simpl map; rewrite Hps, Hrem; [|simpl; lia].
    eexists. eexists. split; [reflexivity|]. simpl.
    split; [reflexivity|]. split; [reflexivity|].
    eexists. rewrite lookup_insert_eq. repeat split.
Qed.

(** A four, a five, a nine and a king at a time-out: user 1, who holds
    the four, is out and three players go to round 2. *)
Lemma lowcard_single_lowest_card_is_out_witness :
  exists w',
    LowCard.tallyRound 7 true 60000 Examples.low4_single
    = (LowCard.TallyEliminated [1] 3 2, w').
Proof.
  destruct (lowcard_single_lowest_card_is_out specMerchantTag 7 true 60000
              Examples.low4_single Examples.low4_single_game
              (Examples.holder 1 Examples.name1 4 LowCard.suit_h))
    as (r & w' & H1 & H2 & _).
  - reflexivity.
  - apply (bool_decide_unpack _). vm_compute. exact I.
  - left. reflexivity.
  - intros q [<- | [<- | [<- | [<- | []]]]] Hq; try (vm_compute; reflexivity).
    contradiction.
  - right. reflexivity.
  - exists w'. rewrite H1, H2. reflexivity.
Defined.

(** X24.  With exactly three card holders and no time-out a tally never
    asks for a redraw: either the game ends, or players are eliminated and
    the next round is set up.  A tie of two players for the lowest card
    leaves the third as the single holder of the highest card, who wins on
    the spot. *)
Theorem lowcard_three_card_holders_never_redraw (MT : MerchantTag) room now w g a b c :
  LowCard.games w !! room = Some g ->
  LowCard.activeWithCard g = [a; b; c] ->
  match fst (LowCard.tallyRound room false now w) with
  | LowCard.TallyGameOver _ _ _ | LowCard.TallyEliminated _ _ _ => True
  | _ => False
  end /\
  (LowCard.cardValue a = LowCard.cardValue b ->
   LowCard.cardValue a < LowCard.cardValue c ->
   exists nb w',
     LowCard.tallyRound room false now w =
       (LowCard.TallyGameOver (LowCard.userId c)
          (LowCard.winningsOf (LowCard.pot g)) nb, w')).
Proof.
  intros Hg Hact. split.
  - rewrite (lowcard_tally_three room now w g a b c Hg Hact).
    unfold LowCard.resolveLowest, LowCard.payWinner. simpl.
    destruct (Z.max_spec (Z.max (LowCard.cardValue a) (LowCard.cardValue b))
                (LowCard.cardValue c)) as [[? ->]|[? ->]];
      destruct (Z.max_spec (LowCard.cardValue a) (LowCard.cardValue b)) as [[? E]|[? E]];
      rewrite ?E in *;
      destruct (Z.min_spec (Z.min (LowCard.cardValue a) (LowCard.cardValue b))
                  (LowCard.cardValue c)) as [[? ->]|[? ->]];
      destruct (Z.min_spec (LowCard.cardValue a) (LowCard.cardValue b)) as [[? E']|[? E']];
      rewrite ?E' in *;
      repeat match goal with
             | |- context [?x =? ?y] => destruct (Z.eqb_spec x y); try lia
             end;
      simpl;
      repeat match goal with
             | |- context [addCredits ?u ?m ?n ?r ?bk] => destruct (addCredits u m n r bk)
             end;
      simpl; try exact I;
      match goal with
      | |- context [List.filter LowCard.active ?l] =>
          destruct (List.filter LowCard.active l) as [|x [|y l']]
      end;
      simpl;
      repeat match goal with
             | |- context [addCredits ?u ?m ?n ?r ?bk] => destruct (addCredits u m n r bk)
             end;
      simpl; exact I.
  - intros Hab Hac.
    rewrite (lowcard_three_highest_wins room now w g a b c 2%nat c Hg Hact eq_refl).
    + apply lowcard_payWinner_total.
    + intros [|[|[|j]]] y Hj Hy; simpl in Hy; try discriminate; try lia;
        injection Hy as <-; lia.
Qed.

(** A nine, a king and a five: the tally ends the game. *)
Lemma lowcard_three_card_holders_never_redraw_witness :
  match fst (LowCard.tallyRound 7 false 50000 Examples.low3) with
  | LowCard.TallyGameOver _ _ _ | LowCard.TallyEliminated _ _ _ => True
  | _ => False
  end.
Proof.
  apply (lowcard_three_card_holders_never_redraw specMerchantTag 7 50000 Examples.low3
           Examples.low3_game
           (Examples.holder 1 Examples.name1 9 LowCard.suit_h)
           (Examples.holder 2 Examples.name2 13 LowCard.suit_s)
           (Examples.holder 4 Examples.name4 5 LowCard.suit_d)).
  - reflexivity.
  - reflexivity.
Defined.

(** * Starting and calling off *)

Section RoundTripProofs.
Context {MT : MerchantTag}.

(** A successful debit of a positive amount with no tagged credits in
    play takes the whole amount from the account. *)
Lemma deductCredits_plain_success gt uid amount name reason (b : Bank) res b' :
  getTaggedBalance uid (tagged b) <= 0 ->
  0 < amount ->
  deductCredits gt uid amount name reason b = (res, b') ->
  dr_success res = true ->
  exists c, users b !! uid = Some c /\ amount <= c /\
            users b' = <[uid := c - amount]> (users b) /\
            tagged b' = tagged b.
Proof.
  intros Ht Ha. unfold deductCredits, getUserCredits.
  assert ((0 <? getTaggedBalance uid (tagged b)) = false) as -> by (apply Z.ltb_ge; lia).
  assert ((amount <=? 0) = false) as -> by (apply Z.leb_gt; lia).
  intros H Hs. repeat case_match; simplify_eq; simpl in *; try discriminate; zbool.
  all: eexists; split; [eassumption|]; auto.
Qed.

Lemma refund_restores (u : gmap Z Z) uid c amount :
  u !! uid = Some c ->
  <[uid := c - amount + amount]> (<[uid := c - amount]> u) = u.
Proof.
  intros Hu. rewrite insert_insert_eq. replace (c - amount + amount) with c by lia.
  by apply insert_id.
Qed.

End RoundTripProofs.

(** X25.  Starting a game and calling it off before anybody joins gives
    the starter the entry back.  If [startGame] of the dice service
    succeeds for a user with no tagged credits, [cancelGame] right after it
    succeeds, deletes the session and leaves the [users] table exactly as
    it was before the start; the same holds for [startGame] and [stopGame]
    of the card service, and for the removal of either bot. *)
Theorem start_then_call_off_restores_balance (MT : MerchantTag) :
  (forall room uid name amount now w res w1,
     room ∉ Dice.locks w ->
     getTaggedBalance uid (tagged (Dice.bank w)) <= 0 ->
     Dice.startGame room uid name amount now w = (res, w1) ->
     Dice.success res = true ->
     (exists w2,
        Dice.cancelGame room w1 = (Dice.mkResult true Dice.MsgCancelled None, w2) /\
        Dice.games w2 !! room = None /\
        users (Dice.bank w2) = users (Dice.bank w)) /\
     (room ∈ Dice.bots w1 ->
      exists w2,
        Dice.removeBotFromRoom room w1 = (Dice.mkResult true Dice.MsgBotLeft None, w2) /\
        Dice.games w2 !! room = None /\
        users (Dice.bank w2) = users (Dice.bank w))) /\
  (forall room uid name amount now w res w1,
     room ∉ LowCard.locks w ->
     getTaggedBalance uid (tagged (LowCard.bank w)) <= 0 ->
     LowCard.startGame room uid name amount now w = (res, w1) ->
     LowCard.success res = true ->
     (exists w2,
        LowCard.stopGame room w1 = (LowCard.mkResult true LowCard.MsgStopped None, w2) /\
        LowCard.games w2 !! room = None /\
        users (LowCard.bank w2) = users (LowCard.bank w)) /\
     (room ∈ LowCard.bots w1 ->
      exists w2,
        LowCard.removeBotFromRoom room w1
          = (LowCard.mkResult true LowCard.MsgBotLeft None, w2) /\
        LowCard.games w2 !! room = None /\
        users (LowCard.bank w2) = users (LowCard.bank w))).
Proof.
  split.
  - intros room uid name amount now w res w1 Hl Ht. unfold Dice.startGame.
    destruct (decide (room ∈ Dice.locks w)); [contradiction|].
    cbv zeta.
    destruct (match Dice.games (Dice.setLocks ({[room]} ∪ Dice.locks w) w) !! room with
              | Some game => _
              | None => false
              end); [intros [= <- <-]; discriminate|].
    set (requested := match amount with
                      | Some a => if a =? 0 then Dice.MIN_ENTRY else a
                      | None => Dice.MIN_ENTRY
                      end).
    destruct (requested <? Dice.MIN_ENTRY) eqn:Hmin; [intros [= <- <-]; discriminate|].
    destruct (deductCredits DICE uid (Z.min Dice.MAX_ENTRY requested) name BetStart
                (Dice.bank (Dice.setLocks ({[room]} ∪ Dice.locks w) w)))
      as [dr b'] eqn:Hd.
    destruct (dr_success dr) eqn:Hs; simpl; [|intros [= <- <-]; discriminate].
    intros [= <- <-] _.
    assert (Hpos : 0 < Z.min Dice.MAX_ENTRY requested).
    { unfold Dice.MIN_ENTRY, Dice.MAX_ENTRY in *. zbool. lia. }
    destruct (deductCredits_plain_success _ _ _ _ _ _ _ _ Ht Hpos Hd Hs)
      as (c & Hc & _ & Hu & _).
    simpl in Hc, Hu.
    assert (Hb' : users b' !! uid = Some (c - Z.min Dice.MAX_ENTRY requested))
      by (rewrite Hu; apply lookup_insert_eq).
    split.
    + unfold Dice.cancelGame. simpl. rewrite lookup_insert_eq. simpl.
      eexists. split; [reflexivity|]. simpl. split; [apply lookup_delete_eq|].
      unfold creditEach. simpl. unfold addCredits. simpl. rewrite Hb'.
      destruct (truthy name); simpl; rewrite Hu; by apply refund_restores.
    + intros Hbot. unfold Dice.removeBotFromRoom.
      destruct (decide _) as [_|Hn]; [|contradiction].
      simpl. rewrite lookup_insert_eq. simpl.
      eexists. split; [reflexivity|]. simpl. split; [apply lookup_delete_eq|].
      unfold creditEach. simpl. unfold addCredits. simpl. rewrite Hb'.
      destruct (truthy name); simpl; rewrite Hu; by apply refund_restores.
  - intros room uid name amount now w res w1 Hl Ht. unfold LowCard.startGame.
    destruct (decide (room ∈ LowCard.locks w)); [contradiction|].
    cbv zeta.
    destruct (match LowCard.games (LowCard.setLocks ({[room]} ∪ LowCard.locks w) w) !! room with
              | Some game => _
              | None => false
              end); [intros [= <- <-]; discriminate|].
    change (LowCard.bigGameRooms (LowCard.setLocks ({[room]} ∪ LowCard.locks w) w))
      with (LowCard.bigGameRooms w).
    set (minEntry := if bool_decide (room ∈ LowCard.bigGameRooms w)
                     then LowCard.MIN_ENTRY_BIG_GAME else LowCard.MIN_ENTRY).
    set (requested := match amount with
                      | Some a => if a =? 0 then minEntry else a
                      | None => minEntry
                      end).
    destruct (requested <? minEntry) eqn:Hmin; [intros [= <- <-]; discriminate|].
    destruct (negb (bool_decide (room ∈ LowCard.bigGameRooms w)) &&
              (LowCard.MAX_ENTRY <? requested)); [intros [= <- <-]; discriminate|].
    destruct (deductCredits LOWCARD uid requested name BetStart
                (LowCard.bank (LowCard.setLocks ({[room]} ∪ LowCard.locks w) w)))
      as [dr b'] eqn:Hd.
    destruct (dr_success dr) eqn:Hs; simpl; [|intros [= <- <-]; discriminate].
    intros [= <- <-] _.
    assert (Hpos : 0 < requested).
    { unfold minEntry, LowCard.MIN_ENTRY, LowCard.MIN_ENTRY_BIG_GAME in *. zbool.
      destruct (bool_decide (room ∈ LowCard.bigGameRooms w)); lia. }
    destruct (deductCredits_plain_success _ _ _ _ _ _ _ _ Ht Hpos Hd Hs)
      as (c & Hc & _ & Hu & _).
    simpl in Hc, Hu.
    assert (Hb' : users b' !! uid = Some (c - requested))
      by (rewrite Hu; apply lookup_insert_eq).
    split.
    + unfold LowCard.stopGame. simpl. rewrite lookup_insert_eq. simpl.
      eexists. split; [reflexivity|]. simpl. split; [apply lookup_delete_eq|].
      unfold creditEach. simpl. unfold addCredits. simpl. rewrite Hb'.
      destruct (truthy name); simpl; rewrite Hu; by apply refund_restores.
    + intros Hbot. unfold LowCard.removeBotFromRoom.
      destruct (decide _) as [_|Hn]; [|contradiction].
      simpl. rewrite lookup_insert_eq. simpl.
      eexists. split; [reflexivity|]. simpl. split; [apply lookup_delete_eq|].
      unfold creditEach. simpl. unfold addCredits. simpl. rewrite Hb'.
      destruct (truthy name); simpl; rewrite Hu; by apply refund_restores.
Qed.

(** User 1 starts a dice game at 100 and the game is cancelled. *)
Lemma start_then_call_off_restores_balance_witness :
  exists w2,
    Dice.cancelGame 7 (snd (Dice.startGame 7 1 Examples.name1 (Some 100) 1000 Examples.dice0))
    = (Dice.mkResult true Dice.MsgCancelled None, w2) /\
    Dice.games w2 !! 7 = None /\
    users (Dice.bank w2) = users (Dice.bank Examples.dice0).
Proof.
  apply (proj1 (start_then_call_off_restores_balance specMerchantTag)
           7 1 Examples.name1 (Some 100) 1000 Examples.dice0
           (fst (Dice.startGame 7 1 Examples.name1 (Some 100) 1000 Examples.dice0))).
  - vm_compute. set_solver.
  - vm_compute. discriminate.
  - apply surjective_pairing.
  - reflexivity.
Defined.

(** The queen of hearts is in the deck shuffled with the numbers 1, 4, 7, ... *)
Lemma lowcard_generateDeck_is_a_full_deck_witness :
  In (LowCard.mkCard 12 LowCard.suit_h)
     (LowCard.generateDeck (fun i => (3 * i + 1)%nat)).
Proof.
  apply (proj2 (proj2 (proj2
           (lowcard_generateDeck_is_a_full_deck (fun i => (3 * i + 1)%nat))))).
  lia.
Defined.

(** * Redraws in the card game *)

Section LowCardRetainProofs.
Context {MT : MerchantTag}.
Import LowCard.

Lemma lowcard_keepsDrawn_refl ps : keepsDrawn ps ps.
Proof. unfold keepsDrawn. induction ps; constructor; auto. Qed.

Lemma lowcard_keepsDrawn_trans l1 l2 l3 :
  keepsDrawn l1 l2 -> keepsDrawn l2 l3 -> keepsDrawn l1 l3.
Proof.
  unfold keepsDrawn. intros H12. revert l3.
  induction H12 as [|p q l1 l2 (Hk & Hu & He) _ IH]; intros l3 H23; inversion H23; subst.
  - constructor.
  - constructor; [|auto]. destruct H1 as (Hk' & Hu' & He').
    split; [|split; congruence].
    intros Hd. rewrite <- (Hk Hd). apply Hk'. rewrite (Hk Hd). exact Hd.
Qed.

Lemma lowcard_keepsDrawn_ids l1 l2 :
  keepsDrawn l1 l2 -> map userId l2 = map userId l1.
Proof.
  unfold keepsDrawn. induction 1 as [|p q l1 l2 (_ & Hu & _) _ IH]; simpl; congruence.
Qed.

Lemma lowcard_keepsDrawn_In l1 l2 p :
  keepsDrawn l1 l2 -> In p l1 -> hasDrawn p = true -> In p l2.
Proof.
  unfold keepsDrawn. induction 1 as [|x y l1 l2 (Hk & _) _ IH]; simpl; [tauto|].
  intros [<- | Hin] Hd; [left; apply Hk; auto | right; auto].
Qed.

(** One draw step on a stored session. *)
Lemma lowcard_drawStep_keeps room w w' g :
  drawStep room w w' ->
  games w !! room = Some g ->
  exists g', games w' !! room = Some g' /\
    keepsDrawn (players g) (players g') /\
    pot g' = pot g /\ status g' = status g /\
    previousTiedLosers g' = previousTiedLosers g /\
    currentRound g' = currentRound g /\
    bank w' = bank w.
Proof.
  intros Hstep Hg.
  destruct Hstep as [uid now shuffled w | shuffled w].
  - destruct (drawCardForPlayer room uid now shuffled w) as [[res card] w1] eqn:Hd.
    destruct (lowcard_draw_cases _ _ _ _ _ _ _ _ Hd)
      as [(_ & -> & _) | (_ & g0 & before & x & after & Hg0 & _ & _ & Hps & _ & He & Hn & _ & _ & ->)].
    + exists g. simpl. repeat split; auto. apply lowcard_keepsDrawn_refl.
    + rewrite Hg in Hg0. injection Hg0 as <-. simpl. rewrite lookup_insert_eq.
      eexists. split; [reflexivity|]. simpl. repeat split.
      rewrite Hps. unfold keepsDrawn. apply Forall2_app.
      * apply lowcard_keepsDrawn_refl.
      * constructor; [|apply lowcard_keepsDrawn_refl].
        split; [intros [H | H]; congruence|]. split; reflexivity.
  - pose proof (lowcard_autoDraw_keeps_done room shuffled (players g) 0 w) as Hkeep.
    pose proof (lowcard_autoDraw_world room shuffled (players g) 0 w) as Hworld.
    unfold autoDrawForTimeout. rewrite Hg.
    destruct (autoDrawPlayers room shuffled 0 (players g) w) as [ps w1].
    cbn [fst snd] in *. cbv zeta in Hworld. destruct Hworld as (Hb & _).
    simpl. rewrite lookup_insert_eq.
    eexists. split; [reflexivity|]. simpl. repeat split; [exact Hkeep | exact Hb].
Qed.

Lemma lowcard_drawSteps_keep room w w' g :
  rtc (drawStep room) w w' ->
  games w !! room = Some g ->
  exists g', games w' !! room = Some g' /\
    keepsDrawn (players g) (players g') /\
    pot g' = pot g /\ status g' = status g /\
    previousTiedLosers g' = previousTiedLosers g /\
    currentRound g' = currentRound g /\
    bank w' = bank w.
Proof.
  intros Hsteps. revert g.
  induction Hsteps as [w | w w1 w2 Hstep _ IH]; intros g Hg.
  - exists g. repeat split; auto. apply lowcard_keepsDrawn_refl.
  - destruct (lowcard_drawStep_keeps _ _ _ _ Hstep Hg)
      as (g1 & Hg1 & Hk1 & Hp1 & Hs1 & Ht1 & Hr1 & Hb1).
    destruct (IH g1 Hg1) as (g2 & Hg2 & Hk2 & Hp2 & Hs2 & Ht2 & Hr2 & Hb2).
    exists g2. repeat split; auto; try congruence.
    eapply lowcard_keepsDrawn_trans; eauto.
Qed.

Lemma lowcard_keepsDrawn_flags l1 l2 :
  keepsDrawn l1 l2 -> map isEliminated l2 = map isEliminated l1.
Proof.
  unfold keepsDrawn. induction 1 as [|p q l1 l2 (_ & _ & He) _ IH]; simpl; congruence.
Qed.

(** With unique ids the record a command of a user addresses is the
    user's record. *)
Lemma lowcard_find_mine ps p :
  NoDup (map userId ps) -> In p ps -> isEliminated p = false ->
  find (fun q => (userId q =? userId p) && negb (isEliminated q)) ps = Some p.
Proof.
  intros Hnd Hp He.
  destruct (find (fun q => (userId q =? userId p) && negb (isEliminated q)) ps) as [q|] eqn:Hf.
  - apply find_some in Hf as [Hq Hm]. apply andb_true_iff in Hm as [Hid _].
    apply Z.eqb_eq in Hid. f_equal. apply (NoDup_map_inj userId ps); auto.
  - apply (find_none _ _ Hf) in Hp. rewrite Z.eqb_refl, He in Hp. discriminate.
Qed.

(** A player who has drawn cannot draw again. *)
Lemma lowcard_draw_refused room now shuffled w g p :
  games w !! room = Some g ->
  NoDup (map userId (players g)) ->
  In p (players g) -> isEliminated p = false -> hasDrawn p = true ->
  exists res, drawCardForPlayer room (userId p) now shuffled w = (res, None, w) /\
              success res = false.
Proof.
  intros Hg Hnd Hp He Hd. unfold drawCardForPlayer. rewrite Hg.
  rewrite (lowcard_find_mine _ p Hnd Hp He), Hd.
  repeat case_match; eexists; split; reflexivity.
Qed.

Lemma lowcard_active_count (h : Player -> Player) ps :
  (forall p, isEliminated (h p) = isEliminated p) ->
  length (List.filter active (map h ps)) = length (List.filter active ps).
Proof.
  intros Hh. induction ps as [|x ps IH]; simpl; [reflexivity|].
  assert (active (h x) = active x) as -> by (unfold active; by rewrite Hh).
  destruct (active x); simpl; congruence.
Qed.

Lemma lowcard_resetActive_count ps :
  length (List.filter active (resetActive ps)) = length (List.filter active ps).
Proof.
  unfold resetActive. apply lowcard_active_count.
  intros p. destruct (active p); reflexivity.
Qed.

(** Marking the records picked by [f], all of them in the game, takes
    that many players out of the game. *)
Lemma lowcard_eliminate_count (f : Player -> bool) ps :
  (forall p, In p ps -> f p = true -> active p = true) ->
  (length (List.filter active (map (fun p => if f p then eliminate p else p) ps))
   + length (List.filter f ps) = length (List.filter active ps))%nat.
Proof.
  induction ps as [|x ps IH]; intros Hf; simpl; [reflexivity|].
  specialize (IH ltac:(intros p Hp; apply Hf; by right)).
  destruct (f x) eqn:Hfx.
  - rewrite (Hf x (or_introl eq_refl) Hfx). simpl.
    replace (active (eliminate x)) with false by reflexivity. simpl. lia.
  - destruct (active x); simpl; lia.
Qed.

Lemma lowcard_holdsLowest_active low p : holdsLowest low p = true -> active p = true.
Proof. unfold holdsLowest. destruct (active p); [reflexivity|discriminate]. Qed.

(** In a session where every player in the game holds a card the card
    holders are the players in the game. *)
Lemma lowcard_activeWithCard_active g :
  (forall p, In p (players g) -> active p = true -> holdsCard p = true) ->
  activeWithCard g = List.filter active (players g).
Proof.
  intros H. apply lowcard_activeWithCard_all; [reflexivity|].
  intros p Hp. apply filter_In in Hp as [Hp Ha]. auto.
Qed.

End LowCardRetainProofs.

Section LowCardTieInv.
Context {MT : MerchantTag}.
Import LowCard.

Lemma lowcard_payWinner_not_tie room g winner w ids r :
  payWinner room g winner w <> (TallyTie ids, r).
Proof. unfold payWinner. destruct (addCredits _ _ _ _ _). discriminate. Qed.

(** Only the redraw branch answers with a tie. *)
Lemma lowcard_tie_inv room t now w g ids w' :
  games w !! room = Some g ->
  tallyRound room t now w = (TallyTie ids, w') ->
  let losers :=
    List.filter (fun p => cardValue p =? minOf (map cardValue (activeWithCard g)))
                (activeWithCard g) in
  ids = map userId losers /\
  w' = setGames
         (<[room := setPlayers
                      (map (fun p =>
                              if active p && existsb (fun l => userId l =? userId p) losers
                              then resetDraw p else p) (players g))
                      (setPreviousTiedLosers (Some (map userId losers)) g)]> (games w)) w.
Proof.
  intros Hg. unfold tallyRound, resolveLowest. rewrite Hg. cbv zeta.
  intros H.
  repeat case_match; simplify_eq;
    try (exfalso; eapply lowcard_payWinner_not_tie; eassumption); auto.
Qed.

End LowCardTieInv.

Section LowCardRecordedTie.
Context {MT : MerchantTag}.

(** Four card holders at a time-out, two of them tied for the lowest rank
    and on record for a tie: both are out. *)
Lemma lowcard_recorded_tie_out room now w g :
  LowCard.games w !! room = Some g ->
  NoDup (map LowCard.userId (LowCard.players g)) ->
  length (List.filter LowCard.active (LowCard.players g)) = 4%nat ->
  (forall p, In p (LowCard.players g) -> LowCard.active p = true ->
             LowCard.holdsCard p = true) ->
  let low := LowCard.minOf (map LowCard.cardValue (LowCard.activeWithCard g)) in
  let tied := List.filter (LowCard.holdsLowest low) (LowCard.players g) in
  length tied = 2%nat ->
  LowCard.previousTiedLosers g = Some (map LowCard.userId tied) ->
  exists w' g',
    LowCard.tallyRound room true now w
      = (LowCard.TallyEliminated (map LowCard.userId tied) 2
           (LowCard.currentRound g + 1), w') /\
    LowCard.bank w' = LowCard.bank w /\
    LowCard.games w' !! room = Some g' /\
    LowCard.players g' =
      LowCard.resetActive
        (map (fun p => if LowCard.holdsLowest low p then LowCard.eliminate p else p)
             (LowCard.players g)) /\
    LowCard.previousTiedLosers g' = None /\
    LowCard.pot g' = LowCard.pot g /\
    length (List.filter LowCard.active (LowCard.players g')) = 2%nat /\
    (forall p, In p tied ->
       In (LowCard.eliminate p) (LowCard.players g') /\
       LowCard.isEliminated (LowCard.eliminate p) = true).
Proof.
  intros Hg Hnd Hfour Hall low tied Htwo Hprev.
  assert (Hawc : LowCard.activeWithCard g = List.filter LowCard.active (LowCard.players g))
    by (by apply lowcard_activeWithCard_active).
  assert (Htied : List.filter (fun p => LowCard.cardValue p =? low) (LowCard.activeWithCard g)
                  = tied) by apply lowcard_losers_filter.
  assert (Hlen : length (LowCard.activeWithCard g) = 4%nat) by (rewrite Hawc; exact Hfour).
  rewrite (lowcard_tally_no_endgame room true now w g Hg) by (rewrite ?Hlen; auto).
  assert (Hps : LowCard.eliminateIds (map LowCard.userId tied) (LowCard.players g)
                = map (fun p => if LowCard.holdsLowest low p then LowCard.eliminate p else p)
                      (LowCard.players g))
    by (by apply lowcard_eliminate_filter).
  pose proof (lowcard_eliminate_count (LowCard.holdsLowest low) (LowCard.players g)
                ltac:(intros p _; apply lowcard_holdsLowest_active)) as Hcount.
  fold tied in Hcount. rewrite Htwo, Hfour in Hcount.
  assert (Hrem : length (List.filter LowCard.active
                   (map (fun p => if LowCard.holdsLowest low p then LowCard.eliminate p else p)
                        (LowCard.players g))) = 2%nat) by lia.
  destruct (map LowCard.userId tied) as [|u us] eqn:Hids;
    [apply (f_equal (@length Z)) in Hids; rewrite length_map, Htwo in Hids; discriminate|].
  rewrite (lowcard_resolve_tie_timeout room now g _ w u us);
    [|fold low; rewrite Htied, Hlen, Htwo; lia | exact Hprev | rewrite Hps, Hrem; lia].
  rewrite Hps, Hrem.
  eexists. eexists. split; [reflexivity|]. simpl.
  rewrite lookup_insert_eq. do 5 (split; [reflexivity|]).
  unfold LowCard.nextRound, LowCard.setDeadlines, LowCard.setPlayers.
  cbn [LowCard.players].
  split; [|intros p Hp; split; [|reflexivity]].
  + rewrite lowcard_resetActive_count. exact Hrem.
  + apply filter_In in Hp as [Hp Hl]. unfold LowCard.resetActive.
    apply in_map_iff. exists (LowCard.eliminate p). split; [reflexivity|].
    apply in_map_iff. exists p. rewrite Hl. auto.
Qed.

End LowCardRecordedTie.

(** C7.  Cards, round not timed out, exactly three players left, each
    holding a card.  If one of them holds a rank strictly above the other
    two, the tally ends the game at once: that player is the winner and is
    credited the pot less the commission, and the session is deleted.  If
    the highest rank is shared, nobody wins on the spot and nothing is
    credited: the holders of the lowest rank, and nobody else, are
    eliminated and the session is set up for its next round. *)
Theorem three_players_highest_card_wins (MT : MerchantTag) :
  (forall room now w g a b c i x,
     LowCard.games w !! room = Some g ->
     List.filter LowCard.active (LowCard.players g) = [a; b; c] ->
     (forall p, In p [a; b; c] -> LowCard.holdsCard p = true) ->
     [a; b; c] !! i = Some x ->
     (forall j y, j <> i -> [a; b; c] !! j = Some y ->
                  LowCard.cardValue y < LowCard.cardValue x) ->
     exists nb w',
       LowCard.tallyRound room false now w =
         (LowCard.TallyGameOver (LowCard.userId x)
            (LowCard.winningsOf (LowCard.pot g)) nb, w') /\
       LowCard.games w' !! room = None /\
       forall bal, users (LowCard.bank w) !! LowCard.userId x = Some bal ->
         users (LowCard.bank w') =
           <[LowCard.userId x := bal + LowCard.winningsOf (LowCard.pot g)]>
             (users (LowCard.bank w))) /\
  (forall room now w g a b c i j x y,
     LowCard.games w !! room = Some g ->
     NoDup (map LowCard.userId (LowCard.players g)) ->
     List.filter LowCard.active (LowCard.players g) = [a; b; c] ->
     (forall p, In p [a; b; c] -> LowCard.holdsCard p = true) ->
     i <> j ->
     [a; b; c] !! i = Some x ->
     [a; b; c] !! j = Some y ->
     LowCard.cardValue x = LowCard.cardValue y ->
     (forall z, In z [a; b; c] -> LowCard.cardValue z <= LowCard.cardValue x) ->
     let low := LowCard.minOf (map LowCard.cardValue [a; b; c]) in
     let out := List.filter (fun p => LowCard.cardValue p =? low) [a; b; c] in
     exists w' g',
       LowCard.tallyRound room false now w =
         (LowCard.TallyEliminated (map LowCard.userId out) (3 - length out)
            (LowCard.currentRound g + 1), w') /\
       (1 <= length out)%nat /\
       LowCard.bank w' = LowCard.bank w /\
       LowCard.games w' !! room = Some g' /\
       LowCard.pot g' = LowCard.pot g /\
       LowCard.players g' =
         LowCard.resetActive
           (map (fun p => if LowCard.holdsLowest low p then LowCard.eliminate p else p)
                (LowCard.players g))).
Proof.
  split.
  - intros room now w g a b c i x Hg Hact Hcards Hi Hhigh.
    pose proof (lowcard_activeWithCard_all g _ Hact Hcards) as Hawc.
    rewrite (lowcard_three_highest_wins room now w g a b c i x Hg Hawc Hi Hhigh).
    destruct (lowcard_payWinner_total room g x w) as (nb & w' & Hpay).
    exists nb, w'. split; [exact Hpay|].
    apply lowcard_payWinner_inv in Hpay as (_ & _ & Hgs & _ & Hbal).
    split; [rewrite Hgs; apply lookup_delete_eq|].
    intros bal Hb. exact (proj2 (Hbal bal Hb)).
  - intros room now w g a b c i j x y Hg Hnd Hact Hcards Hij Hi Hj Hxy Hmax low out.
    pose proof (lowcard_activeWithCard_all g _ Hact Hcards) as Hawc.
    pose proof (lowcard_three_tied_highest room now w g a b c i j x y
                  Hg Hnd Hact Hawc Hij Hi Hj Hxy Hmax) as Ht.
    cbv zeta in Ht. fold low in Ht. fold out in Ht.
    assert (Hout : List.filter (LowCard.holdsLowest low) (LowCard.players g) = out).
    { rewrite <- lowcard_losers_filter, Hawc. reflexivity. }
    assert (Hps : LowCard.eliminateIds (map LowCard.userId out) (LowCard.players g) =
                  map (fun p => if LowCard.holdsLowest low p then LowCard.eliminate p else p)
                      (LowCard.players g)).
    { rewrite <- Hout. by apply lowcard_eliminate_filter. }
    rewrite Hps in Ht.
    pose proof (lowcard_eliminate_count (LowCard.holdsLowest low) (LowCard.players g)
                  ltac:(intros p _; apply lowcard_holdsLowest_active)) as Hcount.
    rewrite Hout, Hact in Hcount. simpl in Hcount.
    assert (Hone : (1 <= length out)%nat).
    { pose proof (lowcard_minOf_In (map LowCard.cardValue [a; b; c]) ltac:(discriminate))
        as Hin.
      apply in_map_iff in Hin as (z & Hz & Hzin).
      assert (In z out) by (apply filter_In; split; [exact Hzin | by apply Z.eqb_eq]).
      destruct out; [contradiction | simpl; lia]. }
    replace (length (List.filter LowCard.active
               (map (fun p => if LowCard.holdsLowest low p then LowCard.eliminate p else p)
                    (LowCard.players g)))) with (3 - length out)%nat in Ht by lia.
    eexists. eexists. split; [exact Ht|]. split; [exact Hone|].
    split; [reflexivity|]. simpl.
    split; [apply lookup_insert_eq|]. split; reflexivity.
Qed.

(** Players 1, 2 and 4 hold a nine, a king and a five: player 2 wins and
    is paid 143 from the pot of 150.  When players 1 and 2 both hold a
    king, nobody wins: player 4, who holds the five, is out and the game
    goes to round 3 with two players. *)
Lemma three_players_highest_card_wins_witness :
  (exists nb w',
     LowCard.tallyRound 7 false 50000 Examples.low3 = (LowCard.TallyGameOver 2 143 nb, w') /\
     LowCard.games w' !! 7 = None /\
     users (LowCard.bank w') !! 2 = Some 643) /\
  (exists w' g',
     LowCard.tallyRound 7 false 50000 Examples.low3_shared
       = (LowCard.TallyEliminated [4] 2 3, w') /\
     LowCard.bank w' = LowCard.bank Examples.low3_shared /\
     LowCard.games w' !! 7 = Some g' /\
     LowCard.pot g' = 150 /\
     map LowCard.isEliminated (LowCard.players g') = [false; false; true]).
Proof.
  destruct (three_players_highest_card_wins specMerchantTag) as [Hwin Hshared].
  split.
  - destruct (Hwin 7 50000 Examples.low3 Examples.low3_game
                (Examples.holder 1 Examples.name1 9 LowCard.suit_h)
                (Examples.holder 2 Examples.name2 13 LowCard.suit_s)
                (Examples.holder 4 Examples.name4 5 LowCard.suit_d)
                1%nat (Examples.holder 2 Examples.name2 13 LowCard.suit_s))
      as (nb & w' & Ht & Hnone & Hbal).
    + reflexivity.
    + reflexivity.
    + intros p [<- | [<- | [<- | []]]]; reflexivity.
    + reflexivity.
    + intros [|[|[|j]]] y Hj Hy; simpl in Hy; try discriminate; try lia;
        injection Hy as <-; reflexivity.
    + exists nb, w'. split; [exact Ht|]. split; [exact Hnone|].
      rewrite (Hbal 500 eq_refl). reflexivity.
  - destruct (Hshared 7 50000 Examples.low3_shared Examples.low3_shared_game
                (Examples.holder 1 Examples.name1 13 LowCard.suit_h)
                (Examples.holder 2 Examples.name2 13 LowCard.suit_s)
                (Examples.holder 4 Examples.name4 5 LowCard.suit_d)
                0%nat 1%nat
                (Examples.holder 1 Examples.name1 13 LowCard.suit_h)
                (Examples.holder 2 Examples.name2 13 LowCard.suit_s))
      as (w' & g' & Ht & _ & Hbank & Hg' & Hpot & Hps).
    + reflexivity.
    + apply (bool_decide_unpack _). vm_compute. exact I.
    + reflexivity.
    + intros p [<- | [<- | [<- | []]]]; reflexivity.
    + discriminate.
    + reflexivity.
    + reflexivity.
    + reflexivity.
    + intros z [<- | [<- | [<- | []]]]; vm_compute; discriminate.
    + exists w', g'.
      split; [exact Ht|]. split; [exact Hbank|]. split; [exact Hg'|].
      split; [rewrite Hpot; reflexivity|].
      rewrite Hps. reflexivity.
Defined.

(** C8.  Four players are in a card game and each of them has drawn and
    holds a card.  If exactly two of them hold the lowest rank and the
    round did not time out, the tally eliminates nobody and pays nothing:
    it names the two, resets their draw and their card, and records their
    ids; the other two keep their records, are still in the game, and any
    draw they attempt is refused.  After a tally that answered with a tie
    and the draws that followed it, by command or at the time-out, if four
    players hold a card, the two who hold the lowest rank are the two
    named by the tie, and the round timed out, then the tally eliminates
    both at once, pays nothing, and the game goes to its next round with
    two players. *)
Theorem two_of_four_tie_redraw_then_both_out (MT : MerchantTag) :
  (forall room now w g,
     LowCard.games w !! room = Some g ->
     NoDup (map LowCard.userId (LowCard.players g)) ->
     length (List.filter LowCard.active (LowCard.players g)) = 4%nat ->
     (forall p, In p (LowCard.players g) -> LowCard.active p = true ->
                LowCard.hasDrawn p = true /\ LowCard.holdsCard p = true) ->
     let low := LowCard.minOf (map LowCard.cardValue (LowCard.activeWithCard g)) in
     let tied := List.filter (LowCard.holdsLowest low) (LowCard.players g) in
     length tied = 2%nat ->
     exists w' g',
       LowCard.tallyRound room false now w
         = (LowCard.TallyTie (map LowCard.userId tied), w') /\
       LowCard.bank w' = LowCard.bank w /\
       LowCard.games w' !! room = Some g' /\
       LowCard.players g' =
         map (fun p => if LowCard.holdsLowest low p then LowCard.resetDraw p else p)
             (LowCard.players g) /\
       LowCard.previousTiedLosers g' = Some (map LowCard.userId tied) /\
       LowCard.status g' = LowCard.status g /\
       LowCard.currentRound g' = LowCard.currentRound g /\
       LowCard.pot g' = LowCard.pot g /\
       length (List.filter LowCard.active (LowCard.players g')) = 4%nat /\
       (forall p, In p tied ->
          In (LowCard.resetDraw p) (LowCard.players g') /\
          LowCard.isEliminated (LowCard.resetDraw p) = false /\
          LowCard.hasDrawn (LowCard.resetDraw p) = false /\
          LowCard.currentCard (LowCard.resetDraw p) = None) /\
       (forall p, In p (LowCard.players g) -> LowCard.active p = true ->
          LowCard.holdsLowest low p = false ->
          In p (LowCard.players g') /\
          forall now' shuffled,
            exists res,
              LowCard.drawCardForPlayer room (LowCard.userId p) now' shuffled w'
                = (res, None, w') /\
              LowCard.success res = false)) /\
  (forall room t now w g ids w1 w2 g2 now2,
     LowCard.games w !! room = Some g ->
     NoDup (map LowCard.userId (LowCard.players g)) ->
     LowCard.tallyRound room t now w = (LowCard.TallyTie ids, w1) ->
     rtc (LowCard.drawStep room) w1 w2 ->
     LowCard.games w2 !! room = Some g2 ->
     length (List.filter LowCard.active (LowCard.players g2)) = 4%nat ->
     (forall p, In p (LowCard.players g2) -> LowCard.active p = true ->
                LowCard.holdsCard p = true) ->
     let low2 := LowCard.minOf (map LowCard.cardValue (LowCard.activeWithCard g2)) in
     let tied2 := List.filter (LowCard.holdsLowest low2) (LowCard.players g2) in
     length tied2 = 2%nat ->
     map LowCard.userId tied2 = ids ->
     exists w3 g3,
       LowCard.tallyRound room true now2 w2
         = (LowCard.TallyEliminated ids 2 (LowCard.currentRound g + 1), w3) /\
       LowCard.bank w3 = LowCard.bank w /\
       LowCard.games w3 !! room = Some g3 /\
       LowCard.players g3 =
         LowCard.resetActive
           (map (fun p => if LowCard.holdsLowest low2 p then LowCard.eliminate p else p)
                (LowCard.players g2)) /\
       LowCard.previousTiedLosers g3 = None /\
       LowCard.pot g3 = LowCard.pot g /\
       length (List.filter LowCard.active (LowCard.players g3)) = 2%nat /\
       (forall p, In p tied2 ->
          In (LowCard.eliminate p) (LowCard.players g3) /\
          LowCard.isEliminated (LowCard.eliminate p) = true)).
Proof.
  split.
  - intros room now w g Hg Hnd Hfour Hall low tied Htwo.
    assert (Hawc : LowCard.activeWithCard g = List.filter LowCard.active (LowCard.players g)).
    { apply lowcard_activeWithCard_active. intros p Hp Ha. exact (proj2 (Hall p Hp Ha)). }
    assert (Htied : List.filter (fun p => LowCard.cardValue p =? low) (LowCard.activeWithCard g)
                    = tied) by apply lowcard_losers_filter.
    assert (Hlen : length (LowCard.activeWithCard g) = 4%nat) by (rewrite Hawc; exact Hfour).
    rewrite (lowcard_tally_no_endgame room false now w g Hg) by (rewrite Hlen; auto).
    rewrite (lowcard_resolve_tie room false now g (LowCard.activeWithCard g) w);
      [|fold low; rewrite Htied, Hlen, Htwo; lia | left; reflexivity].
    fold low. rewrite (lowcard_tie_reset g low Hnd). rewrite Htied.
    eexists. eexists. split; [reflexivity|]. simpl.
    rewrite lookup_insert_eq. do 7 (split; [reflexivity|]).
    unfold LowCard.setPlayers. cbn [LowCard.players].
    split; [|split].
    + rewrite lowcard_active_count; [exact Hfour|].
      intros p. destruct (LowCard.holdsLowest low p); reflexivity.
    + intros p Hp. apply filter_In in Hp as [Hp Hl].
      split; [|split; [|split]]; try reflexivity.
      * apply in_map_iff. exists p. rewrite Hl. auto.
      * simpl. apply lowcard_holdsLowest_active in Hl. unfold LowCard.active in Hl.
        by apply negb_true_iff in Hl.
    + intros p Hp Ha Hl.
      assert (Hin : In p (map (fun p => if LowCard.holdsLowest low p
                                        then LowCard.resetDraw p else p) (LowCard.players g))).
      { apply in_map_iff. exists p. rewrite Hl. auto. }
      split; [exact Hin|].
      intros now' shuffled.
      eapply (lowcard_draw_refused room now' shuffled _ _ p).
      * simpl. apply lookup_insert_eq.
      * simpl. rewrite map_map. erewrite map_ext; [exact Hnd|].
        intros q. simpl. destruct (LowCard.holdsLowest low q); reflexivity.
      * exact Hin.
      * unfold LowCard.active in Ha. by apply negb_true_iff in Ha.
      * exact (proj1 (Hall p Hp Ha)).
  - intros room t now w g ids w1 w2 g2 now2 Hg Hnd Ht Hsteps Hg2 Hfour Hall low2 tied2
           Htwo Hsame.
    destruct (lowcard_tie_inv room t now w g ids w1 Hg Ht) as [Hids Hw1].
    cbv zeta in Hids, Hw1.
    assert (Hg1 : exists g1, LowCard.games w1 !! room = Some g1 /\
              map LowCard.userId (LowCard.players g1) = map LowCard.userId (LowCard.players g) /\
              LowCard.previousTiedLosers g1 = Some ids /\
              LowCard.currentRound g1 = LowCard.currentRound g /\
              LowCard.pot g1 = LowCard.pot g /\
              LowCard.bank w1 = LowCard.bank w).
    { subst w1. eexists. split; [simpl; apply lookup_insert_eq|]. simpl.
      split; [|by rewrite Hids].
      rewrite map_map. apply map_ext. intros q.
      destruct (LowCard.active q && _); reflexivity. }
    destruct Hg1 as (g1 & Hg1 & Hids1 & Hprev1 & Hround1 & Hpot1 & Hbank1).
    destruct (lowcard_drawSteps_keep room w1 w2 g1 Hsteps Hg1)
      as (g2' & Hg2' & Hk & Hpot2 & _ & Hprev2 & Hround2 & Hbank2).
    rewrite Hg2 in Hg2'. injection Hg2' as <-.
    assert (Hnd2 : NoDup (map LowCard.userId (LowCard.players g2)))
      by (rewrite (lowcard_keepsDrawn_ids _ _ Hk), Hids1; exact Hnd).
    destruct (lowcard_recorded_tie_out room now2 w2 g2 Hg2 Hnd2 Hfour Hall Htwo)
      as (w3 & g3 & Ht3 & Hb3 & Hg3 & Hps3 & Hprev3 & Hpot3 & Hlen3 & Hout3).
    { fold low2. fold tied2. rewrite Hsame, Hprev2. exact Hprev1. }
    fold low2 in Ht3, Hps3, Hout3. fold tied2 in Ht3, Hout3.
    exists w3, g3. rewrite Hsame, Hround2, Hround1 in Ht3.
    split; [exact Ht3|]. split; [congruence|]. split; [exact Hg3|].
    split; [exact Hps3|]. split; [exact Hprev3|]. split; [congruence|].
    split; [exact Hlen3 | exact Hout3].
Qed.

(** Two fives, a nine and a king: the tally names users 1 and 2, who lose
    their cards, and user 4 cannot draw.  The redraw times out and deals
    users 1 and 2 two threes: the tally of the timed-out round puts both
    out, and users 4 and 5 go to round 2. *)
Lemma two_of_four_tie_redraw_then_both_out_witness :
  let w1 := snd (LowCard.tallyRound 7 false 60000 Examples.low4_tie) in
  let w2 := LowCard.autoDrawForTimeout 7
              (fun _ => [LowCard.mkCard 3 LowCard.suit_s; LowCard.mkCard 3 LowCard.suit_h])
              w1 in
  let w3 := snd (LowCard.tallyRound 7 true 80000 w2) in
  fst (LowCard.tallyRound 7 false 60000 Examples.low4_tie) = LowCard.TallyTie [1; 2] /\
  (exists g1, LowCard.games w1 !! 7 = Some g1 /\
     map LowCard.userId (LowCard.players g1) = [1; 2; 4; 5] /\
     map LowCard.isEliminated (LowCard.players g1) = [false; false; false; false] /\
     map LowCard.hasDrawn (LowCard.players g1) = [false; false; true; true] /\
     map LowCard.holdsCard (LowCard.players g1) = [false; false; true; true] /\
     LowCard.previousTiedLosers g1 = Some [1; 2]) /\
  (exists res, LowCard.drawCardForPlayer 7 4 70000 LowCard.orderedDeck w1 = (res, None, w1) /\
     LowCard.success res = false) /\
  (exists g2, LowCard.games w2 !! 7 = Some g2 /\
     map LowCard.cardValue (LowCard.players g2) = [3; 3; 9; 13]) /\
  fst (LowCard.tallyRound 7 true 80000 w2) = LowCard.TallyEliminated [1; 2] 2 2 /\
  (exists g3, LowCard.games w3 !! 7 = Some g3 /\
     map LowCard.isEliminated (LowCard.players g3) = [true; true; false; false] /\
     LowCard.previousTiedLosers g3 = None).
Proof.
  intros w1 w2 w3.
  destruct (two_of_four_tie_redraw_then_both_out specMerchantTag) as [Htie Hout].
  destruct (Htie 7 60000 Examples.low4_tie Examples.low4_tie_game)
    as (w1x & g1 & Ht1 & _ & Hg1 & Hps1 & Hprev1 & _ & _ & _ & _ & _ & Hkeep).
  { reflexivity. }
  { apply (bool_decide_unpack _). vm_compute. exact I. }
  { reflexivity. }
  { intros p [<- | [<- | [<- | [<- | []]]]] _; split; reflexivity. }
  { reflexivity. }
  assert (E1 : w1x = w1) by (unfold w1; rewrite Ht1; reflexivity). subst w1x.
  split; [rewrite Ht1; vm_compute; reflexivity|].
  split.
  { exists g1. split; [exact Hg1|]. rewrite Hps1, Hprev1. vm_compute. repeat split. }
  split.
  { destruct (Hkeep (Examples.holder 4 Examples.name4 9 LowCard.suit_d))
      as [_ Hno]; [vm_compute; auto | reflexivity | reflexivity |].
    exact (Hno 70000 LowCard.orderedDeck). }
  destruct (LowCard.games w2 !! 7) as [g2|] eqn:Hg2; [|vm_compute in Hg2; discriminate Hg2].
  assert (Hg2c : g2 = LowCard.mkGame 1000 7 LowCard.playing 50 200 1
                   [Examples.holder 1 Examples.name1 3 LowCard.suit_h;
                    Examples.holder 2 Examples.name2 3 LowCard.suit_s;
                    Examples.holder 4 Examples.name4 9 LowCard.suit_d;
                    Examples.holder 5 Examples.name3 13 LowCard.suit_c]
                   1 Examples.name1 31000 (Some 34000) (Some 54000) (Some [1; 2])).
  { vm_compute in Hg2. by injection Hg2 as <-. }
  split; [exists g2; split; [reflexivity | rewrite Hg2c; reflexivity]|].
  destruct (Hout 7 false 60000 Examples.low4_tie Examples.low4_tie_game [1; 2] w1 w2 g2 80000)
    as (w3x & g3 & Ht3 & _ & Hg3 & Hps3 & Hprev3 & _).
  { reflexivity. }
  { apply (bool_decide_unpack _). vm_compute. exact I. }
  { reflexivity. }
  { apply rtc_once, LowCard.draw_auto. }
  { exact Hg2. }
  { rewrite Hg2c. reflexivity. }
  { rewrite Hg2c. intros p [<- | [<- | [<- | [<- | []]]]] _; reflexivity. }
  { rewrite Hg2c. reflexivity. }
  { rewrite Hg2c. reflexivity. }
  assert (E3 : w3x = w3) by (unfold w3; rewrite Ht3; reflexivity). subst w3x.
  split; [rewrite Ht3; reflexivity|].
  exists g3. split; [exact Hg3|]. rewrite Hps3, Hprev3, Hg2c. vm_compute. split; reflexivity.
Defined.

Section LowCardCompareProofs.
Context {MT : MerchantTag}.
Import LowCard.

(** A tally outside the three-player rule in which one card holder holds
    a rank strictly below every other card holder. *)
Lemma lowcard_lowest_holder_out room t now w g loser :
  games w !! room = Some g ->
  NoDup (map userId (players g)) ->
  In loser (activeWithCard g) ->
  (forall q, In q (activeWithCard g) -> q <> loser -> cardValue loser < cardValue q) ->
  length (activeWithCard g) <> 3%nat \/ t = true ->
  let n := length (List.filter active (players g)) in
  exists r w',
    tallyRound room t now w = (r, w') /\
    if (n =? 2)%nat
    then exists winner nb,
           r = TallyGameOver (userId winner) (winningsOf (pot g)) nb /\
           In winner (players g) /\ active winner = true /\ winner <> loser
    else r = TallyEliminated [userId loser] (n - 1) (currentRound g + 1) /\
         bank w' = bank w.
Proof.
  intros Hg Hnd Hin Hlow Hno n.
  assert (Hne : length (activeWithCard g) <> 0%nat).
  { destruct (activeWithCard g); [destruct Hin | discriminate]. }
  rewrite (lowcard_tally_no_endgame room t now w g Hg Hne Hno).
  pose proof (lowcard_single_loser _ loser (lowcard_activeWithCard_NoDup g Hnd) Hin Hlow)
    as Hlosers.
  set (low := minOf (map cardValue (activeWithCard g))) in *.
  assert (Htied : List.filter (holdsLowest low) (players g) = [loser])
    by (rewrite <- lowcard_losers_filter; exact Hlosers).
  assert (Hcond : (1 <? length (List.filter (fun p => (cardValue p =? low)%Z) (activeWithCard g)))%nat &&
                  (length (List.filter (fun p => (cardValue p =? low)%Z) (activeWithCard g))
                   <? length (activeWithCard g))%nat = false).
  { rewrite Hlosers. reflexivity. }
  set (ps := map (fun p => if holdsLowest low p then eliminate p else p) (players g)).
  assert (Hps : eliminateIds [userId loser] (players g) = ps).
  { change [userId loser] with (map userId [loser]). rewrite <- Htied.
    by apply lowcard_eliminate_filter. }
  pose proof (lowcard_eliminate_count (holdsLowest low) (players g)
                ltac:(intros p _; apply lowcard_holdsLowest_active)) as Hcount.
  rewrite Htied in Hcount. fold ps in Hcount. fold n in Hcount. simpl in Hcount.
  destruct (List.filter active ps) as [|winner [|y l]] eqn:Hrem; simpl in Hcount.
  - rewrite (lowcard_resolve_normal room t now g _ w Hcond);
      fold low; rewrite Hlosers; simpl map; rewrite Hps, Hrem; [|simpl; lia].
    eexists. eexists. split; [reflexivity|].
    replace n with 1%nat by lia. simpl. split; reflexivity.
  - rewrite (lowcard_resolve_normal_winner room t now g _ w winner Hcond)
      by (fold low; rewrite Hlosers; simpl map; rewrite Hps; exact Hrem).
    destruct (lowcard_payWinner_total room g winner w) as (nb & w' & Hpay).
    exists (TallyGameOver (userId winner) (winningsOf (pot g)) nb), w'.
    split; [exact Hpay|].
    replace n with 2%nat by lia. simpl.
    exists winner, nb. split; [reflexivity|].
    assert (Hw : In winner (List.filter active ps)) by (rewrite Hrem; left; reflexivity).
    apply filter_In in Hw as [Hw Ha]. unfold ps in Hw.
    apply in_map_iff in Hw as (p & Hp & Hpin).
    destruct (holdsLowest low p) eqn:Hl; subst winner; [discriminate Ha|].
    split; [exact Hpin|]. split; [exact Ha|].
    intros ->.
    assert (Hl' : In loser (List.filter (holdsLowest low) (players g)))
      by (rewrite Htied; left; reflexivity).
    apply filter_In in Hl' as [_ Hl']. congruence.
  - rewrite (lowcard_resolve_normal room t now g _ w Hcond);
      fold low; rewrite Hlosers; simpl map; rewrite Hps, Hrem; [|simpl; lia].
    eexists. eexists. split; [reflexivity|].
    destruct (n =? 2)%nat eqn:E; [apply Nat.eqb_eq in E; simpl in Hcount; lia|].
    split; [|reflexivity]. f_equal. simpl. lia.
Qed.

End LowCardCompareProofs.

(** C10.  Whenever a tally answers with a tie, the players named are the
    holders of the lowest rank, only their draw and card are reset, and
    every other record is kept; through the draws that follow, by command
    or at the time-out, a player who had drawn and was not tied stays
    among the card holders of the session with the card of the round
    before.  A tally compares the players in the game who hold a card: if
    one of them holds a rank strictly below the others, cards kept and
    cards newly drawn alike, that player is out, and the other players in
    the game, with or without a card, stay.  The three-player rule looks
    at the card holders: with exactly three of them and no time-out the
    holder of the strictly highest rank wins at once, however many
    players are in the game, and with another number of card holders it
    does not apply. *)
Theorem redraw_keeps_cards_and_tally_counts_card_holders (MT : MerchantTag) :
  (forall room t now w g ids w',
     LowCard.games w !! room = Some g ->
     NoDup (map LowCard.userId (LowCard.players g)) ->
     LowCard.tallyRound room t now w = (LowCard.TallyTie ids, w') ->
     let low := LowCard.minOf (map LowCard.cardValue (LowCard.activeWithCard g)) in
     ids = map LowCard.userId (List.filter (LowCard.holdsLowest low) (LowCard.players g)) /\
     LowCard.bank w' = LowCard.bank w /\
     exists g',
       LowCard.games w' !! room = Some g' /\
       LowCard.players g' =
         map (fun p => if LowCard.holdsLowest low p then LowCard.resetDraw p else p)
             (LowCard.players g) /\
       (forall p, In p (LowCard.players g) -> LowCard.holdsLowest low p = false ->
                  In p (LowCard.players g')) /\
       forall w2,
         rtc (LowCard.drawStep room) w' w2 ->
         exists g2,
           LowCard.games w2 !! room = Some g2 /\
           NoDup (map LowCard.userId (LowCard.players g2)) /\
           forall p,
             In p (LowCard.players g) ->
             LowCard.active p = true -> LowCard.holdsCard p = true ->
             LowCard.hasDrawn p = true ->
             LowCard.holdsLowest low p = false ->
             In p (LowCard.activeWithCard g2)) /\
  (forall room t now w g loser,
     LowCard.games w !! room = Some g ->
     NoDup (map LowCard.userId (LowCard.players g)) ->
     In loser (LowCard.activeWithCard g) ->
     (forall q, In q (LowCard.activeWithCard g) -> q <> loser ->
                LowCard.cardValue loser < LowCard.cardValue q) ->
     length (LowCard.activeWithCard g) <> 3%nat \/ t = true ->
     let n := length (List.filter LowCard.active (LowCard.players g)) in
     exists r w',
       LowCard.tallyRound room t now w = (r, w') /\
       if (n =? 2)%nat
       then exists winner nb,
              r = LowCard.TallyGameOver (LowCard.userId winner)
                    (LowCard.winningsOf (LowCard.pot g)) nb /\
              In winner (LowCard.players g) /\ LowCard.active winner = true /\
              winner <> loser
       else r = LowCard.TallyEliminated [LowCard.userId loser] (n - 1)
                  (LowCard.currentRound g + 1) /\
            LowCard.bank w' = LowCard.bank w) /\
  (forall room now w g a b c i x,
     LowCard.games w !! room = Some g ->
     LowCard.activeWithCard g = [a; b; c] ->
     [a; b; c] !! i = Some x ->
     (forall j y, j <> i -> [a; b; c] !! j = Some y ->
                  LowCard.cardValue y < LowCard.cardValue x) ->
     exists nb w',
       LowCard.tallyRound room false now w =
         (LowCard.TallyGameOver (LowCard.userId x)
            (LowCard.winningsOf (LowCard.pot g)) nb, w') /\
       LowCard.games w' !! room = None).
Proof.
  split; [|split].
  - intros room t now w g ids w' Hg Hnd Ht low.
    destruct (lowcard_tie_inv room t now w g ids w' Hg Ht) as [Hids Hw'].
    cbv zeta in Hids, Hw'. fold low in Hids, Hw'.
    rewrite lowcard_losers_filter in Hids, Hw'.
    pose proof (lowcard_tie_reset g low Hnd) as Hreset.
    rewrite lowcard_losers_filter in Hreset. rewrite Hreset in Hw'.
    split; [exact Hids|]. subst w'. split; [reflexivity|].
    eexists. split; [simpl; apply lookup_insert_eq|].
    unfold LowCard.setPlayers. cbn [LowCard.players].
    split; [reflexivity|].
    assert (Hin : forall p, In p (LowCard.players g) -> LowCard.holdsLowest low p = false ->
              In p (map (fun p => if LowCard.holdsLowest low p then LowCard.resetDraw p else p)
                        (LowCard.players g))).
    { intros p Hp Hl. apply in_map_iff. exists p. rewrite Hl. auto. }
    split; [exact Hin|].
    intros w2 Hsteps.
    destruct (lowcard_drawSteps_keep room _ w2 _ Hsteps ltac:(simpl; apply lookup_insert_eq))
      as (g2 & Hg2 & Hk & _).
    cbn [LowCard.players] in Hk.
    exists g2. split; [exact Hg2|]. split.
    + rewrite (lowcard_keepsDrawn_ids _ _ Hk), map_map.
      erewrite map_ext; [exact Hnd|].
      intros q. simpl. destruct (LowCard.holdsLowest low q); reflexivity.
    + intros p Hp Ha Hc Hd Hl.
      unfold LowCard.activeWithCard. apply filter_In. split; [|by rewrite Ha, Hc].
      exact (lowcard_keepsDrawn_In _ _ p Hk (Hin p Hp Hl) Hd).
  - intros room t now w g loser Hg Hnd Hin Hlow Hno.
    exact (lowcard_lowest_holder_out room t now w g loser Hg Hnd Hin Hlow Hno).
  - intros room now w g a b c i x Hg Hact Hi Hhigh.
    rewrite (lowcard_three_highest_wins room now w g a b c i x Hg Hact Hi Hhigh).
    destruct (lowcard_payWinner_total room g x w) as (nb & w' & Hpay).
    exists nb, w'. split; [exact Hpay|].
    apply lowcard_payWinner_inv in Hpay as (_ & _ & Hgs & _).
    rewrite Hgs. apply lookup_delete_eq.
Qed.

(** Two fives, a nine and a king: users 1 and 2 tie and redraw a ten and
    a jack, and the next tally puts out user 4, whose nine is from the
    round before.  With three players in the game of whom two hold a
    card, the lower of the two cards is out and nobody wins.  With four
    players in the game of whom three hold a card, the highest of the
    three cards wins the pot of 200 less 10. *)
Lemma redraw_keeps_cards_and_tally_counts_card_holders_witness :
  let w1 := snd (LowCard.tallyRound 7 false 60000 Examples.low4_tie) in
  let w2 := snd (LowCard.drawCardForPlayer 7 2 70000 Examples.redrawDeck
                   (snd (LowCard.drawCardForPlayer 7 1 70000 Examples.redrawDeck w1))) in
  fst (LowCard.tallyRound 7 false 60000 Examples.low4_tie) = LowCard.TallyTie [1; 2] /\
  (exists g2,
     LowCard.games w2 !! 7 = Some g2 /\
     In (Examples.holder 4 Examples.name4 9 LowCard.suit_d) (LowCard.activeWithCard g2) /\
     In (Examples.holder 5 Examples.name3 13 LowCard.suit_c) (LowCard.activeWithCard g2) /\
     map LowCard.cardValue (LowCard.activeWithCard g2) = [10; 11; 9; 13]) /\
  fst (LowCard.tallyRound 7 false 80000 w2) = LowCard.TallyEliminated [4] 3 2 /\
  fst (LowCard.tallyRound 7 false 50000 Examples.low3_cardless) = LowCard.TallyEliminated [1] 2 3 /\
  (exists nb w',
     LowCard.tallyRound 7 false 50000 Examples.low4_cardless = (LowCard.TallyGameOver 2 190 nb, w') /\
     LowCard.games w' !! 7 = None).
Proof.
  intros w1 w2.
  destruct (redraw_keeps_cards_and_tally_counts_card_holders specMerchantTag)
    as (Htie & Hlow & Hthree).
  destruct (Htie 7 false 60000 Examples.low4_tie Examples.low4_tie_game [1; 2] w1)
    as (_ & _ & g1 & _ & _ & _ & Hkeep).
  { reflexivity. }
  { apply (bool_decide_unpack _). vm_compute. exact I. }
  { reflexivity. }
  split; [reflexivity|].
  destruct (Hkeep w2) as (g2 & Hg2 & Hnd2 & Hin2).
  { eapply rtc_l; [apply LowCard.draw_by|]. apply rtc_once, LowCard.draw_by. }
  assert (H4 : In (Examples.holder 4 Examples.name4 9 LowCard.suit_d) (LowCard.activeWithCard g2)).
  { apply Hin2; try reflexivity. vm_compute. auto. }
  assert (H5 : In (Examples.holder 5 Examples.name3 13 LowCard.suit_c) (LowCard.activeWithCard g2)).
  { apply Hin2; try reflexivity. vm_compute. auto 6. }
  assert (Hg2c : LowCard.activeWithCard g2 =
                 [Examples.holder 1 Examples.name1 10 LowCard.suit_s;
                  Examples.holder 2 Examples.name2 11 LowCard.suit_s;
                  Examples.holder 4 Examples.name4 9 LowCard.suit_d;
                  Examples.holder 5 Examples.name3 13 LowCard.suit_c]).
  { vm_compute in Hg2. injection Hg2 as <-. reflexivity. }
  split.
  { exists g2. split; [exact Hg2|]. split; [exact H4|]. split; [exact H5|].
    rewrite Hg2c. reflexivity. }
  split.
  { destruct (Hlow 7 false 80000 w2 g2 (Examples.holder 4 Examples.name4 9 LowCard.suit_d)
                Hg2 Hnd2 H4) as (r & w3 & Ht & Hr).
    - rewrite Hg2c. intros q [<- | [<- | [<- | [<- | []]]]] Hq;
        try (vm_compute; reflexivity). contradiction.
    - left. rewrite Hg2c. discriminate.
    - rewrite Ht. cbn [fst].
      assert (Hn : length (List.filter LowCard.active (LowCard.players g2)) = 4%nat)
        by (vm_compute in Hg2; injection Hg2 as <-; reflexivity).
      rewrite Hn in Hr. cbn in Hr. destruct Hr as [-> _].
      vm_compute in Hg2. injection Hg2 as <-. reflexivity. }
  split.
  { destruct (Hlow 7 false 50000 Examples.low3_cardless Examples.low3_cardless_game
                (Examples.holder 1 Examples.name1 9 LowCard.suit_h))
      as (r & w3 & Ht & Hr).
    - reflexivity.
    - apply (bool_decide_unpack _). vm_compute. exact I.
    - left. reflexivity.
    - intros q [<- | [<- | []]] Hq; try (vm_compute; reflexivity). contradiction.
    - left. discriminate.
    - rewrite Ht. cbn [fst]. cbn in Hr. destruct Hr as [-> _]. reflexivity. }
  destruct (Hthree 7 50000 Examples.low4_cardless Examples.low4_cardless_game
              (Examples.holder 1 Examples.name1 9 LowCard.suit_h)
              (Examples.holder 2 Examples.name2 13 LowCard.suit_s)
              (Examples.holder 4 Examples.name4 5 LowCard.suit_d)
              1%nat (Examples.holder 2 Examples.name2 13 LowCard.suit_s))
    as (nb & w' & Ht & Hnone).
  - reflexivity.
  - reflexivity.
  - reflexivity.
  - intros [|[|[|j]]] y Hj Hy; simpl in Hy; try discriminate; try lia;
      injection Hy as <-; reflexivity.
  - exists nb, w'. split; [exact Ht | exact Hnone].
Defined.
